(** * The FTP control socket of the engine: reply reader, reply accounting,
      operation dispatch and the file-transfer operation.

    A shallow embedding of [src/engine/ftp/ftpcontrolsocket.cpp].  Member
    functions of [CFtpControlSocket] become functions in a small monad that
    threads the socket object, records the calls made to collaborators in a
    trace and accounts for the one loop of the file ([SendNextCommand]) with
    fuel.  Virtual calls into operation frames and calls into the base class
    [CControlSocket], whose bodies live in other files, are parameters. *)

From Stdlib Require Import ZArith Lia Bool Ascii String List.
From stdpp Require Import base decidable countable gmap.
Import ListNotations.
Local Open Scope string_scope.
Local Open Scope Z_scope.
#[local] Arguments String.append : simpl nomatch.

(** ** Wide strings

    [std::wstring] values are modelled by [string]; the operations below are
    the members and the libfilezilla helpers the control socket uses. *)

Module WString.

(** [s.size()] *)
Definition size (s : string) : nat := String.length s.

(** [s.empty()] *)
Definition empty (s : string) : bool :=
  match s with EmptyString => true | String _ _ => false end.

(** [s.substr(pos, n)], for [pos <= s.size()] (all the call sites). *)
Definition substr (pos n : nat) (s : string) : string := String.substring pos n s.

(** [s.substr(pos)], for [pos <= s.size()]. *)
Definition substr_from (pos : nat) (s : string) : string :=
  String.substring pos (String.length s - pos) s.

(** [s[i]] *)
Definition at_ (i : nat) (s : string) : option ascii := String.get i s.

Definition is_lower (c : ascii) : bool :=
  ((97 <=? nat_of_ascii c) && (nat_of_ascii c <=? 122))%nat.

Definition is_upper (c : ascii) : bool :=
  ((65 <=? nat_of_ascii c) && (nat_of_ascii c <=? 90))%nat.

(** [fz::toupper_ascii]: only a..z are changed. *)
Definition toupper_ascii (c : ascii) : ascii :=
  if is_lower c then ascii_of_nat (nat_of_ascii c - 32) else c.

(** [fz::tolower_ascii]: only A..Z are changed. *)
Definition tolower_ascii (c : ascii) : ascii :=
  if is_upper c then ascii_of_nat (nat_of_ascii c + 32) else c.

Fixpoint map (f : ascii -> ascii) (s : string) : string :=
  match s with
  | EmptyString => EmptyString
  | String c s' => String (f c) (map f s')
  end.

(** [fz::str_toupper_ascii], [fz::str_tolower_ascii] *)
Definition str_toupper_ascii : string -> string := map toupper_ascii.
Definition str_tolower_ascii : string -> string := map tolower_ascii.

(** The characters [fz::trim] removes by default: space, CR, LF, TAB. *)
Definition is_trim_char (c : ascii) : bool :=
  let n := nat_of_ascii c in
  ((n =? 32) || (n =? 13) || (n =? 10) || (n =? 9))%nat.

Fixpoint ltrim (s : string) : string :=
  match s with
  | EmptyString => EmptyString
  | String c s' => if is_trim_char c then ltrim s' else s
  end.

(** Removes the trailing trim characters: a character is kept when it is
    not a trim character or when something is kept after it. *)
Fixpoint rtrim (s : string) : string :=
  match s with
  | EmptyString => EmptyString
  | String c s' =>
      match rtrim s' with
      | EmptyString => if is_trim_char c then EmptyString else String c EmptyString
      | r => String c r
      end
  end.

(** [fz::trim(s)] *)
Definition trim (s : string) : string := rtrim (ltrim s).

(** [s.find(sub) != npos] *)
Fixpoint contains (sub s : string) : bool :=
  if String.prefix sub s then true
  else match s with
       | EmptyString => false
       | String _ s' => contains sub s'
       end.

(** [s.find(c)] for a character: the index of its first occurrence. *)
Fixpoint find_char (c : ascii) (s : string) : option nat :=
  match s with
  | EmptyString => None
  | String d s' =>
      if Ascii.eqb c d then Some 0%nat
      else match find_char c s' with Some i => Some (S i) | None => None end
  end.

(** [std::wstring(n, c)] *)
Fixpoint replicate (n : nat) (c : ascii) : string :=
  match n with O => EmptyString | S k => String c (replicate k c) end.

End WString.

(** ** Reply codes

    Modelled from the spec: the result alphabet of section 4.2 and the error
    bitset of section 7.  The header that defines the [FZ_REPLY_*] macros is
    not one of the source files; the values are those of the engine's public
    header, where every error flag carries the [FZ_REPLY_ERROR] bit. *)

Definition FZ_REPLY_OK : Z := 0x0000.
Definition FZ_REPLY_WOULDBLOCK : Z := 0x0001.
Definition FZ_REPLY_ERROR : Z := 0x0002.
Definition FZ_REPLY_CRITICALERROR : Z := Z.lor 0x0004 FZ_REPLY_ERROR.
Definition FZ_REPLY_CANCELED : Z := Z.lor 0x0008 FZ_REPLY_ERROR.
Definition FZ_REPLY_SYNTAXERROR : Z := Z.lor 0x0010 FZ_REPLY_ERROR.
Definition FZ_REPLY_NOTCONNECTED : Z := Z.lor 0x0020 FZ_REPLY_ERROR.
Definition FZ_REPLY_DISCONNECTED : Z := 0x0040.
Definition FZ_REPLY_INTERNALERROR : Z := Z.lor 0x0080 FZ_REPLY_ERROR.
Definition FZ_REPLY_TIMEOUT : Z := Z.lor 0x0800 FZ_REPLY_ERROR.
Definition FZ_REPLY_NOTSUPPORTED : Z := Z.lor 0x1000 FZ_REPLY_ERROR.
Definition FZ_REPLY_WRITEFAILED : Z := Z.lor 0x2000 FZ_REPLY_ERROR.
Definition FZ_REPLY_CONTINUE : Z := 0x8000.

(** [(res & flag) == flag] *)
Definition has_flags (res flag : Z) : bool := Z.land res flag =? flag.

(** [res & flag], as a C condition *)
Definition any_flag (res flag : Z) : bool := negb (Z.land res flag =? 0).

(** ** Enumerations *)

Inductive MessageType : Type :=
| MsgStatus | MsgError | MsgCommand | MsgResponse
| MsgDebug_Warning | MsgDebug_Info | MsgDebug_Verbose.

(** The command ids of the operation frames ([Command::...]). *)
Inductive Command : Type :=
| Command_none | Command_connect | Command_list | Command_transfer
| Command_del | Command_removedir | Command_mkdir | Command_rename
| Command_chmod | Command_raw | Command_cwd | Command_rawtransfer.

(** Tri-state of a capability. *)
Inductive capabilities : Type := unknown | yes | no.

Inductive capabilityNames : Type :=
| utf8_command | clnt_command | mlsd_command | mode_z_support
| mfmt_command | mdtm_command | size_command | tvfs_support
| rest_stream | epsv_command | timezone_offset
| resume2GBbug | resume4GBbug.

Inductive TransferEndReason : Type :=
| TER_none | TER_successful | TER_timeout
| TER_transfer_command_failure | TER_transfer_command_failure_immediate
| TER_transfer_failure | TER_transfer_failure_critical
| TER_pre_transfer_command_failure | TER_failed_resumetest | TER_failure.

Inductive TransferMode : Type :=
| TransferMode_list | TransferMode_upload | TransferMode_download
| TransferMode_resumetest.

(** [enum filetransferStates] of the file. *)
Inductive filetransferStates : Type :=
| filetransfer_init | filetransfer_waitcwd | filetransfer_waitlist
| filetransfer_size | filetransfer_mdtm | filetransfer_resumetest
| filetransfer_transfer | filetransfer_waittransfer
| filetransfer_waitresumetest | filetransfer_mfmt.

(** The states of the raw-transfer frame; the header declaring them is not
    one of the source files, the names are those [TransferEnd] and [Transfer]
    use and section 4.5 of the spec lists. *)
Inductive rawtransferStates : Type :=
| rawtransfer_init | rawtransfer_type | rawtransfer_port_pasv
| rawtransfer_rest | rawtransfer_transfer | rawtransfer_waitfinish
| rawtransfer_waittransferpre | rawtransfer_waittransfer
| rawtransfer_waitsocket.

(** The states of the logon frame the file tests, and the others. *)
Inductive logonStates : Type :=
| LOGON_CONNECT | LOGON_WELCOME | LOGON_AUTH_TLS | LOGON_AUTH_SSL
| LOGON_AUTH_WAIT | LOGON_LOGON | LOGON_SYST | LOGON_FEAT | LOGON_CLNT
| LOGON_OPTSUTF8 | LOGON_PBSZ | LOGON_PROT | LOGON_CUSTOMCOMMANDS
| LOGON_DONE.

Inductive cwdStates : Type := cwd_init | cwd_pwd | cwd_cwd | cwd_pwd_cwd | cwd_cwd_subdir | cwd_pwd_subdir.

(** [fz::local_filesys::type] *)
Inductive local_filesys_type : Type := fs_unknown | fs_file | fs_dir | fs_link.

Inductive ServerProtocol : Type := FTP | FTPS | FTPES | OtherProtocol.

Inductive PasvMode : Type := MODE_DEFAULT | MODE_ACTIVE | MODE_PASSIVE.

(** [ServerType]; [DEFAULT] is the value 0. *)
Definition ServerType : Type := Z.
Definition DEFAULT : ServerType := 0.

(** [fz::datetime]: empty, or an instant counted in seconds. *)
Definition datetime : Type := option Z.

(** [fz::datetime::empty()] *)
Definition datetime_empty (t : datetime) : bool :=
  match t with None => true | Some _ => false end.

(** [t += fz::duration::from_minutes(m)] on a time that is set. *)
Definition datetime_add_minutes (t : datetime) (m : Z) : datetime :=
  match t with None => None | Some x => Some (x + 60 * m) end.

#[global] Instance capabilities_eq_dec : EqDecision capabilities.
Proof. solve_decision. Defined.
#[global] Instance capabilityNames_eq_dec : EqDecision capabilityNames.
Proof. solve_decision. Defined.
#[global] Instance TransferEndReason_eq_dec : EqDecision TransferEndReason.
Proof. solve_decision. Defined.
#[global] Instance Command_eq_dec : EqDecision Command.
Proof. solve_decision. Defined.
#[global] Instance filetransferStates_eq_dec : EqDecision filetransferStates.
Proof. solve_decision. Defined.
#[global] Instance rawtransferStates_eq_dec : EqDecision rawtransferStates.
Proof. solve_decision. Defined.
#[global] Instance logonStates_eq_dec : EqDecision logonStates.
Proof. solve_decision. Defined.
#[global] Instance local_filesys_type_eq_dec : EqDecision local_filesys_type.
Proof. solve_decision. Defined.
#[global] Instance ServerProtocol_eq_dec : EqDecision ServerProtocol.
Proof. solve_decision. Defined.

Definition capabilityNames_to_nat (c : capabilityNames) : nat :=
  match c with
  | utf8_command => 0 | clnt_command => 1 | mlsd_command => 2
  | mode_z_support => 3 | mfmt_command => 4 | mdtm_command => 5
  | size_command => 6 | tvfs_support => 7 | rest_stream => 8
  | epsv_command => 9 | timezone_offset => 10
  | resume2GBbug => 11 | resume4GBbug => 12
  end%nat.

Definition capabilityNames_of_nat (n : nat) : option capabilityNames :=
  match n with
  | 0 => Some utf8_command | 1 => Some clnt_command | 2 => Some mlsd_command
  | 3 => Some mode_z_support | 4 => Some mfmt_command | 5 => Some mdtm_command
  | 6 => Some size_command | 7 => Some tvfs_support | 8 => Some rest_stream
  | 9 => Some epsv_command | 10 => Some timezone_offset
  | 11 => Some resume2GBbug | 12 => Some resume4GBbug
  | _ => None
  end%nat.

#[global] Instance capabilityNames_countable : Countable capabilityNames.
Proof.
  apply (inj_countable capabilityNames_to_nat capabilityNames_of_nat).
  intros []; reflexivity.
Defined.

(** [CFileTransferCommand::t_transferSettings] *)
Record t_transferSettings : Type := { ts_binary : bool }.

(** ** Operation frames *)

(** [CServerPath], as far as the control socket looks into it. *)
Record CServerPath : Type := Build_CServerPath {
  GetPath : string;  (* the formatted path; empty for an empty path *)
  GetType : ServerType
}.

Definition set_GetPath (v : string) (x : CServerPath) : CServerPath :=
  {| GetPath := v; GetType := GetType x |}.
Definition set_GetType (v : ServerType) (x : CServerPath) : CServerPath :=
  {| GetPath := GetPath x; GetType := v |}.

(** [CFtpTransferOpData]: the part of a file-transfer or list frame that the
    raw-transfer frame reaches through [pOldData]. *)
Record CFtpTransferOpData : Type := Build_CFtpTransferOpData {
  transferEndReason : TransferEndReason;
  tranferCommandSent : bool;
  resumeOffset : Z;
  binary : bool
}.

Definition set_transferEndReason (v : TransferEndReason) (x : CFtpTransferOpData) : CFtpTransferOpData :=
  {| transferEndReason := v; tranferCommandSent := tranferCommandSent x; resumeOffset := resumeOffset x; binary := binary x |}.
Definition set_tranferCommandSent (v : bool) (x : CFtpTransferOpData) : CFtpTransferOpData :=
  {| transferEndReason := transferEndReason x; tranferCommandSent := v; resumeOffset := resumeOffset x; binary := binary x |}.
Definition set_resumeOffset (v : Z) (x : CFtpTransferOpData) : CFtpTransferOpData :=
  {| transferEndReason := transferEndReason x; tranferCommandSent := tranferCommandSent x; resumeOffset := v; binary := binary x |}.
Definition set_binary (v : bool) (x : CFtpTransferOpData) : CFtpTransferOpData :=
  {| transferEndReason := transferEndReason x; tranferCommandSent := tranferCommandSent x; resumeOffset := resumeOffset x; binary := v |}.

(** [CFtpFileTransferOpData] with its bases [CFileTransferOpData], [COpData]
    and [CFtpTransferOpData]. *)
Record CFtpFileTransferOpData : Type := Build_CFtpFileTransferOpData {
  ft_opState : filetransferStates;
  ft_waitForAsyncRequest : bool;
  localFile : string;
  remoteFile : string;
  remotePath : CServerPath;
  download : bool;
  fileTime : datetime;
  localFileSize : Z;
  remoteFileSize : Z;
  tryAbsolutePath : bool;
  resume : bool;
  transferSettings : t_transferSettings;
  transferInitiated : bool;
  ftp : CFtpTransferOpData;  (* the CFtpTransferOpData base *)
  pIOThread : bool;  (* whether the pointer is set *)
  fileDidExist : bool
}.

Definition set_ft_opState (v : filetransferStates) (x : CFtpFileTransferOpData) : CFtpFileTransferOpData :=
  {| ft_opState := v; ft_waitForAsyncRequest := ft_waitForAsyncRequest x; localFile := localFile x; remoteFile := remoteFile x; remotePath := remotePath x; download := download x; fileTime := fileTime x; localFileSize := localFileSize x; remoteFileSize := remoteFileSize x; tryAbsolutePath := tryAbsolutePath x; resume := resume x; transferSettings := transferSettings x; transferInitiated := transferInitiated x; ftp := ftp x; pIOThread := pIOThread x; fileDidExist := fileDidExist x |}.
Definition set_ft_waitForAsyncRequest (v : bool) (x : CFtpFileTransferOpData) : CFtpFileTransferOpData :=
  {| ft_opState := ft_opState x; ft_waitForAsyncRequest := v; localFile := localFile x; remoteFile := remoteFile x; remotePath := remotePath x; download := download x; fileTime := fileTime x; localFileSize := localFileSize x; remoteFileSize := remoteFileSize x; tryAbsolutePath := tryAbsolutePath x; resume := resume x; transferSettings := transferSettings x; transferInitiated := transferInitiated x; ftp := ftp x; pIOThread := pIOThread x; fileDidExist := fileDidExist x |}.
Definition set_localFile (v : string) (x : CFtpFileTransferOpData) : CFtpFileTransferOpData :=
  {| ft_opState := ft_opState x; ft_waitForAsyncRequest := ft_waitForAsyncRequest x; localFile := v; remoteFile := remoteFile x; remotePath := remotePath x; download := download x; fileTime := fileTime x; localFileSize := localFileSize x; remoteFileSize := remoteFileSize x; tryAbsolutePath := tryAbsolutePath x; resume := resume x; transferSettings := transferSettings x; transferInitiated := transferInitiated x; ftp := ftp x; pIOThread := pIOThread x; fileDidExist := fileDidExist x |}.
Definition set_remoteFile (v : string) (x : CFtpFileTransferOpData) : CFtpFileTransferOpData :=
  {| ft_opState := ft_opState x; ft_waitForAsyncRequest := ft_waitForAsyncRequest x; localFile := localFile x; remoteFile := v; remotePath := remotePath x; download := download x; fileTime := fileTime x; localFileSize := localFileSize x; remoteFileSize := remoteFileSize x; tryAbsolutePath := tryAbsolutePath x; resume := resume x; transferSettings := transferSettings x; transferInitiated := transferInitiated x; ftp := ftp x; pIOThread := pIOThread x; fileDidExist := fileDidExist x |}.
Definition set_remotePath (v : CServerPath) (x : CFtpFileTransferOpData) : CFtpFileTransferOpData :=
  {| ft_opState := ft_opState x; ft_waitForAsyncRequest := ft_waitForAsyncRequest x; localFile := localFile x; remoteFile := remoteFile x; remotePath := v; download := download x; fileTime := fileTime x; localFileSize := localFileSize x; remoteFileSize := remoteFileSize x; tryAbsolutePath := tryAbsolutePath x; resume := resume x; transferSettings := transferSettings x; transferInitiated := transferInitiated x; ftp := ftp x; pIOThread := pIOThread x; fileDidExist := fileDidExist x |}.
Definition set_download (v : bool) (x : CFtpFileTransferOpData) : CFtpFileTransferOpData :=
  {| ft_opState := ft_opState x; ft_waitForAsyncRequest := ft_waitForAsyncRequest x; localFile := localFile x; remoteFile := remoteFile x; remotePath := remotePath x; download := v; fileTime := fileTime x; localFileSize := localFileSize x; remoteFileSize := remoteFileSize x; tryAbsolutePath := tryAbsolutePath x; resume := resume x; transferSettings := transferSettings x; transferInitiated := transferInitiated x; ftp := ftp x; pIOThread := pIOThread x; fileDidExist := fileDidExist x |}.
Definition set_fileTime (v : datetime) (x : CFtpFileTransferOpData) : CFtpFileTransferOpData :=
  {| ft_opState := ft_opState x; ft_waitForAsyncRequest := ft_waitForAsyncRequest x; localFile := localFile x; remoteFile := remoteFile x; remotePath := remotePath x; download := download x; fileTime := v; localFileSize := localFileSize x; remoteFileSize := remoteFileSize x; tryAbsolutePath := tryAbsolutePath x; resume := resume x; transferSettings := transferSettings x; transferInitiated := transferInitiated x; ftp := ftp x; pIOThread := pIOThread x; fileDidExist := fileDidExist x |}.
Definition set_localFileSize (v : Z) (x : CFtpFileTransferOpData) : CFtpFileTransferOpData :=
  {| ft_opState := ft_opState x; ft_waitForAsyncRequest := ft_waitForAsyncRequest x; localFile := localFile x; remoteFile := remoteFile x; remotePath := remotePath x; download := download x; fileTime := fileTime x; localFileSize := v; remoteFileSize := remoteFileSize x; tryAbsolutePath := tryAbsolutePath x; resume := resume x; transferSettings := transferSettings x; transferInitiated := transferInitiated x; ftp := ftp x; pIOThread := pIOThread x; fileDidExist := fileDidExist x |}.
Definition set_remoteFileSize (v : Z) (x : CFtpFileTransferOpData) : CFtpFileTransferOpData :=
  {| ft_opState := ft_opState x; ft_waitForAsyncRequest := ft_waitForAsyncRequest x; localFile := localFile x; remoteFile := remoteFile x; remotePath := remotePath x; download := download x; fileTime := fileTime x; localFileSize := localFileSize x; remoteFileSize := v; tryAbsolutePath := tryAbsolutePath x; resume := resume x; transferSettings := transferSettings x; transferInitiated := transferInitiated x; ftp := ftp x; pIOThread := pIOThread x; fileDidExist := fileDidExist x |}.
Definition set_tryAbsolutePath (v : bool) (x : CFtpFileTransferOpData) : CFtpFileTransferOpData :=
  {| ft_opState := ft_opState x; ft_waitForAsyncRequest := ft_waitForAsyncRequest x; localFile := localFile x; remoteFile := remoteFile x; remotePath := remotePath x; download := download x; fileTime := fileTime x; localFileSize := localFileSize x; remoteFileSize := remoteFileSize x; tryAbsolutePath := v; resume := resume x; transferSettings := transferSettings x; transferInitiated := transferInitiated x; ftp := ftp x; pIOThread := pIOThread x; fileDidExist := fileDidExist x |}.
Definition set_resume (v : bool) (x : CFtpFileTransferOpData) : CFtpFileTransferOpData :=
  {| ft_opState := ft_opState x; ft_waitForAsyncRequest := ft_waitForAsyncRequest x; localFile := localFile x; remoteFile := remoteFile x; remotePath := remotePath x; download := download x; fileTime := fileTime x; localFileSize := localFileSize x; remoteFileSize := remoteFileSize x; tryAbsolutePath := tryAbsolutePath x; resume := v; transferSettings := transferSettings x; transferInitiated := transferInitiated x; ftp := ftp x; pIOThread := pIOThread x; fileDidExist := fileDidExist x |}.
Definition set_transferSettings (v : t_transferSettings) (x : CFtpFileTransferOpData) : CFtpFileTransferOpData :=
  {| ft_opState := ft_opState x; ft_waitForAsyncRequest := ft_waitForAsyncRequest x; localFile := localFile x; remoteFile := remoteFile x; remotePath := remotePath x; download := download x; fileTime := fileTime x; localFileSize := localFileSize x; remoteFileSize := remoteFileSize x; tryAbsolutePath := tryAbsolutePath x; resume := resume x; transferSettings := v; transferInitiated := transferInitiated x; ftp := ftp x; pIOThread := pIOThread x; fileDidExist := fileDidExist x |}.
Definition set_transferInitiated (v : bool) (x : CFtpFileTransferOpData) : CFtpFileTransferOpData :=
  {| ft_opState := ft_opState x; ft_waitForAsyncRequest := ft_waitForAsyncRequest x; localFile := localFile x; remoteFile := remoteFile x; remotePath := remotePath x; download := download x; fileTime := fileTime x; localFileSize := localFileSize x; remoteFileSize := remoteFileSize x; tryAbsolutePath := tryAbsolutePath x; resume := resume x; transferSettings := transferSettings x; transferInitiated := v; ftp := ftp x; pIOThread := pIOThread x; fileDidExist := fileDidExist x |}.
Definition set_ftp (v : CFtpTransferOpData) (x : CFtpFileTransferOpData) : CFtpFileTransferOpData :=
  {| ft_opState := ft_opState x; ft_waitForAsyncRequest := ft_waitForAsyncRequest x; localFile := localFile x; remoteFile := remoteFile x; remotePath := remotePath x; download := download x; fileTime := fileTime x; localFileSize := localFileSize x; remoteFileSize := remoteFileSize x; tryAbsolutePath := tryAbsolutePath x; resume := resume x; transferSettings := transferSettings x; transferInitiated := transferInitiated x; ftp := v; pIOThread := pIOThread x; fileDidExist := fileDidExist x |}.
Definition set_pIOThread (v : bool) (x : CFtpFileTransferOpData) : CFtpFileTransferOpData :=
  {| ft_opState := ft_opState x; ft_waitForAsyncRequest := ft_waitForAsyncRequest x; localFile := localFile x; remoteFile := remoteFile x; remotePath := remotePath x; download := download x; fileTime := fileTime x; localFileSize := localFileSize x; remoteFileSize := remoteFileSize x; tryAbsolutePath := tryAbsolutePath x; resume := resume x; transferSettings := transferSettings x; transferInitiated := transferInitiated x; ftp := ftp x; pIOThread := v; fileDidExist := fileDidExist x |}.
Definition set_fileDidExist (v : bool) (x : CFtpFileTransferOpData) : CFtpFileTransferOpData :=
  {| ft_opState := ft_opState x; ft_waitForAsyncRequest := ft_waitForAsyncRequest x; localFile := localFile x; remoteFile := remoteFile x; remotePath := remotePath x; download := download x; fileTime := fileTime x; localFileSize := localFileSize x; remoteFileSize := remoteFileSize x; tryAbsolutePath := tryAbsolutePath x; resume := resume x; transferSettings := transferSettings x; transferInitiated := transferInitiated x; ftp := ftp x; pIOThread := pIOThread x; fileDidExist := v |}.

(** [CFtpRawTransferOpData]; its [pOldData] is the frame below it on the stack. *)
Record CFtpRawTransferOpData : Type := Build_CFtpRawTransferOpData {
  rt_opState : rawtransferStates;
  rt_waitForAsyncRequest : bool;
  cmd_ : string;
  bPasv : bool;
  bTriedActive : bool
}.

Definition set_rt_opState (v : rawtransferStates) (x : CFtpRawTransferOpData) : CFtpRawTransferOpData :=
  {| rt_opState := v; rt_waitForAsyncRequest := rt_waitForAsyncRequest x; cmd_ := cmd_ x; bPasv := bPasv x; bTriedActive := bTriedActive x |}.
Definition set_rt_waitForAsyncRequest (v : bool) (x : CFtpRawTransferOpData) : CFtpRawTransferOpData :=
  {| rt_opState := rt_opState x; rt_waitForAsyncRequest := v; cmd_ := cmd_ x; bPasv := bPasv x; bTriedActive := bTriedActive x |}.
Definition set_cmd_ (v : string) (x : CFtpRawTransferOpData) : CFtpRawTransferOpData :=
  {| rt_opState := rt_opState x; rt_waitForAsyncRequest := rt_waitForAsyncRequest x; cmd_ := v; bPasv := bPasv x; bTriedActive := bTriedActive x |}.
Definition set_bPasv (v : bool) (x : CFtpRawTransferOpData) : CFtpRawTransferOpData :=
  {| rt_opState := rt_opState x; rt_waitForAsyncRequest := rt_waitForAsyncRequest x; cmd_ := cmd_ x; bPasv := v; bTriedActive := bTriedActive x |}.
Definition set_bTriedActive (v : bool) (x : CFtpRawTransferOpData) : CFtpRawTransferOpData :=
  {| rt_opState := rt_opState x; rt_waitForAsyncRequest := rt_waitForAsyncRequest x; cmd_ := cmd_ x; bPasv := bPasv x; bTriedActive := v |}.

(** [CFtpLogonOpData], as far as [ParseLine] and [SetAsyncRequestReply] use it. *)
Record CFtpLogonOpData : Type := Build_CFtpLogonOpData {
  lo_opState : logonStates;
  lo_waitForAsyncRequest : bool;
  waitChallenge : bool;
  challenge : string;
  gotFirstWelcomeLine : bool;
  gotPassword : bool
}.

Definition set_lo_opState (v : logonStates) (x : CFtpLogonOpData) : CFtpLogonOpData :=
  {| lo_opState := v; lo_waitForAsyncRequest := lo_waitForAsyncRequest x; waitChallenge := waitChallenge x; challenge := challenge x; gotFirstWelcomeLine := gotFirstWelcomeLine x; gotPassword := gotPassword x |}.
Definition set_lo_waitForAsyncRequest (v : bool) (x : CFtpLogonOpData) : CFtpLogonOpData :=
  {| lo_opState := lo_opState x; lo_waitForAsyncRequest := v; waitChallenge := waitChallenge x; challenge := challenge x; gotFirstWelcomeLine := gotFirstWelcomeLine x; gotPassword := gotPassword x |}.
Definition set_waitChallenge (v : bool) (x : CFtpLogonOpData) : CFtpLogonOpData :=
  {| lo_opState := lo_opState x; lo_waitForAsyncRequest := lo_waitForAsyncRequest x; waitChallenge := v; challenge := challenge x; gotFirstWelcomeLine := gotFirstWelcomeLine x; gotPassword := gotPassword x |}.
Definition set_challenge (v : string) (x : CFtpLogonOpData) : CFtpLogonOpData :=
  {| lo_opState := lo_opState x; lo_waitForAsyncRequest := lo_waitForAsyncRequest x; waitChallenge := waitChallenge x; challenge := v; gotFirstWelcomeLine := gotFirstWelcomeLine x; gotPassword := gotPassword x |}.
Definition set_gotFirstWelcomeLine (v : bool) (x : CFtpLogonOpData) : CFtpLogonOpData :=
  {| lo_opState := lo_opState x; lo_waitForAsyncRequest := lo_waitForAsyncRequest x; waitChallenge := waitChallenge x; challenge := challenge x; gotFirstWelcomeLine := v; gotPassword := gotPassword x |}.
Definition set_gotPassword (v : bool) (x : CFtpLogonOpData) : CFtpLogonOpData :=
  {| lo_opState := lo_opState x; lo_waitForAsyncRequest := lo_waitForAsyncRequest x; waitChallenge := waitChallenge x; challenge := challenge x; gotFirstWelcomeLine := gotFirstWelcomeLine x; gotPassword := v |}.

(** [CFtpDeleteOpData] *)
Record CFtpDeleteOpData : Type := Build_CFtpDeleteOpData {
  de_waitForAsyncRequest : bool;
  de_path : CServerPath;
  files : list string;
  omitPath : bool;
  m_time : datetime;
  m_needSendListing : bool;
  m_deleteFailed : bool
}.

Definition set_de_waitForAsyncRequest (v : bool) (x : CFtpDeleteOpData) : CFtpDeleteOpData :=
  {| de_waitForAsyncRequest := v; de_path := de_path x; files := files x; omitPath := omitPath x; m_time := m_time x; m_needSendListing := m_needSendListing x; m_deleteFailed := m_deleteFailed x |}.
Definition set_de_path (v : CServerPath) (x : CFtpDeleteOpData) : CFtpDeleteOpData :=
  {| de_waitForAsyncRequest := de_waitForAsyncRequest x; de_path := v; files := files x; omitPath := omitPath x; m_time := m_time x; m_needSendListing := m_needSendListing x; m_deleteFailed := m_deleteFailed x |}.
Definition set_files (v : list string) (x : CFtpDeleteOpData) : CFtpDeleteOpData :=
  {| de_waitForAsyncRequest := de_waitForAsyncRequest x; de_path := de_path x; files := v; omitPath := omitPath x; m_time := m_time x; m_needSendListing := m_needSendListing x; m_deleteFailed := m_deleteFailed x |}.
Definition set_omitPath (v : bool) (x : CFtpDeleteOpData) : CFtpDeleteOpData :=
  {| de_waitForAsyncRequest := de_waitForAsyncRequest x; de_path := de_path x; files := files x; omitPath := v; m_time := m_time x; m_needSendListing := m_needSendListing x; m_deleteFailed := m_deleteFailed x |}.
Definition set_m_time (v : datetime) (x : CFtpDeleteOpData) : CFtpDeleteOpData :=
  {| de_waitForAsyncRequest := de_waitForAsyncRequest x; de_path := de_path x; files := files x; omitPath := omitPath x; m_time := v; m_needSendListing := m_needSendListing x; m_deleteFailed := m_deleteFailed x |}.
Definition set_m_needSendListing (v : bool) (x : CFtpDeleteOpData) : CFtpDeleteOpData :=
  {| de_waitForAsyncRequest := de_waitForAsyncRequest x; de_path := de_path x; files := files x; omitPath := omitPath x; m_time := m_time x; m_needSendListing := v; m_deleteFailed := m_deleteFailed x |}.
Definition set_m_deleteFailed (v : bool) (x : CFtpDeleteOpData) : CFtpDeleteOpData :=
  {| de_waitForAsyncRequest := de_waitForAsyncRequest x; de_path := de_path x; files := files x; omitPath := omitPath x; m_time := m_time x; m_needSendListing := m_needSendListing x; m_deleteFailed := v |}.

(** [CFtpChangeDirOpData], as far as [ChangeDir] fills it. *)
Record CFtpChangeDirOpData : Type := Build_CFtpChangeDirOpData {
  cd_opState : cwdStates;
  cd_waitForAsyncRequest : bool;
  cd_path : CServerPath;
  subDir : string;
  link_discovery : bool;
  tryMkdOnFail : bool
}.

Definition set_cd_opState (v : cwdStates) (x : CFtpChangeDirOpData) : CFtpChangeDirOpData :=
  {| cd_opState := v; cd_waitForAsyncRequest := cd_waitForAsyncRequest x; cd_path := cd_path x; subDir := subDir x; link_discovery := link_discovery x; tryMkdOnFail := tryMkdOnFail x |}.
Definition set_cd_waitForAsyncRequest (v : bool) (x : CFtpChangeDirOpData) : CFtpChangeDirOpData :=
  {| cd_opState := cd_opState x; cd_waitForAsyncRequest := v; cd_path := cd_path x; subDir := subDir x; link_discovery := link_discovery x; tryMkdOnFail := tryMkdOnFail x |}.
Definition set_cd_path (v : CServerPath) (x : CFtpChangeDirOpData) : CFtpChangeDirOpData :=
  {| cd_opState := cd_opState x; cd_waitForAsyncRequest := cd_waitForAsyncRequest x; cd_path := v; subDir := subDir x; link_discovery := link_discovery x; tryMkdOnFail := tryMkdOnFail x |}.
Definition set_subDir (v : string) (x : CFtpChangeDirOpData) : CFtpChangeDirOpData :=
  {| cd_opState := cd_opState x; cd_waitForAsyncRequest := cd_waitForAsyncRequest x; cd_path := cd_path x; subDir := v; link_discovery := link_discovery x; tryMkdOnFail := tryMkdOnFail x |}.
Definition set_link_discovery (v : bool) (x : CFtpChangeDirOpData) : CFtpChangeDirOpData :=
  {| cd_opState := cd_opState x; cd_waitForAsyncRequest := cd_waitForAsyncRequest x; cd_path := cd_path x; subDir := subDir x; link_discovery := v; tryMkdOnFail := tryMkdOnFail x |}.
Definition set_tryMkdOnFail (v : bool) (x : CFtpChangeDirOpData) : CFtpChangeDirOpData :=
  {| cd_opState := cd_opState x; cd_waitForAsyncRequest := cd_waitForAsyncRequest x; cd_path := cd_path x; subDir := subDir x; link_discovery := link_discovery x; tryMkdOnFail := v |}.

(** A frame of the operation stack: the classes derived from [COpData] that
    the file casts [m_pCurOpData] to, and the others by their command id. *)
Inductive COpData : Type :=
| CFtpFileTransferOp (d : CFtpFileTransferOpData)
| CFtpRawTransferOp (d : CFtpRawTransferOpData)
| CFtpLogonOp (d : CFtpLogonOpData)
| CFtpDeleteOp (d : CFtpDeleteOpData)
| CFtpChangeDirOp (d : CFtpChangeDirOpData)
| CFtpListOp (w : bool) (t : CFtpTransferOpData)
| COtherOp (id : Command) (w : bool).

(** [opData.opId] *)
Definition opId (o : COpData) : Command :=
  match o with
  | CFtpFileTransferOp _ => Command_transfer
  | CFtpRawTransferOp _ => Command_rawtransfer
  | CFtpLogonOp _ => Command_connect
  | CFtpDeleteOp _ => Command_del
  | CFtpChangeDirOp _ => Command_cwd
  | CFtpListOp _ _ => Command_list
  | COtherOp id _ => id
  end.

(** [opData.waitForAsyncRequest] *)
Definition waitForAsyncRequest (o : COpData) : bool :=
  match o with
  | CFtpFileTransferOp d => ft_waitForAsyncRequest d
  | CFtpRawTransferOp d => rt_waitForAsyncRequest d
  | CFtpLogonOp d => lo_waitForAsyncRequest d
  | CFtpDeleteOp d => de_waitForAsyncRequest d
  | CFtpChangeDirOp d => cd_waitForAsyncRequest d
  | CFtpListOp w _ => w
  | COtherOp _ w => w
  end.

(** The [CFtpTransferOpData] base of a frame, for the frames that have one. *)
Definition transfer_base (o : COpData) : option CFtpTransferOpData :=
  match o with
  | CFtpFileTransferOp d => Some (ftp d)
  | CFtpListOp _ t => Some t
  | _ => None
  end.

Definition set_transfer_base (t : CFtpTransferOpData) (o : COpData) : COpData :=
  match o with
  | CFtpFileTransferOp d => CFtpFileTransferOp (set_ftp t d)
  | CFtpListOp w _ => CFtpListOp w t
  | _ => o
  end.

(** ** The socket object *)

Record CTransferSocket : Type := {
  m_transferMode : TransferMode;
  m_transferEndReason : TransferEndReason;   (* GetTransferEndreason() *)
  m_binaryMode : bool;
  m_ioThreadSet : bool                       (* SetIOThread was called *)
}.

Record CServer : Type := {
  server_valid : bool;                       (* operator bool *)
  GetProtocol : ServerProtocol;
  server_GetType : ServerType;
  GetTimezoneOffset : Z;
  GetPasvMode : PasvMode
}.

(** The members of [CFtpControlSocket] (and of its bases) that the functions
    of the file read or write. *)
Record CFtpControlSocket : Type := Build_CFtpControlSocket {
  m_Response : string;
  m_MultilineResponseCode : string;
  m_MultilineResponseLines : list string;
  m_pendingReplies : Z;
  m_repliesToSkip : Z;
  m_pCurOpData : list COpData;  (* the frames, current one first, linked by pNextOpData *)
  m_pTransferSocket : option CTransferSocket;
  m_pIPResolver : bool;  (* whether the pointer is set *)
  m_pTlsSocket : bool;  (* whether the pointer is set *)
  m_pProxyBackend : bool;  (* whether the pointer is set *)
  m_lastTypeBinary : Z;
  m_lastCommandCompletionTime : Z;  (* 0 while unset *)
  m_idleTimer : Z;  (* a timer id, 0 for none *)
  m_CurrentPath : CServerPath;
  currentServer_ : CServer;
  capabilities_ : gmap capabilityNames (capabilities * string)  (* the registry entry of currentServer_ *)
}.

Definition set_m_Response (v : string) (x : CFtpControlSocket) : CFtpControlSocket :=
  {| m_Response := v; m_MultilineResponseCode := m_MultilineResponseCode x; m_MultilineResponseLines := m_MultilineResponseLines x; m_pendingReplies := m_pendingReplies x; m_repliesToSkip := m_repliesToSkip x; m_pCurOpData := m_pCurOpData x; m_pTransferSocket := m_pTransferSocket x; m_pIPResolver := m_pIPResolver x; m_pTlsSocket := m_pTlsSocket x; m_pProxyBackend := m_pProxyBackend x; m_lastTypeBinary := m_lastTypeBinary x; m_lastCommandCompletionTime := m_lastCommandCompletionTime x; m_idleTimer := m_idleTimer x; m_CurrentPath := m_CurrentPath x; currentServer_ := currentServer_ x; capabilities_ := capabilities_ x |}.
Definition set_m_MultilineResponseCode (v : string) (x : CFtpControlSocket) : CFtpControlSocket :=
  {| m_Response := m_Response x; m_MultilineResponseCode := v; m_MultilineResponseLines := m_MultilineResponseLines x; m_pendingReplies := m_pendingReplies x; m_repliesToSkip := m_repliesToSkip x; m_pCurOpData := m_pCurOpData x; m_pTransferSocket := m_pTransferSocket x; m_pIPResolver := m_pIPResolver x; m_pTlsSocket := m_pTlsSocket x; m_pProxyBackend := m_pProxyBackend x; m_lastTypeBinary := m_lastTypeBinary x; m_lastCommandCompletionTime := m_lastCommandCompletionTime x; m_idleTimer := m_idleTimer x; m_CurrentPath := m_CurrentPath x; currentServer_ := currentServer_ x; capabilities_ := capabilities_ x |}.
Definition set_m_MultilineResponseLines (v : list string) (x : CFtpControlSocket) : CFtpControlSocket :=
  {| m_Response := m_Response x; m_MultilineResponseCode := m_MultilineResponseCode x; m_MultilineResponseLines := v; m_pendingReplies := m_pendingReplies x; m_repliesToSkip := m_repliesToSkip x; m_pCurOpData := m_pCurOpData x; m_pTransferSocket := m_pTransferSocket x; m_pIPResolver := m_pIPResolver x; m_pTlsSocket := m_pTlsSocket x; m_pProxyBackend := m_pProxyBackend x; m_lastTypeBinary := m_lastTypeBinary x; m_lastCommandCompletionTime := m_lastCommandCompletionTime x; m_idleTimer := m_idleTimer x; m_CurrentPath := m_CurrentPath x; currentServer_ := currentServer_ x; capabilities_ := capabilities_ x |}.
Definition set_m_pendingReplies (v : Z) (x : CFtpControlSocket) : CFtpControlSocket :=
  {| m_Response := m_Response x; m_MultilineResponseCode := m_MultilineResponseCode x; m_MultilineResponseLines := m_MultilineResponseLines x; m_pendingReplies := v; m_repliesToSkip := m_repliesToSkip x; m_pCurOpData := m_pCurOpData x; m_pTransferSocket := m_pTransferSocket x; m_pIPResolver := m_pIPResolver x; m_pTlsSocket := m_pTlsSocket x; m_pProxyBackend := m_pProxyBackend x; m_lastTypeBinary := m_lastTypeBinary x; m_lastCommandCompletionTime := m_lastCommandCompletionTime x; m_idleTimer := m_idleTimer x; m_CurrentPath := m_CurrentPath x; currentServer_ := currentServer_ x; capabilities_ := capabilities_ x |}.
Definition set_m_repliesToSkip (v : Z) (x : CFtpControlSocket) : CFtpControlSocket :=
  {| m_Response := m_Response x; m_MultilineResponseCode := m_MultilineResponseCode x; m_MultilineResponseLines := m_MultilineResponseLines x; m_pendingReplies := m_pendingReplies x; m_repliesToSkip := v; m_pCurOpData := m_pCurOpData x; m_pTransferSocket := m_pTransferSocket x; m_pIPResolver := m_pIPResolver x; m_pTlsSocket := m_pTlsSocket x; m_pProxyBackend := m_pProxyBackend x; m_lastTypeBinary := m_lastTypeBinary x; m_lastCommandCompletionTime := m_lastCommandCompletionTime x; m_idleTimer := m_idleTimer x; m_CurrentPath := m_CurrentPath x; currentServer_ := currentServer_ x; capabilities_ := capabilities_ x |}.
Definition set_m_pCurOpData (v : list COpData) (x : CFtpControlSocket) : CFtpControlSocket :=
  {| m_Response := m_Response x; m_MultilineResponseCode := m_MultilineResponseCode x; m_MultilineResponseLines := m_MultilineResponseLines x; m_pendingReplies := m_pendingReplies x; m_repliesToSkip := m_repliesToSkip x; m_pCurOpData := v; m_pTransferSocket := m_pTransferSocket x; m_pIPResolver := m_pIPResolver x; m_pTlsSocket := m_pTlsSocket x; m_pProxyBackend := m_pProxyBackend x; m_lastTypeBinary := m_lastTypeBinary x; m_lastCommandCompletionTime := m_lastCommandCompletionTime x; m_idleTimer := m_idleTimer x; m_CurrentPath := m_CurrentPath x; currentServer_ := currentServer_ x; capabilities_ := capabilities_ x |}.
Definition set_m_pTransferSocket (v : option CTransferSocket) (x : CFtpControlSocket) : CFtpControlSocket :=
  {| m_Response := m_Response x; m_MultilineResponseCode := m_MultilineResponseCode x; m_MultilineResponseLines := m_MultilineResponseLines x; m_pendingReplies := m_pendingReplies x; m_repliesToSkip := m_repliesToSkip x; m_pCurOpData := m_pCurOpData x; m_pTransferSocket := v; m_pIPResolver := m_pIPResolver x; m_pTlsSocket := m_pTlsSocket x; m_pProxyBackend := m_pProxyBackend x; m_lastTypeBinary := m_lastTypeBinary x; m_lastCommandCompletionTime := m_lastCommandCompletionTime x; m_idleTimer := m_idleTimer x; m_CurrentPath := m_CurrentPath x; currentServer_ := currentServer_ x; capabilities_ := capabilities_ x |}.
Definition set_m_pIPResolver (v : bool) (x : CFtpControlSocket) : CFtpControlSocket :=
  {| m_Response := m_Response x; m_MultilineResponseCode := m_MultilineResponseCode x; m_MultilineResponseLines := m_MultilineResponseLines x; m_pendingReplies := m_pendingReplies x; m_repliesToSkip := m_repliesToSkip x; m_pCurOpData := m_pCurOpData x; m_pTransferSocket := m_pTransferSocket x; m_pIPResolver := v; m_pTlsSocket := m_pTlsSocket x; m_pProxyBackend := m_pProxyBackend x; m_lastTypeBinary := m_lastTypeBinary x; m_lastCommandCompletionTime := m_lastCommandCompletionTime x; m_idleTimer := m_idleTimer x; m_CurrentPath := m_CurrentPath x; currentServer_ := currentServer_ x; capabilities_ := capabilities_ x |}.
Definition set_m_pTlsSocket (v : bool) (x : CFtpControlSocket) : CFtpControlSocket :=
  {| m_Response := m_Response x; m_MultilineResponseCode := m_MultilineResponseCode x; m_MultilineResponseLines := m_MultilineResponseLines x; m_pendingReplies := m_pendingReplies x; m_repliesToSkip := m_repliesToSkip x; m_pCurOpData := m_pCurOpData x; m_pTransferSocket := m_pTransferSocket x; m_pIPResolver := m_pIPResolver x; m_pTlsSocket := v; m_pProxyBackend := m_pProxyBackend x; m_lastTypeBinary := m_lastTypeBinary x; m_lastCommandCompletionTime := m_lastCommandCompletionTime x; m_idleTimer := m_idleTimer x; m_CurrentPath := m_CurrentPath x; currentServer_ := currentServer_ x; capabilities_ := capabilities_ x |}.
Definition set_m_pProxyBackend (v : bool) (x : CFtpControlSocket) : CFtpControlSocket :=
  {| m_Response := m_Response x; m_MultilineResponseCode := m_MultilineResponseCode x; m_MultilineResponseLines := m_MultilineResponseLines x; m_pendingReplies := m_pendingReplies x; m_repliesToSkip := m_repliesToSkip x; m_pCurOpData := m_pCurOpData x; m_pTransferSocket := m_pTransferSocket x; m_pIPResolver := m_pIPResolver x; m_pTlsSocket := m_pTlsSocket x; m_pProxyBackend := v; m_lastTypeBinary := m_lastTypeBinary x; m_lastCommandCompletionTime := m_lastCommandCompletionTime x; m_idleTimer := m_idleTimer x; m_CurrentPath := m_CurrentPath x; currentServer_ := currentServer_ x; capabilities_ := capabilities_ x |}.
Definition set_m_lastTypeBinary (v : Z) (x : CFtpControlSocket) : CFtpControlSocket :=
  {| m_Response := m_Response x; m_MultilineResponseCode := m_MultilineResponseCode x; m_MultilineResponseLines := m_MultilineResponseLines x; m_pendingReplies := m_pendingReplies x; m_repliesToSkip := m_repliesToSkip x; m_pCurOpData := m_pCurOpData x; m_pTransferSocket := m_pTransferSocket x; m_pIPResolver := m_pIPResolver x; m_pTlsSocket := m_pTlsSocket x; m_pProxyBackend := m_pProxyBackend x; m_lastTypeBinary := v; m_lastCommandCompletionTime := m_lastCommandCompletionTime x; m_idleTimer := m_idleTimer x; m_CurrentPath := m_CurrentPath x; currentServer_ := currentServer_ x; capabilities_ := capabilities_ x |}.
Definition set_m_lastCommandCompletionTime (v : Z) (x : CFtpControlSocket) : CFtpControlSocket :=
  {| m_Response := m_Response x; m_MultilineResponseCode := m_MultilineResponseCode x; m_MultilineResponseLines := m_MultilineResponseLines x; m_pendingReplies := m_pendingReplies x; m_repliesToSkip := m_repliesToSkip x; m_pCurOpData := m_pCurOpData x; m_pTransferSocket := m_pTransferSocket x; m_pIPResolver := m_pIPResolver x; m_pTlsSocket := m_pTlsSocket x; m_pProxyBackend := m_pProxyBackend x; m_lastTypeBinary := m_lastTypeBinary x; m_lastCommandCompletionTime := v; m_idleTimer := m_idleTimer x; m_CurrentPath := m_CurrentPath x; currentServer_ := currentServer_ x; capabilities_ := capabilities_ x |}.
Definition set_m_idleTimer (v : Z) (x : CFtpControlSocket) : CFtpControlSocket :=
  {| m_Response := m_Response x; m_MultilineResponseCode := m_MultilineResponseCode x; m_MultilineResponseLines := m_MultilineResponseLines x; m_pendingReplies := m_pendingReplies x; m_repliesToSkip := m_repliesToSkip x; m_pCurOpData := m_pCurOpData x; m_pTransferSocket := m_pTransferSocket x; m_pIPResolver := m_pIPResolver x; m_pTlsSocket := m_pTlsSocket x; m_pProxyBackend := m_pProxyBackend x; m_lastTypeBinary := m_lastTypeBinary x; m_lastCommandCompletionTime := m_lastCommandCompletionTime x; m_idleTimer := v; m_CurrentPath := m_CurrentPath x; currentServer_ := currentServer_ x; capabilities_ := capabilities_ x |}.
Definition set_m_CurrentPath (v : CServerPath) (x : CFtpControlSocket) : CFtpControlSocket :=
  {| m_Response := m_Response x; m_MultilineResponseCode := m_MultilineResponseCode x; m_MultilineResponseLines := m_MultilineResponseLines x; m_pendingReplies := m_pendingReplies x; m_repliesToSkip := m_repliesToSkip x; m_pCurOpData := m_pCurOpData x; m_pTransferSocket := m_pTransferSocket x; m_pIPResolver := m_pIPResolver x; m_pTlsSocket := m_pTlsSocket x; m_pProxyBackend := m_pProxyBackend x; m_lastTypeBinary := m_lastTypeBinary x; m_lastCommandCompletionTime := m_lastCommandCompletionTime x; m_idleTimer := m_idleTimer x; m_CurrentPath := v; currentServer_ := currentServer_ x; capabilities_ := capabilities_ x |}.
Definition set_currentServer_ (v : CServer) (x : CFtpControlSocket) : CFtpControlSocket :=
  {| m_Response := m_Response x; m_MultilineResponseCode := m_MultilineResponseCode x; m_MultilineResponseLines := m_MultilineResponseLines x; m_pendingReplies := m_pendingReplies x; m_repliesToSkip := m_repliesToSkip x; m_pCurOpData := m_pCurOpData x; m_pTransferSocket := m_pTransferSocket x; m_pIPResolver := m_pIPResolver x; m_pTlsSocket := m_pTlsSocket x; m_pProxyBackend := m_pProxyBackend x; m_lastTypeBinary := m_lastTypeBinary x; m_lastCommandCompletionTime := m_lastCommandCompletionTime x; m_idleTimer := m_idleTimer x; m_CurrentPath := m_CurrentPath x; currentServer_ := v; capabilities_ := capabilities_ x |}.
Definition set_capabilities_ (v : gmap capabilityNames (capabilities * string)) (x : CFtpControlSocket) : CFtpControlSocket :=
  {| m_Response := m_Response x; m_MultilineResponseCode := m_MultilineResponseCode x; m_MultilineResponseLines := m_MultilineResponseLines x; m_pendingReplies := m_pendingReplies x; m_repliesToSkip := m_repliesToSkip x; m_pCurOpData := m_pCurOpData x; m_pTransferSocket := m_pTransferSocket x; m_pIPResolver := m_pIPResolver x; m_pTlsSocket := m_pTlsSocket x; m_pProxyBackend := m_pProxyBackend x; m_lastTypeBinary := m_lastTypeBinary x; m_lastCommandCompletionTime := m_lastCommandCompletionTime x; m_idleTimer := m_idleTimer x; m_CurrentPath := m_CurrentPath x; currentServer_ := currentServer_ x; capabilities_ := v |}.

(** [GetCurrentCommandId()] of the base class: the id of the current frame. *)
Definition GetCurrentCommandId (s : CFtpControlSocket) : Command :=
  match m_pCurOpData s with
  | [] => Command_none
  | o :: _ => opId o
  end.

(** ** Collaborators

    What the functions of the file obtain from the option store, the local
    file system, the clock, the character-set conversion and the socket
    backend.  These are inputs of a call; the calls that change something
    are recorded in the trace. *)

(** The result of [CDirectoryCache::LookupFile]. *)
Record LookupResult : Type := {
  found : bool; dirDidExist : bool; matchedCase : bool;
  entry_is_unsure : bool; entry_size : Z;
  entry_has_date : bool; entry_has_time : bool; entry_time : datetime
}.

Record Environment : Type := {
  OPTION_PRESERVE_TIMESTAMPS : bool;
  OPTION_PREALLOCATE_SPACE : bool;
  OPTION_FTP_SENDKEEPALIVE : bool;
  OPTION_USEPASV : bool;
  (* fz::local_filesys *)
  get_file_info : string -> local_filesys_type * Z;
  get_file_type : string -> local_filesys_type;
  get_modification_time : string -> datetime;
  set_modification_time_ok : string -> bool;
  (* fz::file, for the one file a call opens *)
  file_open_existing : string -> bool;   (* open(writing, existing) *)
  file_open_empty : string -> bool;      (* open(writing, empty) *)
  file_open_reading : string -> bool;    (* open(reading) *)
  file_seek_end : string -> Z;           (* seek(0, end), -1 on failure *)
  file_seek_begin_ok : string -> Z -> bool;  (* seek(offset, begin) != -1 *)
  file_size : string -> Z;               (* size(), negative on failure *)
  CIOThread_Create : bool;
  (* character-set conversion and socket backend *)
  ConvToServer : string -> string;       (* empty on failure *)
  Send_ok : string -> bool;              (* CRealControlSocket::Send *)
  (* clocks, timers, random numbers *)
  monotonic_now : Z;                     (* milliseconds, never 0 *)
  datetime_now : datetime;
  add_timer : Z;                         (* the id of the timer created *)
  random_number : Z;                     (* fz::random_number(0, 2) *)
  (* paths, the directory cache, time formats *)
  FormatFilename : CServerPath -> string -> bool -> string;
  LookupFile : CServerPath -> string -> LookupResult;
  datetime_parse : string -> datetime;   (* fz::datetime(str, utc) *)
  datetime_format : datetime -> string;  (* format(L"%Y%m%d%H%M%S ", utc) *)
  (* TLS layer *)
  tls_Init : bool;
  tls_Handshake : Z
}.

(** The calls a function of the file makes on collaborators. *)
Inductive Effect : Type :=
| LogMessage (t : MessageType) (msg : string)
| LogMessageRaw (t : MessageType) (msg : string)
| rtt_Stop | rtt_Start | SetAlive
| SetWait (b : bool)
| Call_ParseResponse (response : string)  (* marks the entry of ParseResponse *)
| Call_op_ParseResponse                   (* m_pCurOpData->ParseResponse() *)
| Call_op_Send                            (* m_pCurOpData->Send() *)
| Call_CControlSocket_ResetOperation (nErrorCode : Z)
| Call_CControlSocket_OnTimer (id : Z)
| Call_DoClose (nErrorCode : Z)
| Call_CheckOverwriteFile
| Call_Push (o : COpData)
| Call_Send (buffer : string)
| remove_file (path : string)
| set_modification_time (path : string) (t : datetime)
| CreateLocalDir (path : string)
| delete_pIOThread
| transfer_status_Init (total start : Z)
| file_preallocate (path : string) (n : Z)
| SendDirectoryListingNotification (path : CServerPath)
| stop_timer (id : Z)
| Call_add_timer (seconds : Z).

(** The virtual calls into the current frame and the calls into the base
    class [CControlSocket]: their bodies are in other files, and they may
    change any member of the socket. *)
Record Collaborators : Type := {
  op_ParseResponse : CFtpControlSocket -> Z * CFtpControlSocket;
  op_Send : CFtpControlSocket -> Z * CFtpControlSocket;
  CControlSocket_ResetOperation : Z -> CFtpControlSocket -> Z * CFtpControlSocket;
  CControlSocket_OnTimer : Z -> CFtpControlSocket -> unit * CFtpControlSocket;
  DoClose : Z -> CFtpControlSocket -> Z * CFtpControlSocket;
  CheckOverwriteFile : CFtpControlSocket -> Z * CFtpControlSocket
}.

(** ** The monad

    A computation reads and writes the socket, appends to the trace, and has
    no result when the loop of [SendNextCommand] is cut off by lack of fuel
    or when the source dereferences a null pointer. *)

Definition M (A : Type) : Type :=
  CFtpControlSocket -> list Effect * option (A * CFtpControlSocket).

#[global] Instance M_ret : MRet M := fun A a s => ([], Some (a, s)).

#[global] Instance M_bind : MBind M := fun A B f m s =>
  match m s with
  | (t, None) => (t, None)
  | (t, Some (a, s')) => let '(t', r) := f a s' in ((t ++ t')%list, r)
  end.

Definition gets {A} (f : CFtpControlSocket -> A) : M A :=
  fun s => ([], Some (f s, s)).

Definition modify (f : CFtpControlSocket -> CFtpControlSocket) : M unit :=
  fun s => ([], Some (tt, f s)).

Definition emit (e : Effect) : M unit := fun s => ([e], Some (tt, s)).

(** A call whose body is a parameter: recorded in the trace, then run. *)
Definition call {A} (e : Effect) (f : CFtpControlSocket -> A * CFtpControlSocket) : M A :=
  fun s => ([e], Some (f s)).

(** No result: out of fuel, or a null pointer dereferenced. *)
Definition stuck {A} : M A := fun s => ([], None).

Definition when (b : bool) (m : M unit) : M unit := if b then m else mret tt.

(** The trace, the result and the final socket of a run. *)
Definition trace_of {A} (r : list Effect * option (A * CFtpControlSocket)) : list Effect := fst r.
Definition result_of {A} (r : list Effect * option (A * CFtpControlSocket)) : option A :=
  match snd r with Some (a, _) => Some a | None => None end.
Definition socket_of {A} (r : list Effect * option (A * CFtpControlSocket)) : option CFtpControlSocket :=
  match snd r with Some (_, s) => Some s | None => None end.

(** ** The capability registry

    Modelled from the spec: the capability registry of section 3, a mapping
    from capability to a tri-state and an optional parameter string, one
    entry per server; [CServerCapabilities] is not one of the source files.
    A capability never set is [unknown]; the parameter is handed out only
    with the state [yes]. *)

Definition GetCapability (name : capabilityNames) (s : CFtpControlSocket) : capabilities :=
  match capabilities_ s !! name with
  | Some (c, _) => c
  | None => unknown
  end.

(** [GetCapability(server, name, &option)]: [option] is the caller's string,
    overwritten when the capability is [yes]. *)
Definition GetCapability_option (name : capabilityNames) (option_ : string)
    (s : CFtpControlSocket) : capabilities * string :=
  match capabilities_ s !! name with
  | Some (yes, o) => (yes, o)
  | Some (c, _) => (c, option_)
  | None => (unknown, option_)
  end.

Definition SetCapability (name : capabilityNames) (cap : capabilities) (option_ : string) : M unit :=
  modify (fun s => set_capabilities_ (<[name := (cap, option_)]> (capabilities_ s)) s).

(** ** The reply reader *)

(** [GetReplyCode]: the first character of the response as a digit, 0 when
    the response is empty or does not begin with a digit. *)
Definition GetReplyCode (s : CFtpControlSocket) : Z :=
  match m_Response s with
  | EmptyString => 0
  | String c _ =>
      if ((nat_of_ascii c <? 48) || (57 <? nat_of_ascii c))%nat then 0
      else Z.of_nat (nat_of_ascii c) - 48
  end.

(** [HasFeature] of the anonymous namespace. *)
Definition HasFeature (line feature : string) : bool :=
  if String.eqb line feature then true
  else (WString.size feature <? WString.size line)%nat
       && String.eqb (WString.substr 0 (WString.size feature) line) feature
       && bool_decide (WString.at_ (WString.size feature) line = Some " "%char).

(** [ParseFeat] *)
Definition ParseFeat (line0 : string) : M unit :=
  let line := WString.trim line0 in
  let up := WString.str_toupper_ascii line in
  if HasFeature up "UTF8" then SetCapability utf8_command yes ""
  else if HasFeature up "CLNT" then SetCapability clnt_command yes ""
  else if HasFeature up "MLSD" then
    r ← gets (GetCapability_option mlsd_command "");
    let facts :=
      if negb (bool_decide (r.1 = yes)) || WString.empty r.2 then
        if (5 <? WString.size line)%nat then WString.substr_from 5 line else ""
      else r.2 in
    SetCapability mlsd_command yes facts;;
    SetCapability timezone_offset no ""
  else if HasFeature up "MLST" then
    let facts := if (5 <? WString.size line)%nat then WString.substr_from 5 line else "" in
    facts' ← (if WString.empty facts then
                r ← gets (GetCapability_option mlsd_command facts);
                mret (if negb (bool_decide (r.1 = yes)) then "" else r.2)
              else mret facts);
    SetCapability mlsd_command yes facts';;
    SetCapability timezone_offset no ""
  else if HasFeature up "MODE Z" then SetCapability mode_z_support yes ""
  else if HasFeature up "MFMT" then SetCapability mfmt_command yes ""
  else if HasFeature up "MDTM" then SetCapability mdtm_command yes ""
  else if HasFeature up "SIZE" then SetCapability size_command yes ""
  else if HasFeature up "TVFS" then SetCapability tvfs_support yes ""
  else if HasFeature up "REST STREAM" then SetCapability rest_stream yes ""
  else if HasFeature up "EPSV" then SetCapability epsv_command yes ""
  else mret tt.

(** ** Member functions of [CFtpControlSocket] *)

Section ControlSocket.

Variable env : Environment.
Variable ext : Collaborators.

(** Writes the current frame back (the frame a cast of [m_pCurOpData]
    points to). *)
Definition set_cur (o : COpData) : M unit :=
  modify (fun s => set_m_pCurOpData (o :: tail (m_pCurOpData s)) s).

(** [pData->pOldData] of a raw-transfer frame: the transfer part of the frame
    below it.  A dangling pointer has no result. *)
Definition get_pOldData : M CFtpTransferOpData :=
  st ← gets m_pCurOpData;
  match st with
  | _ :: p :: _ => match transfer_base p with Some t => mret t | None => stuck end
  | _ => stuck
  end.

Definition set_pOldData (t : CFtpTransferOpData) : M unit :=
  st ← gets m_pCurOpData;
  match st with
  | o :: p :: rest => modify (set_m_pCurOpData (o :: set_transfer_base t p :: rest))
  | _ => stuck
  end.

(** [StartKeepaliveTimer] *)
Definition StartKeepaliveTimer : M unit :=
  if negb (OPTION_FTP_SENDKEEPALIVE env) then mret tt else
  skip ← gets m_repliesToSkip;
  pending ← gets m_pendingReplies;
  if negb (skip =? 0) || negb (pending =? 0) then mret tt else
  last ← gets m_lastCommandCompletionTime;
  if last =? 0 then mret tt else
  if 30 <=? (monotonic_now env - last) / 60000 then mret tt else
  id ← gets m_idleTimer;
  emit (stop_timer id);;
  emit (Call_add_timer 30);;
  modify (set_m_idleTimer (add_timer env)).

(** The error code of [ResetOperation] as the block for a current
    file-transfer frame leaves it; [code] is the reply code. *)
Definition transfer_error_code (d : CFtpFileTransferOpData) (code nErrorCode : Z) : Z :=
  if tranferCommandSent (ftp d) then
    let c := if bool_decide (transferEndReason (ftp d) = TER_transfer_failure_critical)
             then Z.lor nErrorCode (Z.lor FZ_REPLY_CRITICALERROR FZ_REPLY_WRITEFAILED)
             else nErrorCode in
    if negb (bool_decide (transferEndReason (ftp d) = TER_transfer_command_failure_immediate))
       || negb (code =? 5)
    then c
    else if c =? FZ_REPLY_ERROR then Z.lor c FZ_REPLY_CRITICALERROR else c
  else nErrorCode.

(** The part of [ResetOperation] for a current file-transfer frame; the
    result is the error code as the block leaves it. *)
Definition ResetOperation_transfer (d : CFtpFileTransferOpData) (nErrorCode : Z) : M Z :=
  code ← gets GetReplyCode;
  let nErrorCode1 := transfer_error_code d code nErrorCode in
  let d1 :=
    if tranferCommandSent (ftp d)
       && (negb (bool_decide (transferEndReason (ftp d) = TER_transfer_command_failure_immediate))
           || negb (code =? 5))
    then set_transferInitiated true d else d in
  set_cur (CFtpFileTransferOp d1);;
  (if negb (nErrorCode1 =? FZ_REPLY_OK) && download d1 && negb (fileDidExist d1) then
     when (pIOThread d1) (emit delete_pIOThread);;
     set_cur (CFtpFileTransferOp (set_pIOThread false d1));;
     let info := get_file_info env (localFile d1) in
     when (bool_decide (info.1 = fs_file) && (info.2 =? 0))
       (emit (LogMessage MsgDebug_Verbose "Deleting empty file");;
        emit (remove_file (localFile d1)))
   else mret tt);;
  mret nErrorCode1.

(** The part of [ResetOperation] for a current raw-transfer frame. *)
Definition ResetOperation_rawtransfer (nErrorCode : Z) : M unit :=
  if negb (nErrorCode =? FZ_REPLY_OK) then
    t ← get_pOldData;
    if bool_decide (transferEndReason t = TER_successful) then
      if has_flags nErrorCode FZ_REPLY_TIMEOUT then
        set_pOldData (set_transferEndReason TER_timeout t)
      else if negb (tranferCommandSent t) then
        set_pOldData (set_transferEndReason TER_pre_transfer_command_failure t)
      else
        set_pOldData (set_transferEndReason TER_failure t)
    else mret tt
  else mret tt.

(** [ResetOperation] after the block for a current file-transfer frame,
    up to the last statement. *)
Definition ResetOperation_finish (nErrorCode1 : Z) : M Z :=
  st1 ← gets m_pCurOpData;
  match st1 with
  | CFtpDeleteOp d :: _ =>
      when (negb (any_flag nErrorCode1 FZ_REPLY_DISCONNECTED) && m_needSendListing d)
        (emit (SendDirectoryListingNotification (de_path d)))
  | CFtpRawTransferOp _ :: _ => ResetOperation_rawtransfer nErrorCode1
  | _ => mret tt
  end;;
  modify (set_m_lastCommandCompletionTime (monotonic_now env));;
  st2 ← gets m_pCurOpData;
  (if negb (bool_decide (st2 = [])) && negb (any_flag nErrorCode1 FZ_REPLY_DISCONNECTED) then
     StartKeepaliveTimer
   else
     id ← gets m_idleTimer;
     emit (stop_timer id);;
     modify (set_m_idleTimer 0));;
  mret nErrorCode1.

(** [ResetOperation] up to its last statement; the result is the error
    code as the function has changed it. *)
Definition ResetOperation_local (nErrorCode : Z) : M Z :=
  emit (LogMessage MsgDebug_Verbose "CFtpControlSocket::ResetOperation");;
  modify (set_m_pTransferSocket None);;
  modify (set_m_pIPResolver false);;
  modify (fun s => set_m_repliesToSkip (m_pendingReplies s) s);;
  st ← gets m_pCurOpData;
  nErrorCode1 ← match st with
                | CFtpFileTransferOp d :: _ => ResetOperation_transfer d nErrorCode
                | _ => mret nErrorCode
                end;
  ResetOperation_finish nErrorCode1.

(** [ResetOperation]; its last statement hands over to the base class. *)
Definition ResetOperation (nErrorCode : Z) : M Z :=
  nErrorCode1 ← ResetOperation_local nErrorCode;
  call (Call_CControlSocket_ResetOperation nErrorCode1)
       (CControlSocket_ResetOperation ext nErrorCode1).

(** [SendCommand(str, maskArgs, measureRTT)] *)
Definition SendCommand (str : string) (maskArgs measureRTT : bool) : M bool :=
  match (if maskArgs then WString.find_char " "%char str else None) with
  | Some pos =>
      emit (LogMessageRaw MsgCommand
              (WString.substr 0 (pos + 1) str
               ++ WString.replicate (WString.size str - pos - 1) "*"%char))
  | None => emit (LogMessageRaw MsgCommand str)
  end;;
  let buffer := ConvToServer env str in
  if WString.empty buffer then
    emit (LogMessage MsgError "Failed to convert command to 8 bit charset");;
    ResetOperation FZ_REPLY_ERROR;;
    mret false
  else
    let buffer1 := buffer ++ String (ascii_of_nat 13) (String (ascii_of_nat 10) "") in
    emit (Call_Send buffer1);;
    let res := Send_ok env buffer1 in
    when res (modify (fun s => set_m_pendingReplies (m_pendingReplies s + 1) s));;
    when measureRTT (emit rtt_Start);;
    mret res.

(** The loop of [SendNextCommand]; one unit of fuel per evaluation of the
    loop condition. *)
Fixpoint SendNextCommand_loop (fuel : nat) : M Z :=
  match fuel with
  | O => stuck
  | S fuel' =>
      st ← gets m_pCurOpData;
      match st with
      | [] => mret FZ_REPLY_OK
      | o :: _ =>
          if waitForAsyncRequest o then
            emit (LogMessage MsgDebug_Info "Waiting for async request, ignoring SendNextCommand...");;
            mret FZ_REPLY_WOULDBLOCK
          else
            skip ← gets m_repliesToSkip;
            if negb (skip =? 0) then
              emit (LogMessage MsgStatus "Waiting for replies to skip before sending next command...");;
              emit (SetWait true);;
              mret FZ_REPLY_WOULDBLOCK
            else
              res ← call Call_op_Send (op_Send ext);
              if res =? FZ_REPLY_CONTINUE then SendNextCommand_loop fuel'
              else if res =? FZ_REPLY_OK then ResetOperation res
              else if has_flags res FZ_REPLY_DISCONNECTED then
                call (Call_DoClose res) (DoClose ext res)
              else if any_flag res FZ_REPLY_ERROR then
                ResetOperation res;; SendNextCommand_loop fuel'
              else if res =? FZ_REPLY_WOULDBLOCK then mret FZ_REPLY_WOULDBLOCK
              else
                emit (LogMessage MsgDebug_Warning "Unknown result returned by m_pCurOpData->Send()");;
                ResetOperation FZ_REPLY_INTERNALERROR
      end
  end.

(** [SendNextCommand] *)
Definition SendNextCommand (fuel : nat) : M Z :=
  emit (LogMessage MsgDebug_Verbose "CFtpControlSocket::SendNextCommand()");;
  st ← gets m_pCurOpData;
  match st with
  | [] =>
      emit (LogMessage MsgDebug_Warning "SendNextCommand called without active operation");;
      ResetOperation FZ_REPLY_ERROR;;
      mret FZ_REPLY_ERROR
  | _ => SendNextCommand_loop fuel
  end.

(** [m_Response[0] != '1'] *)
Definition not_preliminary (response : string) : bool :=
  negb (bool_decide (WString.at_ 0 response = Some "1"%char)).

(** The end of [ParseResponse]: the reply is handed to the current frame
    and the result of the frame acted upon. *)
Definition ParseResponse_dispatch (fuel : nat) : M unit :=
  st ← gets m_pCurOpData;
  match st with
  | [] => emit (LogMessage MsgDebug_Info "Skipping reply without active operation.")
  | _ =>
      res ← call Call_op_ParseResponse (op_ParseResponse ext);
      if res =? FZ_REPLY_OK then ResetOperation FZ_REPLY_OK;; mret tt
      else if res =? FZ_REPLY_CONTINUE then SendNextCommand fuel;; mret tt
      else if any_flag res FZ_REPLY_ERROR then
        st1 ← gets m_pCurOpData;
        match st1 with
        | [] => stuck
        | o :: _ =>
            if bool_decide (opId o = Command_connect) then
              call (Call_DoClose (Z.lor res FZ_REPLY_DISCONNECTED))
                   (DoClose ext (Z.lor res FZ_REPLY_DISCONNECTED));; mret tt
            else if has_flags res FZ_REPLY_DISCONNECTED then
              call (Call_DoClose res) (DoClose ext res);; mret tt
            else ResetOperation res;; mret tt
        end
      else mret tt
  end.

(** In the block of [ParseResponse] for replies to skip: what follows the
    decrement of the counter. *)
Definition ParseResponse_skipped (fuel : nat) : M unit :=
  skip ← gets m_repliesToSkip;
  if skip =? 0 then
    emit (SetWait false);;
    st ← gets m_pCurOpData;
    pending ← gets m_pendingReplies;
    match st with
    | [] => StartKeepaliveTimer
    | _ => if pending =? 0 then SendNextCommand fuel;; mret tt else mret tt
    end
  else mret tt.

(** [ParseResponse]: the reply in [m_Response] is accounted for and, unless
    it is dropped or skipped, handed to the current frame. *)
Definition ParseResponse (fuel : nat) : M unit :=
  r ← gets m_Response;
  emit (Call_ParseResponse r);;
  if WString.empty r then
    emit (LogMessage MsgDebug_Warning "No reply in ParseResponse")
  else
  pending ← gets m_pendingReplies;
  if not_preliminary r && negb (0 <? pending) then
    emit (LogMessage MsgDebug_Warning "Unexpected reply, no reply was pending.")
  else
  when (not_preliminary r) (modify (set_m_pendingReplies (pending - 1)));;
  skip ← gets m_repliesToSkip;
  if negb (skip =? 0) then
    emit (LogMessage MsgDebug_Info "Skipping reply after cancelled operation or keepalive command.");;
    when (not_preliminary r) (modify (set_m_repliesToSkip (skip - 1)));;
    ParseResponse_skipped fuel
  else ParseResponse_dispatch fuel.

(** The part of [ParseLine] for a current logon frame; [false] when the
    connection was closed and [ParseLine] returns. *)
Definition ParseLine_logon (d : CFtpLogonOpData) (line : string) : M bool :=
  if waitChallenge d then
    let sep := if WString.empty (challenge d) then "" else String (ascii_of_nat 10) "" in
    set_cur (CFtpLogonOp (set_challenge (challenge d ++ sep ++ line) d));;
    mret true
  else if bool_decide (lo_opState d = LOGON_FEAT) then
    ParseFeat line;; mret true
  else if bool_decide (lo_opState d = LOGON_WELCOME) then
    if negb (gotFirstWelcomeLine d) then
      if String.eqb (WString.substr 0 3 (WString.str_tolower_ascii line)) "ssh" then
        emit (LogMessage MsgError "Cannot establish FTP connection to an SFTP server. Please select proper protocol.");;
        call (Call_DoClose FZ_REPLY_CRITICALERROR) (DoClose ext FZ_REPLY_CRITICALERROR);;
        mret false
      else
        set_cur (CFtpLogonOp (set_gotFirstWelcomeLine true d));;
        mret true
    else mret true
  else mret true.

(** [ParseLine] up to the check for multi-line responses; [false] when
    the function has returned. *)
Definition ParseLine_prologue (line : string) : M bool :=
  emit rtt_Stop;;
  emit (LogMessageRaw MsgResponse line);;
  emit SetAlive;;
  st ← gets m_pCurOpData;
  match st with
  | CFtpLogonOp d :: _ => ParseLine_logon d line
  | _ => mret true
  end.

(** [ParseLine] from the check for multi-line responses on. *)
Definition ParseLine_reply (fuel : nat) (line : string) : M unit :=
  if (3 <? WString.size line)%nat then
    code ← gets m_MultilineResponseCode;
    if negb (WString.empty code) then
      if String.eqb (WString.substr 0 4 line) code then
        modify (set_m_MultilineResponseCode "");;
        modify (set_m_Response line);;
        ParseResponse fuel;;
        modify (set_m_Response "");;
        modify (set_m_MultilineResponseLines [])
      else
        modify (fun s => set_m_MultilineResponseLines (m_MultilineResponseLines s ++ [line])%list s)
    else if bool_decide (WString.at_ 3 line = Some "-"%char) then
      modify (set_m_MultilineResponseCode (WString.substr 0 3 line ++ " "));;
      modify (fun s => set_m_MultilineResponseLines (m_MultilineResponseLines s ++ [line])%list s)
    else
      modify (set_m_Response line);;
      ParseResponse fuel;;
      modify (set_m_Response "")
  else mret tt.

(** [ParseLine] *)
Definition ParseLine (fuel : nat) (line : string) : M unit :=
  go_on ← ParseLine_prologue line;
  if negb go_on then mret tt else ParseLine_reply fuel line.

(** The lines of one read, handed to [ParseLine] in turn as [OnReceive]
    does, which stops once the connection is closed. *)
Fixpoint ParseLines (fuel : nat) (lines : list string) : M unit :=
  match lines with
  | [] => mret tt
  | line :: rest =>
      ParseLine fuel line;;
      srv ← gets currentServer_;
      if server_valid srv then ParseLines fuel rest else mret tt
  end.

(** [OnConnect] *)
Definition OnConnect (fuel : nat) : M unit :=
  modify (set_m_lastTypeBinary (-1));;
  emit SetAlive;;
  srv ← gets currentServer_;
  tls ← gets m_pTlsSocket;
  let finish :=
    modify (set_m_pendingReplies 1);;
    modify (set_m_repliesToSkip 0) in
  if bool_decide (GetProtocol srv = FTPS) then
    if negb tls then
      emit (LogMessage MsgStatus "Connection established, initializing TLS...");;
      modify (set_m_pTlsSocket true);;
      if negb (tls_Init env) then
        emit (LogMessage MsgError "Failed to initialize TLS.");;
        call (Call_DoClose FZ_REPLY_DISCONNECTED) (DoClose ext FZ_REPLY_DISCONNECTED);;
        mret tt
      else if tls_Handshake env =? FZ_REPLY_ERROR then
        call (Call_DoClose FZ_REPLY_DISCONNECTED) (DoClose ext FZ_REPLY_DISCONNECTED);;
        mret tt
      else mret tt
    else
      emit (LogMessage MsgStatus "TLS connection established, waiting for welcome message...");;
      finish
  else if (bool_decide (GetProtocol srv = FTPES) || bool_decide (GetProtocol srv = FTP)) && tls then
    emit (LogMessage MsgStatus "TLS connection established.");;
    SendNextCommand fuel;;
    mret tt
  else
    emit (LogMessage MsgStatus "Connection established, waiting for welcome message...");;
    finish.

(** [OnTimer] *)
Definition OnTimer (id : Z) : M unit :=
  idle ← gets m_idleTimer;
  if negb (id =? idle) then
    call (Call_CControlSocket_OnTimer id) (CControlSocket_OnTimer ext id)
  else
  st ← gets m_pCurOpData;
  pending ← gets m_pendingReplies;
  skip ← gets m_repliesToSkip;
  if negb (bool_decide (st = [])) then mret tt else
  if negb (pending =? 0) || negb (skip =? 0) then mret tt else
  emit (LogMessage MsgStatus "Sending keep-alive command");;
  ltb ← gets m_lastTypeBinary;
  let i := random_number env in
  let cmd := if i =? 0 then "NOOP"
             else if i =? 1 then (if negb (ltb =? 0) then "TYPE I" else "TYPE A")
             else "PWD" in
  ok ← SendCommand cmd false true;
  if negb ok then mret tt else
  modify (fun s => set_m_repliesToSkip (m_repliesToSkip s + 1) s).

End ControlSocket.

(** ** The file-transfer operation *)

(** Modelled from the spec: the op-data stack of section 3 is a LIFO whose
    new frame becomes the current one; [CControlSocket::Push] is not in the
    source files.  The call is recorded in the trace. *)
Definition Push (o : COpData) : M unit :=
  emit (Call_Push o);;
  modify (fun s => set_m_pCurOpData (o :: m_pCurOpData s) s).

(** Modelled from the spec: the members of a new file-transfer frame as
    section 4.5 and 4.6 use them before they are first set (sizes unknown, no
    resume, end reason [successful], local file assumed to have existed); the
    constructors of [CFileTransferOpData] and [CFtpTransferOpData] are not
    in the source files. *)
Definition new_CFtpTransferOpData : CFtpTransferOpData :=
  {| transferEndReason := TER_successful; tranferCommandSent := false;
     resumeOffset := 0; binary := true |}.

Definition new_CFtpFileTransferOpData (is_download : bool) (local_file remote_file : string)
    (remote_path : CServerPath) : CFtpFileTransferOpData :=
  {| ft_opState := filetransfer_init; ft_waitForAsyncRequest := false;
     localFile := local_file; remoteFile := remote_file; remotePath := remote_path;
     download := is_download; fileTime := None;
     localFileSize := -1; remoteFileSize := -1;
     tryAbsolutePath := false; resume := false;
     transferSettings := {| ts_binary := true |};
     transferInitiated := false; ftp := new_CFtpTransferOpData;
     pIOThread := false; fileDidExist := true |}.

Definition new_CTransferSocket (mode : TransferMode) : CTransferSocket :=
  {| m_transferMode := mode; m_transferEndReason := TER_none;
     m_binaryMode := true; m_ioThreadSet := false |}.

Section FileTransfer.

Variable env : Environment.
Variable ext : Collaborators.

(** [static_cast<CFtpFileTransferOpData *>(m_pCurOpData)] *)
Definition get_ft : M CFtpFileTransferOpData :=
  st ← gets m_pCurOpData;
  match st with
  | CFtpFileTransferOp d :: _ => mret d
  | _ => stuck
  end.

Definition update_ft (f : CFtpFileTransferOpData -> CFtpFileTransferOpData) : M unit :=
  d ← get_ft;
  set_cur (CFtpFileTransferOp (f d)).

(** [ChangeDir(path, subDir, link_discovery)].  The new frame is not linked
    into the stack when its [pNextOpData] is tested, so [tryMkdOnFail]
    keeps its initial value. *)
Definition ChangeDir (path : CServerPath) (sub : string) (discovery : bool) : M unit :=
  Push (CFtpChangeDirOp
          {| cd_opState := cwd_init; cd_waitForAsyncRequest := false;
             cd_path := path; subDir := sub; link_discovery := discovery;
             tryMkdOnFail := false |}).

(** [List(path, subDir, flags)], with [ChangePath] of the path class taken
    as succeeding on the empty sub-directory (the one call of the file). *)
Definition List_ (path : CServerPath) : M unit :=
  cur ← gets m_CurrentPath;
  let newPath := if WString.empty (GetPath path) then cur else path in
  (if WString.empty (GetPath newPath) then
     emit (LogMessage MsgStatus "Retrieving directory listing...")
   else
     emit (LogMessage MsgStatus "Retrieving directory listing of the path..."));;
  Push (CFtpListOp false new_CFtpTransferOpData).

(** [Transfer(cmd, oldData)], called with the current frame as [oldData]. *)
Definition Transfer (cmd : string) : M unit :=
  st ← gets m_pCurOpData;
  match st with
  | [] => stuck
  | o :: _ =>
      match transfer_base o with
      | None => stuck
      | Some t =>
          set_cur (set_transfer_base
                     (set_transferEndReason TER_successful
                        (set_tranferCommandSent false t)) o);;
          proxy ← gets m_pProxyBackend;
          srv ← gets currentServer_;
          ltb ← gets m_lastTypeBinary;
          let pasv :=
            if (proxy : bool) then true
            else match GetPasvMode srv with
                 | MODE_PASSIVE => true
                 | MODE_ACTIVE => false
                 | MODE_DEFAULT => OPTION_USEPASV env
                 end in
          let state :=
            if (binary t && (ltb =? 1)) || (negb (binary t) && (ltb =? 0))
            then rawtransfer_port_pasv else rawtransfer_type in
          (* Push happens first in the source; the frame is filled in after *)
          emit (Call_Push (CFtpRawTransferOp
                  {| rt_opState := state; rt_waitForAsyncRequest := false;
                     cmd_ := cmd; bPasv := pasv; bTriedActive := proxy |}));;
          modify (fun s => set_m_pCurOpData
                  (CFtpRawTransferOp
                     {| rt_opState := state; rt_waitForAsyncRequest := false;
                        cmd_ := cmd; bPasv := pasv; bTriedActive := proxy |}
                   :: m_pCurOpData s) s)
      end
  end.

(** One round of the loop of [FileTransferTestResumeCapability], for the
    4 GB limit ([i = 0]) or the 2 GB limit ([i = 1]); a result ends the
    function, [None] goes on with the loop. *)
Definition TestResumeCapability_round (i : bool) : M (option Z) :=
  d ← get_ft;
  if (2 ^ (if i then 31 else 32) <=? localFileSize d) then
    cap ← gets (GetCapability (if i then resume2GBbug else resume4GBbug));
    match cap with
    | yes =>
        if remoteFileSize d =? localFileSize d then
          emit (LogMessage MsgDebug_Info "Server does not support resume of files > %d GB. End transfer since file sizes match.");;
          ResetOperation env ext FZ_REPLY_OK;;
          mret (Some FZ_REPLY_CANCELED)
        else
          emit (LogMessage MsgError "Server does not support resume of files > %d GB.");;
          ResetOperation env ext FZ_REPLY_CRITICALERROR;;
          mret (Some FZ_REPLY_ERROR)
    | unknown =>
        if remoteFileSize d <? localFileSize d then mret None
        else if remoteFileSize d =? localFileSize d then
          emit (LogMessage MsgDebug_Info "Server may not support resume of files > %d GB. End transfer since file sizes match.");;
          ResetOperation env ext FZ_REPLY_OK;;
          mret (Some FZ_REPLY_CANCELED)
        else if localFileSize d <? remoteFileSize d then
          emit (LogMessage MsgStatus "Testing resume capabilities of server");;
          update_ft (fun d => set_ft_opState filetransfer_waitresumetest
                                (set_ftp (set_resumeOffset (remoteFileSize d - 1) (ftp d)) d));;
          modify (set_m_pTransferSocket (Some (new_CTransferSocket TransferMode_resumetest)));;
          Transfer ("RETR " ++ FormatFilename env (remotePath d) (remoteFile d) (negb (tryAbsolutePath d)));;
          mret (Some FZ_REPLY_CONTINUE)
        else mret None
    | no => mret None
    end
  else mret None.

(** [FileTransferTestResumeCapability] *)
Definition FileTransferTestResumeCapability : M Z :=
  emit (LogMessage MsgDebug_Verbose "FileTransferTestResumeCapability()");;
  st ← gets m_pCurOpData;
  match st with
  | [] =>
      emit (LogMessage MsgDebug_Info "  empty m_pCurOpData");;
      ResetOperation env ext FZ_REPLY_INTERNALERROR;;
      mret FZ_REPLY_ERROR
  | _ =>
      d ← get_ft;
      if negb (download d) then mret FZ_REPLY_OK else
      r0 ← TestResumeCapability_round false;
      match r0 with
      | Some r => mret r
      | None =>
          r1 ← TestResumeCapability_round true;
          match r1 with
          | Some r => mret r
          | None => mret FZ_REPLY_OK
          end
      end
  end.

(** [FileTransfer] *)
Definition FileTransfer (local_file : string) (remote_path : CServerPath)
    (remote_file : string) (is_download : bool) (settings : t_transferSettings) : M Z :=
  emit (LogMessage MsgDebug_Verbose "CFtpControlSocket::FileTransfer()");;
  if WString.empty local_file then
    (if negb is_download then
       ResetOperation env ext (Z.lor FZ_REPLY_CRITICALERROR FZ_REPLY_NOTSUPPORTED)
     else
       ResetOperation env ext FZ_REPLY_SYNTAXERROR);;
    mret FZ_REPLY_ERROR
  else
  (if is_download then
     emit (LogMessage MsgStatus ("Starting download of " ++ FormatFilename env remote_path remote_file false))
   else
     emit (LogMessage MsgStatus ("Starting upload of " ++ local_file)));;
  st ← gets m_pCurOpData;
  when (negb (bool_decide (st = [])))
    (emit (LogMessage MsgDebug_Info "deleting nonzero pData"));;
  Push (CFtpFileTransferOp (new_CFtpFileTransferOpData is_download local_file remote_file remote_path));;
  update_ft (fun d => set_ftp (set_binary (ts_binary settings) (ftp d))
                        (set_transferSettings settings d));;
  let info := get_file_info env local_file in
  when (bool_decide (info.1 = fs_file)) (update_ft (set_localFileSize info.2));;
  update_ft (set_ft_opState filetransfer_waitcwd);;
  srv ← gets currentServer_;
  when (GetType remote_path =? DEFAULT)
    (update_ft (fun d => set_remotePath (set_GetType (server_GetType srv) (remotePath d)) d));;
  d ← get_ft;
  ChangeDir (remotePath d) "" false;;
  mret FZ_REPLY_CONTINUE.

End FileTransfer.

Section FileTransferStates.

Variable env : Environment.
Variable ext : Collaborators.

(** The end of [FileTransferSend]: a command, if any, is sent and the reply
    awaited. *)
Definition FileTransferSend_command (cmd : string) : M Z :=
  if negb (WString.empty cmd) then
    ok ← SendCommand env ext cmd false true;
    if negb ok then mret FZ_REPLY_ERROR else mret FZ_REPLY_WOULDBLOCK
  else mret FZ_REPLY_WOULDBLOCK.

(** [FileTransferSend] from the creation of the IO thread on: the data
    socket is created and the raw transfer pushed. *)
Definition FileTransferSend_start : M Z :=
  d ← get_ft;
  update_ft (set_pIOThread true);;
  if negb (CIOThread_Create env) then
    emit delete_pIOThread;;
    update_ft (set_pIOThread false);;
    emit (LogMessage MsgError "Could not spawn IO thread");;
    ResetOperation env ext FZ_REPLY_ERROR;;
    mret FZ_REPLY_ERROR
  else
  modify (set_m_pTransferSocket
            (Some {| m_transferMode := if download d then TransferMode_download
                                       else TransferMode_upload;
                     m_transferEndReason := TER_none;
                     m_binaryMode := ts_binary (transferSettings d);
                     m_ioThreadSet := true |}));;
  rest ← gets (GetCapability rest_stream);
  let cmd :=
    (if download d then "RETR "
     else if resume d then
       (if bool_decide (rest = yes) then "STOR " else "APPE ")
     else "STOR ")
    ++ FormatFilename env (remotePath d) (remoteFile d) (negb (tryAbsolutePath d)) in
  update_ft (set_ft_opState filetransfer_waittransfer);;
  Transfer env cmd;;
  mret FZ_REPLY_CONTINUE.

(** The download branch of [FileTransferSend] after the local file is
    open and [startOffset] known. *)
Definition FileTransferSend_download (startOffset : Z) : M Z :=
  update_ft (fun d => set_ftp (set_resumeOffset (if resume d then localFileSize d else 0) (ftp d)) d);;
  d ← get_ft;
  emit (transfer_status_Init (remoteFileSize d) startOffset);;
  when (OPTION_PREALLOCATE_SPACE env && (0 <? remoteFileSize d - startOffset))
    (emit (LogMessage MsgDebug_Info "Preallocating bytes for the file");;
     emit (file_preallocate (localFile d) (remoteFileSize d - startOffset)));;
  FileTransferSend_start.

(** [FileTransferSend] in the states [filetransfer_resumetest] and
    [filetransfer_transfer]. *)
Definition FileTransferSend_transfer (fuel : nat) : M Z :=
  ts ← gets m_pTransferSocket;
  when (bool_decide (ts <> None))
    (emit (LogMessage MsgDebug_Verbose "m_pTransferSocket != 0");;
     modify (set_m_pTransferSocket None));;
  d ← get_ft;
  if download d then
    let didExist := negb (bool_decide (get_file_type env (localFile d) = fs_unknown)) in
    if resume d then
      if negb (file_open_existing env (localFile d)) then
        emit (LogMessage MsgError "Failed to open the local file for appending/writing");;
        ResetOperation env ext FZ_REPLY_ERROR;;
        mret FZ_REPLY_ERROR
      else
      update_ft (set_fileDidExist didExist);;
      let startOffset := file_seek_end env (localFile d) in
      if startOffset =? -1 then
        emit (LogMessage MsgError "Could not seek to the end of the file");;
        ResetOperation env ext FZ_REPLY_ERROR;;
        mret FZ_REPLY_ERROR
      else
      update_ft (set_localFileSize startOffset);;
      if bool_decide (ft_opState d = filetransfer_resumetest) then
        res ← FileTransferTestResumeCapability env ext;
        if has_flags res FZ_REPLY_CANCELED then mret FZ_REPLY_OK
        else if negb (res =? FZ_REPLY_OK) then mret res
        else FileTransferSend_download startOffset
      else FileTransferSend_download startOffset
    else
      emit (CreateLocalDir (localFile d));;
      if negb (file_open_empty env (localFile d)) then
        emit (LogMessage MsgError "Failed to open the local file for writing");;
        ResetOperation env ext FZ_REPLY_ERROR;;
        mret FZ_REPLY_ERROR
      else
      update_ft (fun d => set_localFileSize 0 (set_fileDidExist didExist d));;
      FileTransferSend_download 0
  else
    if negb (file_open_reading env (localFile d)) then
      emit (LogMessage MsgError "Failed to open the local file for reading");;
      ResetOperation env ext FZ_REPLY_ERROR;;
      mret FZ_REPLY_ERROR
    else
    let upload (startOffset : Z) : M Z :=
      rest ← gets (GetCapability rest_stream);
      update_ft (fun d => set_ftp (set_resumeOffset
                   (if bool_decide (rest = yes) then startOffset else 0) (ftp d)) d);;
      emit (transfer_status_Init (file_size env (localFile d)) startOffset);;
      FileTransferSend_start in
    if resume d && (0 <? remoteFileSize d) then
      let startOffset := remoteFileSize d in
      when ((localFileSize d <? 0) && (0 <=? file_size env (localFile d)))
        (update_ft (set_localFileSize (file_size env (localFile d))));;
      d1 ← get_ft;
      if (startOffset =? localFileSize d1) && binary (ftp d1) then
        emit (LogMessage MsgDebug_Info "No need to resume, remote file size matches local file size.");;
        mfmt ← gets (GetCapability mfmt_command);
        let mtime := get_modification_time env (localFile d1) in
        if OPTION_PRESERVE_TIMESTAMPS env && bool_decide (mfmt = yes)
           && negb (datetime_empty mtime) then
          update_ft (fun d => set_ft_opState filetransfer_mfmt (set_fileTime mtime d));;
          SendNextCommand env ext fuel
        else
          ResetOperation env ext FZ_REPLY_OK;;
          mret FZ_REPLY_OK
      else if negb (file_seek_begin_ok env (localFile d1) startOffset) then
        emit (LogMessage MsgError "Could not seek to offset within file");;
        ResetOperation env ext FZ_REPLY_ERROR;;
        mret FZ_REPLY_ERROR
      else upload startOffset
    else upload 0.

(** [FileTransferSend] *)
Definition FileTransferSend (fuel : nat) : M Z :=
  emit (LogMessage MsgDebug_Verbose "FileTransferSend()");;
  st ← gets m_pCurOpData;
  match st with
  | [] =>
      emit (LogMessage MsgDebug_Info "Empty m_pCurOpData");;
      ResetOperation env ext FZ_REPLY_INTERNALERROR;;
      mret FZ_REPLY_ERROR
  | _ =>
      d ← get_ft;
      srv ← gets currentServer_;
      match ft_opState d with
      | filetransfer_size =>
          FileTransferSend_command
            ("SIZE " ++ FormatFilename env (remotePath d) (remoteFile d) (negb (tryAbsolutePath d)))
      | filetransfer_mdtm =>
          FileTransferSend_command
            ("MDTM " ++ FormatFilename env (remotePath d) (remoteFile d) (negb (tryAbsolutePath d)))
      | filetransfer_resumetest | filetransfer_transfer => FileTransferSend_transfer fuel
      | filetransfer_mfmt =>
          FileTransferSend_command
            ("MFMT "
             ++ datetime_format env (datetime_add_minutes (fileTime d) (- GetTimezoneOffset srv))
             ++ FormatFilename env (remotePath d) (remoteFile d) (negb (tryAbsolutePath d)))
      | _ =>
          emit (LogMessage MsgDebug_Warning "Unhandled opState");;
          ResetOperation env ext FZ_REPLY_ERROR;;
          mret FZ_REPLY_ERROR
      end
  end.

(** The state [FileTransferSubcommandResult] chooses from the directory
    cache, after the change of directory ([after_list = false]) or after
    the listing ([after_list = true]). *)
Definition state_from_cache (after_list : bool) (mdtm : capabilities)
    (r : LookupResult) (d : CFtpFileTransferOpData) : CFtpFileTransferOpData :=
  let want_mdtm := download d && OPTION_PRESERVE_TIMESTAMPS env && bool_decide (mdtm = yes) in
  let from_entry (d : CFtpFileTransferOpData) :=
    let d1 := set_remoteFileSize (entry_size r) d in
    let d2 := if entry_has_date r then set_fileTime (entry_time r) d1 else d1 in
    if download d && negb (entry_has_time r) && OPTION_PRESERVE_TIMESTAMPS env
       && bool_decide (mdtm = yes)
    then set_ft_opState filetransfer_mdtm d2
    else set_ft_opState filetransfer_resumetest d2 in
  if negb (found r) then
    if negb (dirDidExist r) then
      set_ft_opState (if after_list then filetransfer_size else filetransfer_waitlist) d
    else if want_mdtm then set_ft_opState filetransfer_mdtm d
    else set_ft_opState filetransfer_resumetest d
  else if after_list then
    if matchedCase r && negb (entry_is_unsure r) then from_entry d
    else set_ft_opState filetransfer_size d
  else
    if entry_is_unsure r then set_ft_opState filetransfer_waitlist d
    else if matchedCase r then from_entry d
    else set_ft_opState filetransfer_size d.

(** [FileTransferSubcommandResult] *)
Definition FileTransferSubcommandResult (fuel : nat) (prevResult : Z) : M Z :=
  emit (LogMessage MsgDebug_Verbose "FileTransferSubcommandResult()");;
  st ← gets m_pCurOpData;
  match st with
  | [] =>
      emit (LogMessage MsgDebug_Info "  empty m_pCurOpData");;
      ResetOperation env ext FZ_REPLY_INTERNALERROR;;
      mret FZ_REPLY_ERROR
  | _ =>
      d ← get_ft;
      cur ← gets m_CurrentPath;
      mdtm ← gets (GetCapability mdtm_command);
      mfmt ← gets (GetCapability mfmt_command);
      let lookup := LookupFile env (if tryAbsolutePath d then remotePath d else cur) (remoteFile d) in
      match ft_opState d with
      | filetransfer_waitcwd =>
          if prevResult =? FZ_REPLY_OK then
            update_ft (state_from_cache false mdtm lookup);;
            d1 ← get_ft;
            if bool_decide (ft_opState d1 = filetransfer_waitlist) then
              List_ {| GetPath := ""; GetType := DEFAULT |};;
              mret FZ_REPLY_CONTINUE
            else if bool_decide (ft_opState d1 = filetransfer_resumetest) then
              res ← call Call_CheckOverwriteFile (CheckOverwriteFile ext);
              if negb (res =? FZ_REPLY_OK) then mret res
              else SendNextCommand env ext fuel
            else SendNextCommand env ext fuel
          else
            update_ft (fun d => set_ft_opState filetransfer_size (set_tryAbsolutePath true d));;
            SendNextCommand env ext fuel
      | filetransfer_waitlist =>
          if prevResult =? FZ_REPLY_OK then
            update_ft (state_from_cache true mdtm lookup);;
            d1 ← get_ft;
            if bool_decide (ft_opState d1 = filetransfer_resumetest) then
              res ← call Call_CheckOverwriteFile (CheckOverwriteFile ext);
              if negb (res =? FZ_REPLY_OK) then mret res
              else SendNextCommand env ext fuel
            else SendNextCommand env ext fuel
          else
            update_ft (set_ft_opState filetransfer_size);;
            SendNextCommand env ext fuel
      | filetransfer_waittransfer =>
          let mtime := get_modification_time env (localFile d) in
          if (prevResult =? FZ_REPLY_OK) && OPTION_PRESERVE_TIMESTAMPS env
             && negb (download d) && bool_decide (mfmt = yes)
             && negb (datetime_empty mtime) then
            update_ft (fun d => set_ft_opState filetransfer_mfmt (set_fileTime mtime d));;
            SendNextCommand env ext fuel
          else
            when ((prevResult =? FZ_REPLY_OK) && OPTION_PRESERVE_TIMESTAMPS env
                  && negb (negb (download d) && bool_decide (mfmt = yes))
                  && download d && negb (datetime_empty (fileTime d)))
              (when (pIOThread d) (emit delete_pIOThread);;
               update_ft (set_pIOThread false);;
               emit (set_modification_time (localFile d) (fileTime d));;
               when (negb (set_modification_time_ok env (localFile d)))
                 (emit (LogMessage MsgDebug_Warning "Could not set modification time")));;
            ResetOperation env ext prevResult;;
            mret prevResult
      | filetransfer_waitresumetest =>
          if negb (prevResult =? FZ_REPLY_OK) then
            if bool_decide (transferEndReason (ftp d) = TER_failed_resumetest) then
              (if 2 ^ 32 <? localFileSize d then
                 SetCapability resume4GBbug yes "";;
                 emit (LogMessage MsgError "Server does not support resume of files > 4GB.")
               else
                 SetCapability resume2GBbug yes "";;
                 emit (LogMessage MsgError "Server does not support resume of files > 2GB."));;
              ResetOperation env ext (Z.lor prevResult FZ_REPLY_CRITICALERROR);;
              mret FZ_REPLY_ERROR
            else
              ResetOperation env ext prevResult;;
              mret prevResult
          else
            (if 2 ^ 32 <? localFileSize d then SetCapability resume4GBbug no ""
             else SetCapability resume2GBbug no "");;
            update_ft (set_ft_opState filetransfer_transfer);;
            SendNextCommand env ext fuel
      | _ => SendNextCommand env ext fuel
      end
  end.

(** The decimal number at the start of a string (the loop over the SIZE
    reply). *)
Fixpoint parse_size (str : string) (size : Z) : Z :=
  match str with
  | EmptyString => size
  | String c rest =>
      if ((nat_of_ascii c <? 48) || (57 <? nat_of_ascii c))%nat then size
      else parse_size rest (size * 10 + (Z.of_nat (nat_of_ascii c) - 48))
  end.

(** [FileTransferParseResponse] *)
Definition FileTransferParseResponse (fuel : nat) : M Z :=
  emit (LogMessage MsgDebug_Verbose "FileTransferParseResponse()");;
  st ← gets m_pCurOpData;
  match st with
  | [] =>
      emit (LogMessage MsgDebug_Info "Empty m_pCurOpData");;
      ResetOperation env ext FZ_REPLY_INTERNALERROR;;
      mret FZ_REPLY_ERROR
  | _ =>
      d ← get_ft;
      if bool_decide (ft_opState d = filetransfer_init) then mret FZ_REPLY_ERROR else
      code ← gets GetReplyCode;
      response ← gets m_Response;
      srv ← gets currentServer_;
      sizecap ← gets (GetCapability size_command);
      match ft_opState d with
      | filetransfer_size =>
          if negb (code =? 2) && negb (code =? 3) then
            if bool_decide (sizecap = yes)
               || String.eqb (WString.str_tolower_ascii (WString.substr_from 4 response)) "file not found"
               || (negb (WString.contains "file not found"
                           (WString.str_tolower_ascii (FormatFilename env (remotePath d) (remoteFile d) false)))
                   && WString.contains "file not found" (WString.str_tolower_ascii response))
            then
              update_ft (set_ft_opState filetransfer_resumetest);;
              res ← call Call_CheckOverwriteFile (CheckOverwriteFile ext);
              if negb (res =? FZ_REPLY_OK) then mret res
              else SendNextCommand env ext fuel
            else
              update_ft (set_ft_opState filetransfer_mdtm);;
              SendNextCommand env ext fuel
          else
            update_ft (set_ft_opState filetransfer_mdtm);;
            (if String.eqb (WString.substr 0 4 response) "213 " && (4 <? WString.size response)%nat then
               when (bool_decide (sizecap = unknown)) (SetCapability size_command yes "");;
               update_ft (set_remoteFileSize (parse_size (WString.substr_from 4 response) 0))
             else
               emit (LogMessage MsgDebug_Info "Invalid SIZE reply"));;
            SendNextCommand env ext fuel
      | filetransfer_mdtm =>
          update_ft (set_ft_opState filetransfer_resumetest);;
          when (String.eqb (WString.substr 0 4 response) "213 " && (16 <? WString.size response)%nat)
            (let t := datetime_parse env (WString.substr_from 4 response) in
             update_ft (set_fileTime
                          (if negb (datetime_empty t)
                           then datetime_add_minutes t (GetTimezoneOffset srv) else t)));;
          res ← call Call_CheckOverwriteFile (CheckOverwriteFile ext);
          if negb (res =? FZ_REPLY_OK) then mret res
          else SendNextCommand env ext fuel
      | filetransfer_mfmt =>
          ResetOperation env ext FZ_REPLY_OK;;
          mret FZ_REPLY_OK
      | _ =>
          emit (LogMessage MsgDebug_Warning "Unknown op state");;
          ResetOperation env ext FZ_REPLY_ERROR;;
          mret FZ_REPLY_ERROR
      end
  end.

(** [TransferEnd] *)
Definition TransferEnd : M unit :=
  emit (LogMessage MsgDebug_Verbose "CFtpControlSocket::TransferEnd()");;
  st ← gets m_pCurOpData;
  ts ← gets m_pTransferSocket;
  match st, ts with
  | CFtpRawTransferOp d :: _, Some sock =>
      let reason := m_transferEndReason sock in
      if bool_decide (reason = TER_none) then
        emit (LogMessage MsgDebug_Info "Call to TransferEnd at unusual time")
      else
      when (bool_decide (reason = TER_successful)) (emit SetAlive);;
      t ← get_pOldData;
      when (bool_decide (transferEndReason t = TER_successful))
        (set_pOldData (set_transferEndReason reason t));;
      match rt_opState d with
      | rawtransfer_transfer =>
          set_cur (CFtpRawTransferOp (set_rt_opState rawtransfer_waittransferpre d))
      | rawtransfer_waitfinish =>
          set_cur (CFtpRawTransferOp (set_rt_opState rawtransfer_waittransfer d))
      | rawtransfer_waitsocket =>
          ResetOperation env ext
            (if bool_decide (reason = TER_successful) then FZ_REPLY_OK else FZ_REPLY_ERROR);;
          mret tt
      | _ =>
          emit (LogMessage MsgDebug_Info "TransferEnd at unusual op state, ignoring")
      end
  | _, _ =>
      emit (LogMessage MsgDebug_Verbose "Call to TransferEnd at unusual time, ignoring")
  end.

End FileTransferStates.

(** ** Definitions used to state the properties *)

(** The reply code in the words of the spec: the first digit of the
    response, 0 if it does not begin with a digit. *)
Definition first_digit (response : string) : Z :=
  match WString.at_ 0 response with
  | Some c =>
      match WString.find_char c "0123456789" with
      | Some i => Z.of_nat i
      | None => 0
      end
  | None => 0
  end.

(** A trace of the control connection: commands handed to [SendCommand] and
    replies handed to [ParseResponse]. *)
Inductive IOEvent : Type :=
| Sent (str : string) (maskArgs measureRTT : bool)
| Received (response : string).

Section Traces.

Variable env : Environment.
Variable ext : Collaborators.

(** A reply reaches [ParseResponse] in [m_Response], as in [ParseLine]. *)
Definition process (fuel : nat) (e : IOEvent) : M unit :=
  match e with
  | Sent str maskArgs measureRTT => SendCommand env ext str maskArgs measureRTT;; mret tt
  | Received response =>
      modify (set_m_Response response);;
      ParseResponse env ext fuel;;
      modify (set_m_Response "")
  end.

Fixpoint process_all (fuel : nat) (tr : list IOEvent) : M unit :=
  match tr with
  | [] => mret tt
  | e :: tr' => process fuel e;; process_all fuel tr'
  end.

(** Whether [SendCommand] gets the command onto the wire. *)
Definition sent_ok (str : string) : bool :=
  negb (WString.empty (ConvToServer env str))
  && Send_ok env (ConvToServer env str ++ String (ascii_of_nat 13) (String (ascii_of_nat 10) "")).

(** The number of successfully sent commands of a trace. *)
Fixpoint successfully_sent (tr : list IOEvent) : Z :=
  match tr with
  | [] => 0
  | Sent str _ _ :: tr' => (if sent_ok str then 1 else 0) + successfully_sent tr'
  | Received _ :: tr' => successfully_sent tr'
  end.

(** A reply that counts: not empty, first character not '1'. *)
Definition terminal_reply (response : string) : bool :=
  negb (WString.empty response) && not_preliminary response.

(** The number of received replies whose first digit is not '1'. *)
Fixpoint terminal_replies (tr : list IOEvent) : Z :=
  match tr with
  | [] => 0
  | Sent _ _ _ :: tr' => terminal_replies tr'
  | Received r :: tr' => (if terminal_reply r then 1 else 0) + terminal_replies tr'
  end.

(** The value of [pending_replies] in the words of the spec: commands
    sent minus non-1xx replies received. *)
Definition claimed_pending (tr : list IOEvent) : Z :=
  successfully_sent tr - terminal_replies tr.

(** The number of non-1xx replies of a trace that arrive while no reply is
    pending, [pending] being the number pending before the trace. *)
Fixpoint unexpected_replies (pending : Z) (tr : list IOEvent) : Z :=
  match tr with
  | [] => 0
  | Sent str _ _ :: tr' => unexpected_replies (if sent_ok str then pending + 1 else pending) tr'
  | Received r :: tr' =>
      if terminal_reply r then
        if 0 <? pending then unexpected_replies (pending - 1) tr'
        else 1 + unexpected_replies pending tr'
      else unexpected_replies pending tr'
  end.

End Traces.

(** All the effects of a run satisfy [E]. *)
Definition emits {A} (E : Effect -> Prop) (m : M A) : Prop :=
  forall s, Forall E (trace_of (m s)).

(** Partial correctness of a run that starts in [P]. *)
Definition post {A} (P : CFtpControlSocket -> Prop) (m : M A)
    (Q : A -> CFtpControlSocket -> Prop) : Prop :=
  forall s, P s -> match snd (m s) with Some (a, s') => Q a s' | None => True end.

(** The collaborators relate the socket before and after each call by [R]. *)
Definition respects (R : CFtpControlSocket -> CFtpControlSocket -> Prop)
    (ext : Collaborators) : Prop :=
  (forall s, R s (op_ParseResponse ext s).2) /\
  (forall s, R s (op_Send ext s).2) /\
  (forall c s, R s (CControlSocket_ResetOperation ext c s).2) /\
  (forall c s, R s (CControlSocket_OnTimer ext c s).2) /\
  (forall c s, R s (DoClose ext c s).2) /\
  (forall s, R s (CheckOverwriteFile ext s).2).

(** A call of a collaborator does not itself write [m_pendingReplies]: the
    commands a frame sends go through [SendCommand]. *)
Definition same_pending (s s' : CFtpControlSocket) : Prop :=
  m_pendingReplies s' = m_pendingReplies s.

(** The effects of [ResetOperation] before it hands over to the base class,
    of [ResetOperation], and of [SendNextCommand]. *)
Definition is_local_reset_effect (e : Effect) : bool :=
  match e with
  | LogMessage _ _ | delete_pIOThread | remove_file _
  | SendDirectoryListingNotification _ | stop_timer _ | Call_add_timer _ => true
  | _ => false
  end.

Definition is_reset_effect (e : Effect) : bool :=
  is_local_reset_effect e
  || match e with Call_CControlSocket_ResetOperation _ => true | _ => false end.

Definition is_send_next_effect (e : Effect) : bool :=
  is_reset_effect e
  || match e with Call_op_Send | Call_DoClose _ | SetWait _ => true | _ => false end.

(** A current raw-transfer frame has the frame it was started from, with its
    transfer part, below it ([pOldData] is not dangling). *)
Definition pOldData_valid (s : CFtpControlSocket) : bool :=
  match m_pCurOpData s with
  | CFtpRawTransferOp _ :: p :: _ =>
      match transfer_base p with Some _ => true | None => false end
  | CFtpRawTransferOp _ :: [] => false
  | _ => true
  end.

(** [rt_opState] of the current frame, when it is a raw-transfer frame. *)
Definition current_rawtransfer_state (s : CFtpControlSocket) : option rawtransferStates :=
  match m_pCurOpData s with
  | CFtpRawTransferOp d :: _ => Some (rt_opState d)
  | _ => None
  end.

(** The current frame is a logon frame that waits for the first line of the
    welcome message, the one line [ParseLine] may close the connection on. *)
Definition awaits_first_welcome_line (s : CFtpControlSocket) : bool :=
  match m_pCurOpData s with
  | CFtpLogonOp d :: _ =>
      negb (waitChallenge d) && bool_decide (lo_opState d = LOGON_WELCOME)
      && negb (gotFirstWelcomeLine d)
  | _ => false
  end.

(** The line begins with "ssh", in any casing. *)
Definition ssh_banner (line : string) : bool :=
  String.eqb (WString.substr 0 3 (WString.str_tolower_ascii line)) "ssh".

(** The members of the socket the reply reader and the reply accounting
    work on are the same in [s] and [s']. *)
Definition same_reader (s s' : CFtpControlSocket) : Prop :=
  m_Response s' = m_Response s
  /\ m_MultilineResponseCode s' = m_MultilineResponseCode s
  /\ m_MultilineResponseLines s' = m_MultilineResponseLines s
  /\ m_pendingReplies s' = m_pendingReplies s
  /\ m_repliesToSkip s' = m_repliesToSkip s
  /\ currentServer_ s' = currentServer_ s.

(** What [ParseLine] does with a line that ends a reply: the line becomes
    the response, [ParseResponse] runs, the response is cleared; the buffer
    of a multi-line reply is cleared as well. *)
Definition parse_as_response (env : Environment) (ext : Collaborators) (fuel : nat)
    (multiline : bool) (line : string) : M unit :=
  if multiline then
    modify (set_m_MultilineResponseCode "");;
    modify (set_m_Response line);;
    ParseResponse env ext fuel;;
    modify (set_m_Response "");;
    modify (set_m_MultilineResponseLines [])
  else
    modify (set_m_Response line);;
    ParseResponse env ext fuel;;
    modify (set_m_Response "").

(** The three effects at the head of [ParseLine]. *)
Definition line_received (line : string) : list Effect :=
  [rtt_Stop; LogMessageRaw MsgResponse line; SetAlive].

(** ** Sample collaborators and sockets for the examples *)

Definition sample_environment : Environment :=
  {| OPTION_PRESERVE_TIMESTAMPS := true;
     OPTION_PREALLOCATE_SPACE := false;
     OPTION_FTP_SENDKEEPALIVE := true;
     OPTION_USEPASV := true;
     get_file_info := fun _ => (fs_file, 0);
     get_file_type := fun _ => fs_file;
     get_modification_time := fun _ => Some 1000;
     set_modification_time_ok := fun _ => true;
     file_open_existing := fun _ => true;
     file_open_empty := fun _ => true;
     file_open_reading := fun _ => true;
     file_seek_end := fun _ => 5 * 2 ^ 30;
     file_seek_begin_ok := fun _ _ => true;
     file_size := fun _ => 4096;
     CIOThread_Create := true;
     ConvToServer := fun str => str;
     Send_ok := fun _ => true;
     monotonic_now := 60000;
     datetime_now := Some 1000;
     add_timer := 7;
     random_number := 0;
     FormatFilename := fun path file omit => if omit then file else GetPath path ++ "/" ++ file;
     LookupFile := fun _ _ =>
       {| found := false; dirDidExist := false; matchedCase := false;
          entry_is_unsure := false; entry_size := 0;
          entry_has_date := false; entry_has_time := false; entry_time := None |};
     datetime_parse := fun _ => None;
     datetime_format := fun _ => "20200101000000 ";
     tls_Init := true;
     tls_Handshake := FZ_REPLY_WOULDBLOCK |}.

(** Frames that wait for a reply, a base class that pops the current frame,
    a close that drops the server and the frames. *)
Definition sample_collaborators : Collaborators :=
  {| op_ParseResponse := fun s => (FZ_REPLY_WOULDBLOCK, s);
     op_Send := fun s => (FZ_REPLY_WOULDBLOCK, s);
     CControlSocket_ResetOperation := fun c s => (c, set_m_pCurOpData (tail (m_pCurOpData s)) s);
     CControlSocket_OnTimer := fun _ s => (tt, s);
     DoClose := fun c s =>
       (c, set_m_pCurOpData []
             (set_currentServer_
                {| server_valid := false; GetProtocol := GetProtocol (currentServer_ s);
                   server_GetType := server_GetType (currentServer_ s);
                   GetTimezoneOffset := GetTimezoneOffset (currentServer_ s);
                   GetPasvMode := GetPasvMode (currentServer_ s) |} s));
     CheckOverwriteFile := fun s => (FZ_REPLY_OK, s) |}.

(** The event is a command handed to [SendCommand]. *)
Definition is_Sent (e : IOEvent) : bool :=
  match e with
  | Sent _ _ _ => true
  | Received _ => false
  end.

(** What a call into a frame or into the base class does to the counter
    when it writes it only by sending commands through [SendCommand]: it
    adds the number of the commands it has put on the wire. *)
Definition sends_commands (env : Environment) (s s' : CFtpControlSocket) : Prop :=
  exists cmds : list IOEvent,
    forallb is_Sent cmds = true
    /\ m_pendingReplies s' = m_pendingReplies s + successfully_sent env cmds.

(** The history of a trace: each of its events is followed by the commands
    that the frames and the base class have sent while it was processed. *)
Fixpoint history (tr : list IOEvent) (sent : list (list IOEvent)) : list IOEvent :=
  match tr, sent with
  | e :: tr', cmds :: sent' => (e :: cmds ++ history tr' sent')%list
  | _, _ => []
  end.

(** Collaborators of which the frame that sees a reply clears the counter
    itself. *)
Definition rogue_collaborators : Collaborators :=
  {| op_ParseResponse := fun s => (FZ_REPLY_WOULDBLOCK, set_m_pendingReplies 0 s);
     op_Send := op_Send sample_collaborators;
     CControlSocket_ResetOperation := CControlSocket_ResetOperation sample_collaborators;
     CControlSocket_OnTimer := CControlSocket_OnTimer sample_collaborators;
     DoClose := DoClose sample_collaborators;
     CheckOverwriteFile := CheckOverwriteFile sample_collaborators |}.

(** Collaborators of which the frame that sees a reply sends the next
    command at once, as the frames of the operations do. *)
Definition pipelining_collaborators : Collaborators :=
  {| op_ParseResponse := fun s =>
       match SendCommand sample_environment sample_collaborators "NOOP" false true s with
       | (_, Some (_, s')) => (FZ_REPLY_WOULDBLOCK, s')
       | (_, None) => (FZ_REPLY_ERROR, s)
       end;
     op_Send := op_Send sample_collaborators;
     CControlSocket_ResetOperation := CControlSocket_ResetOperation sample_collaborators;
     CControlSocket_OnTimer := CControlSocket_OnTimer sample_collaborators;
     DoClose := DoClose sample_collaborators;
     CheckOverwriteFile := CheckOverwriteFile sample_collaborators |}.

Definition sample_server : CServer :=
  {| server_valid := true; GetProtocol := FTP; server_GetType := 1;
     GetTimezoneOffset := 0; GetPasvMode := MODE_DEFAULT |}.

(** A connected socket without a current frame and without pending replies. *)
Definition idle_socket : CFtpControlSocket :=
  {| m_Response := ""; m_MultilineResponseCode := ""; m_MultilineResponseLines := [];
     m_pendingReplies := 0; m_repliesToSkip := 0; m_pCurOpData := [];
     m_pTransferSocket := None; m_pIPResolver := false; m_pTlsSocket := false;
     m_pProxyBackend := false; m_lastTypeBinary := 1;
     m_lastCommandCompletionTime := 30000; m_idleTimer := 5;
     m_CurrentPath := {| GetPath := "/home/u"; GetType := 1 |};
     currentServer_ := sample_server; capabilities_ := ∅ |}.

(** The idle socket with a frame that has sent one command. *)
Definition busy_socket : CFtpControlSocket :=
  set_m_pendingReplies 1
    (set_m_idleTimer 0 (set_m_pCurOpData [COtherOp Command_raw false] idle_socket)).

(** The trace of a reply that is skipped while more replies are to be
    skipped after it. *)
Definition skipped_reply (r : string) : list Effect :=
  [Call_ParseResponse r;
   LogMessage MsgDebug_Info "Skipping reply after cancelled operation or keepalive command."].

(** The number of replies of a list whose first digit is not '1'. *)
Fixpoint count_terminal (rs : list string) : Z :=
  match rs with
  | [] => 0
  | r :: rs' => (if not_preliminary r then 1 else 0) + count_terminal rs'
  end.

(** The socket as [ParseResponse] has it once it has accounted for the
    reply [r]: the reply is the response, and one pending reply is taken
    off unless the first character of the reply is '1'. *)
Definition accounted (r : string) (s : CFtpControlSocket) : CFtpControlSocket :=
  if not_preliminary r
  then set_m_pendingReplies (m_pendingReplies s - 1) (set_m_Response r s)
  else set_m_Response r s.

(** The socket as [ParseResponse] has it once it has counted the reply [r]
    among the replies to skip. *)
Definition counted_off (r : string) (s : CFtpControlSocket) : CFtpControlSocket :=
  if not_preliminary r
  then set_m_repliesToSkip (m_repliesToSkip s - 1) (accounted r s)
  else accounted r s.

(** The capabilities after an MLST or MLSD line has set [mlsd_command]. *)
Definition with_facts (facts : string) (s : CFtpControlSocket) : CFtpControlSocket :=
  set_capabilities_
    (<[timezone_offset := (no, "")]>
       (<[mlsd_command := (yes, facts)]> (capabilities_ s))) s.

(** The socket has [n] pending replies. *)
Definition pending_is (n : Z) (s : CFtpControlSocket) : Prop := m_pendingReplies s = n.

(** The socket of the FEAT scenario: a logon frame that waits for the reply
    to FEAT. *)
Definition feat_socket : CFtpControlSocket :=
  set_m_pCurOpData
    [CFtpLogonOp {| lo_opState := LOGON_FEAT; lo_waitForAsyncRequest := false;
                    waitChallenge := false; challenge := "";
                    gotFirstWelcomeLine := true; gotPassword := true |}]
    busy_socket.

(** What the cleanup of [ResetOperation] does for a download frame that
    ends with an error. *)
Definition cleanup_trace (env : Environment) (d : CFtpFileTransferOpData) : list Effect :=
  if fileDidExist d then []
  else
    ((if pIOThread d then [delete_pIOThread] else [])
     ++ (if bool_decide ((get_file_info env (localFile d)).1 = fs_file)
            && ((get_file_info env (localFile d)).2 =? 0)
         then [LogMessage MsgDebug_Verbose "Deleting empty file"; remove_file (localFile d)]
         else []))%list.

(** The effects of the end of [ResetOperation]. *)
Definition is_finish_effect (e : Effect) : bool :=
  match e with
  | SendDirectoryListingNotification _ | stop_timer _ | Call_add_timer _ => true
  | _ => false
  end.

(** A download frame whose local file was created by the transfer, and the
    socket it is the current frame of. *)
Definition new_download : CFtpFileTransferOpData :=
  set_fileDidExist false
    (set_ft_opState filetransfer_waittransfer
       (new_CFtpFileTransferOpData true "/tmp/f" "f" {| GetPath := "/pub"; GetType := 1 |})).

Definition download_socket : CFtpControlSocket :=
  set_m_pCurOpData [CFtpFileTransferOp new_download] busy_socket.

(** The error code [FileTransfer] resets the operation with when the name of
    the local file is empty. *)
Definition empty_local_file_code (is_download : bool) : Z :=
  if is_download then FZ_REPLY_SYNTAXERROR
  else Z.lor FZ_REPLY_CRITICALERROR FZ_REPLY_NOTSUPPORTED.

(** The socket after [ResetOperation] without a current frame, before the
    base class takes over. *)
Definition reset_idle (env : Environment) (s : CFtpControlSocket) : CFtpControlSocket :=
  set_m_idleTimer 0
    (set_m_lastCommandCompletionTime (monotonic_now env)
       (set_m_repliesToSkip (m_pendingReplies s)
          (set_m_pIPResolver false (set_m_pTransferSocket None s)))).

(** A keepalive command is on its way: no frame, one reply pending. *)
Definition keepalive_socket : CFtpControlSocket := set_m_pendingReplies 1 idle_socket.

(** ** The reply handler of the raw-transfer frame *)

(** Modelled from the spec: [parse_reply] of the raw-transfer frame for the
    replies to the transfer command, section 4.5 items 4 to 6; the file
    with the raw-transfer operation is not one of the source files.  After
    the transfer command a 1xx preliminary and later a 2xx final reply are
    expected.  The preliminary reply is expected and merely logged: the
    frame stays as it is and waits on.  The final reply races with the end
    of the data socket.  If the final reply arrives first, in [transfer] or
    [waitfinish], the frame moves to [waittransferpre] to await the end of
    the data socket.  If the data socket has ended, the frame is in
    [waittransferpre] or [waittransfer], where [TransferEnd] has put it:
    both have occurred, the frame goes to [waitsocket] and the operation
    terminates, with OK when the data socket has ended successfully.  Any
    other reply is left to [other]. *)
Definition RawTransferParseResponse (other : CFtpControlSocket -> Z * CFtpControlSocket)
    (s : CFtpControlSocket) : Z * CFtpControlSocket :=
  match m_pCurOpData s with
  | CFtpRawTransferOp d :: p :: rest =>
      match rt_opState d, transfer_base p with
      | (rawtransfer_transfer | rawtransfer_waitfinish), _ =>
          if GetReplyCode s =? 1 then (FZ_REPLY_WOULDBLOCK, s)
          else if GetReplyCode s =? 2 then
            (FZ_REPLY_WOULDBLOCK,
             set_m_pCurOpData
               (CFtpRawTransferOp (set_rt_opState rawtransfer_waittransferpre d) :: p :: rest) s)
          else other s
      | (rawtransfer_waittransferpre | rawtransfer_waittransfer), Some t =>
          if GetReplyCode s =? 1 then (FZ_REPLY_WOULDBLOCK, s)
          else if (GetReplyCode s =? 2) && bool_decide (transferEndReason t = TER_successful) then
            (FZ_REPLY_OK,
             set_m_pCurOpData
               (CFtpRawTransferOp (set_rt_opState rawtransfer_waitsocket d) :: p :: rest) s)
          else other s
      | _, _ => other s
      end
  | _ => other s
  end.

(** The end reason the data socket reports is recorded in the frame the raw
    transfer was started from, unless that frame has a reason already. *)
Definition record_end (reason : TransferEndReason) (p : COpData) : COpData :=
  match transfer_base p with
  | Some t =>
      if bool_decide (transferEndReason t = TER_successful)
      then set_transfer_base (set_transferEndReason reason t) p
      else p
  | None => p
  end.

(** The collaborators of the examples with a raw-transfer frame as the
    current frame. *)
Definition transfer_collaborators : Collaborators :=
  {| op_ParseResponse := RawTransferParseResponse (op_ParseResponse sample_collaborators);
     op_Send := op_Send sample_collaborators;
     CControlSocket_ResetOperation := CControlSocket_ResetOperation sample_collaborators;
     CControlSocket_OnTimer := CControlSocket_OnTimer sample_collaborators;
     DoClose := DoClose sample_collaborators;
     CheckOverwriteFile := CheckOverwriteFile sample_collaborators |}.

(** The socket after RETR was sent for the download of the examples. *)
Definition retr_frame : CFtpRawTransferOpData :=
  {| rt_opState := rawtransfer_transfer; rt_waitForAsyncRequest := false;
     cmd_ := "RETR f"; bPasv := true; bTriedActive := false |}.

Definition retr_socket : CFtpControlSocket :=
  set_m_pTransferSocket (Some (new_CTransferSocket TransferMode_download))
    (set_m_pCurOpData
       [CFtpRawTransferOp retr_frame;
        CFtpFileTransferOp
          (set_ftp (set_tranferCommandSent true new_CFtpTransferOpData) new_download)]
       busy_socket).

(** The data socket of [retr_socket] has ended successfully. *)
Definition ended_socket : CFtpControlSocket :=
  set_m_pTransferSocket
    (Some {| m_transferMode := TransferMode_download; m_transferEndReason := TER_successful;
             m_binaryMode := true; m_ioThreadSet := true |})
    retr_socket.

(** ** The resume test *)

(** The capability that goes with the size of the local file: the 4 GB
    capability above 4 GiB, the 2 GB capability from 2 GiB up to 4 GiB. *)
Definition size_class (size : Z) (cap : capabilityNames) : Prop :=
  (2 ^ 32 < size /\ cap = resume4GBbug)
  \/ (2 ^ 31 <= size < 2 ^ 32 /\ cap = resume2GBbug).

(** The capability [name] is set to [c]. *)
Definition with_capability (name : capabilityNames) (c : capabilities)
    (s : CFtpControlSocket) : CFtpControlSocket :=
  set_capabilities_ (<[name := (c, "")]> (capabilities_ s)) s.

(** The socket after a resume test that succeeded: the capability is set
    and the frame is in the state [transfer]. *)
Definition after_resume_test (cap : capabilityNames) (d : CFtpFileTransferOpData)
    (rest : list COpData) (s : CFtpControlSocket) : CFtpControlSocket :=
  set_m_pCurOpData (CFtpFileTransferOp (set_ft_opState filetransfer_transfer d) :: rest)
    (with_capability cap no s).

(** A resumed download of 5 GiB of a file that has grown by 100 bytes on
    the server, and the socket it is the current frame of. *)
Definition big_download : CFtpFileTransferOpData :=
  set_remoteFileSize (5 * 2 ^ 30 + 100)
    (set_localFileSize (5 * 2 ^ 30)
       (set_resume true
          (set_ft_opState filetransfer_resumetest
             (new_CFtpFileTransferOpData true "/tmp/f" "f" {| GetPath := "/pub"; GetType := 1 |})))).

Definition probe_socket : CFtpControlSocket :=
  set_m_pendingReplies 0 (set_m_pCurOpData [CFtpFileTransferOp big_download] busy_socket).

(** A round of the loop of [FileTransferTestResumeCapability] goes on to
    the next one: the local file is below the limit of the round, or the
    capability is no, or it is unknown and the remote file is the smaller
    one. *)
Definition round_passes (cap : capabilityNames) (limit : Z) (d : CFtpFileTransferOpData)
    (s : CFtpControlSocket) : bool :=
  (localFileSize d <? limit)
  || match GetCapability cap s with
     | no => true
     | unknown => remoteFileSize d <? localFileSize d
     | yes => false
     end.

(** The loop consults the capability [cap]: the 4 GB capability for a local
    file of at least 4 GiB; the 2 GB capability for a local file of at
    least 2 GiB, once the round for the 4 GB limit has gone on. *)
Definition consulted (cap : capabilityNames) (d : CFtpFileTransferOpData)
    (s : CFtpControlSocket) : Prop :=
  (cap = resume4GBbug /\ 2 ^ 32 <= localFileSize d)
  \/ (cap = resume2GBbug /\ 2 ^ 31 <= localFileSize d
      /\ round_passes resume4GBbug (2 ^ 32) d s = true).

(** The capability under which [FileTransferSubcommandResult] records the
    outcome of the resume test. *)
Definition recorded_capability (d : CFtpFileTransferOpData) : capabilityNames :=
  if 2 ^ 32 <? localFileSize d then resume4GBbug else resume2GBbug.

(** A resumed download of exactly 4 GiB of a file that has grown on the
    server, for a server known not to resume above 4 GB, and the socket it
    is the current frame of. *)
Definition boundary_download : CFtpFileTransferOpData := 
  set_remoteFileSize (2 ^ 32 + 100) (set_localFileSize (2 ^ 32) big_download).

Definition boundary_socket : CFtpControlSocket :=
  with_capability resume4GBbug yes
    (set_m_pCurOpData [CFtpFileTransferOp boundary_download] probe_socket).

(** The download of 5 GiB after its resume test, for a server known to
    resume above 4 GB. *)
Definition tested_download : CFtpFileTransferOpData :=
  set_ft_opState filetransfer_waitresumetest big_download.

Definition tested_socket : CFtpControlSocket :=
  with_capability resume4GBbug no
    (set_m_pCurOpData [CFtpFileTransferOp tested_download] probe_socket).

(** ** An upload that has nothing to resume *)

(** The transfer states of [FileTransferSend] begin with a reset of the
    transfer socket, logged when there is one. *)
Definition drop_transfer_socket (s : CFtpControlSocket) : CFtpControlSocket :=
  if bool_decide (m_pTransferSocket s <> None) then set_m_pTransferSocket None s else s.

(** The trace of [FileTransferSend] up to the point where it has found that
    there is nothing to resume. *)
Definition no_need_to_resume (s : CFtpControlSocket) : list Effect :=
  (LogMessage MsgDebug_Verbose "FileTransferSend()"
   :: (if bool_decide (m_pTransferSocket s <> None)
       then [LogMessage MsgDebug_Verbose "m_pTransferSocket != 0"] else [])
   ++ [LogMessage MsgDebug_Info "No need to resume, remote file size matches local file size."])%list.

(** The modification time is to be set on the server: timestamps are
    preserved, the server has MFMT, and the local file has a time. *)
Definition mfmt_follows (env : Environment) (d : CFtpFileTransferOpData)
    (s : CFtpControlSocket) : bool :=
  OPTION_PRESERVE_TIMESTAMPS env && bool_decide (GetCapability mfmt_command s = yes)
  && negb (datetime_empty (get_modification_time env (localFile d))).

(** The frame in the state [mfmt], with the time of the local file. *)
Definition mfmt_frame (env : Environment) (d : CFtpFileTransferOpData) : CFtpFileTransferOpData :=
  set_ft_opState filetransfer_mfmt (set_fileTime (get_modification_time env (localFile d)) d).

(** The MFMT command for a frame. *)
Definition MFMT_command (env : Environment) (d : CFtpFileTransferOpData) (srv : CServer) : string :=
  "MFMT "
  ++ datetime_format env (datetime_add_minutes (fileTime d) (- GetTimezoneOffset srv))
  ++ FormatFilename env (remotePath d) (remoteFile d) (negb (tryAbsolutePath d)).

(** A resumed upload of a file that is on the server in full, and the
    socket it is the current frame of. *)
Definition same_size_upload : CFtpFileTransferOpData :=
  set_remoteFileSize 4096
    (set_localFileSize 4096
       (set_resume true
          (set_ft_opState filetransfer_transfer
             (new_CFtpFileTransferOpData false "/tmp/f" "f" {| GetPath := "/pub"; GetType := 1 |})))).

Definition upload_socket : CFtpControlSocket :=
  set_m_pendingReplies 0 (set_m_pCurOpData [CFtpFileTransferOp same_size_upload] busy_socket).

(** A frame is pushed or a command is put on the wire. *)
Definition starts_transfer (e : Effect) : bool :=
  match e with
  | Call_Push _ | Call_Send _ => true
  | _ => false
  end.

(** * Further properties of the control socket *)

From Stdlib Require DecimalString DecimalPos DecimalN.

(** ** Keepalive *)

(** The commands [OnTimer] chooses a keepalive command from. *)
Definition keepalive_commands : list string := ["NOOP"; "TYPE I"; "TYPE A"; "PWD"].

(** The socket [s'] is [s] but for its idle timer. *)
Definition same_but_timer (s s' : CFtpControlSocket) : Prop :=
  s' = set_m_idleTimer (m_idleTimer s') s.

(** The line a command goes onto the wire as. *)
Definition command_line (env : Environment) (cmd : string) : string :=
  ConvToServer env cmd ++ String (ascii_of_nat 13) (String (ascii_of_nat 10) "").

(** The socket of a connection that waits for the welcome message. *)
Definition welcome_socket : CFtpControlSocket :=
  set_m_pCurOpData
    [CFtpLogonOp {| lo_opState := LOGON_WELCOME; lo_waitForAsyncRequest := false;
                    waitChallenge := false; challenge := "";
                    gotFirstWelcomeLine := false; gotPassword := false |}]
    busy_socket.

(** ** The end of a transfer *)

(** A download whose RETR the server has refused at once, and the socket
    it is the current frame of when the reply is handled. *)
Definition refused_download : CFtpFileTransferOpData :=
  set_ftp {| transferEndReason := TER_transfer_command_failure_immediate;
             tranferCommandSent := true; resumeOffset := 0; binary := true |}
    new_download.

Definition refused_socket : CFtpControlSocket :=
  set_m_Response "550 No such file"
    (set_m_pCurOpData [CFtpFileTransferOp refused_download] busy_socket).

(** The end reason [ResetOperation] records for a raw transfer that ends
    with the error code [c]. *)
Definition reset_end_reason (c : Z) (t : CFtpTransferOpData) : TransferEndReason :=
  if has_flags c FZ_REPLY_TIMEOUT then TER_timeout
  else if negb (tranferCommandSent t) then TER_pre_transfer_command_failure
  else TER_failure.

(** The state [TransferEnd] puts a raw-transfer frame into. *)
Definition after_data_end (st : rawtransferStates) : rawtransferStates :=
  match st with
  | rawtransfer_transfer => rawtransfer_waittransferpre
  | rawtransfer_waitfinish => rawtransfer_waittransfer
  | _ => st
  end.

(** The download of the examples after the final reply, with the data
    socket still open, and then ended. *)
Definition waitsocket_socket : CFtpControlSocket :=
  set_m_pCurOpData
    [CFtpRawTransferOp (set_rt_opState rawtransfer_waitsocket retr_frame);
     CFtpFileTransferOp
       (set_ftp (set_tranferCommandSent true new_CFtpTransferOpData) new_download)]
    ended_socket.

(** The raw-transfer frame that [Transfer] pushes for [cmd] from a frame
    with the transfer part [t]. *)
Definition raw_frame (env : Environment) (cmd : string) (t : CFtpTransferOpData)
    (s : CFtpControlSocket) : CFtpRawTransferOpData :=
  {| rt_opState :=
       if (binary t && (m_lastTypeBinary s =? 1)) || (negb (binary t) && (m_lastTypeBinary s =? 0))
       then rawtransfer_port_pasv else rawtransfer_type;
     rt_waitForAsyncRequest := false;
     cmd_ := cmd;
     bPasv := if m_pProxyBackend s then true
              else match GetPasvMode (currentServer_ s) with
                   | MODE_PASSIVE => true
                   | MODE_ACTIVE => false
                   | MODE_DEFAULT => OPTION_USEPASV env
                   end;
     bTriedActive := m_pProxyBackend s |}.

(** The transfer part of a frame when a raw transfer starts from it. *)
Definition cleared_outcome (t : CFtpTransferOpData) : CFtpTransferOpData :=
  set_transferEndReason TER_successful (set_tranferCommandSent false t).

(** The data socket [FileTransferSend] creates for a frame. *)
Definition data_socket (d : CFtpFileTransferOpData) : CTransferSocket :=
  {| m_transferMode := if download d then TransferMode_download else TransferMode_upload;
     m_transferEndReason := TER_none;
     m_binaryMode := ts_binary (transferSettings d);
     m_ioThreadSet := true |}.

(** The command of the raw transfer [FileTransferSend] starts for a frame. *)
Definition transfer_command (env : Environment) (d : CFtpFileTransferOpData)
    (s : CFtpControlSocket) : string :=
  (if download d then "RETR "
   else if resume d then
     (if bool_decide (GetCapability rest_stream s = yes) then "STOR " else "APPE ")
   else "STOR ")
  ++ FormatFilename env (remotePath d) (remoteFile d) (negb (tryAbsolutePath d)).

(** The socket when [FileTransferSend] has started the raw transfer for the
    frame [d]. *)
Definition transfer_started (env : Environment) (d : CFtpFileTransferOpData)
    (rest : list COpData) (s : CFtpControlSocket) : CFtpControlSocket :=
  set_m_pCurOpData
    (CFtpRawTransferOp (raw_frame env (transfer_command env d s) (ftp d) s)
     :: CFtpFileTransferOp
          (set_ftp (cleared_outcome (ftp d))
             (set_ft_opState filetransfer_waittransfer (set_pIOThread true d)))
     :: rest)
    (set_m_pTransferSocket (Some (data_socket d)) s).

(** The size of the local file that an upload compares with the size on the
    server: asked from the open file when the frame does not know it. *)
Definition upload_local_size (env : Environment) (d : CFtpFileTransferOpData) : Z :=
  if (localFileSize d <? 0) && (0 <=? file_size env (localFile d))
  then file_size env (localFile d) else localFileSize d.

(** The frame of a resumed upload once [FileTransferSend] has asked the
    open file for its size, which it does when the frame does not know it,
    and the socket with that frame and without its data socket. *)
Definition sized_upload (env : Environment) (d : CFtpFileTransferOpData) :
    CFtpFileTransferOpData :=
  if (localFileSize d <? 0) && (0 <=? file_size env (localFile d))
  then set_localFileSize (file_size env (localFile d)) d else d.

Definition sized_upload_socket (env : Environment) (d : CFtpFileTransferOpData)
    (rest : list COpData) (s : CFtpControlSocket) : CFtpControlSocket :=
  if (localFileSize d <? 0) && (0 <=? file_size env (localFile d))
  then set_m_pCurOpData (CFtpFileTransferOp (sized_upload env d) :: rest)
         (drop_transfer_socket s)
  else drop_transfer_socket s.

(** The trace of [FileTransferSend] up to the point where it opens the
    local file. *)
Definition FileTransferSend_opening (s : CFtpControlSocket) : list Effect :=
  (LogMessage MsgDebug_Verbose "FileTransferSend()"
   :: (if bool_decide (m_pTransferSocket s <> None)
       then [LogMessage MsgDebug_Verbose "m_pTransferSocket != 0"] else []))%list.

(** The upload of the examples when the frame does not know the size of the
    local file, and the socket it is the current frame of. *)
Definition unsized_upload : CFtpFileTransferOpData := set_localFileSize (-1) same_size_upload.

Definition unsized_upload_socket : CFtpControlSocket :=
  set_m_pCurOpData [CFtpFileTransferOp unsized_upload] upload_socket.

(** An upload has something to send: it is not resumed, or the server has
    nothing of the file, or what it has differs from the local file (in
    size, or because the transfer is not binary) and the local file can be
    positioned behind it. *)
Definition upload_proceeds (env : Environment) (d : CFtpFileTransferOpData) : bool :=
  if resume d && (0 <? remoteFileSize d) then
    negb ((remoteFileSize d =? upload_local_size env d) && binary (ftp d))
    && file_seek_begin_ok env (localFile d) (remoteFileSize d)
  else true.

(** Where an upload starts in the local file. *)
Definition upload_start (d : CFtpFileTransferOpData) : Z :=
  if resume d && (0 <? remoteFileSize d) then remoteFileSize d else 0.

(** A resumed upload of a file the server has a part of. *)
Definition partial_upload : CFtpFileTransferOpData :=
  set_remoteFileSize 1024 same_size_upload.

Definition partial_upload_socket : CFtpControlSocket :=
  set_m_pCurOpData [CFtpFileTransferOp partial_upload] upload_socket.

(** The frame of an upload when [FileTransferSend] has found where to start:
    the size of the local file is known if it was needed, and the resume
    offset is the start with REST and 0 without. *)
Definition upload_frame (env : Environment) (d : CFtpFileTransferOpData)
    (s : CFtpControlSocket) : CFtpFileTransferOpData :=
  set_ftp (set_resumeOffset
             (if bool_decide (GetCapability rest_stream s = yes) then upload_start d else 0)
             (ftp d))
    (if resume d && (0 <? remoteFileSize d)
     then set_localFileSize (upload_local_size env d) d else d).

(** The local file of a download can be written: opened, and for a resumed
    download positioned at its end. *)
Definition download_opens (env : Environment) (d : CFtpFileTransferOpData) : bool :=
  if resume d then
    file_open_existing env (localFile d) && negb (file_seek_end env (localFile d) =? -1)
  else file_open_empty env (localFile d).

(** Where a download starts in the local file. *)
Definition download_start (env : Environment) (d : CFtpFileTransferOpData) : Z :=
  if resume d then file_seek_end env (localFile d) else 0.

(** The preallocation of the part of a download that is still missing. *)
Definition preallocation (env : Environment) (d : CFtpFileTransferOpData) (start : Z) :
    list Effect :=
  if OPTION_PREALLOCATE_SPACE env && (0 <? remoteFileSize d - start) then
    [LogMessage MsgDebug_Info "Preallocating bytes for the file";
     file_preallocate (localFile d) (remoteFileSize d - start)]
  else [].

(** The frame of a download when the local file is open. *)
Definition download_frame (env : Environment) (d : CFtpFileTransferOpData) :
    CFtpFileTransferOpData :=
  set_ftp (set_resumeOffset (download_start env d) (ftp d))
    (set_localFileSize (download_start env d)
       (set_fileDidExist
          (negb (bool_decide (get_file_type env (localFile d) = fs_unknown))) d)).

(** A resumed download in the state in which the transfer starts. *)
Definition resumed_download : CFtpFileTransferOpData :=
  set_remoteFileSize (6 * 2 ^ 30)
    (set_resume true (set_ft_opState filetransfer_transfer new_download)).

Definition resumed_download_socket : CFtpControlSocket :=
  set_m_pCurOpData [CFtpFileTransferOp resumed_download] upload_socket.

(** The local file of a transfer opens: for writing at the end (a resumed
    download), for writing from the start (a download), for reading (an
    upload). *)
Definition local_file_opens (env : Environment) (d : CFtpFileTransferOpData) : bool :=
  if download d then
    if resume d then file_open_existing env (localFile d)
    else file_open_empty env (localFile d)
  else file_open_reading env (localFile d).

(** Messages, and the creation of the local directory. *)
Definition is_preparation (e : Effect) : bool :=
  match e with
  | LogMessage _ _ | CreateLocalDir _ => true
  | _ => false
  end.

(** An environment whose local files cannot be opened. *)
Definition locked_environment : Environment :=
  {| OPTION_PRESERVE_TIMESTAMPS := OPTION_PRESERVE_TIMESTAMPS sample_environment;
     OPTION_PREALLOCATE_SPACE := OPTION_PREALLOCATE_SPACE sample_environment;
     OPTION_FTP_SENDKEEPALIVE := OPTION_FTP_SENDKEEPALIVE sample_environment;
     OPTION_USEPASV := OPTION_USEPASV sample_environment;
     get_file_info := get_file_info sample_environment;
     get_file_type := get_file_type sample_environment;
     get_modification_time := get_modification_time sample_environment;
     set_modification_time_ok := set_modification_time_ok sample_environment;
     file_open_existing := fun _ => false;
     file_open_empty := fun _ => false;
     file_open_reading := fun _ => false;
     file_seek_end := file_seek_end sample_environment;
     file_seek_begin_ok := file_seek_begin_ok sample_environment;
     file_size := file_size sample_environment;
     CIOThread_Create := CIOThread_Create sample_environment;
     ConvToServer := ConvToServer sample_environment;
     Send_ok := Send_ok sample_environment;
     monotonic_now := monotonic_now sample_environment;
     datetime_now := datetime_now sample_environment;
     add_timer := add_timer sample_environment;
     random_number := random_number sample_environment;
     FormatFilename := FormatFilename sample_environment;
     LookupFile := LookupFile sample_environment;
     datetime_parse := datetime_parse sample_environment;
     datetime_format := datetime_format sample_environment;
     tls_Init := tls_Init sample_environment;
     tls_Handshake := tls_Handshake sample_environment |}.

(** A string begins with a decimal digit. *)
Definition starts_with_digit (s : string) : bool :=
  match s with
  | String c _ => negb ((nat_of_ascii c <? 48) || (57 <? nat_of_ascii c))%nat
  | EmptyString => false
  end.

(** A number in decimal notation, as a server prints it. *)
Definition decimal (n : N) : string :=
  DecimalString.NilEmpty.string_of_uint (N.to_uint n).

(** A download that waits for the reply to SIZE. *)
Definition sizing_download : CFtpFileTransferOpData :=
  set_ft_opState filetransfer_size new_download.

Definition sizing_socket : CFtpControlSocket :=
  set_m_Response "213 1048576"
    (set_m_pCurOpData [CFtpFileTransferOp sizing_download] upload_socket).

(** The frame after a reply to MDTM that carries the time stamp [stamp]. *)
Definition dated_frame (env : Environment) (stamp : string) (srv : CServer)
    (d : CFtpFileTransferOpData) : CFtpFileTransferOpData :=
  set_fileTime (datetime_add_minutes (datetime_parse env stamp) (GetTimezoneOffset srv))
    (set_ft_opState filetransfer_resumetest d).

(** A download that waits for the reply to MDTM. *)
Definition dating_socket : CFtpControlSocket :=
  set_m_Response "213 20240229120000"
    (set_m_pCurOpData [CFtpFileTransferOp (set_ft_opState filetransfer_mdtm new_download)]
       upload_socket).

(** The modification time of a downloaded file is to be set: the transfer
    succeeded, timestamps are preserved, and the frame has a file time. *)
Definition restores_time (env : Environment) (d : CFtpFileTransferOpData)
    (prevResult : Z) : bool :=
  (prevResult =? FZ_REPLY_OK) && OPTION_PRESERVE_TIMESTAMPS env
  && negb (datetime_empty (fileTime d)).

(** What [FileTransferSubcommandResult] does to the local file of a
    download whose time is to be set. *)
Definition time_restoration (env : Environment) (d : CFtpFileTransferOpData) : list Effect :=
  ((if pIOThread d then [delete_pIOThread] else [])
   ++ set_modification_time (localFile d) (fileTime d)
   :: (if set_modification_time_ok env (localFile d) then []
       else [LogMessage MsgDebug_Warning "Could not set modification time"]))%list.

(** A download whose transfer has ended, with the time of the remote file. *)
Definition dated_download : CFtpFileTransferOpData :=
  set_pIOThread true (set_fileTime (Some 86400) new_download).

Definition dated_download_socket : CFtpControlSocket :=
  set_m_pCurOpData [CFtpFileTransferOp dated_download] upload_socket.

(** An upload whose transfer has ended, to a server that has MFMT. *)
Definition ended_upload : CFtpFileTransferOpData :=
  set_ft_opState filetransfer_waittransfer same_size_upload.

Definition ended_upload_socket : CFtpControlSocket :=
  with_capability mfmt_command yes
    (set_m_pCurOpData [CFtpFileTransferOp ended_upload] upload_socket).

(** A download whose change of directory has ended. *)
Definition arriving_download : CFtpFileTransferOpData :=
  set_ft_opState filetransfer_waitcwd new_download.

Definition arriving_socket : CFtpControlSocket :=
  set_m_pCurOpData [CFtpFileTransferOp arriving_download] upload_socket.

(** A cache entry for the file of a transfer. *)
Definition sure_entry : LookupResult :=
  {| found := true; dirDidExist := true; matchedCase := true; entry_is_unsure := false;
     entry_size := 2048; entry_has_date := true; entry_has_time := true;
     entry_time := Some 86400 |}.

(** ** The receive buffer *)

(** A byte that ends a line in [OnReceive]: CR, LF or NUL. *)
Definition is_line_end (p : ascii) : bool :=
  ((nat_of_ascii p =? 13) || (nat_of_ascii p =? 10) || (nat_of_ascii p =? 0))%nat.

(** The bytes of a string, none of which ends a line. *)
Fixpoint no_line_end (b : string) : bool :=
  match b with
  | EmptyString => true
  | String p b' => negb (is_line_end p) && no_line_end b'
  end.

Section OnReceive.

Variable env : Environment.
Variable ext : Collaborators.

(** [ConvToLocal(buffer, len)] of the base class, as a function of the
    [len] bytes it is given; its body is not in this file. *)
Variable ConvToLocal : string -> string.

(** The constant [MAXLINELEN] of the header. *)
Variable MAXLINELEN : nat.

(** The line [OnReceive] makes of the bytes from [start] to a line end:
    the line end is overwritten by NUL and converted with them. *)
Definition received_line (seg : string) : string :=
  ConvToLocal (seg ++ String zero "").

(** The inner loop of [OnReceive] over the bytes [rest] of the buffer that
    are still to be looked at; [seg] are the bytes from [start] up to
    them.  The result is what is left from [start] on, or nothing when the
    function returns because the connection was closed. *)
Fixpoint OnReceive_scan (fuel : nat) (seg rest : string) : M (option string) :=
  match rest with
  | EmptyString => mret (Some seg)
  | String p rest' =>
      if is_line_end p then
        if WString.empty seg then OnReceive_scan fuel "" rest'
        else
          ParseLine env ext fuel (received_line seg);;
          srv ← gets currentServer_;
          if negb (server_valid srv) then mret None
          else OnReceive_scan fuel "" rest'
      else OnReceive_scan fuel (seg ++ String p "") rest'
  end.

(** One iteration of the loop of [OnReceive] from the scan of the buffer
    on: the lines in the buffer are parsed, what is left is moved to the
    front and cut to [MAXLINELEN] bytes. *)
Definition OnReceive_buffer (fuel : nat) (buffer : string) : M (option string) :=
  kept ← OnReceive_scan fuel "" buffer;
  mret (option_map (String.substring 0 MAXLINELEN) kept).

End OnReceive.

(** The lines of a buffer: the runs of bytes, not empty, that are followed
    by a line end; and the bytes after the last line end. *)
Fixpoint buffer_lines (seg rest : string) : list string :=
  match rest with
  | EmptyString => []
  | String p rest' =>
      if is_line_end p then
        if WString.empty seg then buffer_lines "" rest'
        else seg :: buffer_lines "" rest'
      else buffer_lines (seg ++ String p "") rest'
  end.

Fixpoint unfinished_line (seg rest : string) : string :=
  match rest with
  | EmptyString => seg
  | String p rest' =>
      if is_line_end p then unfinished_line "" rest'
      else unfinished_line (seg ++ String p "") rest'
  end.

(** A conversion for the examples: the bytes up to the first NUL. *)
Fixpoint c_string (b : string) : string :=
  match b with
  | EmptyString => EmptyString
  | String p b' => if (nat_of_ascii p =? 0)%nat then EmptyString else String p (c_string b')
  end.

(** The responses logged while a line is parsed: the line itself. *)
Definition logs_line (line : string) (e : Effect) : Prop :=
  match e with
  | LogMessageRaw MsgResponse l => l = line
  | _ => True
  end.

(** The limit on the length of a line in the examples. *)
Definition sample_MAXLINELEN : nat := 2000.

(** * timeex.h *)

Module timeex.

(** [int64_t] arithmetic: the result of an operation, in two's complement. *)
Definition int64 (z : Z) : Z := (z + 2 ^ 63) mod 2 ^ 64 - 2 ^ 63.

(** [class CMonotonicClock] where [HAVE_UNSTEADY_STEADY_CLOCK] is set: the
    time in milliseconds. *)
Module Unsteady.

Record CMonotonicClock : Type := { t_ : Z }.

(** [explicit operator bool] *)
Definition to_bool (c : CMonotonicClock) : bool := negb (t_ c =? 0).

(** [operator+=(int64_t ms)] *)
Definition plus_assign (c : CMonotonicClock) (ms : Z) : CMonotonicClock :=
  {| t_ := int64 (t_ c + ms) |}.

(** [operator+(int ms)] *)
Definition plus (c : CMonotonicClock) (ms : Z) : CMonotonicClock := plus_assign c ms.

(** [operator-(a, b)] *)
Definition minus (a b : CMonotonicClock) : Z := int64 (t_ a - t_ b).

(** [operator<], [operator<=] *)
Definition lt (a b : CMonotonicClock) : bool := t_ a <? t_ b.
Definition le (a b : CMonotonicClock) : bool := t_ a <=? t_ b.

End Unsteady.

(** [class CMonotonicClock] for Visual Studio before 2015: the value of
    the performance counter, [freq_] counts to the second. *)
Module PerformanceCounter.

Record CMonotonicClock : Type := { t_ : Z }.

Definition to_bool (c : CMonotonicClock) : bool := negb (t_ c =? 0).

(** [operator+=(int64_t ms)]: [t_ += ms * freq_ / 1000] *)
Definition plus_assign (freq_ : Z) (c : CMonotonicClock) (ms : Z) : CMonotonicClock :=
  {| t_ := int64 (t_ c + Z.quot (int64 (ms * freq_)) 1000) |}.

Definition plus (freq_ : Z) (c : CMonotonicClock) (ms : Z) : CMonotonicClock :=
  plus_assign freq_ c ms.

(** [operator-(a, b)]: [(a.t_ - b.t_) * 1000 / freq_] *)
Definition minus (freq_ : Z) (a b : CMonotonicClock) : Z :=
  Z.quot (int64 (int64 (t_ a - t_ b) * 1000)) freq_.

Definition lt (a b : CMonotonicClock) : bool := t_ a <? t_ b.
Definition le (a b : CMonotonicClock) : bool := t_ a <=? t_ b.

End PerformanceCounter.

End timeex.

(** * Deleting files *)

(** The calls on the directory cache of the engine. *)
Inductive CacheCall : Type :=
| InvalidateFile (path : CServerPath) (file : string)
| RemoveFile (path : CServerPath) (file : string)
| DirectoryCache_InvalidateServer
| PathCache_InvalidateServer.

(** The functions that work on the directory cache: their trace has the
    calls on the cache among the other effects. *)
Definition MC (A : Type) : Type :=
  CFtpControlSocket -> list (Effect + CacheCall) * option (A * CFtpControlSocket).

#[global] Instance MC_ret : MRet MC := fun A a s => ([], Some (a, s)).

#[global] Instance MC_bind : MBind MC := fun A B f m s =>
  match m s with
  | (t, None) => (t, None)
  | (t, Some (a, s')) => let '(t', r) := f a s' in ((t ++ t')%list, r)
  end.

(** A function that leaves the cache alone. *)
Definition lift {A} (m : M A) : MC A := fun s => (map inl (m s).1, (m s).2).

(** A call on the cache. *)
Definition cache (c : CacheCall) : MC unit := fun s => ([inr c], Some (tt, s)).

(** A listing notification among the effects. *)
Definition is_notification (e : Effect + CacheCall) : bool :=
  match e with
  | inl (SendDirectoryListingNotification _) => true
  | _ => false
  end.

Section Delete.

Variable env : Environment.
Variable ext : Collaborators.
Variable fuel : nat.

(** [(a - b).get_seconds()] of [fz::datetime]. *)
Variable elapsed_seconds : datetime -> datetime -> Z.

(** [static_cast<CFtpDeleteOpData *>(m_pCurOpData)] *)
Definition get_de : M CFtpDeleteOpData :=
  st ← gets m_pCurOpData;
  match st with
  | CFtpDeleteOp d :: _ => mret d
  | _ => stuck
  end.

Definition update_de (f : CFtpDeleteOpData -> CFtpDeleteOpData) : M unit :=
  d ← get_de;
  set_cur (CFtpDeleteOp (f d)).

(** [DeleteSubcommandResult] *)
Definition DeleteSubcommandResult (prevResult : Z) : M Z :=
  emit (LogMessage MsgDebug_Verbose "CFtpControlSocket::DeleteSubcommandResult()");;
  st ← gets m_pCurOpData;
  match st with
  | [] =>
      emit (LogMessage MsgDebug_Info "  empty m_pCurOpData");;
      mret FZ_REPLY_INTERNALERROR
  | _ =>
      when (negb (prevResult =? FZ_REPLY_OK)) (update_de (set_omitPath false));;
      SendNextCommand env ext fuel
  end.

(** [DeleteSend]; [front()] of an empty deque has no result. *)
Definition DeleteSend : MC Z :=
  lift (emit (LogMessage MsgDebug_Verbose "CFtpControlSocket::DeleteSend"));;
  st ← lift (gets m_pCurOpData);
  match st with
  | [] =>
      lift (emit (LogMessage MsgDebug_Info "Empty m_pCurOpData"));;
      mret FZ_REPLY_INTERNALERROR
  | _ =>
      d ← lift get_de;
      match files d with
      | [] => lift stuck
      | file :: _ =>
          if WString.empty file then
            lift (emit (LogMessage MsgDebug_Info "Empty filename"));;
            lift (ResetOperation env ext FZ_REPLY_INTERNALERROR);;
            mret FZ_REPLY_ERROR
          else
          let filename := FormatFilename env (de_path d) file (omitPath d) in
          if WString.empty filename then
            lift (emit (LogMessage MsgError
                          "Filename cannot be constructed for directory %s and filename %s"));;
            lift (ResetOperation env ext FZ_REPLY_ERROR);;
            mret FZ_REPLY_ERROR
          else
          lift (when (datetime_empty (m_time d)) (update_de (set_m_time (datetime_now env))));;
          cache (InvalidateFile (de_path d) file);;
          ok ← lift (SendCommand env ext ("DELE " ++ filename) false true);
          if negb ok then mret FZ_REPLY_ERROR else mret FZ_REPLY_WOULDBLOCK
      end
  end.

(** The end of [DeleteParseResponse]: the file is taken from the list,
    and the next one is deleted or the operation ends. *)
Definition DeleteParseResponse_next : MC Z :=
  d1 ← lift get_de;
  match files d1 with
  | [] => lift stuck
  | _ :: later =>
      lift (update_de (set_files later));;
      if negb (bool_decide (later = [])) then lift (SendNextCommand env ext fuel)
      else lift (ResetOperation env ext
                   (if m_deleteFailed d1 then FZ_REPLY_ERROR else FZ_REPLY_OK))
  end.

(** [DeleteParseResponse] *)
Definition DeleteParseResponse : MC Z :=
  lift (emit (LogMessage MsgDebug_Verbose "CFtpControlSocket::DeleteParseResponse()"));;
  st ← lift (gets m_pCurOpData);
  match st with
  | [] =>
      lift (emit (LogMessage MsgDebug_Info "Empty m_pCurOpData"));;
      lift (ResetOperation env ext FZ_REPLY_INTERNALERROR);;
      mret FZ_REPLY_ERROR
  | _ =>
      d ← lift get_de;
      code ← lift (gets GetReplyCode);
      (if negb (code =? 2) && negb (code =? 3) then
         lift (update_de (set_m_deleteFailed true))
       else
         match files d with
         | [] => lift stuck
         | file :: _ =>
             cache (RemoveFile (de_path d) file);;
             let now := datetime_now env in
             if negb (datetime_empty (m_time d)) && (1 <=? elapsed_seconds now (m_time d)) then
               lift (emit (SendDirectoryListingNotification (de_path d)));;
               lift (update_de (fun d => set_m_needSendListing false (set_m_time now d)))
             else
               lift (update_de (set_m_needSendListing true))
         end);;
      DeleteParseResponse_next
  end.

End Delete.

(** * Raw commands *)

Section RawCommand.

Variable env : Environment.
Variable ext : Collaborators.

(** [CServerPath::clear], whose body is not in this file. *)
Variable CServerPath_clear : CServerPath -> CServerPath.

(** [RawCommandSend]; [m_command] is the command of the current frame. *)
Definition RawCommandSend (m_command : string) : MC Z :=
  lift (emit (LogMessage MsgDebug_Verbose "CFtpControlSocket::RawCommandSend"));;
  st ← lift (gets m_pCurOpData);
  match st with
  | [] =>
      lift (emit (LogMessage MsgDebug_Info "Empty m_pCurOpData"));;
      lift (ResetOperation env ext FZ_REPLY_INTERNALERROR);;
      mret FZ_REPLY_ERROR
  | _ =>
      cache DirectoryCache_InvalidateServer;;
      cache PathCache_InvalidateServer;;
      lift (modify (fun s => set_m_CurrentPath (CServerPath_clear (m_CurrentPath s)) s));;
      lift (modify (set_m_lastTypeBinary (-1)));;
      ok ← lift (SendCommand env ext m_command false false);
      if negb ok then mret FZ_REPLY_ERROR else mret FZ_REPLY_WOULDBLOCK
  end.

End RawCommand.

(** A delete frame with its last file, a listing owed, and the socket of it. *)
Definition last_delete : CFtpDeleteOpData :=
  {| de_waitForAsyncRequest := false; de_path := {| GetPath := "/pub"; GetType := 1 |};
     files := ["old.txt"]; omitPath := true; m_time := Some 1000;
     m_needSendListing := true; m_deleteFailed := false |}.

Definition delete_socket : CFtpControlSocket :=
  set_m_Response "250 Deleted" (set_m_pCurOpData [CFtpDeleteOp last_delete] upload_socket).

(** A delete frame after a change of directory that failed. *)
Definition arriving_delete : CFtpDeleteOpData :=
  {| de_waitForAsyncRequest := false; de_path := {| GetPath := "/pub"; GetType := 1 |};
     files := ["old.txt"; "older.txt"]; omitPath := true; m_time := None;
     m_needSendListing := false; m_deleteFailed := false |}.

Definition arriving_delete_socket : CFtpControlSocket :=
  set_m_pCurOpData [CFtpDeleteOp arriving_delete] upload_socket.

(** * Properties *)

(** ** Rules for runs in the monad *)

Section Rules.

Context {A B : Type}.

Lemma emits_ret E (a : A) : emits E (mret a).
Proof. intros s. constructor. Qed.

Lemma emits_bind E (m : M A) (f : A -> M B) :
  emits E m -> (forall a, emits E (f a)) -> emits E (m ≫= f).
Proof.
  intros Hm Hf s. specialize (Hm s). unfold trace_of, mbind, M_bind in *.
  destruct (m s) as [t [[a s']|]]; simpl in *; [|exact Hm].
  specialize (Hf a s'). unfold trace_of in Hf.
  destruct (f a s') as [t' r]. simpl in *. apply Forall_app; split; assumption.
Qed.

Lemma emits_gets E (f : CFtpControlSocket -> A) : emits E (gets f).
Proof. intros s. constructor. Qed.

Lemma emits_stuck E : emits E (@stuck A).
Proof. intros s. constructor. Qed.

Lemma emits_call E e (f : CFtpControlSocket -> A * CFtpControlSocket) :
  E e -> emits E (call e f).
Proof. intros He s. repeat constructor. exact He. Qed.

Lemma emits_impl (E E' : Effect -> Prop) (m : M A) :
  (forall e, E e -> E' e) -> emits E m -> emits E' m.
Proof. intros H Hm s. eapply Forall_impl; [apply Hm | exact H]. Qed.

Lemma post_ret (P : CFtpControlSocket -> Prop) (Q : A -> CFtpControlSocket -> Prop) (a : A) :
  (forall s, P s -> Q a s) -> post P (mret a) Q.
Proof. intros H s Hs. simpl. auto. Qed.

Lemma post_bind (P : CFtpControlSocket -> Prop) (Q : A -> CFtpControlSocket -> Prop)
    (R : B -> CFtpControlSocket -> Prop) (m : M A) (f : A -> M B) :
  post P m Q -> (forall a, post (Q a) (f a) R) -> post P (m ≫= f) R.
Proof.
  intros Hm Hf s Hs. specialize (Hm s Hs). unfold mbind, M_bind.
  destruct (m s) as [t [[a s']|]]; simpl in *; [|exact I].
  specialize (Hf a s' Hm). destruct (f a s') as [t' r]. exact Hf.
Qed.

Lemma post_gets (P : CFtpControlSocket -> Prop) (Q : A -> CFtpControlSocket -> Prop)
    (f : CFtpControlSocket -> A) :
  (forall s, P s -> Q (f s) s) -> post P (gets f) Q.
Proof. intros H s Hs. simpl. auto. Qed.

Lemma post_stuck (P : CFtpControlSocket -> Prop) (Q : A -> CFtpControlSocket -> Prop) :
  post P stuck Q.
Proof. intros s Hs. exact I. Qed.

Lemma post_call (P : CFtpControlSocket -> Prop) (Q : A -> CFtpControlSocket -> Prop) e
    (f : CFtpControlSocket -> A * CFtpControlSocket) :
  (forall s, P s -> Q (f s).1 (f s).2) -> post P (call e f) Q.
Proof. intros H s Hs. simpl. specialize (H s Hs). destruct (f s). exact H. Qed.

Lemma post_weaken (P P' : CFtpControlSocket -> Prop)
    (Q Q' : A -> CFtpControlSocket -> Prop) (m : M A) :
  post P' m Q' -> (forall s, P s -> P' s) -> (forall a s, Q' a s -> Q a s) -> post P m Q.
Proof.
  intros H HP HQ s Hs. specialize (H s (HP s Hs)).
  destruct (snd (m s)) as [[a s']|]; auto.
Qed.

(** The trace and the result of a sequence. *)
Lemma run_bind (m : M A) (f : A -> M B) (s : CFtpControlSocket) t a s' :
  m s = (t, Some (a, s')) ->
  (m ≫= f) s = ((t ++ (f a s').1)%list, (f a s').2).
Proof.
  intros H. unfold mbind, M_bind. rewrite H. destruct (f a s'). reflexivity.
Qed.

End Rules.

Lemma emits_emit E e : E e -> emits E (emit e).
Proof. intros He s. repeat constructor. exact He. Qed.

Lemma emits_modify E f : emits E (modify f).
Proof. intros s. constructor. Qed.

Lemma emits_when E b m : emits E m -> emits E (when b m).
Proof. intros H. destruct b; [exact H | apply emits_ret]. Qed.

Lemma post_emit (P : CFtpControlSocket -> Prop) (Q : unit -> CFtpControlSocket -> Prop) e :
  (forall s, P s -> Q tt s) -> post P (emit e) Q.
Proof. intros H s Hs. simpl. auto. Qed.

Lemma post_modify (P : CFtpControlSocket -> Prop) (Q : unit -> CFtpControlSocket -> Prop) f :
  (forall s, P s -> Q tt (f s)) -> post P (modify f) Q.
Proof. intros H s Hs. simpl. auto. Qed.

Lemma post_when (P : CFtpControlSocket -> Prop) (Q : unit -> CFtpControlSocket -> Prop) b m :
  post P m Q -> (forall s, P s -> Q tt s) -> post P (when b m) Q.
Proof. intros H1 H2. destruct b; [auto | apply post_ret; auto]. Qed.

(** Runs of the primitive operations followed by a continuation. *)
Lemma gets_bind {A B} (f : CFtpControlSocket -> A) (k : A -> M B) s :
  (gets f ≫= k) s = k (f s) s.
Proof. unfold mbind, M_bind, gets. now destruct (k (f s) s). Qed.

Lemma modify_bind {B} (g : CFtpControlSocket -> CFtpControlSocket) (k : unit -> M B) s :
  (modify g ≫= k) s = k tt (g s).
Proof. unfold mbind, M_bind, modify. now destruct (k tt (g s)). Qed.

Lemma ret_bind {A B} (a : A) (k : A -> M B) s : (mret a ≫= k) s = k a s.
Proof. unfold mbind, M_bind, mret, M_ret. now destruct (k a s). Qed.

Lemma emit_bind {B} (e : Effect) (k : unit -> M B) s :
  (emit e ≫= k) s = (e :: (k tt s).1, (k tt s).2).
Proof. unfold mbind, M_bind, emit. now destruct (k tt s). Qed.

Lemma call_bind {A B} (e : Effect) (f : CFtpControlSocket -> A * CFtpControlSocket)
    (k : A -> M B) s :
  (call e f ≫= k) s = (e :: (k (f s).1 (f s).2).1, (k (f s).1 (f s).2).2).
Proof. unfold mbind, M_bind, call. destruct (f s) as [a s']. cbn. now destruct (k a s'). Qed.

Lemma bind_assoc {A B C} (m : M A) (f : A -> M B) (g : B -> M C) s :
  ((m ≫= f) ≫= g) s = (m ≫= (fun a => f a ≫= g)) s.
Proof.
  unfold mbind, M_bind. destruct (m s) as [t [[a s1]|]]; [|reflexivity].
  destruct (f a s1) as [t1 [[b s2]|]]; [|reflexivity].
  destruct (g b s2) as [t2 r]. now rewrite app_assoc.
Qed.

Lemma pair_eta {A B} (p : A * B) : (p.1, p.2) = p.
Proof. now destruct p. Qed.

(** Runs a sequence of primitive operations. *)
Ltac run :=
  repeat first [ rewrite bind_assoc | rewrite gets_bind | rewrite modify_bind
               | rewrite ret_bind | rewrite emit_bind | rewrite call_bind
               | rewrite pair_eta ];
  cbn [fst snd].

(** One step of a proof that all effects are of a class. *)
Ltac emits_step :=
  lazymatch goal with
  | |- emits _ (mbind _ _) => apply emits_bind; [|intros]
  | |- emits _ (mret _) => apply emits_ret
  | |- emits _ (gets _) => apply emits_gets
  | |- emits _ (modify _) => apply emits_modify
  | |- emits _ stuck => apply emits_stuck
  | |- emits _ (when _ _) => apply emits_when
  | |- emits _ (emit _) => apply emits_emit
  | |- emits _ (call _ _) => apply emits_call
  | |- emits _ (SetCapability _ _ _) => apply emits_modify
  | |- emits _ (set_cur _) => apply emits_modify
  | |- emits _ (match ?x with _ => _ end) => destruct x
  | |- emits _ (let _ := _ in _) => cbv zeta
  end.

(** One step of a proof that an invariant of the socket is kept. *)
Ltac keeps_step :=
  lazymatch goal with
  | |- post ?P (mbind _ _) _ => apply (post_bind P (fun _ => P)); [|intros]
  | |- post _ (mret _) _ => apply post_ret; intros ? ?
  | |- post _ (gets _) _ => apply post_gets; intros ? ?
  | |- post _ (modify _) _ => apply post_modify; intros ? ?
  | |- post _ stuck _ => apply post_stuck
  | |- post _ (when _ _) _ => apply post_when; [|intros ? ?]
  | |- post _ (emit _) _ => apply post_emit; intros ? ?
  | |- post _ (call _ _) _ => apply post_call; intros ? ?
  | |- post _ (SetCapability _ _ _) _ => apply post_modify; intros ? ?
  | |- post _ (set_cur _) _ => apply post_modify; intros ? ?
  | |- post _ (match ?x with _ => _ end) _ => destruct x
  | |- post _ (let _ := _ in _) _ => cbv zeta
  end.

(** Unfolds the operations of the monad, so that a run computes. *)
Ltac monad_unfold :=
  unfold mbind, M_bind, mret, M_ret, gets, modify, emit, call, stuck, when,
    set_cur, SetCapability in *.

(** ** Wide strings *)

Lemma substring_all (s : string) : String.substring 0 (String.length s) s = s.
Proof. induction s; simpl; congruence. Qed.

Lemma append_assoc (a b c : string) : (a ++ b) ++ c = a ++ b ++ c.
Proof. induction a as [|x a IH]; simpl; [reflexivity | now rewrite IH]. Qed.

Lemma substr_from_app (p s : string) :
  WString.substr_from (String.length p) (p ++ s) = s.
Proof.
  unfold WString.substr_from. induction p as [|c p IH]; simpl.
  - rewrite Nat.sub_0_r. apply substring_all.
  - exact IH.
Qed.

Lemma size_app (p s : string) :
  WString.size (p ++ s) = (WString.size p + WString.size s)%nat.
Proof. unfold WString.size. induction p; simpl; congruence. Qed.

Lemma map_size f s : WString.size (WString.map f s) = WString.size s.
Proof. unfold WString.size. induction s; simpl; congruence. Qed.

Lemma map_app f s t : WString.map f (s ++ t) = WString.map f s ++ WString.map f t.
Proof. induction s; simpl; congruence. Qed.

Lemma size_substr (n : nat) (s : string) :
  WString.size (WString.substr 0 n s) = Nat.min n (WString.size s).
Proof.
  unfold WString.size, WString.substr. revert s.
  induction n as [|n IH]; intros [|c s]; simpl; auto.
Qed.

Lemma empty_size (s : string) : WString.empty s = (WString.size s =? 0)%nat.
Proof. destruct s; reflexivity. Qed.

(** The test of [HasFeature] after the comparison for equality is a test
    for the prefix [feature ++ " "]. *)
Lemma prefix_with_space (f l : string) :
  ((WString.size f <? WString.size l)%nat
   && String.eqb (WString.substr 0 (WString.size f) l) f
   && bool_decide (WString.at_ (WString.size f) l = Some " "%char))
  = String.prefix (f ++ " ") l.
Proof.
  unfold WString.size, WString.substr, WString.at_.
  revert l. induction f as [|a f IH]; intros [|c l]; cbn -[ascii_dec]; try reflexivity.
  - destruct (ascii_dec " " c) as [<-|Hne].
    + rewrite bool_decide_eq_true_2 by reflexivity. now destruct l.
    + rewrite bool_decide_eq_false_2; [reflexivity | congruence].
  - rewrite <- IH.
    destruct (ascii_dec a c) as [<-|Hne].
    + rewrite Ascii.eqb_refl. reflexivity.
    + destruct (Ascii.eqb_spec c a) as [->|_]; [congruence|].
      now rewrite andb_false_r.
Qed.

Lemma HasFeature_spec (line feature : string) :
  HasFeature line feature
  = String.eqb line feature || String.prefix (feature ++ " ") line.
Proof.
  unfold HasFeature. rewrite prefix_with_space.
  destruct (String.eqb line feature); reflexivity.
Qed.

(** [GetReplyCode] computes the first digit of the response. *)
Lemma GetReplyCode_first_digit (s : CFtpControlSocket) :
  GetReplyCode s = first_digit (m_Response s).
Proof.
  unfold GetReplyCode, first_digit, WString.at_.
  destruct (m_Response s) as [|c r]; [reflexivity|].
  cbn [String.get].
  destruct c as [[] [] [] [] [] [] [] []]; reflexivity.
Qed.

(** ** FEAT lines *)

Lemma toupper_keyword_size (kw K : string) :
  WString.str_toupper_ascii kw = K -> WString.size kw = WString.size K.
Proof. intros <-. unfold WString.str_toupper_ascii. now rewrite map_size. Qed.

Lemma substr_from_keyword (kw facts : string) :
  WString.size kw = 4%nat ->
  WString.substr_from 5 (kw ++ " " ++ facts) = facts.
Proof.
  intros Hlen. rewrite <- append_assoc.
  replace 5%nat with (String.length (kw ++ " ")).
  - apply substr_from_app.
  - change (WString.size (kw ++ " ") = 5%nat). rewrite size_app, Hlen. reflexivity.
Qed.

Lemma size_keyword_line (kw facts : string) :
  WString.size kw = 4%nat -> facts <> "" ->
  (5 <? WString.size (kw ++ " " ++ facts))%nat = true.
Proof.
  intros Hlen Hfacts. rewrite !size_app, Hlen.
  destruct facts; [congruence | reflexivity].
Qed.

Lemma with_facts_mlsd facts s :
  GetCapability_option mlsd_command "" (with_facts facts s) = (yes, facts).
Proof.
  unfold GetCapability_option, with_facts. cbn [capabilities_ set_capabilities_].
  rewrite lookup_insert_ne by discriminate. now rewrite lookup_insert_eq.
Qed.

Lemma with_facts_timezone facts s :
  GetCapability timezone_offset (with_facts facts s) = no.
Proof.
  unfold GetCapability, with_facts. cbn [capabilities_ set_capabilities_].
  now rewrite lookup_insert_eq.
Qed.

Lemma ParseFeat_MLST_run (s : CFtpControlSocket) (line kw facts : string) :
  WString.trim line = kw ++ " " ++ facts ->
  WString.str_toupper_ascii kw = "MLST" ->
  facts <> "" ->
  ParseFeat line s = ([], Some (tt, with_facts facts s)).
Proof.
  intros Htrim Hkw Hfacts.
  pose proof (toupper_keyword_size _ _ Hkw) as Hlen. change (WString.size "MLST") with 4%nat in Hlen.
  unfold ParseFeat. rewrite Htrim.
  unfold WString.str_toupper_ascii in *. rewrite map_app, Hkw.
  set (X := WString.map WString.toupper_ascii (" " ++ facts)).
  assert (HX : exists Y, X = String " " Y) by (eexists; reflexivity).
  destruct HX as [Y ->].
  rewrite !HasFeature_spec.
  change (String.eqb ("MLST" ++ String " " Y) "UTF8"
          || String.prefix ("UTF8" ++ " ") ("MLST" ++ String " " Y)) with false.
  change (String.eqb ("MLST" ++ String " " Y) "CLNT"
          || String.prefix ("CLNT" ++ " ") ("MLST" ++ String " " Y)) with false.
  change (String.eqb ("MLST" ++ String " " Y) "MLSD"
          || String.prefix ("MLSD" ++ " ") ("MLST" ++ String " " Y)) with false.
  replace (String.eqb ("MLST" ++ String " " Y) "MLST"
           || String.prefix ("MLST" ++ " ") ("MLST" ++ String " " Y)) with true
    by (destruct Y; reflexivity).
  cbv iota.
  rewrite size_keyword_line, substr_from_keyword by assumption.
  destruct facts as [|f facts]; [congruence|].
  reflexivity.
Qed.

Lemma ParseFeat_MLSD_run (s : CFtpControlSocket) (line kw facts : string) :
  WString.trim line = kw ++ " " ++ facts ->
  WString.str_toupper_ascii kw = "MLSD" ->
  facts <> "" ->
  ParseFeat line s =
    ([], Some (tt, with_facts
                     (if WString.empty (GetCapability_option mlsd_command "" s).2
                      then facts else (GetCapability_option mlsd_command "" s).2) s)).
Proof.
  intros Htrim Hkw Hfacts.
  pose proof (toupper_keyword_size _ _ Hkw) as Hlen. change (WString.size "MLSD") with 4%nat in Hlen.
  unfold ParseFeat. rewrite Htrim.
  unfold WString.str_toupper_ascii in *. rewrite map_app, Hkw.
  set (X := WString.map WString.toupper_ascii (" " ++ facts)).
  assert (HX : exists Y, X = String " " Y) by (eexists; reflexivity).
  destruct HX as [Y ->].
  rewrite !HasFeature_spec.
  change (String.eqb ("MLSD" ++ String " " Y) "UTF8"
          || String.prefix ("UTF8" ++ " ") ("MLSD" ++ String " " Y)) with false.
  change (String.eqb ("MLSD" ++ String " " Y) "CLNT"
          || String.prefix ("CLNT" ++ " ") ("MLSD" ++ String " " Y)) with false.
  replace (String.eqb ("MLSD" ++ String " " Y) "MLSD"
           || String.prefix ("MLSD" ++ " ") ("MLSD" ++ String " " Y)) with true
    by (destruct Y; reflexivity).
  cbv iota.
  rewrite size_keyword_line, substr_from_keyword by assumption.
  unfold mbind, M_bind, gets, SetCapability, modify, with_facts.
  unfold GetCapability_option.
  destruct (capabilities_ s !! mlsd_command) as [[[] o]|]; cbn;
    destruct facts; first [congruence | reflexivity].
Qed.

(** C8.  FEAT keywords are matched on the upper-cased line, either as the
    whole line or followed by a space.  For a line that reads, once trimmed,
    [kw facts] with [kw] any casing of MLST and [facts] not empty, [ParseFeat]
    sets [mlsd_command] to [yes] with the parameter [facts] as received, and
    [timezone_offset] to [no]; with [kw] any casing of MLSD it does the same,
    except that facts recorded before are kept.  After the two lines of the
    scenario, from any socket, [mlsd_command] is [yes] with the parameter
    [type*;size*;modify*;] and [timezone_offset] is [no]. *)
Theorem ParseFeat_MLSD_MLST (s : CFtpControlSocket) (line kw facts : string) :
  WString.trim line = kw ++ " " ++ facts ->
  WString.str_toupper_ascii kw = "MLST" \/ WString.str_toupper_ascii kw = "MLSD" ->
  facts <> "" ->
  (forall l feature : string,
     HasFeature (WString.str_toupper_ascii l) feature
     = String.eqb (WString.str_toupper_ascii l) feature
       || String.prefix (feature ++ " ") (WString.str_toupper_ascii l))
  /\ (exists s',
        ParseFeat line s = ([], Some (tt, s'))
        /\ GetCapability timezone_offset s' = no
        /\ GetCapability_option mlsd_command "" s'
           = (yes, if String.eqb (WString.str_toupper_ascii kw) "MLSD"
                      && negb (WString.empty (GetCapability_option mlsd_command "" s).2)
                   then (GetCapability_option mlsd_command "" s).2
                   else facts))
  /\ (exists s',
        (ParseFeat " MLSD type*;size*;modify*;";; ParseFeat " MLST type*;size*;modify*;") s
        = ([], Some (tt, s'))
        /\ GetCapability_option mlsd_command "" s' = (yes, "type*;size*;modify*;")
        /\ GetCapability timezone_offset s' = no).
Proof.
  intros Htrim Hkw Hfacts. split; [|split].
  - intros l feature. apply HasFeature_spec.
  - destruct Hkw as [Hkw|Hkw].
    + eexists. split; [exact (ParseFeat_MLST_run s line kw facts Htrim Hkw Hfacts)|].
      split; [apply with_facts_timezone|]. rewrite with_facts_mlsd, Hkw. reflexivity.
    + eexists. split; [exact (ParseFeat_MLSD_run s line kw facts Htrim Hkw Hfacts)|].
      split; [apply with_facts_timezone|]. rewrite with_facts_mlsd, Hkw.
      cbn [String.eqb Ascii.eqb Bool.eqb andb].
      now destruct (WString.empty (GetCapability_option mlsd_command "" s).2).
  - eexists. split.
    + erewrite run_bind
        by (apply (ParseFeat_MLSD_run s _ "MLSD" "type*;size*;modify*;");
            [reflexivity | reflexivity | discriminate]).
      rewrite (ParseFeat_MLST_run _ _ "MLST" "type*;size*;modify*;");
        [reflexivity | reflexivity | reflexivity | discriminate].
    + split; [apply with_facts_mlsd | apply with_facts_timezone].
Qed.

(** ** The effects of the dispatcher *)

Section Effects.

Variable env : Environment.
Variable ext : Collaborators.

Lemma StartKeepaliveTimer_effects :
  emits (fun e => is_local_reset_effect e = true) (StartKeepaliveTimer env).
Proof. unfold StartKeepaliveTimer. repeat emits_step; reflexivity. Qed.

Lemma get_pOldData_effects E : emits E get_pOldData.
Proof. unfold get_pOldData. repeat emits_step. Qed.

Lemma set_pOldData_effects E t : emits E (set_pOldData t).
Proof. unfold set_pOldData. repeat emits_step. Qed.

Lemma ResetOperation_local_effects (c : Z) :
  emits (fun e => is_local_reset_effect e = true) (ResetOperation_local env c).
Proof.
  unfold ResetOperation_local, ResetOperation_finish, ResetOperation_transfer,
    ResetOperation_rawtransfer.
  repeat first [ apply get_pOldData_effects | apply set_pOldData_effects
               | apply StartKeepaliveTimer_effects | emits_step ];
    reflexivity.
Qed.

Lemma ResetOperation_effects (c : Z) :
  emits (fun e => is_reset_effect e = true) (ResetOperation env ext c).
Proof.
  unfold ResetOperation. apply emits_bind.
  - eapply emits_impl; [|apply ResetOperation_local_effects].
    intros e He. unfold is_reset_effect. now rewrite He.
  - intros c1. apply emits_call. reflexivity.
Qed.

Lemma ResetOperation_send_next_effects (c : Z) :
  emits (fun e => is_send_next_effect e = true) (ResetOperation env ext c).
Proof.
  eapply emits_impl; [|apply ResetOperation_effects].
  intros e He. unfold is_send_next_effect. now rewrite He.
Qed.

Lemma SendNextCommand_loop_effects (fuel : nat) :
  emits (fun e => is_send_next_effect e = true) (SendNextCommand_loop env ext fuel).
Proof.
  induction fuel as [|fuel IH]; cbn [SendNextCommand_loop].
  - apply emits_stuck.
  - repeat first [ apply ResetOperation_send_next_effects | exact IH | emits_step ];
      reflexivity.
Qed.

Lemma SendNextCommand_effects (fuel : nat) :
  emits (fun e => is_send_next_effect e = true) (SendNextCommand env ext fuel).
Proof.
  unfold SendNextCommand.
  repeat first [ apply ResetOperation_send_next_effects
               | apply SendNextCommand_loop_effects | emits_step ];
    reflexivity.
Qed.

Lemma ParseResponse_skipped_effects (fuel : nat) :
  emits (fun e => is_send_next_effect e = true) (ParseResponse_skipped env ext fuel).
Proof.
  unfold ParseResponse_skipped.
  repeat first [ apply SendNextCommand_effects
               | (eapply emits_impl; [|apply StartKeepaliveTimer_effects];
                  intros e He; unfold is_send_next_effect, is_reset_effect; now rewrite He)
               | emits_step ];
    reflexivity.
Qed.

Lemma ParseResponse_dispatch_effects (fuel : nat) :
  emits (fun e => is_send_next_effect e = true \/ e = Call_op_ParseResponse)
        (ParseResponse_dispatch env ext fuel).
Proof.
  unfold ParseResponse_dispatch.
  repeat first [ (eapply emits_impl; [|apply SendNextCommand_effects]; intros e He; now left)
               | (eapply emits_impl; [|apply ResetOperation_send_next_effects]; intros e He; now left)
               | emits_step ];
    try (left; reflexivity); try (right; reflexivity).
Qed.

(** The trace of [ParseResponse] begins with the mark of the call; nothing
    else in it is such a mark. *)
Lemma ParseResponse_trace (fuel : nat) (s : CFtpControlSocket) :
  exists t,
    trace_of (ParseResponse env ext fuel s) = Call_ParseResponse (m_Response s) :: t
    /\ Forall (fun e => is_send_next_effect e = true \/ e = Call_op_ParseResponse) t.
Proof.
  set (E := fun e => is_send_next_effect e = true \/ e = Call_op_ParseResponse).
  assert (Hrest : forall r, emits E
    (if WString.empty r then
       emit (LogMessage MsgDebug_Warning "No reply in ParseResponse")
     else
       pending ← gets m_pendingReplies;
       if not_preliminary r && negb (0 <? pending) then
         emit (LogMessage MsgDebug_Warning "Unexpected reply, no reply was pending.")
       else
         when (not_preliminary r) (modify (set_m_pendingReplies (pending - 1)));;
         skip ← gets m_repliesToSkip;
         if negb (skip =? 0) then
           emit (LogMessage MsgDebug_Info "Skipping reply after cancelled operation or keepalive command.");;
           when (not_preliminary r) (modify (set_m_repliesToSkip (skip - 1)));;
           ParseResponse_skipped env ext fuel
         else ParseResponse_dispatch env ext fuel)).
  { intros r. subst E.
    repeat first [ apply ParseResponse_dispatch_effects
                 | (eapply emits_impl; [|apply ParseResponse_skipped_effects]; intros e He; now left)
                 | emits_step ];
      left; reflexivity. }
  specialize (Hrest (m_Response s) s).
  unfold ParseResponse, trace_of, mbind, M_bind, gets, emit in *. cbn in *.
  destruct (_ s) as [t r] in Hrest |- *. cbn in *.
  destruct r as [[[] s']|]; eexists; (split; [reflexivity | exact Hrest]).
Qed.

End Effects.

(** ** The reply reader *)

Lemma ParseFeat_run (line : string) (s : CFtpControlSocket) :
  exists caps, ParseFeat line s = ([], Some (tt, set_capabilities_ caps s)).
Proof.
  unfold ParseFeat, SetCapability, modify, mbind, M_bind, gets, mret, M_ret.
  repeat match goal with
         | |- context [if ?b then _ else _] => destruct b
         end; cbn; eauto.
  exists (capabilities_ s). now destruct s.
Qed.

Section Reader.

Variable env : Environment.
Variable ext : Collaborators.

(** Unless it closes the connection on the banner of an SSH server, the
    first part of [ParseLine] leaves the reader alone. *)
Lemma ParseLine_prologue_run (line : string) (s : CFtpControlSocket) :
  awaits_first_welcome_line s && ssh_banner line = false ->
  exists s',
    ParseLine_prologue ext line s = (line_received line, Some (true, s'))
    /\ same_reader s s'
    /\ awaits_first_welcome_line s' = false.
Proof.
  unfold awaits_first_welcome_line, ssh_banner, ParseLine_prologue, line_received, same_reader.
  intros H.
  destruct (m_pCurOpData s) as [|[d|d|d|d|d|w t|id w] rest] eqn:Hst;
    try (exists s; monad_unfold; cbn; rewrite Hst; cbn; rewrite ?Hst;
         repeat split; reflexivity).
  unfold ParseLine_logon.
  destruct (waitChallenge d) eqn:Hw; cbn in H.
  { monad_unfold; cbn; rewrite Hst; cbn; rewrite Hw; cbn.
    eexists. split; [reflexivity|]. cbn. rewrite ?Hw. repeat split; reflexivity. }
  destruct (bool_decide (lo_opState d = LOGON_FEAT)) eqn:Hfeat.
  { destruct (ParseFeat_run line s) as [caps Hrun].
    monad_unfold; cbn; rewrite Hst; cbn; rewrite Hw, Hfeat; cbn.
    rewrite Hrun. cbn.
    eexists. split; [reflexivity|]. cbn. rewrite ?Hst, ?Hw. cbn.
    apply bool_decide_eq_true_1 in Hfeat. rewrite Hfeat. cbn.
    repeat split; reflexivity. }
  destruct (bool_decide (lo_opState d = LOGON_WELCOME)) eqn:Hwel; cbn in H.
  2:{ exists s. monad_unfold; cbn; rewrite Hst; cbn; rewrite Hw, Hfeat, Hwel; cbn.
      rewrite ?Hst, ?Hw, ?Hwel. cbn. repeat split; reflexivity. }
  destruct (gotFirstWelcomeLine d) eqn:Hgot; cbn in H.
  { exists s. monad_unfold; cbn; rewrite Hst; cbn; rewrite Hw, Hfeat, Hwel, Hgot; cbn.
    rewrite ?Hst, ?Hw, ?Hwel, ?Hgot. cbn. repeat split; reflexivity. }
  monad_unfold; cbn; rewrite Hst; cbn; rewrite Hw, Hfeat, Hwel, Hgot; cbn. rewrite H. cbn.
  eexists. split; [reflexivity|]. cbn. rewrite ?Hw. cbn. rewrite ?andb_false_r.
  repeat split; reflexivity.
Qed.

(** [ParseLine] is its second part run after the first. *)
Lemma ParseLine_run (fuel : nat) (line : string) (s s' : CFtpControlSocket) :
  ParseLine_prologue ext line s = (line_received line, Some (true, s')) ->
  ParseLine env ext fuel line s
  = ((line_received line ++ (ParseLine_reply env ext fuel line s').1)%list,
     (ParseLine_reply env ext fuel line s').2).
Proof. intros H. unfold ParseLine. now rewrite (run_bind _ _ _ _ _ _ H). Qed.

(** A line of at most three characters: nothing happens. *)
Lemma ParseLine_reply_short (fuel : nat) (line : string) (s : CFtpControlSocket) :
  (WString.size line <= 3)%nat ->
  ParseLine_reply env ext fuel line s = ([], Some (tt, s)).
Proof.
  intros H. unfold ParseLine_reply.
  destruct (Nat.ltb_spec 3 (WString.size line)); [lia | reflexivity].
Qed.

(** A longer line while a multi-line reply is open, not its last line:
    the line is buffered. *)
Lemma ParseLine_reply_buffer (fuel : nat) (line : string) (s : CFtpControlSocket) :
  (3 < WString.size line)%nat ->
  m_MultilineResponseCode s <> "" ->
  WString.substr 0 4 line <> m_MultilineResponseCode s ->
  ParseLine_reply env ext fuel line s
  = ([], Some (tt, set_m_MultilineResponseLines (m_MultilineResponseLines s ++ [line])%list s)).
Proof.
  intros Hlen Hopen Hne. unfold ParseLine_reply.
  destruct (Nat.ltb_spec 3 (WString.size line)); [|lia].
  run. destruct (m_MultilineResponseCode s) eqn:Hcode; [congruence|]. cbn [WString.empty negb].
  destruct (String.eqb_spec (WString.substr 0 4 line) (String a s0)); [congruence|].
  reflexivity.
Qed.

(** A longer line with '-' as its fourth character while no multi-line
    reply is open: the reply is opened. *)
Lemma ParseLine_reply_open (fuel : nat) (line : string) (s : CFtpControlSocket) :
  (3 < WString.size line)%nat ->
  m_MultilineResponseCode s = "" ->
  WString.at_ 3 line = Some "-"%char ->
  ParseLine_reply env ext fuel line s
  = ([], Some (tt, set_m_MultilineResponseLines (m_MultilineResponseLines s ++ [line])%list
                     (set_m_MultilineResponseCode (WString.substr 0 3 line ++ " ") s))).
Proof.
  intros Hlen Hclosed Hdash. unfold ParseLine_reply.
  destruct (Nat.ltb_spec 3 (WString.size line)); [|lia].
  run. rewrite Hclosed. cbn [WString.empty negb]. rewrite bool_decide_eq_true_2 by assumption.
  run. reflexivity.
Qed.

(** The last line of a multi-line reply. *)
Lemma ParseLine_reply_close (fuel : nat) (line : string) (s : CFtpControlSocket) :
  (3 < WString.size line)%nat ->
  m_MultilineResponseCode s <> "" ->
  WString.substr 0 4 line = m_MultilineResponseCode s ->
  ParseLine_reply env ext fuel line s = parse_as_response env ext fuel true line s.
Proof.
  intros Hlen Hopen Heq. unfold ParseLine_reply, parse_as_response.
  destruct (Nat.ltb_spec 3 (WString.size line)); [|lia].
  run. destruct (m_MultilineResponseCode s) eqn:Hcode; [congruence|]. cbn [WString.empty negb].
  rewrite Heq, String.eqb_refl. run. reflexivity.
Qed.

(** A longer line while no multi-line reply is open, its fourth character
    not '-': a single-line reply. *)
Lemma ParseLine_reply_single (fuel : nat) (line : string) (s : CFtpControlSocket) :
  (3 < WString.size line)%nat ->
  m_MultilineResponseCode s = "" ->
  WString.at_ 3 line <> Some "-"%char ->
  ParseLine_reply env ext fuel line s = parse_as_response env ext fuel false line s.
Proof.
  intros Hlen Hclosed Hdash. unfold ParseLine_reply, parse_as_response.
  destruct (Nat.ltb_spec 3 (WString.size line)); [|lia].
  run. rewrite Hclosed. cbn [WString.empty negb]. rewrite bool_decide_eq_false_2 by assumption.
  run. reflexivity.
Qed.

(** The trace of a line parsed as a response: one mark of [ParseResponse],
    with the line as the response. *)
Lemma parse_as_response_trace (fuel : nat) (multiline : bool) (line : string)
    (s : CFtpControlSocket) :
  exists t,
    trace_of (parse_as_response env ext fuel multiline line s) = Call_ParseResponse line :: t
    /\ Forall (fun e => forall r, e <> Call_ParseResponse r) t.
Proof.
  set (s1 := set_m_Response line
               (if multiline then set_m_MultilineResponseCode "" s else s)).
  destruct (ParseResponse_trace env ext fuel s1) as (t & Ht & Hall).
  exists t. split.
  - unfold parse_as_response. destruct multiline; run; fold s1;
      unfold trace_of, mbind, M_bind, modify in *;
      destruct (ParseResponse env ext fuel s1) as [t1 [[[] s2]|]]; cbn in *;
      rewrite ?app_nil_r; exact Ht.
  - eapply Forall_impl; [exact Hall|]. intros e [He| ->] r; [|discriminate].
    intros ->. discriminate He.
Qed.

(** After a line parsed as a response has been dealt with, the response
    is cleared, and so is the buffer of a multi-line reply. *)
Lemma parse_as_response_clears (fuel : nat) (multiline : bool) (line : string)
    (s s' : CFtpControlSocket) :
  socket_of (parse_as_response env ext fuel multiline line s) = Some s' ->
  m_Response s' = "" /\ (multiline = true -> m_MultilineResponseLines s' = []).
Proof.
  unfold parse_as_response.
  destruct multiline; run; unfold socket_of, mbind, M_bind, modify;
    match goal with |- context [ParseResponse env ext fuel ?x] =>
      destruct (ParseResponse env ext fuel x) as [t1 [[[] s2]|]] end; cbn;
    intros H; inversion H; subst; cbn; split; try reflexivity; discriminate.
Qed.

End Reader.

Section ReaderProperties.

Variable env : Environment.
Variable ext : Collaborators.

(** A line that is neither the first nor the last line of the open
    multi-line reply: it is logged; it joins the buffer if it is longer
    than three characters and is ignored otherwise. *)
Lemma ParseLine_inside (fuel : nat) (line : string) (s : CFtpControlSocket) :
  awaits_first_welcome_line s = false ->
  m_MultilineResponseCode s <> "" ->
  WString.substr 0 4 line <> m_MultilineResponseCode s ->
  exists s',
    ParseLine env ext fuel line s = (line_received line, Some (tt, s'))
    /\ m_MultilineResponseCode s' = m_MultilineResponseCode s
    /\ m_MultilineResponseLines s'
       = (m_MultilineResponseLines s
          ++ if (3 <? WString.size line)%nat then [line] else [])%list
    /\ currentServer_ s' = currentServer_ s
    /\ awaits_first_welcome_line s' = false.
Proof.
  intros Hw Hopen Hne.
  destruct (ParseLine_prologue_run ext line s) as (s1 & Hpro & Hsame & Hw1).
  { now rewrite Hw. }
  destruct Hsame as (_ & Hcode & Hlines & _ & _ & Hsrv).
  rewrite (ParseLine_run env ext fuel line s s1 Hpro).
  destruct (Nat.ltb_spec 3 (WString.size line)) as [Hlong|Hshort].
  - rewrite ParseLine_reply_buffer by (rewrite ?Hcode; assumption).
    eexists. split; [cbn; rewrite ?app_nil_r; reflexivity|].
    cbn. rewrite Hlines. repeat split; assumption.
  - rewrite ParseLine_reply_short by assumption.
    exists s1. split; [cbn; rewrite ?app_nil_r; reflexivity|].
    rewrite Hlines, app_nil_r. repeat split; assumption.
Qed.

Lemma ParseLines_inside (fuel : nat) (mid : list string) (s : CFtpControlSocket) :
  awaits_first_welcome_line s = false ->
  server_valid (currentServer_ s) = true ->
  m_MultilineResponseCode s <> "" ->
  Forall (fun l => WString.substr 0 4 l <> m_MultilineResponseCode s) mid ->
  exists s',
    ParseLines env ext fuel mid s = (flat_map line_received mid, Some (tt, s'))
    /\ m_MultilineResponseCode s' = m_MultilineResponseCode s
    /\ m_MultilineResponseLines s'
       = (m_MultilineResponseLines s
          ++ List.filter (fun l => (3 <? WString.size l)%nat) mid)%list
    /\ currentServer_ s' = currentServer_ s
    /\ awaits_first_welcome_line s' = false.
Proof.
  revert s. induction mid as [|l mid IH]; intros s Hw Hsrv Hopen Hall.
  - exists s. cbn. rewrite app_nil_r. repeat split; assumption.
  - inversion Hall as [|? ? Hl Hmid]; subst.
    destruct (ParseLine_inside fuel l s Hw Hopen Hl) as (s1 & Hrun & Hcode & Hlines & Hsrv1 & Hw1).
    destruct (IH s1) as (s2 & Hrun2 & Hcode2 & Hlines2 & Hsrv2 & Hw2).
    { exact Hw1. } { now rewrite Hsrv1. } { now rewrite Hcode. } { now rewrite Hcode. }
    exists s2. split.
    + cbn [ParseLines flat_map]. rewrite (run_bind _ _ _ _ _ _ Hrun).
      run. rewrite Hsrv1, Hsrv. rewrite Hrun2. reflexivity.
    + rewrite Hcode2, Hcode, Hlines2, Hlines, Hsrv2, Hsrv1.
      repeat split; try assumption.
      rewrite <- app_assoc. f_equal.
      cbn [List.filter].
      destruct (3 <? WString.size l)%nat; reflexivity.
Qed.

Lemma closing_line_long (l0 c : string) :
  (3 < WString.size l0)%nat ->
  WString.substr 0 4 c = WString.substr 0 3 l0 ++ " " ->
  (3 < WString.size c)%nat /\ WString.substr 0 3 l0 ++ " " <> "".
Proof.
  intros Hlen Heq.
  assert (Hsize : WString.size (WString.substr 0 3 l0 ++ " ") = 4%nat).
  { rewrite size_app, size_substr. change (WString.size " ") with 1%nat. lia. }
  split.
  - pose proof (size_substr 4 c) as H. rewrite Heq, Hsize in H. lia.
  - intros E. rewrite E in Hsize. discriminate Hsize.
Qed.

End ReaderProperties.

(** ** Multi-line replies and short lines *)

(** C2, as amended.  A line longer than three characters whose fourth
    character is '-', received while no multi-line reply is open (and not
    rejected as the banner of an SSH server), opens a reply.  While the
    following lines do not begin with the same three characters and a
    space, none of them is handed to [ParseResponse]; each is logged, joins
    the buffer if it is longer than three characters and is ignored
    otherwise.  The first line that begins with these four characters
    closes the reply: it alone becomes the response, [ParseResponse] is
    entered once with it, its reply code is its first digit or 0, and
    afterwards the response and the buffer are empty. *)
Theorem multiline_reply_closure (env : Environment) (ext : Collaborators) (fuel : nat)
    (s : CFtpControlSocket) (l0 : string) (mid : list string) (c : string) :
  m_MultilineResponseCode s = "" ->
  server_valid (currentServer_ s) = true ->
  awaits_first_welcome_line s && ssh_banner l0 = false ->
  (3 < WString.size l0)%nat ->
  WString.at_ 3 l0 = Some "-"%char ->
  Forall (fun l => WString.substr 0 4 l <> WString.substr 0 3 l0 ++ " ") mid ->
  WString.substr 0 4 c = WString.substr 0 3 l0 ++ " " ->
  exists s1 s2 t,
    ParseLines env ext fuel (l0 :: mid) s
    = (flat_map line_received (l0 :: mid), Some (tt, s1))
    /\ m_MultilineResponseCode s1 = WString.substr 0 3 l0 ++ " "
    /\ m_MultilineResponseLines s1
       = (m_MultilineResponseLines s
          ++ l0 :: List.filter (fun l => (3 <? WString.size l)%nat) mid)%list
    /\ same_reader s1 s2
    /\ ParseLine env ext fuel c s1
       = ((line_received c ++ (parse_as_response env ext fuel true c s2).1)%list,
          (parse_as_response env ext fuel true c s2).2)
    /\ trace_of (ParseLine env ext fuel c s1)
       = (line_received c ++ Call_ParseResponse c :: t)%list
    /\ Forall (fun e => forall r, e <> Call_ParseResponse r) t
    /\ GetReplyCode (set_m_Response c (set_m_MultilineResponseCode "" s2)) = first_digit c
    /\ (forall s3, socket_of (ParseLine env ext fuel c s1) = Some s3 ->
        m_Response s3 = "" /\ m_MultilineResponseLines s3 = []).
Proof.
  intros Hclosed Hsrv Hssh Hlen Hdash Hmid Hc.
  destruct (closing_line_long l0 c Hlen Hc) as [Hclen Hcode_ne].
  (* the opening line *)
  destruct (ParseLine_prologue_run ext l0 s Hssh) as (sa & Hpro & Hsame & Hwa).
  destruct Hsame as (_ & Hcode_a & Hlines_a & _ & _ & Hsrv_a).
  pose proof (ParseLine_run env ext fuel l0 s sa Hpro) as Hopen.
  rewrite ParseLine_reply_open in Hopen by (rewrite ?Hcode_a; assumption).
  cbn [fst snd] in Hopen.
  set (sb := set_m_MultilineResponseLines (m_MultilineResponseLines sa ++ [l0])%list
               (set_m_MultilineResponseCode (WString.substr 0 3 l0 ++ " ") sa)) in *.
  (* the lines in between *)
  destruct (ParseLines_inside env ext fuel mid sb) as (s1 & Hrun1 & Hcode1 & Hlines1 & Hsrv1 & Hw1).
  { exact Hwa. } { cbn. now rewrite Hsrv_a. } { exact Hcode_ne. } { exact Hmid. }
  (* the closing line *)
  destruct (ParseLine_prologue_run ext c s1) as (s2 & Hpro2 & Hsame2 & Hw2).
  { now rewrite Hw1. }
  pose proof (ParseLine_run env ext fuel c s1 s2 Hpro2) as Hclose.
  assert (Hcode2 : m_MultilineResponseCode s2 = WString.substr 0 3 l0 ++ " ").
  { destruct Hsame2 as (_ & -> & _). exact Hcode1. }
  rewrite ParseLine_reply_close in Hclose by (rewrite ?Hcode2; assumption).
  destruct (parse_as_response_trace env ext fuel true c s2) as (t & Ht & Hall).
  exists s1, s2, t.
  split; [|split; [|split; [|split; [|split; [|split; [|split; [|split]]]]]]].
  - cbn [ParseLines flat_map]. rewrite (run_bind _ _ _ _ _ _ Hopen). run.
    change (currentServer_ sb) with (currentServer_ sa). rewrite Hsrv_a, Hsrv, Hrun1.
    cbn [fst snd]. now rewrite app_nil_r.
  - exact Hcode1.
  - rewrite Hlines1. subst sb. cbn. rewrite Hlines_a, <- app_assoc. reflexivity.
  - exact Hsame2.
  - exact Hclose.
  - rewrite Hclose. unfold trace_of in *. cbn [fst]. now rewrite Ht.
  - exact Hall.
  - apply GetReplyCode_first_digit.
  - intros s3 H3. rewrite Hclose in H3.
    destruct (parse_as_response_clears env ext fuel true c s2 s3 H3) as [Hr Hl].
    split; [exact Hr | now apply Hl].
Qed.

Section ReaderBanner.

Variable env : Environment.
Variable ext : Collaborators.

(** The first line of the welcome message begins with "ssh": the
    connection is closed and [ParseLine] returns at once. *)
Lemma ParseLine_ssh_banner (fuel : nat) (line : string) (s : CFtpControlSocket) :
  awaits_first_welcome_line s && ssh_banner line = true ->
  ParseLine env ext fuel line s
  = ((line_received line
      ++ [LogMessage MsgError
            "Cannot establish FTP connection to an SFTP server. Please select proper protocol.";
          Call_DoClose FZ_REPLY_CRITICALERROR])%list,
     Some (tt, (DoClose ext FZ_REPLY_CRITICALERROR s).2)).
Proof.
  intros H. apply andb_true_iff in H. destruct H as [Hwait Hssh].
  unfold awaits_first_welcome_line in Hwait. unfold ssh_banner in Hssh.
  destruct (m_pCurOpData s) as [|[d|d|d|d|d|w t|id w] rest] eqn:Hst; try discriminate.
  apply andb_true_iff in Hwait. destruct Hwait as [Hwait Hgot].
  apply andb_true_iff in Hwait. destruct Hwait as [Hchal Hwel].
  apply negb_true_iff in Hchal, Hgot.
  unfold ParseLine, ParseLine_prologue, ParseLine_logon, line_received.
  run. rewrite Hst. rewrite Hchal, Hwel, Hgot.
  apply bool_decide_eq_true_1 in Hwel.
  rewrite (bool_decide_eq_false_2 (lo_opState d = LOGON_FEAT)) by (rewrite Hwel; discriminate).
  cbn [negb]. rewrite Hssh. run. cbn. reflexivity.
Qed.

End ReaderBanner.


(** ** Reply accounting *)

Section Accounting.

Variable env : Environment.
Variable ext : Collaborators.

(** [ResetOperation], before the base class takes over, leaves the number
    of pending replies alone and sets the number of replies to skip to
    it. *)
Lemma ResetOperation_local_counters (n c : Z) :
  post (pending_is n) (ResetOperation_local env c)
       (fun _ s => m_pendingReplies s = n /\ m_repliesToSkip s = n).
Proof.
  unfold ResetOperation_local, pending_is.
  apply (post_bind _ (fun _ s => m_pendingReplies s = n)); [now apply post_emit|intros _].
  apply (post_bind _ (fun _ s => m_pendingReplies s = n)); [now apply post_modify|intros _].
  apply (post_bind _ (fun _ s => m_pendingReplies s = n)); [now apply post_modify|intros _].
  apply (post_bind _ (fun _ s => m_pendingReplies s = n /\ m_repliesToSkip s = n)).
  { apply post_modify. intros s Hs. cbn. auto. }
  intros _.
  unfold ResetOperation_finish, ResetOperation_transfer, ResetOperation_rawtransfer,
    StartKeepaliveTimer, get_pOldData, set_pOldData.
  repeat keeps_step; cbn; auto.
Qed.

Hypothesis ext_pending : respects same_pending ext.

Lemma ResetOperation_pending (n c : Z) :
  post (pending_is n) (ResetOperation env ext c) (fun _ => pending_is n).
Proof.
  unfold ResetOperation.
  eapply post_bind; [apply ResetOperation_local_counters|].
  intros c1. apply post_call. intros s [Hs _].
  destruct ext_pending as (_ & _ & HR & _). unfold pending_is. now rewrite (HR c1 s).
Qed.

Lemma StartKeepaliveTimer_pending (n : Z) :
  post (pending_is n) (StartKeepaliveTimer env) (fun _ => pending_is n).
Proof. unfold StartKeepaliveTimer, pending_is. repeat keeps_step; cbn; auto. Qed.

Lemma SendNextCommand_loop_pending (n : Z) (fuel : nat) :
  post (pending_is n) (SendNextCommand_loop env ext fuel) (fun _ => pending_is n).
Proof.
  destruct ext_pending as (_ & HS & _ & _ & HD & _).
  induction fuel as [|fuel IH]; cbn [SendNextCommand_loop].
  - apply post_stuck.
  - unfold pending_is in *.
    repeat first [ apply ResetOperation_pending | exact IH | keeps_step ];
      cbn; auto; unfold same_pending in *; congruence.
Qed.

Lemma SendNextCommand_pending (n : Z) (fuel : nat) :
  post (pending_is n) (SendNextCommand env ext fuel) (fun _ => pending_is n).
Proof.
  unfold SendNextCommand.
  repeat first [ apply ResetOperation_pending | apply SendNextCommand_loop_pending
               | keeps_step ]; cbn; auto.
Qed.

Lemma ParseResponse_skipped_pending (n : Z) (fuel : nat) :
  post (pending_is n) (ParseResponse_skipped env ext fuel) (fun _ => pending_is n).
Proof.
  unfold ParseResponse_skipped.
  repeat first [ apply SendNextCommand_pending | apply StartKeepaliveTimer_pending
               | keeps_step ]; cbn; auto.
Qed.

Lemma ParseResponse_dispatch_pending (n : Z) (fuel : nat) :
  post (pending_is n) (ParseResponse_dispatch env ext fuel) (fun _ => pending_is n).
Proof.
  destruct ext_pending as (HP & _ & _ & _ & HD & _).
  unfold ParseResponse_dispatch.
  repeat first [ apply SendNextCommand_pending | apply ResetOperation_pending
               | keeps_step ]; cbn; auto; unfold pending_is, same_pending in *; congruence.
Qed.

(** [SendCommand] adds one pending reply when the command gets onto the
    wire. *)
Lemma SendCommand_pending (n : Z) (str : string) (maskArgs measureRTT : bool) :
  post (pending_is n) (SendCommand env ext str maskArgs measureRTT)
       (fun _ => pending_is (n + if sent_ok env str then 1 else 0)).
Proof.
  unfold SendCommand, sent_ok.
  apply (post_bind _ (fun _ => pending_is n)).
  { destruct (if maskArgs then _ else _); now apply post_emit. }
  intros _. cbv zeta.
  destruct (WString.empty (ConvToServer env str)); cbn [negb andb].
  - apply (post_bind _ (fun _ => pending_is n)); [now apply post_emit|intros _].
    apply (post_bind _ (fun _ => pending_is n)); [apply ResetOperation_pending|intros _].
    apply post_ret. intros s Hs. unfold pending_is in *. lia.
  - apply (post_bind _ (fun _ => pending_is n)); [now apply post_emit|intros _].
    destruct (Send_ok env _).
    + apply (post_bind _ (fun _ => pending_is (n + 1))).
      { apply post_modify. intros s Hs. unfold pending_is in *. cbn. lia. }
      intros _. repeat keeps_step; auto.
    + apply (post_bind _ (fun _ => pending_is (n + 0))).
      { apply post_ret. intros s Hs. unfold pending_is in *. lia. }
      intros _. repeat keeps_step; auto.
Qed.

(** [ParseResponse] takes one pending reply off for a non-1xx reply, if
    there is one to take off. *)
Lemma ParseResponse_pending (fuel : nat) (s : CFtpControlSocket) :
  match snd (ParseResponse env ext fuel s) with
  | Some (_, s') =>
      m_pendingReplies s'
      = if terminal_reply (m_Response s) && (0 <? m_pendingReplies s)
        then m_pendingReplies s - 1 else m_pendingReplies s
  | None => True
  end.
Proof.
  unfold ParseResponse, terminal_reply. run.
  destruct (WString.empty (m_Response s)) eqn:Hempty; cbn [negb andb].
  { reflexivity. }
  run.
  destruct (not_preliminary (m_Response s)) eqn:Hprel; cbn [andb].
  - destruct (0 <? m_pendingReplies s) eqn:Hpos; cbn [negb]; [|reflexivity].
    unfold when. run.
    match goal with |- context [snd (?tail ?s1)] =>
      assert (H : post (pending_is (m_pendingReplies s - 1)) tail
                       (fun _ => pending_is (m_pendingReplies s - 1)))
    end.
    { repeat first [ apply ParseResponse_skipped_pending
                   | apply ParseResponse_dispatch_pending | keeps_step ]; cbn; auto. }
    apply H. reflexivity.
  - unfold when. run.
    match goal with |- context [snd (?tail ?s1)] =>
      assert (H : post (pending_is (m_pendingReplies s)) tail
                       (fun _ => pending_is (m_pendingReplies s)))
    end.
    { repeat first [ apply ParseResponse_skipped_pending
                   | apply ParseResponse_dispatch_pending | keeps_step ]; cbn; auto. }
    apply H. reflexivity.
Qed.

(** The accounting of one event of a trace. *)
Lemma process_pending (fuel : nat) (e : IOEvent) (s : CFtpControlSocket) :
  match snd (process env ext fuel e s) with
  | Some (_, s') =>
      m_pendingReplies s'
      = match e with
        | Sent str _ _ => m_pendingReplies s + if sent_ok env str then 1 else 0
        | Received r =>
            if terminal_reply r && (0 <? m_pendingReplies s)
            then m_pendingReplies s - 1 else m_pendingReplies s
        end
  | None => True
  end.
Proof.
  destruct e as [str maskArgs measureRTT|r]; cbn [process].
  - pose proof (SendCommand_pending (m_pendingReplies s) str maskArgs measureRTT s eq_refl) as H.
    unfold mbind, M_bind, mret, M_ret.
    destruct (SendCommand env ext str maskArgs measureRTT s) as [t [[b s']|]]; cbn in *; auto.
  - run.
    pose proof (ParseResponse_pending fuel (set_m_Response r s)) as H.
    unfold mbind, M_bind, modify.
    destruct (ParseResponse env ext fuel (set_m_Response r s)) as [t [[[] s']|]]; cbn in *; auto.
Qed.

Lemma process_all_pending (fuel : nat) (tr : list IOEvent) (s : CFtpControlSocket) :
  0 <= m_pendingReplies s ->
  match snd (process_all env ext fuel tr s) with
  | Some (_, s') =>
      m_pendingReplies s'
      = m_pendingReplies s + successfully_sent env tr - terminal_replies tr
        + unexpected_replies env (m_pendingReplies s) tr
      /\ 0 <= m_pendingReplies s'
      /\ 0 <= unexpected_replies env (m_pendingReplies s) tr
  | None => True
  end.
Proof.
  revert s. induction tr as [|e tr IH]; intros s Hs.
  - cbn. lia.
  - cbn [process_all].
    pose proof (process_pending fuel e s) as He.
    unfold mbind, M_bind.
    destruct (process env ext fuel e s) as [t [[[] s1]|]]; cbn in He |- *; [|exact I].
    assert (Hs1 : 0 <= m_pendingReplies s1).
    { rewrite He. destruct e as [str ? ?|r].
      - destruct (sent_ok env str); lia.
      - destruct (terminal_reply r); cbn [andb]; [|lia].
        destruct (Z.ltb_spec 0 (m_pendingReplies s)); lia. }
    specialize (IH s1 Hs1).
    destruct (process_all env ext fuel tr s1) as [t' [[[] s2]|]]; cbn in IH |- *; [|exact I].
    rewrite He in IH. clear He Hs1.
    destruct e as [str ? ?|r]; cbn [successfully_sent terminal_replies unexpected_replies].
    + destruct (sent_ok env str); rewrite ?Z.add_0_r in IH; lia.
    + destruct (terminal_reply r); cbn [andb] in *; [|lia].
      destruct (Z.ltb_spec 0 (m_pendingReplies s)); lia.
Qed.

End Accounting.

(** ** Replies to skip *)

(** Evaluates a run by cases on the conditions it meets. *)
Ltac exec :=
  repeat first
    [ progress run
    | progress cbn
    | match goal with
      | H : m_pCurOpData ?s = _ |- context [m_pCurOpData ?s] => rewrite H
      | |- context [(when ?b _ ≫= _) _] => destruct b eqn:?; unfold when
      | |- context [((if ?b then _ else _) ≫= _) _] => destruct b eqn:?
      | |- context [(if ?b then _ else _) _] => destruct b eqn:?
      end ].

Section Returns.

Variable env : Environment.

Lemma StartKeepaliveTimer_returns (s : CFtpControlSocket) :
  exists t s', StartKeepaliveTimer env s = (t, Some (tt, s')).
Proof.
  unfold StartKeepaliveTimer. exec; eauto.
Qed.

(** [ResetOperation], before the base class takes over, returns unless
    [pOldData] dangles. *)
Lemma ResetOperation_local_returns (c : Z) (s : CFtpControlSocket) :
  pOldData_valid s = true ->
  exists t c' s', ResetOperation_local env c s = (t, Some (c', s')).
Proof.
  unfold pOldData_valid. intros Hvalid.
  unfold ResetOperation_local, ResetOperation_finish, ResetOperation_transfer,
    ResetOperation_rawtransfer, StartKeepaliveTimer, get_pOldData, set_pOldData, set_cur.
  generalize (transfer_error_code); intros error_code.
  destruct (m_pCurOpData s) as [|[d|d|d|d|d|w t|id w] rest] eqn:Hst;
    try (exec; eauto; fail).
  destruct rest as [|p rest]; [discriminate|].
  destruct (transfer_base p) as [t0|] eqn:Hbase; [|discriminate].
  exec; rewrite ?Hbase; exec; eauto.
Qed.

End Returns.

Section Skipping.

Variable env : Environment.
Variable ext : Collaborators.

(** [ResetOperation] seeds the number of replies to skip with the number
    of pending replies and hands over to the base class. *)
Lemma ResetOperation_seeds_skip (c : Z) (s : CFtpControlSocket) :
  pOldData_valid s = true ->
  exists t c' s1,
    ResetOperation_local env c s = (t, Some (c', s1))
    /\ m_repliesToSkip s1 = m_pendingReplies s
    /\ m_pendingReplies s1 = m_pendingReplies s
    /\ ResetOperation env ext c s
       = ((t ++ [Call_CControlSocket_ResetOperation c'])%list,
          Some (CControlSocket_ResetOperation ext c' s1)).
Proof.
  intros Hvalid.
  destruct (ResetOperation_local_returns env c s Hvalid) as (t & c' & s1 & Hrun).
  pose proof (ResetOperation_local_counters env (m_pendingReplies s) c s eq_refl) as Hpost.
  rewrite Hrun in Hpost. cbn in Hpost. destruct Hpost as [Hp Hk].
  exists t, c', s1. repeat split; try assumption.
  unfold ResetOperation. rewrite (run_bind _ _ _ _ _ _ Hrun).
  unfold call. cbn. now destruct (CControlSocket_ResetOperation ext c' s1).
Qed.

(** A reply received while replies are to be skipped, and more of them
    after it: it is counted and consumed. *)
Lemma skip_one (fuel : nat) (r : string) (s : CFtpControlSocket) :
  r <> "" ->
  (if not_preliminary r then 1 else 0) < m_repliesToSkip s ->
  m_repliesToSkip s <= m_pendingReplies s ->
  exists s',
    process env ext fuel (Received r) s = (skipped_reply r, Some (tt, s'))
    /\ m_repliesToSkip s' = m_repliesToSkip s - (if not_preliminary r then 1 else 0)
    /\ m_pendingReplies s' = m_pendingReplies s - (if not_preliminary r then 1 else 0).
Proof.
  intros Hr Hk Hp. cbn [process]. unfold ParseResponse, ParseResponse_skipped, skipped_reply.
  run. cbn [m_Response set_m_Response m_pendingReplies m_repliesToSkip].
  destruct r as [|ch r]; [congruence|]. cbn [WString.empty].
  run. cbn [m_Response set_m_Response m_pendingReplies m_repliesToSkip].
  destruct (not_preliminary (String ch r)) eqn:Hprel; cbn [andb].
  - destruct (Z.ltb_spec 0 (m_pendingReplies s)); [|lia]. cbn [negb]. unfold when.
    run. cbn.
    destruct (Z.eqb_spec (m_repliesToSkip s) 0); [lia|]. cbn [negb].
    run. cbn.
    destruct (Z.eqb_spec (m_repliesToSkip s - 1) 0); [lia|].
    run. eexists. split; [reflexivity|]. cbn. lia.
  - unfold when. run. cbn.
    destruct (Z.eqb_spec (m_repliesToSkip s) 0); [lia|]. cbn [negb].
    run. cbn.
    destruct (Z.eqb_spec (m_repliesToSkip s) 0); [lia|].
    run. eexists. split; [reflexivity|]. cbn. lia.
Qed.

Lemma count_terminal_nonneg (rs : list string) : 0 <= count_terminal rs.
Proof. induction rs as [|r rs IH]; cbn; [lia|]. destruct (not_preliminary r); lia. Qed.

Lemma skip_all (fuel : nat) (rs : list string) (s : CFtpControlSocket) :
  Forall (fun r => r <> "") rs ->
  count_terminal rs < m_repliesToSkip s ->
  m_repliesToSkip s <= m_pendingReplies s ->
  exists s',
    process_all env ext fuel (map Received rs) s = (flat_map skipped_reply rs, Some (tt, s'))
    /\ m_repliesToSkip s' = m_repliesToSkip s - count_terminal rs
    /\ m_pendingReplies s' = m_pendingReplies s - count_terminal rs.
Proof.
  revert s. induction rs as [|r rs IH]; intros s Hne Hk Hp.
  - exists s. cbn. repeat split; lia.
  - inversion Hne as [|? ? Hr Hrs]; subst. cbn [count_terminal] in Hk.
    pose proof (count_terminal_nonneg rs) as Hnn.
    destruct (skip_one fuel r s Hr) as (s1 & Hrun & Hk1 & Hp1); [lia | lia |].
    destruct (IH s1 Hrs) as (s2 & Hrun2 & Hk2 & Hp2); [lia | lia |].
    exists s2. split.
    + cbn [map process_all flat_map]. rewrite (run_bind _ _ _ _ _ _ Hrun), Hrun2. reflexivity.
    + cbn [count_terminal]. lia.
Qed.

(** While replies are to be skipped, [ParseResponse] hands nothing to a
    frame. *)
Lemma skip_no_dispatch (fuel : nat) (s : CFtpControlSocket) :
  m_repliesToSkip s <> 0 ->
  Forall (fun e => e <> Call_op_ParseResponse) (trace_of (ParseResponse env ext fuel s)).
Proof.
  intros Hk.
  assert (Hskipped : forall s1,
    Forall (fun e => e <> Call_op_ParseResponse) (ParseResponse_skipped env ext fuel s1).1).
  { intros s1. eapply Forall_impl; [apply (ParseResponse_skipped_effects env ext fuel s1)|].
    intros e He ->. discriminate He. }
  unfold ParseResponse, trace_of. run.
  destruct (WString.empty (m_Response s)).
  { cbn. repeat constructor; discriminate. }
  run. destruct (not_preliminary (m_Response s) && negb (0 <? m_pendingReplies s)).
  { cbn. repeat constructor; discriminate. }
  unfold when. destruct (not_preliminary (m_Response s)); run; cbn;
    (destruct (Z.eqb_spec (m_repliesToSkip s) 0); [congruence|]); cbn [negb]; run; cbn;
    repeat (constructor; [discriminate|]); apply Hskipped.
Qed.

(** While replies are to be skipped, [SendNextCommand] does not call the
    [Send] of the current frame; with a current frame it returns
    FZ_REPLY_WOULDBLOCK and leaves the socket as it is. *)
Lemma SendNextCommand_blocked (fuel : nat) (s : CFtpControlSocket) :
  m_repliesToSkip s <> 0 ->
  Forall (fun e => e <> Call_op_Send) (trace_of (SendNextCommand env ext fuel s))
  /\ (m_pCurOpData s <> [] ->
      result_of (SendNextCommand env ext (S fuel) s) = Some FZ_REPLY_WOULDBLOCK
      /\ socket_of (SendNextCommand env ext (S fuel) s) = Some s).
Proof.
  intros Hk. split.
  - unfold SendNextCommand, trace_of. run.
    destruct (m_pCurOpData s) as [|o rest] eqn:Hst.
    + run. cbn. constructor; [discriminate|]. constructor; [discriminate|].
      assert (H : emits (fun e => e <> Call_op_Send)
                    (ResetOperation env ext FZ_REPLY_ERROR ≫= fun _ => mret FZ_REPLY_ERROR)).
      { apply emits_bind; [|intros; apply emits_ret].
        eapply emits_impl; [|apply ResetOperation_effects]. intros e He ->. discriminate He. }
      apply (H s).
    + cbn. constructor; [discriminate|].
      destruct fuel as [|fuel]; cbn [SendNextCommand_loop]; [constructor|].
      run. rewrite Hst.
      destruct (waitForAsyncRequest o).
      * run. cbn. repeat constructor; discriminate.
      * run. destruct (Z.eqb_spec (m_repliesToSkip s) 0); [congruence|]. cbn [negb].
        run. cbn. repeat constructor; discriminate.
  - intros Hst. unfold SendNextCommand, result_of, socket_of. run.
    destruct (m_pCurOpData s) as [|o rest] eqn:Hst'; [congruence|].
    cbn [SendNextCommand_loop]. run. rewrite Hst'.
    destruct (waitForAsyncRequest o).
    + run. cbn. auto.
    + run. destruct (Z.eqb_spec (m_repliesToSkip s) 0); [congruence|]. cbn [negb].
      run. cbn. auto.
Qed.

End Skipping.


(** ** The claims on the reply reader and the reply accounting *)

Lemma process_received_trace (env : Environment) (ext : Collaborators) (fuel : nat)
    (r : string) (s : CFtpControlSocket) :
  trace_of (process env ext fuel (Received r) s)
  = trace_of (ParseResponse env ext fuel (set_m_Response r s)).
Proof.
  cbn [process]. run. unfold trace_of, mbind, M_bind, modify.
  destruct (ParseResponse env ext fuel (set_m_Response r s)) as [t [[[] s']|]]; cbn;
    now rewrite ?app_nil_r.
Qed.

(** Running a computation whose value is replaced. *)
Lemma bind_ret_run {A B} (m : M A) (b : B) (s : CFtpControlSocket) :
  (m ≫= fun _ => mret b) s
  = ((m s).1, match (m s).2 with Some (_, s') => Some (b, s') | None => None end).
Proof.
  unfold mbind, M_bind, mret, M_ret. destruct (m s) as [t [[a s']|]]; cbn; [|reflexivity].
  now rewrite app_nil_r.
Qed.

(** ** Reply accounting with frames that send commands *)

Lemma successfully_sent_app (env : Environment) (h1 h2 : list IOEvent) :
  successfully_sent env (h1 ++ h2) = successfully_sent env h1 + successfully_sent env h2.
Proof.
  induction h1 as [|[str m r|r] h1 IH]; cbn [app successfully_sent]; [lia| |exact IH].
  rewrite IH. lia.
Qed.

Lemma successfully_sent_nonneg (env : Environment) (h : list IOEvent) :
  0 <= successfully_sent env h.
Proof.
  induction h as [|[str m r|r] h IH]; cbn [successfully_sent]; [lia| |exact IH].
  destruct (sent_ok env str); lia.
Qed.

(** Commands sent, in a history, before the rest of it. *)
Lemma sent_commands_first (env : Environment) (cmds h : list IOEvent) (p : Z) :
  forallb is_Sent cmds = true ->
  terminal_replies (cmds ++ h) = terminal_replies h
  /\ unexpected_replies env p (cmds ++ h)
     = unexpected_replies env (p + successfully_sent env cmds) h.
Proof.
  revert p. induction cmds as [|[str m r|r] cmds IH]; intros p Hall.
  - cbn. now rewrite Z.add_0_r.
  - cbn [forallb is_Sent andb] in Hall. destruct (IH (if sent_ok env str then p + 1 else p) Hall)
      as [H1 H2].
    cbn [app terminal_replies unexpected_replies successfully_sent]. split; [exact H1|].
    rewrite H2. f_equal. destruct (sent_ok env str); lia.
  - discriminate Hall.
Qed.

Section SendingFrames.

Variable env : Environment.
Variable ext : Collaborators.

Lemma sends_commands_refl (s : CFtpControlSocket) : sends_commands env s s.
Proof. exists []. split; [reflexivity | cbn; lia]. Qed.

Lemma sends_commands_same (s0 s s' : CFtpControlSocket) :
  m_pendingReplies s' = m_pendingReplies s ->
  sends_commands env s0 s -> sends_commands env s0 s'.
Proof. intros Heq (cmds & Hall & Hp). exists cmds. split; [exact Hall | lia]. Qed.

Lemma sends_commands_trans (s0 s s' : CFtpControlSocket) :
  sends_commands env s0 s -> sends_commands env s s' -> sends_commands env s0 s'.
Proof.
  intros (c1 & H1 & P1) (c2 & H2 & P2). exists (c1 ++ c2)%list. split.
  - rewrite forallb_app, H1, H2. reflexivity.
  - rewrite successfully_sent_app. lia.
Qed.

Lemma ResetOperation_local_sends (s0 : CFtpControlSocket) (c : Z) :
  post (sends_commands env s0) (ResetOperation_local env c)
       (fun _ => sends_commands env s0).
Proof.
  intros s Hs.
  pose proof (ResetOperation_local_counters env (m_pendingReplies s) c s eq_refl) as H.
  destruct (snd (ResetOperation_local env c s)) as [[c' s']|]; [|exact I].
  destruct H as [Hp _]. now apply (sends_commands_same s0 s).
Qed.

Lemma StartKeepaliveTimer_sends (s0 : CFtpControlSocket) :
  post (sends_commands env s0) (StartKeepaliveTimer env) (fun _ => sends_commands env s0).
Proof.
  intros s Hs.
  pose proof (StartKeepaliveTimer_pending env (m_pendingReplies s) s eq_refl) as H.
  destruct (snd (StartKeepaliveTimer env s)) as [[[] s']|]; [|exact I].
  now apply (sends_commands_same s0 s).
Qed.

Hypothesis ext_sends : respects (sends_commands env) ext.

Lemma ResetOperation_sends (s0 : CFtpControlSocket) (c : Z) :
  post (sends_commands env s0) (ResetOperation env ext c) (fun _ => sends_commands env s0).
Proof.
  unfold ResetOperation.
  eapply post_bind; [apply ResetOperation_local_sends|].
  intros c1. apply post_call. intros s Hs.
  destruct ext_sends as (_ & _ & HR & _). exact (sends_commands_trans _ _ _ Hs (HR c1 s)).
Qed.

(** One step of a proof that the counter is only added to. *)
Ltac sends_step :=
  first [ apply ResetOperation_sends | apply StartKeepaliveTimer_sends | keeps_step ].

Lemma SendNextCommand_loop_sends (s0 : CFtpControlSocket) (fuel : nat) :
  post (sends_commands env s0) (SendNextCommand_loop env ext fuel)
       (fun _ => sends_commands env s0).
Proof.
  destruct ext_sends as (_ & HS & _ & _ & HD & _).
  induction fuel as [|fuel IH]; cbn [SendNextCommand_loop].
  - apply post_stuck.
  - repeat first [ exact IH | sends_step ]; cbn; auto;
      eapply sends_commands_trans; eauto.
Qed.

Lemma SendNextCommand_sends (s0 : CFtpControlSocket) (fuel : nat) :
  post (sends_commands env s0) (SendNextCommand env ext fuel)
       (fun _ => sends_commands env s0).
Proof.
  unfold SendNextCommand.
  repeat first [ apply SendNextCommand_loop_sends | sends_step ]; cbn; auto.
Qed.

Lemma ParseResponse_skipped_sends (s0 : CFtpControlSocket) (fuel : nat) :
  post (sends_commands env s0) (ParseResponse_skipped env ext fuel)
       (fun _ => sends_commands env s0).
Proof.
  unfold ParseResponse_skipped.
  repeat first [ apply SendNextCommand_sends | sends_step ]; cbn; auto.
Qed.

Lemma ParseResponse_dispatch_sends (s0 : CFtpControlSocket) (fuel : nat) :
  post (sends_commands env s0) (ParseResponse_dispatch env ext fuel)
       (fun _ => sends_commands env s0).
Proof.
  destruct ext_sends as (HP & _ & _ & _ & HD & _).
  unfold ParseResponse_dispatch.
  repeat first [ apply SendNextCommand_sends | sends_step ]; cbn; auto;
    eapply sends_commands_trans; eauto.
Qed.

(** [ParseResponse] takes one pending reply off for a non-1xx reply, if
    there is one to take off; what is added afterwards are the commands
    sent by the frames. *)
Lemma ParseResponse_sends (fuel : nat) (s : CFtpControlSocket) :
  match snd (ParseResponse env ext fuel s) with
  | Some (_, s') =>
      exists cmds,
        forallb is_Sent cmds = true
        /\ m_pendingReplies s'
           = (if terminal_reply (m_Response s) && (0 <? m_pendingReplies s)
              then m_pendingReplies s - 1 else m_pendingReplies s)
             + successfully_sent env cmds
  | None => True
  end.
Proof.
  assert (Hnone : exists cmds : list IOEvent,
             forallb is_Sent cmds = true
             /\ m_pendingReplies s = m_pendingReplies s + successfully_sent env cmds)
    by (exists []; split; [reflexivity | cbn; lia]).
  unfold ParseResponse, terminal_reply. run.
  destruct (WString.empty (m_Response s)) eqn:Hempty; cbn [negb andb].
  { exact Hnone. }
  run.
  destruct (not_preliminary (m_Response s)) eqn:Hprel; cbn [andb].
  - destruct (0 <? m_pendingReplies s) eqn:Hpos; cbn [negb]; [|exact Hnone].
    unfold when. run.
    match goal with |- context [snd (?tail ?s1)] =>
      assert (H : post (sends_commands env s1) tail (fun _ => sends_commands env s1))
    end.
    { repeat first [ apply ParseResponse_skipped_sends
                   | apply ParseResponse_dispatch_sends | sends_step ];
        cbn; auto. }
    match goal with |- context [snd (?tail ?s1)] =>
      specialize (H s1 (sends_commands_refl s1)); destruct (snd (tail s1)) as [[[] s']|]
    end; [|exact I].
    exact H.
  - unfold when. run.
    match goal with |- context [snd (?tail ?s1)] =>
      assert (H : post (sends_commands env s1) tail (fun _ => sends_commands env s1))
    end.
    { repeat first [ apply ParseResponse_skipped_sends
                   | apply ParseResponse_dispatch_sends | sends_step ];
        cbn; auto. }
    match goal with |- context [snd (?tail ?s1)] =>
      specialize (H s1 (sends_commands_refl s1)); destruct (snd (tail s1)) as [[[] s']|]
    end; [|exact I].
    exact H.
Qed.

(** [SendCommand] adds one pending reply when the command gets onto the
    wire; when it does not, what is added are the commands sent while the
    operation is reset. *)
Lemma SendCommand_sends (str : string) (maskArgs measureRTT : bool) (s : CFtpControlSocket) :
  match snd (SendCommand env ext str maskArgs measureRTT s) with
  | Some (_, s') =>
      exists cmds,
        forallb is_Sent cmds = true
        /\ m_pendingReplies s'
           = m_pendingReplies s + (if sent_ok env str then 1 else 0)
             + successfully_sent env cmds
  | None => True
  end.
Proof.
  unfold SendCommand, sent_ok.
  destruct (if maskArgs then WString.find_char " "%char str else None); run; cbv zeta;
    (destruct (WString.empty (ConvToServer env str)); cbn [negb andb];
     [ run;
       pose proof (ResetOperation_sends s FZ_REPLY_ERROR s (sends_commands_refl s)) as H;
       rewrite bind_ret_run; cbn [snd];
       destruct (snd (ResetOperation env ext FZ_REPLY_ERROR s)) as [[a s']|]; [|exact I];
       destruct H as (cmds & Hall & Hp); exists cmds; split; [exact Hall | lia]
     | run; unfold when;
       destruct (Send_ok env _), measureRTT; run; cbn;
       exists []; (split; [reflexivity | cbn; lia]) ]).
Qed.

(** The accounting of one event of a trace. *)
Lemma process_sends (fuel : nat) (e : IOEvent) (s : CFtpControlSocket) :
  match snd (process env ext fuel e s) with
  | Some (_, s') =>
      exists cmds,
        forallb is_Sent cmds = true
        /\ m_pendingReplies s'
           = match e with
             | Sent str _ _ => m_pendingReplies s + if sent_ok env str then 1 else 0
             | Received r =>
                 if terminal_reply r && (0 <? m_pendingReplies s)
                 then m_pendingReplies s - 1 else m_pendingReplies s
             end
             + successfully_sent env cmds
  | None => True
  end.
Proof.
  destruct e as [str maskArgs measureRTT|r]; cbn [process].
  - pose proof (SendCommand_sends str maskArgs measureRTT s) as H.
    unfold mbind, M_bind, mret, M_ret.
    destruct (SendCommand env ext str maskArgs measureRTT s) as [t [[b s']|]]; cbn in *; auto.
  - run.
    pose proof (ParseResponse_sends fuel (set_m_Response r s)) as H.
    unfold mbind, M_bind, modify.
    destruct (ParseResponse env ext fuel (set_m_Response r s)) as [t [[[] s']|]]; cbn in *; auto.
Qed.

Lemma process_all_sends (fuel : nat) (tr : list IOEvent) (s : CFtpControlSocket) :
  0 <= m_pendingReplies s ->
  match snd (process_all env ext fuel tr s) with
  | Some (_, s') =>
      exists sent,
        length sent = length tr
        /\ Forall (fun cmds => forallb is_Sent cmds = true) sent
        /\ m_pendingReplies s'
           = m_pendingReplies s + successfully_sent env (history tr sent)
             - terminal_replies (history tr sent)
             + unexpected_replies env (m_pendingReplies s) (history tr sent)
        /\ 0 <= m_pendingReplies s'
  | None => True
  end.
Proof.
  revert s. induction tr as [|e tr IH]; intros s Hs.
  - cbn. exists []. repeat split; [constructor | lia | exact Hs].
  - cbn [process_all].
    pose proof (process_sends fuel e s) as He.
    unfold mbind, M_bind.
    destruct (process env ext fuel e s) as [t [[[] s1]|]]; cbn in He |- *; [|exact I].
    destruct He as (cmds & Hall & He).
    pose proof (successfully_sent_nonneg env cmds) as Hnn.
    assert (Hs1 : 0 <= m_pendingReplies s1).
    { rewrite He. destruct e as [str ? ?|r].
      - destruct (sent_ok env str); lia.
      - destruct (terminal_reply r); cbn [andb]; [|lia].
        destruct (Z.ltb_spec 0 (m_pendingReplies s)); lia. }
    specialize (IH s1 Hs1).
    destruct (process_all env ext fuel tr s1) as [t' [[[] s2]|]]; cbn in IH |- *; [|exact I].
    destruct IH as (sent & Hlen & Hsent & Heq & Hs2).
    exists (cmds :: sent). split; [cbn; now rewrite Hlen|].
    split; [now constructor|]. split; [|exact Hs2].
    cbn [history].
    destruct e as [str ? ?|r]; cbn [successfully_sent terminal_replies unexpected_replies].
    + destruct (sent_commands_first env cmds (history tr sent)
                  (if sent_ok env str then m_pendingReplies s + 1 else m_pendingReplies s) Hall)
        as [Ht Hu].
      rewrite successfully_sent_app, Ht, Hu.
      replace ((if sent_ok env str then m_pendingReplies s + 1 else m_pendingReplies s)
               + successfully_sent env cmds) with (m_pendingReplies s1)
        by (rewrite He; destruct (sent_ok env str); lia).
      rewrite Heq, He. destruct (sent_ok env str); lia.
    + destruct (terminal_reply r); cbn [andb] in *.
      * destruct (Z.ltb_spec 0 (m_pendingReplies s)).
        -- destruct (sent_commands_first env cmds (history tr sent)
                       (m_pendingReplies s - 1) Hall) as [Ht Hu].
           rewrite successfully_sent_app, Ht, Hu, <- He, Heq. lia.
        -- destruct (sent_commands_first env cmds (history tr sent)
                       (m_pendingReplies s) Hall) as [Ht Hu].
           rewrite successfully_sent_app, Ht, Hu, <- He, Heq. lia.
      * destruct (sent_commands_first env cmds (history tr sent)
                    (m_pendingReplies s) Hall) as [Ht Hu].
        rewrite successfully_sent_app, Ht, Hu, <- He, Heq. lia.
Qed.

End SendingFrames.

Section Accounted.

Variable env : Environment.
Variable ext : Collaborators.

(** A reply received while no reply is to be skipped: it is accounted
    for before it is handed on. *)
Lemma dispatch_accounted (fuel : nat) (r : string) (s : CFtpControlSocket) :
  r <> "" ->
  m_repliesToSkip s = 0 ->
  not_preliminary r = false \/ 0 < m_pendingReplies s ->
  process env ext fuel (Received r) s
  = (Call_ParseResponse r
     :: ((ParseResponse_dispatch env ext fuel;; modify (set_m_Response ""))
           (accounted r s)).1,
     ((ParseResponse_dispatch env ext fuel;; modify (set_m_Response ""))
        (accounted r s)).2).
Proof.
  intros Hr Hk Hp. cbn [process]. unfold ParseResponse, accounted.
  run. cbn [m_Response set_m_Response m_pendingReplies m_repliesToSkip].
  destruct r as [|ch r]; [congruence|]. cbn [WString.empty].
  run. cbn [m_Response set_m_Response m_pendingReplies m_repliesToSkip].
  destruct (not_preliminary (String ch r)); cbn [andb negb]; unfold when.
  - destruct Hp as [Hp|Hp]; [discriminate|].
    destruct (Z.ltb_spec 0 (m_pendingReplies s)); [|lia]. cbn [negb].
    run. cbn [m_Response set_m_Response m_pendingReplies m_repliesToSkip set_m_pendingReplies].
    rewrite Hk. cbn [Z.eqb negb]. reflexivity.
  - run. cbn [m_Response set_m_Response m_pendingReplies m_repliesToSkip].
    rewrite Hk. cbn [Z.eqb negb]. reflexivity.
Qed.

(** A reply received while replies are to be skipped: it is accounted
    for and counted off, the last one of them as well, before the end of
    the skipping is dealt with. *)
Lemma skip_counted (fuel : nat) (r : string) (s : CFtpControlSocket) :
  r <> "" ->
  m_repliesToSkip s <> 0 ->
  not_preliminary r = false \/ 0 < m_pendingReplies s ->
  process env ext fuel (Received r) s
  = ((skipped_reply r
      ++ ((ParseResponse_skipped env ext fuel;; modify (set_m_Response ""))
            (counted_off r s)).1)%list,
     ((ParseResponse_skipped env ext fuel;; modify (set_m_Response ""))
        (counted_off r s)).2).
Proof.
  intros Hr Hk Hp. cbn [process]. unfold ParseResponse, skipped_reply, counted_off, accounted.
  run. cbn [m_Response set_m_Response m_pendingReplies m_repliesToSkip].
  destruct r as [|ch r]; [congruence|]. cbn [WString.empty].
  run. cbn [m_Response set_m_Response m_pendingReplies m_repliesToSkip].
  destruct (Z.eqb_spec (m_repliesToSkip s) 0); [contradiction|].
  destruct (not_preliminary (String ch r)); cbn [andb negb]; unfold when.
  - destruct Hp as [Hp|Hp]; [discriminate|].
    destruct (Z.ltb_spec 0 (m_pendingReplies s)); [|lia]. cbn [negb].
    run. cbn [m_Response set_m_Response m_pendingReplies m_repliesToSkip set_m_pendingReplies].
    destruct (Z.eqb_spec (m_repliesToSkip s) 0); [contradiction|]. cbn [negb].
    run. cbn [app]. reflexivity.
  - run. cbn [m_Response set_m_Response m_pendingReplies m_repliesToSkip].
    destruct (Z.eqb_spec (m_repliesToSkip s) 0); [contradiction|]. cbn [negb].
    run. cbn [app]. reflexivity.
Qed.

Lemma count_terminal_app (rs : list string) (r : string) :
  count_terminal (rs ++ [r]) = count_terminal rs + if not_preliminary r then 1 else 0.
Proof.
  induction rs as [|r0 rs IH]; cbn [app count_terminal]; [lia|]. rewrite IH. lia.
Qed.

Lemma accounted_pending (r : string) (s : CFtpControlSocket) :
  m_pendingReplies (accounted r s)
  = m_pendingReplies s - (if not_preliminary r then 1 else 0)
  /\ m_pendingReplies (counted_off r s)
     = m_pendingReplies s - (if not_preliminary r then 1 else 0)
  /\ m_repliesToSkip (counted_off r s)
     = m_repliesToSkip s - (if not_preliminary r then 1 else 0).
Proof. unfold counted_off, accounted. destruct (not_preliminary r); cbn; lia. Qed.

End Accounted.


Lemma pipelining_collaborators_send :
  respects (sends_commands sample_environment) pipelining_collaborators.
Proof.
  repeat split; intros; try (exists []; split; [reflexivity | cbn; lia]).
  exists [Sent "NOOP" false true]. split; [reflexivity|]. cbn. run. cbn. lia.
Defined.



(** C3.  [ResetOperation] sets [m_repliesToSkip] to the number N of
    pending replies before it hands over to the base class.  From a socket
    with both counters at N, the replies received next are consumed one by
    one, the N-th reply with a first digit other than '1' included: each
    such reply takes one off both counters, a 1xx reply takes nothing off,
    and the trace shows that no frame sees any of them.  The replies [rs],
    of which fewer than N have a first digit other than '1', leave nothing
    in the trace but the two log lines each; the reply [r] after them is
    counted off in the same way, after which [ParseResponse] turns to the
    end of the skipping if no reply is left to skip.  While replies are
    left to skip, [SendNextCommand] does not call the [Send] of the current
    frame: it returns FZ_REPLY_WOULDBLOCK. *)
Theorem skip_invariant (env : Environment) (ext : Collaborators) (fuel : nat) (c : Z)
    (s : CFtpControlSocket) (rs : list string) (r : string) :
  pOldData_valid s = true ->
  Forall (fun r => r <> "") rs ->
  r <> "" ->
  count_terminal rs < m_pendingReplies s ->
  exists t c' s1,
    ResetOperation_local env c s = (t, Some (c', s1))
    /\ m_repliesToSkip s1 = m_pendingReplies s
    /\ m_pendingReplies s1 = m_pendingReplies s
    /\ ResetOperation env ext c s
       = ((t ++ [Call_CControlSocket_ResetOperation c'])%list,
          Some (CControlSocket_ResetOperation ext c' s1))
    /\ forall s2,
         m_repliesToSkip s2 = m_pendingReplies s ->
         m_pendingReplies s2 = m_pendingReplies s ->
         exists s3,
           process_all env ext fuel (map Received rs) s2
           = (flat_map skipped_reply rs, Some (tt, s3))
           /\ m_repliesToSkip s3 = m_pendingReplies s - count_terminal rs
           /\ m_pendingReplies s3 = m_pendingReplies s - count_terminal rs
           /\ process env ext fuel (Received r) s3
              = ((skipped_reply r
                  ++ ((ParseResponse_skipped env ext fuel;; modify (set_m_Response ""))
                        (counted_off r s3)).1)%list,
                 ((ParseResponse_skipped env ext fuel;; modify (set_m_Response ""))
                    (counted_off r s3)).2)
           /\ m_repliesToSkip (counted_off r s3)
              = m_pendingReplies s - count_terminal (rs ++ [r])
           /\ m_pendingReplies (counted_off r s3)
              = m_pendingReplies s - count_terminal (rs ++ [r])
           /\ Forall (fun e => e <> Call_op_ParseResponse)
                (trace_of (process env ext fuel (Received r) s3))
           /\ Forall (fun e => e <> Call_op_Send) (trace_of (SendNextCommand env ext fuel s3))
           /\ (m_pCurOpData s3 <> [] ->
               result_of (SendNextCommand env ext (S fuel) s3) = Some FZ_REPLY_WOULDBLOCK
               /\ socket_of (SendNextCommand env ext (S fuel) s3) = Some s3).
Proof.
  intros Hvalid Hne Hr Hcount.
  destruct (ResetOperation_seeds_skip env ext c s Hvalid) as (t & c' & s1 & H1 & H2 & H3 & H4).
  exists t, c', s1. repeat (split; [assumption|]).
  intros s2 Hk2 Hp2.
  destruct (skip_all env ext fuel rs s2 Hne) as (s3 & Hrun & Hk3 & Hp3); [lia | lia |].
  assert (Hskip : m_repliesToSkip s3 <> 0) by lia.
  exists s3. split; [exact Hrun|]. split; [lia|]. split; [lia|].
  split; [apply skip_counted; [exact Hr | lia | right; lia]|].
  rewrite count_terminal_app.
  split; [|split; [|split; [|split]]].
  - unfold counted_off, accounted. destruct (not_preliminary r); cbn; lia.
  - unfold counted_off, accounted. destruct (not_preliminary r); cbn; lia.
  - rewrite process_received_trace. apply skip_no_dispatch. exact Hskip.
  - apply (SendNextCommand_blocked env ext fuel s3 Hskip).
  - apply (SendNextCommand_blocked env ext fuel s3 Hskip).
Qed.
(** Two replies are pending when the operation is reset: of the three
    replies that arrive, the second and the third are counted off, and
    with the third no reply is left to skip. *)
Lemma skip_invariant_witness :
  pOldData_valid (set_m_pendingReplies 2 busy_socket) = true
  /\ Forall (fun r => r <> "") ["150 Opening"; "426 Aborted"]
  /\ "226 Closing" <> ""
  /\ count_terminal ["150 Opening"; "426 Aborted"]
     < m_pendingReplies (set_m_pendingReplies 2 busy_socket)
  /\ exists t c' s1 s3,
       ResetOperation_local sample_environment FZ_REPLY_CANCELED
         (set_m_pendingReplies 2 busy_socket) = (t, Some (c', s1))
       /\ m_repliesToSkip s1 = 2
       /\ process_all sample_environment sample_collaborators 1
            (map Received ["150 Opening"; "426 Aborted"])
            (CControlSocket_ResetOperation sample_collaborators c' s1).2
          = (flat_map skipped_reply ["150 Opening"; "426 Aborted"], Some (tt, s3))
       /\ m_repliesToSkip s3 = 1
       /\ m_repliesToSkip (counted_off "226 Closing" s3) = 0
       /\ m_pendingReplies (counted_off "226 Closing" s3) = 0.
Proof.
  assert (H1 : pOldData_valid (set_m_pendingReplies 2 busy_socket) = true) by reflexivity.
  assert (H2 : Forall (fun r : string => r <> "") ["150 Opening"; "426 Aborted"])
    by (repeat constructor; discriminate).
  assert (H3 : "226 Closing" <> "") by discriminate.
  assert (H4 : count_terminal ["150 Opening"; "426 Aborted"]
               < m_pendingReplies (set_m_pendingReplies 2 busy_socket))
    by (vm_compute; reflexivity).
  split; [exact H1|]. split; [exact H2|]. split; [exact H3|]. split; [exact H4|].
  destruct (skip_invariant sample_environment sample_collaborators 1 FZ_REPLY_CANCELED
              (set_m_pendingReplies 2 busy_socket) ["150 Opening"; "426 Aborted"]
              "226 Closing" H1 H2 H3 H4)
    as (t & c' & s1 & Hrun & Hk & Hp & _ & Hskip).
  destruct (Hskip (CControlSocket_ResetOperation sample_collaborators c' s1).2)
    as (s3 & Hrs & Hk3 & _ & _ & Hk4 & Hp4 & _).
  - cbn. exact Hk.
  - cbn. exact Hp.
  - exists t, c', s1, s3. split; [exact Hrun|]. split; [exact Hk|]. split; [exact Hrs|].
    split; [exact Hk3|]. split; [exact Hk4 | exact Hp4].
Defined.

(** The FEAT line of the scenario, in another casing. *)
Lemma ParseFeat_MLSD_MLST_witness :
  WString.trim " mlst Type*;Size*;Modify*; " = "mlst" ++ " " ++ "Type*;Size*;Modify*;"
  /\ (WString.str_toupper_ascii "mlst" = "MLST" \/ WString.str_toupper_ascii "mlst" = "MLSD")
  /\ "Type*;Size*;Modify*;" <> ""
  /\ exists s',
       ParseFeat " mlst Type*;Size*;Modify*; " idle_socket = ([], Some (tt, s'))
       /\ GetCapability timezone_offset s' = no.
Proof.
  assert (H1 : WString.trim " mlst Type*;Size*;Modify*; "
               = "mlst" ++ " " ++ "Type*;Size*;Modify*;") by reflexivity.
  assert (H2 : WString.str_toupper_ascii "mlst" = "MLST"
               \/ WString.str_toupper_ascii "mlst" = "MLSD") by (left; reflexivity).
  assert (H3 : "Type*;Size*;Modify*;" <> "") by discriminate.
  split; [exact H1|]. split; [exact H2|]. split; [exact H3|].
  destruct (ParseFeat_MLSD_MLST idle_socket _ _ _ H1 H2 H3) as (_ & (s' & Hrun & Htz & _) & _).
  exists s'. split; [exact Hrun | exact Htz].
Defined.

Lemma multiline_reply_closure_witness :
  m_MultilineResponseCode feat_socket = ""
  /\ server_valid (currentServer_ feat_socket) = true
  /\ awaits_first_welcome_line feat_socket && ssh_banner "211-Features" = false
  /\ (3 < WString.size "211-Features")%nat
  /\ WString.at_ 3 "211-Features" = Some "-"%char
  /\ Forall (fun l => WString.substr 0 4 l <> WString.substr 0 3 "211-Features" ++ " ")
       [" MLSD type*;size*;modify*;"; " UTF8"; "220 hello"]
  /\ WString.substr 0 4 "211 End" = WString.substr 0 3 "211-Features" ++ " "
  /\ exists s1,
       ParseLines sample_environment sample_collaborators 1
         ["211-Features"; " MLSD type*;size*;modify*;"; " UTF8"; "220 hello"] feat_socket
       = (flat_map line_received
            ["211-Features"; " MLSD type*;size*;modify*;"; " UTF8"; "220 hello"],
          Some (tt, s1))
       /\ m_MultilineResponseCode s1 = "211 ".
Proof.
  assert (H1 : m_MultilineResponseCode feat_socket = "") by reflexivity.
  assert (H2 : server_valid (currentServer_ feat_socket) = true) by reflexivity.
  assert (H3 : awaits_first_welcome_line feat_socket && ssh_banner "211-Features" = false)
    by reflexivity.
  assert (H4 : (3 < WString.size "211-Features")%nat) by (vm_compute; lia).
  assert (H5 : WString.at_ 3 "211-Features" = Some "-"%char) by reflexivity.
  assert (H6 : Forall (fun l => WString.substr 0 4 l <> WString.substr 0 3 "211-Features" ++ " ")
                 [" MLSD type*;size*;modify*;"; " UTF8"; "220 hello"])
    by (repeat constructor; discriminate).
  assert (H7 : WString.substr 0 4 "211 End" = WString.substr 0 3 "211-Features" ++ " ")
    by reflexivity.
  repeat (split; [assumption|]).
  destruct (multiline_reply_closure sample_environment sample_collaborators 1 feat_socket
              "211-Features" [" MLSD type*;size*;modify*;"; " UTF8"; "220 hello"] "211 End"
              H1 H2 H3 H4 H5 H6 H7) as (s1 & s2 & t & Hrun & Hcode & _).
  exists s1. split; [exact Hrun | exact Hcode].
Defined.

(** A line of two characters inside a multi-line reply is not buffered. *)
Lemma multiline_reply_closure_counterexample :
  option_map m_MultilineResponseLines
    (socket_of (ParseLines sample_environment sample_collaborators 1
                  ["211-Features"; "ok"] feat_socket))
  = Some ["211-Features"]
  /\ option_map m_MultilineResponseLines
       (socket_of (ParseLines sample_environment sample_collaborators 1
                     ["211-Features"; "ok"] feat_socket))
     <> Some ["211-Features"; "ok"].
Proof. split; [vm_compute; reflexivity | vm_compute; discriminate]. Qed.



(** ** Cleanup after a failed download *)

#[local] Arguments transfer_error_code : simpl never.

Lemma transfer_error_code_nonzero (d : CFtpFileTransferOpData) (code c : Z) :
  c <> FZ_REPLY_OK -> (transfer_error_code d code c =? FZ_REPLY_OK) = false.
Proof.
  intros Hc. apply Z.eqb_neq. unfold transfer_error_code, FZ_REPLY_OK in *.
  repeat match goal with |- context [if ?b then _ else _] => destruct b end;
    try assumption; rewrite ?Z.lor_eq_0_iff; tauto.
Qed.

Section Cleanup.

Variable env : Environment.
Variable ext : Collaborators.

Lemma ResetOperation_finish_effects (c : Z) :
  emits (fun e => is_finish_effect e = true) (ResetOperation_finish env c).
Proof.
  unfold ResetOperation_finish, ResetOperation_rawtransfer, StartKeepaliveTimer,
    get_pOldData, set_pOldData.
  repeat emits_step; reflexivity.
Qed.

(** The block of [ResetOperation] for a download frame that ends with an
    error. *)
Lemma ResetOperation_transfer_failed (d : CFtpFileTransferOpData) (c : Z)
    (s : CFtpControlSocket) :
  download d = true ->
  c <> FZ_REPLY_OK ->
  exists c1 s1, ResetOperation_transfer env d c s = (cleanup_trace env d, Some (c1, s1)).
Proof.
  intros Hdl Hc. unfold ResetOperation_transfer, cleanup_trace.
  rewrite gets_bind. cbv zeta.
  rewrite transfer_error_code_nonzero by assumption.
  destruct (tranferCommandSent (ftp d) && (_ || _));
    cbn [download fileDidExist pIOThread localFile set_transferInitiated];
    rewrite Hdl; cbn [negb andb];
    destruct (fileDidExist d); cbn [negb]; run;
    try (eexists; eexists; reflexivity);
    destruct (pIOThread d); unfold when; run;
    destruct (bool_decide _ && _); run; cbn; eexists; eexists; reflexivity.
Qed.

Lemma ResetOperation_failed_download_trace (c : Z) (s : CFtpControlSocket)
    (d : CFtpFileTransferOpData) (rest : list COpData) :
  m_pCurOpData s = CFtpFileTransferOp d :: rest ->
  download d = true ->
  c <> FZ_REPLY_OK ->
  exists t,
    trace_of (ResetOperation env ext c s)
    = (LogMessage MsgDebug_Verbose "CFtpControlSocket::ResetOperation"
       :: cleanup_trace env d ++ t)%list
    /\ Forall (fun e => forall f, e <> remove_file f) t.
Proof.
  intros Hst Hdl Hc.
  unfold ResetOperation, ResetOperation_local, trace_of.
  run. cbn [m_pCurOpData set_m_pTransferSocket set_m_pIPResolver set_m_repliesToSkip].
  rewrite Hst.
  match goal with |- context [(ResetOperation_transfer env d c ≫= _) ?s0] =>
    destruct (ResetOperation_transfer_failed d c s0 Hdl Hc) as (c1 & s1 & Hrun)
  end.
  rewrite (run_bind _ _ _ _ _ _ Hrun). cbn [fst snd].
  eexists. split; [reflexivity|].
  assert (H : emits (fun e => forall f, e <> remove_file f)
                (ResetOperation_finish env c1 ≫= fun nErrorCode1 =>
                 call (Call_CControlSocket_ResetOperation nErrorCode1)
                      (CControlSocket_ResetOperation ext nErrorCode1))).
  { apply emits_bind.
    - eapply emits_impl; [|apply ResetOperation_finish_effects].
      intros e He f' ->. discriminate He.
    - intros c2. apply emits_call. discriminate. }
  apply (H s1).
Qed.

End Cleanup.

(** C7.  When [ResetOperation] ends a download frame with a result other
    than FZ_REPLY_OK, a file is removed exactly when the frame recorded that
    the local file did not exist before the transfer and the local file is
    now a regular file of size 0, and that file is the local file: a file
    that existed before, or that is not empty, is not removed. *)
Theorem empty_file_cleanup (env : Environment) (ext : Collaborators) (c : Z)
    (s : CFtpControlSocket) (d : CFtpFileTransferOpData) (rest : list COpData) (f : string) :
  m_pCurOpData s = CFtpFileTransferOp d :: rest ->
  download d = true ->
  c <> FZ_REPLY_OK ->
  In (remove_file f) (trace_of (ResetOperation env ext c s))
  <-> f = localFile d /\ fileDidExist d = false
      /\ get_file_info env (localFile d) = (fs_file, 0).
Proof.
  intros Hst Hdl Hc.
  destruct (ResetOperation_failed_download_trace env ext c s d rest Hst Hdl Hc) as (t & -> & Hall).
  assert (Ht : ~ In (remove_file f) t).
  { intros Hin. rewrite List.Forall_forall in Hall. exact (Hall _ Hin f eq_refl). }
  assert (HC : In (remove_file f) (cleanup_trace env d)
               <-> f = localFile d /\ fileDidExist d = false
                   /\ get_file_info env (localFile d) = (fs_file, 0)).
  { unfold cleanup_trace.
    destruct (get_file_info env (localFile d)) as [ty sz]. cbn [fst snd].
    destruct (fileDidExist d).
    - cbn. split; [tauto | intros (_ & H & _); discriminate].
    - rewrite in_app_iff.
      assert (Hio : ~ In (remove_file f) (if pIOThread d then [delete_pIOThread] else [])).
      { destruct (pIOThread d); cbn; intros H; [destruct H as [H|[]]; discriminate | exact H]. }
      destruct (bool_decide_reflect (ty = fs_file)) as [->|Hty], (Z.eqb_spec sz 0) as [->|Hsz];
        cbn [andb In].
      + split.
        * intros [H|[H|[H|[]]]]; [tauto | discriminate | ].
          injection H as <-. auto.
        * intros (-> & _ & _). auto.
      + split; [tauto | intros (_ & _ & H); congruence].
      + split; [tauto | intros (_ & _ & H); congruence].
      + split; [tauto | intros (_ & _ & H); congruence]. }
  cbn [In]. rewrite in_app_iff, HC.
  split; [intros [H|[H|H]]; [discriminate | exact H | tauto] | tauto].
Qed.

(** The download of the example fails; the empty file it created is
    removed. *)
Lemma empty_file_cleanup_witness :
  m_pCurOpData download_socket = [CFtpFileTransferOp new_download]
  /\ download new_download = true
  /\ FZ_REPLY_ERROR <> FZ_REPLY_OK
  /\ In (remove_file "/tmp/f")
        (trace_of (ResetOperation sample_environment sample_collaborators FZ_REPLY_ERROR
                     download_socket)).
Proof.
  assert (H1 : m_pCurOpData download_socket = [CFtpFileTransferOp new_download]) by reflexivity.
  assert (H2 : download new_download = true) by reflexivity.
  assert (H3 : FZ_REPLY_ERROR <> FZ_REPLY_OK) by (vm_compute; discriminate).
  split; [exact H1|]. split; [exact H2|]. split; [exact H3|].
  apply (proj2 (empty_file_cleanup sample_environment sample_collaborators FZ_REPLY_ERROR
                  download_socket new_download [] "/tmp/f" H1 H2 H3)).
  repeat split.
Defined.

(** ** A file transfer without a local file *)

Lemma land_lor_absorb (a b : Z) : Z.land (Z.lor a b) a = a.
Proof.
  apply Z.bits_inj'. intros n _. rewrite Z.land_spec, Z.lor_spec.
  destruct (Z.testbit a n), (Z.testbit b n); reflexivity.
Qed.

Lemma has_flags_lor (a b : Z) : has_flags (Z.lor a b) a = true.
Proof. unfold has_flags. rewrite land_lor_absorb. apply Z.eqb_refl. Qed.

Lemma has_flags_refl (a : Z) : has_flags a a = true.
Proof. unfold has_flags. rewrite Z.land_diag. apply Z.eqb_refl. Qed.

Lemma transfer_error_code_flags (d : CFtpFileTransferOpData) (code c : Z) :
  has_flags (transfer_error_code d code c) c = true.
Proof.
  unfold transfer_error_code.
  repeat match goal with |- context [if ?b then _ else _] => destruct b end;
    rewrite <- ?Z.lor_assoc; auto using has_flags_lor, has_flags_refl.
Qed.

Section EmptyLocalFile.

Variable env : Environment.
Variable ext : Collaborators.

Lemma ResetOperation_finish_result (c : Z) :
  post (fun _ => True) (ResetOperation_finish env c) (fun c' _ => c' = c).
Proof.
  unfold ResetOperation_finish, ResetOperation_rawtransfer, StartKeepaliveTimer,
    get_pOldData, set_pOldData.
  repeat keeps_step; auto.
Qed.

Lemma ResetOperation_transfer_result (d : CFtpFileTransferOpData) (c : Z) :
  post (fun _ => True) (ResetOperation_transfer env d c)
       (fun c' _ => has_flags c' c = true).
Proof.
  unfold ResetOperation_transfer.
  apply (post_bind _ (fun _ _ => True)); [now apply post_gets|intros code]. cbv zeta.
  apply (post_bind _ (fun _ _ => True)); [now apply post_modify|intros _].
  apply (post_bind _ (fun _ _ => True)); [repeat keeps_step; auto|intros _].
  apply post_ret. intros _ _. apply transfer_error_code_flags.
Qed.

(** The error code [ResetOperation] hands to the base class has the bits
    of the one it was called with. *)
Lemma ResetOperation_local_flags (c : Z) :
  post (fun _ => True) (ResetOperation_local env c) (fun c' _ => has_flags c' c = true).
Proof.
  unfold ResetOperation_local.
  apply (post_bind _ (fun _ _ => True)); [now apply post_emit|intros _].
  apply (post_bind _ (fun _ _ => True)); [now apply post_modify|intros _].
  apply (post_bind _ (fun _ _ => True)); [now apply post_modify|intros _].
  apply (post_bind _ (fun _ _ => True)); [now apply post_modify|intros _].
  apply (post_bind _ (fun _ _ => True)); [now apply post_gets|intros st].
  apply (post_bind _ (fun c1 _ => has_flags c1 c = true)).
  - destruct st as [|[d|d|d|d|d|w t|id w] rest];
      try (apply post_ret; intros _ _; apply has_flags_refl).
    apply ResetOperation_transfer_result.
  - intros c1. intros s Hs.
    pose proof (ResetOperation_finish_result c1 s I) as H.
    destruct (snd (ResetOperation_finish env c1 s)) as [[c2 s2]|]; [|exact I].
    now subst c2.
Qed.

(** [ResetOperation] without a current frame, before the base class takes
    over. *)
Lemma ResetOperation_local_idle (c : Z) (s : CFtpControlSocket) :
  m_pCurOpData s = [] ->
  ResetOperation_local env c s
  = ([LogMessage MsgDebug_Verbose "CFtpControlSocket::ResetOperation";
      stop_timer (m_idleTimer s)],
     Some (c, reset_idle env s)).
Proof.
  intros Hst. unfold ResetOperation_local, ResetOperation_finish, reset_idle.
  do 3 (run; cbn [m_pCurOpData m_pendingReplies set_m_pTransferSocket set_m_pIPResolver
                  set_m_repliesToSkip set_m_lastCommandCompletionTime];
        rewrite ?Hst).
  change (bool_decide (@nil COpData = [])) with true. cbn [negb andb].
  run. reflexivity.
Qed.

End EmptyLocalFile.

(** C10.  [FileTransfer] with an empty name of the local file is
    [ResetOperation] with FZ_REPLY_SYNTAXERROR for a download and with
    FZ_REPLY_CRITICALERROR | FZ_REPLY_NOTSUPPORTED for an upload, and the
    result FZ_REPLY_ERROR: no frame is pushed and no command is sent, the
    error code the base class gets has the bits of that code, and the socket
    is the one [ResetOperation] leaves, with the number of replies to skip
    set to the number of pending replies; without a current frame the idle
    timer is stopped and the completion time set as well. *)
Theorem FileTransfer_empty_local_file (env : Environment) (ext : Collaborators)
    (remote_path : CServerPath) (remote_file : string) (is_download : bool)
    (settings : t_transferSettings) (s : CFtpControlSocket) :
  pOldData_valid s = true ->
  exists t c' s1,
    ResetOperation_local env (empty_local_file_code is_download) s = (t, Some (c', s1))
    /\ FileTransfer env ext "" remote_path remote_file is_download settings s
       = ((LogMessage MsgDebug_Verbose "CFtpControlSocket::FileTransfer()"
           :: t ++ [Call_CControlSocket_ResetOperation c'])%list,
          Some (FZ_REPLY_ERROR, (CControlSocket_ResetOperation ext c' s1).2))
    /\ Forall (fun e => is_local_reset_effect e = true) t
    /\ has_flags c' (empty_local_file_code is_download) = true
    /\ m_repliesToSkip s1 = m_pendingReplies s
    /\ m_pendingReplies s1 = m_pendingReplies s
    /\ (m_pCurOpData s = [] ->
        c' = empty_local_file_code is_download /\ s1 = reset_idle env s).
Proof.
  intros Hvalid.
  destruct (ResetOperation_seeds_skip env ext (empty_local_file_code is_download) s Hvalid)
    as (t & c' & s1 & Hrun & Hskip & Hpend & Hreset).
  exists t, c', s1.
  split; [exact Hrun|].
  split.
  { unfold FileTransfer. rewrite emit_bind. cbn [WString.empty].
    replace (if negb is_download
             then ResetOperation env ext (Z.lor FZ_REPLY_CRITICALERROR FZ_REPLY_NOTSUPPORTED)
             else ResetOperation env ext FZ_REPLY_SYNTAXERROR)
      with (ResetOperation env ext (empty_local_file_code is_download))
      by (now destruct is_download).
    rewrite (run_bind _ _ _ _ _ _
               (eq_trans Hreset (f_equal (fun r => (_, Some r))
                                   (eq_sym (pair_eta (CControlSocket_ResetOperation ext c' s1)))))).
    cbn. rewrite app_nil_r. reflexivity. }
  split.
  { pose proof (ResetOperation_local_effects env (empty_local_file_code is_download) s) as H.
    unfold trace_of in H. rewrite Hrun in H. exact H. }
  split.
  { pose proof (ResetOperation_local_flags env (empty_local_file_code is_download) s I) as H.
    rewrite Hrun in H. exact H. }
  split; [exact Hskip|]. split; [exact Hpend|].
  intros Hst. rewrite (ResetOperation_local_idle env _ s Hst) in Hrun.
  injection Hrun as _ <- <-. split; reflexivity.
Qed.

(** An upload without a local file while a keepalive is on its way. *)
Lemma FileTransfer_empty_local_file_witness :
  pOldData_valid keepalive_socket = true
  /\ FileTransfer sample_environment sample_collaborators ""
       {| GetPath := "/pub"; GetType := 1 |} "f" false {| ts_binary := true |} keepalive_socket
     = ([LogMessage MsgDebug_Verbose "CFtpControlSocket::FileTransfer()";
         LogMessage MsgDebug_Verbose "CFtpControlSocket::ResetOperation";
         stop_timer 5;
         Call_CControlSocket_ResetOperation (Z.lor FZ_REPLY_CRITICALERROR FZ_REPLY_NOTSUPPORTED)],
        Some (FZ_REPLY_ERROR, reset_idle sample_environment keepalive_socket)).
Proof.
  assert (H1 : pOldData_valid keepalive_socket = true) by reflexivity.
  split; [exact H1|].
  destruct (FileTransfer_empty_local_file sample_environment sample_collaborators
              {| GetPath := "/pub"; GetType := 1 |} "f" false {| ts_binary := true |}
              keepalive_socket H1)
    as (t & c' & s1 & Hlocal & Hrun & _).
  rewrite Hrun. vm_compute in Hlocal. injection Hlocal as <- <- <-. reflexivity.
Defined.

(** The session state does not stay as it was: the reply to the keepalive
    is now to be skipped, the idle timer is stopped, and the completion time
    is set. *)
Lemma FileTransfer_empty_local_file_counterexample :
  exists t s',
    FileTransfer sample_environment sample_collaborators ""
      {| GetPath := "/pub"; GetType := 1 |} "f" false {| ts_binary := true |} keepalive_socket
    = (t, Some (FZ_REPLY_ERROR, s'))
    /\ s' <> keepalive_socket
    /\ m_repliesToSkip keepalive_socket = 0 /\ m_repliesToSkip s' = 1
    /\ m_idleTimer keepalive_socket = 5 /\ m_idleTimer s' = 0
    /\ m_lastCommandCompletionTime keepalive_socket = 30000
    /\ m_lastCommandCompletionTime s' = 60000.
Proof.
  eexists. eexists. split; [vm_compute; reflexivity|].
  split; [intros H; apply (f_equal m_repliesToSkip) in H; vm_compute in H; discriminate|].
  repeat split.
Qed.
(** ** The end of the data socket and the final reply *)

Lemma transfer_base_set (t t0 : CFtpTransferOpData) (p : COpData) :
  transfer_base p = Some t0 -> transfer_base (set_transfer_base t p) = Some t.
Proof. destruct p; cbn; intros H; try discriminate; reflexivity. Qed.

Lemma GetReplyCode_digit (r : string) (c : ascii) (n : Z) (s : CFtpControlSocket) :
  WString.at_ 0 r = Some c ->
  ((nat_of_ascii c <? 48) || (57 <? nat_of_ascii c))%nat = false ->
  Z.of_nat (nat_of_ascii c) - 48 = n ->
  m_Response s = r ->
  GetReplyCode s = n.
Proof.
  intros Hat Hdigit Hn Hr. unfold GetReplyCode. rewrite Hr.
  destruct r as [|c' r']; [discriminate|]. cbn in Hat. injection Hat as ->.
  now rewrite Hdigit.
Qed.

Section TransferEnd.

Variable env : Environment.
Variable ext : Collaborators.

(** [TransferEnd] in the two states in which the end of the data socket
    moves the frame on. *)
Lemma TransferEnd_run (s : CFtpControlSocket) (d : CFtpRawTransferOpData) (p : COpData)
    (rest : list COpData) (t0 : CFtpTransferOpData) (sock : CTransferSocket)
    (st' : rawtransferStates) :
  m_pCurOpData s = CFtpRawTransferOp d :: p :: rest ->
  transfer_base p = Some t0 ->
  m_pTransferSocket s = Some sock ->
  m_transferEndReason sock <> TER_none ->
  (rt_opState d = rawtransfer_transfer /\ st' = rawtransfer_waittransferpre)
  \/ (rt_opState d = rawtransfer_waitfinish /\ st' = rawtransfer_waittransfer) ->
  exists t,
    TransferEnd env ext s
    = (t, Some (tt, set_m_pCurOpData
                      (CFtpRawTransferOp (set_rt_opState st' d)
                       :: record_end (m_transferEndReason sock) p :: rest) s)).
Proof.
  intros Hst Hbase Hts Hreason Hstate.
  unfold TransferEnd, record_end. run. rewrite Hst, Hts, Hbase.
  rewrite (bool_decide_eq_false_2 _ Hreason).
  unfold when, get_pOldData, set_pOldData, set_cur.
  destruct (bool_decide (m_transferEndReason sock = TER_successful)); run;
    rewrite ?Hst; rewrite ?Hbase; run;
    destruct (bool_decide (transferEndReason t0 = TER_successful)); run;
    rewrite ?Hst; run;
    destruct Hstate as [[-> ->]|[-> ->]]; run; cbn; rewrite ?Hst;
    eexists; reflexivity.
Qed.

(** [ResetOperation] with FZ_REPLY_OK on a raw-transfer frame hands
    FZ_REPLY_OK to the base class. *)
Lemma ResetOperation_OK_rawtransfer (s : CFtpControlSocket) (d : CFtpRawTransferOpData)
    (rest : list COpData) :
  m_pCurOpData s = CFtpRawTransferOp d :: rest ->
  exists t a s',
    ResetOperation env ext FZ_REPLY_OK s = (t, Some (a, s'))
    /\ In (Call_CControlSocket_ResetOperation FZ_REPLY_OK) t.
Proof.
  intros Hst.
  unfold ResetOperation, ResetOperation_local, ResetOperation_finish,
    ResetOperation_rawtransfer, StartKeepaliveTimer.
  do 3 (run; cbn [m_pCurOpData m_pendingReplies set_m_pTransferSocket set_m_pIPResolver
                  set_m_repliesToSkip set_m_lastCommandCompletionTime];
        rewrite ?Hst).
  change (FZ_REPLY_OK =? FZ_REPLY_OK) with true. cbn [negb].
  do 3 (run; cbn [m_pCurOpData m_pendingReplies set_m_pTransferSocket set_m_pIPResolver
                  set_m_repliesToSkip set_m_lastCommandCompletionTime];
        rewrite ?Hst).
  change (bool_decide (CFtpRawTransferOp d :: rest = [])) with false.
  change (any_flag FZ_REPLY_OK FZ_REPLY_DISCONNECTED) with false. cbn [negb andb].
  exec; destruct (CControlSocket_ResetOperation ext FZ_REPLY_OK _) as [a s'];
    do 3 eexists; (split; [reflexivity | cbn; tauto]).
Qed.

(** Before the base class takes over, [ResetOperation] with FZ_REPLY_OK
    leaves the frames of a raw transfer and the error code as they are. *)
Lemma ResetOperation_local_OK_rawtransfer (s : CFtpControlSocket)
    (d : CFtpRawTransferOpData) (rest : list COpData) :
  m_pCurOpData s = CFtpRawTransferOp d :: rest ->
  exists t s1,
    ResetOperation_local env FZ_REPLY_OK s = (t, Some (FZ_REPLY_OK, s1))
    /\ m_pCurOpData s1 = CFtpRawTransferOp d :: rest
    /\ m_repliesToSkip s1 = m_pendingReplies s.
Proof.
  intros Hst.
  unfold ResetOperation_local, ResetOperation_finish,
    ResetOperation_rawtransfer, StartKeepaliveTimer.
  do 3 (run; cbn [m_pCurOpData m_pendingReplies set_m_pTransferSocket set_m_pIPResolver
                  set_m_repliesToSkip set_m_lastCommandCompletionTime];
        rewrite ?Hst).
  change (FZ_REPLY_OK =? FZ_REPLY_OK) with true. cbn [negb].
  do 3 (run; cbn [m_pCurOpData m_pendingReplies set_m_pTransferSocket set_m_pIPResolver
                  set_m_repliesToSkip set_m_lastCommandCompletionTime];
        rewrite ?Hst).
  change (bool_decide (CFtpRawTransferOp d :: rest = [])) with false.
  change (any_flag FZ_REPLY_OK FZ_REPLY_DISCONNECTED) with false. cbn [negb andb].
  exec; do 2 eexists; (split; [reflexivity | cbn; auto]).
Qed.

Variable other : CFtpControlSocket -> Z * CFtpControlSocket.
Hypothesis ext_rawtransfer : forall s, op_ParseResponse ext s = RawTransferParseResponse other s.

(** The preliminary reply to the transfer command: the frame sees it and
    stays as it is. *)
Lemma preliminary_reply_run (fuel : nat) (r : string) (s : CFtpControlSocket)
    (d : CFtpRawTransferOpData) (p : COpData) (rest : list COpData) :
  m_pCurOpData s = CFtpRawTransferOp d :: p :: rest ->
  rt_opState d = rawtransfer_transfer ->
  m_repliesToSkip s = 0 ->
  WString.at_ 0 r = Some "1"%char ->
  process env ext fuel (Received r) s
  = ([Call_ParseResponse r; Call_op_ParseResponse], Some (tt, set_m_Response "" s)).
Proof.
  intros Hst Hstate Hskip Hat.
  assert (Hcode : GetReplyCode (set_m_Response r s) = 1)
    by (now apply (GetReplyCode_digit r "1"%char)).
  assert (Hne : WString.empty r = false) by (destruct r; [discriminate|reflexivity]).
  assert (Hpre : not_preliminary r = false) by (unfold not_preliminary; now rewrite Hat).
  unfold process, ParseResponse, ParseResponse_dispatch. run.
  cbn [m_Response set_m_Response]. rewrite Hne, Hpre. cbn [andb when]. run.
  cbn [m_repliesToSkip set_m_Response]. rewrite Hskip. cbn [Z.eqb negb].
  run. cbn [m_pCurOpData set_m_Response]. rewrite Hst.
  run. rewrite ext_rawtransfer. unfold RawTransferParseResponse.
  cbn [m_pCurOpData set_m_Response]. rewrite Hst, Hstate, Hcode. cbn. reflexivity.
Qed.

(** The final reply to the transfer command after the data socket has
    ended in the state [transfer]: the frame goes to [waitsocket] and the
    operation is reset with FZ_REPLY_OK. *)
Lemma final_reply_run (fuel : nat) (r : string) (s : CFtpControlSocket)
    (d : CFtpRawTransferOpData) (p : COpData) (rest : list COpData)
    (t0 : CFtpTransferOpData) :
  m_pCurOpData s = CFtpRawTransferOp d :: p :: rest ->
  rt_opState d = rawtransfer_waittransferpre ->
  transfer_base p = Some t0 ->
  transferEndReason t0 = TER_successful ->
  m_repliesToSkip s = 0 ->
  0 < m_pendingReplies s ->
  WString.at_ 0 r = Some "2"%char ->
  let s_ws :=
    set_m_pCurOpData
      (CFtpRawTransferOp (set_rt_opState rawtransfer_waitsocket d) :: p :: rest)
      (set_m_pendingReplies (m_pendingReplies s - 1) (set_m_Response r s)) in
  op_ParseResponse ext (set_m_pendingReplies (m_pendingReplies s - 1) (set_m_Response r s))
  = (FZ_REPLY_OK, s_ws)
  /\ exists t s1,
       ResetOperation_local env FZ_REPLY_OK s_ws = (t, Some (FZ_REPLY_OK, s1))
       /\ m_pCurOpData s1
          = CFtpRawTransferOp (set_rt_opState rawtransfer_waitsocket d) :: p :: rest
       /\ process env ext fuel (Received r) s
          = ((Call_ParseResponse r :: Call_op_ParseResponse
              :: t ++ [Call_CControlSocket_ResetOperation FZ_REPLY_OK])%list,
             Some (tt, set_m_Response ""
                         (CControlSocket_ResetOperation ext FZ_REPLY_OK s1).2)).
Proof.
  intros Hst Hstate Hbase Hend Hskip Hpending Hat s_ws.
  assert (Hne : WString.empty r = false) by (destruct r; [discriminate|reflexivity]).
  assert (Hpre : not_preliminary r = true) by (unfold not_preliminary; now rewrite Hat).
  assert (Hpos : (0 <? m_pendingReplies s) = true) by (now apply Z.ltb_lt).
  assert (Hop : op_ParseResponse ext
                  (set_m_pendingReplies (m_pendingReplies s - 1) (set_m_Response r s))
                = (FZ_REPLY_OK, s_ws)).
  { rewrite ext_rawtransfer. unfold RawTransferParseResponse.
    cbn [m_pCurOpData set_m_Response set_m_pendingReplies]. rewrite Hst, Hstate, Hbase, Hend.
    rewrite (GetReplyCode_digit r "2"%char 2) by (reflexivity || assumption).
    cbn [Z.eqb Pos.eqb andb]. rewrite bool_decide_eq_true_2 by reflexivity. reflexivity. }
  split; [exact Hop|].
  destruct (ResetOperation_local_OK_rawtransfer s_ws
              (set_rt_opState rawtransfer_waitsocket d) (p :: rest) eq_refl)
    as (t & s1 & Hlocal & Hst1 & _).
  exists t, s1. split; [exact Hlocal|]. split; [exact Hst1|].
  unfold process, ParseResponse, ParseResponse_dispatch.
  repeat (run; cbn [m_Response m_pendingReplies m_repliesToSkip m_pCurOpData
                    set_m_Response set_m_pendingReplies];
          rewrite ?Hne, ?Hpre, ?Hpos, ?Hskip, ?Hst; cbn [andb negb when Z.eqb]).
  rewrite Hop. cbn [fst snd]. change (FZ_REPLY_OK =? FZ_REPLY_OK) with true. cbn match.
  rewrite bind_assoc. unfold ResetOperation. rewrite bind_assoc.
  rewrite (run_bind _ _ _ _ _ _ Hlocal). run. cbn [fst snd].
  rewrite app_comm_cons. reflexivity.
Qed.

End TransferEnd.

(** C4.  When the data socket ends while the raw-transfer frame is in the
    state transfer, [TransferEnd] moves the frame to waittransferpre; when it
    ends in the state waitfinish, to waittransfer.  In the scenario of a
    preliminary reply, the end of the data socket and a final reply, with
    the reply handler of the frame as the spec has it: the preliminary reply
    is handed to the frame and leaves it in the state transfer; the end of
    the data socket moves it to waittransferpre; the final reply is handed
    to the frame, which goes to waitsocket and returns FZ_REPLY_OK, and
    [ParseResponse] resets the operation: the base class, which pops the
    frame, is handed FZ_REPLY_OK with the frame in the state waitsocket. *)
Theorem transfer_end_race (env : Environment) (ext : Collaborators)
    (other : CFtpControlSocket -> Z * CFtpControlSocket) (fuel : nat)
    (s : CFtpControlSocket) (d : CFtpRawTransferOpData) (p : COpData) (rest : list COpData)
    (t0 : CFtpTransferOpData) (sock : CTransferSocket) (r1 r2 : string) :
  m_pCurOpData s = CFtpRawTransferOp d :: p :: rest ->
  transfer_base p = Some t0 ->
  m_pTransferSocket s = Some sock ->
  m_transferEndReason sock <> TER_none ->
  (rt_opState d = rawtransfer_transfer ->
   exists t s', TransferEnd env ext s = (t, Some (tt, s'))
                /\ current_rawtransfer_state s' = Some rawtransfer_waittransferpre)
  /\ (rt_opState d = rawtransfer_waitfinish ->
      exists t s', TransferEnd env ext s = (t, Some (tt, s'))
                   /\ current_rawtransfer_state s' = Some rawtransfer_waittransfer)
  /\ (rt_opState d = rawtransfer_transfer ->
      (forall s, op_ParseResponse ext s = RawTransferParseResponse other s) ->
      transferEndReason t0 = TER_successful ->
      m_transferEndReason sock = TER_successful ->
      m_repliesToSkip s = 0 ->
      0 < m_pendingReplies s ->
      WString.at_ 0 r1 = Some "1"%char ->
      WString.at_ 0 r2 = Some "2"%char ->
      exists s1 t2 s2 s_ws t3 s3,
        process env ext fuel (Received r1) s
        = ([Call_ParseResponse r1; Call_op_ParseResponse], Some (tt, s1))
        /\ current_rawtransfer_state s1 = Some rawtransfer_transfer
        /\ TransferEnd env ext s1 = (t2, Some (tt, s2))
        /\ current_rawtransfer_state s2 = Some rawtransfer_waittransferpre
        /\ op_ParseResponse ext (accounted r2 s2) = (FZ_REPLY_OK, s_ws)
        /\ current_rawtransfer_state s_ws = Some rawtransfer_waitsocket
        /\ ResetOperation_local env FZ_REPLY_OK s_ws = (t3, Some (FZ_REPLY_OK, s3))
        /\ current_rawtransfer_state s3 = Some rawtransfer_waitsocket
        /\ process env ext fuel (Received r2) s2
           = ((Call_ParseResponse r2 :: Call_op_ParseResponse
               :: t3 ++ [Call_CControlSocket_ResetOperation FZ_REPLY_OK])%list,
              Some (tt, set_m_Response ""
                          (CControlSocket_ResetOperation ext FZ_REPLY_OK s3).2))).
Proof.
  intros Hst Hbase Hts Hreason.
  split; [|split].
  - intros Hstate.
    destruct (TransferEnd_run env ext s d p rest t0 sock rawtransfer_waittransferpre
                Hst Hbase Hts Hreason (or_introl (conj Hstate eq_refl))) as (t & Hrun).
    eexists. eexists. split; [exact Hrun | reflexivity].
  - intros Hstate.
    destruct (TransferEnd_run env ext s d p rest t0 sock rawtransfer_waittransfer
                Hst Hbase Hts Hreason (or_intror (conj Hstate eq_refl))) as (t & Hrun).
    eexists. eexists. split; [exact Hrun | reflexivity].
  - intros Hstate Hext Hend Hsock Hskip Hpending Hr1 Hr2.
    pose proof (preliminary_reply_run env ext other Hext fuel r1 s d p rest
                  Hst Hstate Hskip Hr1) as H1.
    set (s1 := set_m_Response "" s) in *.
    destruct (TransferEnd_run env ext s1 d p rest t0 sock rawtransfer_waittransferpre
                Hst Hbase Hts Hreason (or_introl (conj Hstate eq_refl))) as (t2 & H2).
    set (s2 := set_m_pCurOpData _ s1) in H2.
    assert (Hpre : not_preliminary r2 = true) by (unfold not_preliminary; now rewrite Hr2).
    destruct (final_reply_run env ext other Hext fuel r2 s2
                (set_rt_opState rawtransfer_waittransferpre d)
                (record_end (m_transferEndReason sock) p) rest
                (set_transferEndReason TER_successful t0))
      as (Hop & t3 & s3 & Hlocal & Hst3 & H3); try reflexivity; try assumption.
    + unfold record_end. rewrite Hbase, Hend, Hsock.
      rewrite bool_decide_eq_true_2 by reflexivity.
      now apply (transfer_base_set _ t0).
    + exists s1, t2, s2. eexists. exists t3, s3.
      split; [exact H1|]. split; [unfold current_rawtransfer_state; cbn; now rewrite Hst, Hstate|].
      split; [exact H2|]. split; [reflexivity|].
      split; [unfold accounted; rewrite Hpre; exact Hop|].
      split; [reflexivity|]. split; [exact Hlocal|].
      split; [unfold current_rawtransfer_state; now rewrite Hst3|].
      exact H3.
Qed.

(** The scenario on the download of the examples: after the final reply
    the raw-transfer frame is popped and the download frame is the current
    one again. *)
Lemma transfer_end_race_witness :
  m_pCurOpData ended_socket
  = [CFtpRawTransferOp retr_frame;
     CFtpFileTransferOp
       (set_ftp (set_tranferCommandSent true new_CFtpTransferOpData) new_download)]
  /\ m_transferEndReason
       {| m_transferMode := TransferMode_download; m_transferEndReason := TER_successful;
          m_binaryMode := true; m_ioThreadSet := true |} <> TER_none
  /\ exists s1 t2 s2 t3 s3,
       process sample_environment transfer_collaborators 1 (Received "150 Opening") ended_socket
       = ([Call_ParseResponse "150 Opening"; Call_op_ParseResponse], Some (tt, s1))
       /\ current_rawtransfer_state s1 = Some rawtransfer_transfer
       /\ TransferEnd sample_environment transfer_collaborators s1 = (t2, Some (tt, s2))
       /\ current_rawtransfer_state s2 = Some rawtransfer_waittransferpre
       /\ current_rawtransfer_state s3 = Some rawtransfer_waitsocket
       /\ process sample_environment transfer_collaborators 1 (Received "226 ok") s2
          = ((Call_ParseResponse "226 ok" :: Call_op_ParseResponse
              :: t3 ++ [Call_CControlSocket_ResetOperation FZ_REPLY_OK])%list,
             Some (tt, set_m_Response ""
                         (CControlSocket_ResetOperation transfer_collaborators
                            FZ_REPLY_OK s3).2))
       /\ m_pCurOpData (CControlSocket_ResetOperation transfer_collaborators FZ_REPLY_OK s3).2
          = [CFtpFileTransferOp
               (set_ftp (set_tranferCommandSent true new_CFtpTransferOpData) new_download)].
Proof.
  assert (H1 : m_pCurOpData ended_socket
               = [CFtpRawTransferOp retr_frame;
                  CFtpFileTransferOp
                    (set_ftp (set_tranferCommandSent true new_CFtpTransferOpData) new_download)])
    by reflexivity.
  assert (H4 : m_transferEndReason
                 {| m_transferMode := TransferMode_download;
                    m_transferEndReason := TER_successful;
                    m_binaryMode := true; m_ioThreadSet := true |} <> TER_none)
    by discriminate.
  split; [exact H1|]. split; [exact H4|].
  destruct (proj2 (proj2 (transfer_end_race sample_environment transfer_collaborators
                            (op_ParseResponse sample_collaborators) 1 ended_socket
                            retr_frame _ [] _ _ "150 Opening" "226 ok" H1 eq_refl eq_refl H4))
              eq_refl (fun _ => eq_refl) eq_refl eq_refl eq_refl eq_refl eq_refl eq_refl)
    as (s1 & t2 & s2 & s_ws & t3 & s3 & Hr1 & Hs1 & Hend & Hs2 & Hop & _ & Hlocal & Hs3 & Hr2).
  exists s1, t2, s2, t3, s3.
  repeat (split; [assumption|]).
  pose proof Hr1 as E1. vm_compute in E1. injection E1 as <-.
  pose proof Hend as E2. vm_compute in E2. injection E2 as <- <-.
  pose proof Hop as E3. vm_compute in E3. injection E3 as <-.
  pose proof Hlocal as E4. vm_compute in E4. injection E4 as <- <-.
  vm_compute. reflexivity.
Defined.

(** ** The resume test *)

Lemma GetCapability_with (name : capabilityNames) (c : capabilities) (s : CFtpControlSocket) :
  GetCapability name (with_capability name c s) = c.
Proof.
  unfold GetCapability, with_capability. cbn [capabilities_ set_capabilities_].
  now rewrite lookup_insert_eq.
Qed.

Section TransferOutcome.

Variable env : Environment.

(** [ResetOperation] on a file-transfer frame, before the base class takes
    over: the error code and the frame it leaves. *)
Lemma ResetOperation_local_transfer_run (c : Z) (s : CFtpControlSocket)
    (d : CFtpFileTransferOpData) (rest : list COpData) :
  m_pCurOpData s = CFtpFileTransferOp d :: rest ->
  exists t s1 d1,
    ResetOperation_local env c s
    = (t, Some (transfer_error_code d (GetReplyCode s) c, s1))
    /\ m_pCurOpData s1 = CFtpFileTransferOp d1 :: rest
    /\ ftp d1 = ftp d
    /\ transferInitiated d1
       = transferInitiated d
         || tranferCommandSent (ftp d)
            && (negb (bool_decide (transferEndReason (ftp d)
                                   = TER_transfer_command_failure_immediate))
                || negb (GetReplyCode s =? 5)).
Proof.
  intros Hst.
  unfold ResetOperation_local, ResetOperation_finish, ResetOperation_transfer,
    StartKeepaliveTimer, set_cur.
  do 3 (run; cbn [m_pCurOpData m_pendingReplies set_m_pTransferSocket set_m_pIPResolver
                  set_m_repliesToSkip]; rewrite ?Hst).
  change (GetReplyCode (set_m_repliesToSkip (m_pendingReplies s)
                          (set_m_pIPResolver false (set_m_pTransferSocket None s))))
    with (GetReplyCode s).
  set (c1 := transfer_error_code d (GetReplyCode s) c).
  destruct (tranferCommandSent (ftp d)
            && (negb (bool_decide (transferEndReason (ftp d)
                                   = TER_transfer_command_failure_immediate))
                || negb (GetReplyCode s =? 5))) eqn:Hinit;
    destruct (negb (c1 =? FZ_REPLY_OK)); cbn [andb];
    repeat first
      [ progress run
      | progress cbn [m_pCurOpData m_pendingReplies m_repliesToSkip
                      m_lastCommandCompletionTime m_idleTimer
                      set_m_pCurOpData set_m_lastCommandCompletionTime set_m_idleTimer
                      set_m_pTransferSocket set_m_pIPResolver set_m_repliesToSkip tail
                      download fileDidExist pIOThread localFile transferInitiated ftp
                      set_transferInitiated set_pIOThread fst snd app negb andb]
      | rewrite Hst
      | match goal with
        | |- context [(when ?b _ ≫= _) _] => destruct b; unfold when
        | |- context [((if ?b then _ else _) ≫= _) _] => destruct b
        | |- context [(if ?b then _ else _) _] => destruct b
        end ];
    do 3 eexists; (split; [reflexivity|]);
    cbn [m_pCurOpData set_m_pCurOpData set_m_idleTimer set_m_lastCommandCompletionTime];
    (split; [reflexivity|]); cbn; rewrite ?orb_true_r, ?orb_false_r; split; reflexivity.
Qed.

End TransferOutcome.

Lemma transfer_error_code_unsent (d : CFtpFileTransferOpData) (code c : Z) :
  tranferCommandSent (ftp d) = false -> transfer_error_code d code c = c.
Proof. intros H. unfold transfer_error_code. now rewrite H. Qed.

(** After a failed resume test the error code is left as it is. *)
Lemma transfer_error_code_resumetest (d : CFtpFileTransferOpData) (code c : Z) :
  transferEndReason (ftp d) = TER_failed_resumetest -> transfer_error_code d code c = c.
Proof.
  intros H. unfold transfer_error_code. rewrite H.
  rewrite !bool_decide_eq_false_2 by discriminate. cbn [negb orb].
  now destruct (tranferCommandSent (ftp d)).
Qed.

Section TransferReset.

Variable env : Environment.
Variable ext : Collaborators.

(** [ResetOperation] on a file-transfer frame: the effects are its own up
    to the last one, with which the base class is handed the error code
    of the frame. *)
Lemma ResetOperation_transfer_run (c : Z) (s : CFtpControlSocket)
    (d : CFtpFileTransferOpData) (rest : list COpData) :
  m_pCurOpData s = CFtpFileTransferOp d :: rest ->
  exists t s1 d1,
    ResetOperation_local env c s
    = (t, Some (transfer_error_code d (GetReplyCode s) c, s1))
    /\ ResetOperation env ext c s
       = ((t ++ [Call_CControlSocket_ResetOperation
                   (transfer_error_code d (GetReplyCode s) c)])%list,
          Some (CControlSocket_ResetOperation ext
                  (transfer_error_code d (GetReplyCode s) c) s1))
    /\ Forall (fun e => is_local_reset_effect e = true) t
    /\ m_pCurOpData s1 = CFtpFileTransferOp d1 :: rest
    /\ ftp d1 = ftp d
    /\ m_repliesToSkip s1 = m_pendingReplies s
    /\ m_pendingReplies s1 = m_pendingReplies s.
Proof.
  intros Hst.
  destruct (ResetOperation_local_transfer_run env c s d rest Hst)
    as (t & s1 & d1 & Hlocal & Hst1 & Hftp & _).
  exists t, s1, d1. split; [exact Hlocal|].
  pose proof (ResetOperation_local_effects env c s) as Heff.
  unfold trace_of in Heff. rewrite Hlocal in Heff.
  pose proof (ResetOperation_local_counters env (m_pendingReplies s) c s eq_refl) as Hcnt.
  rewrite Hlocal in Hcnt. cbn [fst snd] in Heff, Hcnt. destruct Hcnt as [Hp Hk].
  split; [|auto].
  unfold ResetOperation. rewrite (run_bind _ _ _ _ _ _ Hlocal).
  unfold call. cbn [fst snd].
  now destruct (CControlSocket_ResetOperation ext _ s1).
Qed.

End TransferReset.

Section NextCommand.

Variable env : Environment.
Variable ext : Collaborators.

(** With a current frame that does not wait for an asynchronous request,
    and no reply to skip, [SendNextCommand] calls the [Send] of the frame;
    when that has sent a command and waits for the reply, so does
    [SendNextCommand]; when that has changed the state of the frame
    without sending, the loop goes on. *)
Lemma SendNextCommand_calls_Send (fuel : nat) (s : CFtpControlSocket) (o : COpData)
    (rest : list COpData) :
  m_pCurOpData s = o :: rest ->
  waitForAsyncRequest o = false ->
  m_repliesToSkip s = 0 ->
  (exists t,
     trace_of (SendNextCommand env ext (S fuel) s)
     = LogMessage MsgDebug_Verbose "CFtpControlSocket::SendNextCommand()"
       :: Call_op_Send :: t)
  /\ ((op_Send ext s).1 = FZ_REPLY_WOULDBLOCK ->
      SendNextCommand env ext (S fuel) s
      = ([LogMessage MsgDebug_Verbose "CFtpControlSocket::SendNextCommand()"; Call_op_Send],
         Some (FZ_REPLY_WOULDBLOCK, (op_Send ext s).2)))
  /\ ((op_Send ext s).1 = FZ_REPLY_CONTINUE ->
      SendNextCommand env ext (S fuel) s
      = (LogMessage MsgDebug_Verbose "CFtpControlSocket::SendNextCommand()"
         :: Call_op_Send :: (SendNextCommand_loop env ext fuel (op_Send ext s).2).1,
         (SendNextCommand_loop env ext fuel (op_Send ext s).2).2)).
Proof.
  intros Hst Hwait Hskip.
  unfold SendNextCommand, trace_of. run. rewrite Hst.
  cbn [SendNextCommand_loop]. run. rewrite Hst, Hwait. run. rewrite Hskip.
  cbn [Z.eqb negb]. run. split; [|split].
  - eexists. reflexivity.
  - intros Hres. rewrite Hres. reflexivity.
  - intros Hres. rewrite Hres. reflexivity.
Qed.

End NextCommand.


Section ResumeTest.

Variable env : Environment.
Variable ext : Collaborators.

(** A round of the loop for a file below the limit of the round. *)
Lemma round_below (i : bool) (s : CFtpControlSocket) (d : CFtpFileTransferOpData)
    (rest : list COpData) :
  m_pCurOpData s = CFtpFileTransferOp d :: rest ->
  localFileSize d < 2 ^ (if i then 31 else 32) ->
  TestResumeCapability_round env ext i s = ([], Some (None, s)).
Proof.
  intros Hst Hlt. unfold TestResumeCapability_round, get_ft. run. rewrite Hst. run.
  destruct (Z.leb_spec (2 ^ (if i then 31 else 32)) (localFileSize d)); [lia|reflexivity].
Qed.

(** A round of the loop when the server is known to resume. *)
Lemma round_no (i : bool) (s : CFtpControlSocket) (d : CFtpFileTransferOpData)
    (rest : list COpData) :
  m_pCurOpData s = CFtpFileTransferOp d :: rest ->
  GetCapability (if i then resume2GBbug else resume4GBbug) s = no ->
  TestResumeCapability_round env ext i s = ([], Some (None, s)).
Proof.
  intros Hst Hcap. unfold TestResumeCapability_round, get_ft. run. rewrite Hst. run.
  destruct (2 ^ (if i then 31 else 32) <=? localFileSize d); [|reflexivity].
  run. rewrite Hcap. reflexivity.
Qed.

(** A round of the loop that starts the test. *)
Lemma round_test (i : bool) (s : CFtpControlSocket) (d : CFtpFileTransferOpData)
    (rest : list COpData) :
  m_pCurOpData s = CFtpFileTransferOp d :: rest ->
  2 ^ (if i then 31 else 32) <= localFileSize d ->
  GetCapability (if i then resume2GBbug else resume4GBbug) s = unknown ->
  localFileSize d < remoteFileSize d ->
  exists raw d' s',
    TestResumeCapability_round env ext i s
    = ([LogMessage MsgStatus "Testing resume capabilities of server";
        Call_Push (CFtpRawTransferOp raw)],
       Some (Some FZ_REPLY_CONTINUE, s'))
    /\ m_pCurOpData s' = CFtpRawTransferOp raw :: CFtpFileTransferOp d' :: rest
    /\ m_pTransferSocket s' = Some (new_CTransferSocket TransferMode_resumetest)
    /\ capabilities_ s' = capabilities_ s
    /\ cmd_ raw = "RETR " ++ FormatFilename env (remotePath d) (remoteFile d)
                               (negb (tryAbsolutePath d))
    /\ ft_opState d' = filetransfer_waitresumetest
    /\ resumeOffset (ftp d') = remoteFileSize d - 1
    /\ transferEndReason (ftp d') = TER_successful
    /\ tranferCommandSent (ftp d') = false.
Proof.
  intros Hst Hge Hcap Hlt.
  unfold TestResumeCapability_round, get_ft. run. rewrite Hst. run.
  destruct (Z.leb_spec (2 ^ (if i then 31 else 32)) (localFileSize d)); [|lia].
  run. rewrite Hcap.
  destruct (Z.ltb_spec (remoteFileSize d) (localFileSize d)); [lia|].
  destruct (Z.eqb_spec (remoteFileSize d) (localFileSize d)); [lia|].
  destruct (Z.ltb_spec (localFileSize d) (remoteFileSize d)); [|lia].
  unfold update_ft, get_ft, Transfer, set_cur.
  repeat (run; cbn [m_pCurOpData m_pTransferSocket m_pProxyBackend currentServer_
                    m_lastTypeBinary set_m_pCurOpData set_m_pTransferSocket tail
                    transfer_base set_transfer_base];
          rewrite ?Hst).
  cbn. do 3 eexists. split; [reflexivity|]. cbn. rewrite ?Hst. repeat split.
Qed.

Lemma pOldData_valid_transfer (s : CFtpControlSocket) (d : CFtpFileTransferOpData)
    (rest : list COpData) :
  m_pCurOpData s = CFtpFileTransferOp d :: rest -> pOldData_valid s = true.
Proof. intros Hst. unfold pOldData_valid. now rewrite Hst. Qed.

(** [ResetOperation] on a file-transfer frame returns, with effects of
    its own only. *)
Lemma ResetOperation_transfer_returns (c : Z) (s : CFtpControlSocket)
    (d : CFtpFileTransferOpData) (rest : list COpData) :
  m_pCurOpData s = CFtpFileTransferOp d :: rest ->
  exists t a s',
    ResetOperation env ext c s = (t, Some (a, s'))
    /\ Forall (fun e => is_reset_effect e = true) t.
Proof.
  intros Hst.
  destruct (ResetOperation_seeds_skip env ext c s (pOldData_valid_transfer s d rest Hst))
    as (t & c' & s1 & _ & _ & _ & Hrun).
  destruct (CControlSocket_ResetOperation ext c' s1) as [a s'] eqn:Hbase.
  exists (t ++ [Call_CControlSocket_ResetOperation c'])%list, a, s'.
  split; [exact Hrun|].
  pose proof (ResetOperation_effects env ext c s) as H. unfold trace_of in H.
  now rewrite Hrun in H.
Qed.

(** A round of the loop when the sizes match: the transfer ends. *)
Lemma round_equal (i : bool) (s : CFtpControlSocket) (d : CFtpFileTransferOpData)
    (rest : list COpData) :
  m_pCurOpData s = CFtpFileTransferOp d :: rest ->
  2 ^ (if i then 31 else 32) <= localFileSize d ->
  GetCapability (if i then resume2GBbug else resume4GBbug) s <> no ->
  remoteFileSize d = localFileSize d ->
  exists msg t a s',
    ResetOperation env ext FZ_REPLY_OK s = (t, Some (a, s'))
    /\ Forall (fun e => is_reset_effect e = true) t
    /\ TestResumeCapability_round env ext i s
       = (LogMessage MsgDebug_Info msg :: t, Some (Some FZ_REPLY_CANCELED, s')).
Proof.
  intros Hst Hge Hcap Heq.
  destruct (ResetOperation_transfer_returns FZ_REPLY_OK s d rest Hst)
    as (t & a & s' & Hrun & Heff).
  unfold TestResumeCapability_round, get_ft. run. rewrite Hst. run.
  destruct (Z.leb_spec (2 ^ (if i then 31 else 32)) (localFileSize d)); [|lia].
  run.
  destruct (GetCapability (if i then resume2GBbug else resume4GBbug) s); [| |congruence].
  - destruct (Z.ltb_spec (remoteFileSize d) (localFileSize d)); [lia|].
    destruct (Z.eqb_spec (remoteFileSize d) (localFileSize d)); [|lia].
    run. rewrite bind_ret_run, Hrun. cbn. eauto 10.
  - destruct (Z.eqb_spec (remoteFileSize d) (localFileSize d)); [|lia].
    run. rewrite bind_ret_run, Hrun. cbn. eauto 10.
Qed.

(** [FileTransferTestResumeCapability] starts the test. *)
Lemma resume_test_started (s : CFtpControlSocket) (d : CFtpFileTransferOpData)
    (rest : list COpData) (cap : capabilityNames) :
  m_pCurOpData s = CFtpFileTransferOp d :: rest ->
  download d = true ->
  size_class (localFileSize d) cap ->
  GetCapability cap s = unknown ->
  localFileSize d < remoteFileSize d ->
  exists raw d' s',
    FileTransferTestResumeCapability env ext s
    = ([LogMessage MsgDebug_Verbose "FileTransferTestResumeCapability()";
        LogMessage MsgStatus "Testing resume capabilities of server";
        Call_Push (CFtpRawTransferOp raw)],
       Some (FZ_REPLY_CONTINUE, s'))
    /\ m_pCurOpData s' = CFtpRawTransferOp raw :: CFtpFileTransferOp d' :: rest
    /\ m_pTransferSocket s' = Some (new_CTransferSocket TransferMode_resumetest)
    /\ capabilities_ s' = capabilities_ s
    /\ cmd_ raw = "RETR " ++ FormatFilename env (remotePath d) (remoteFile d)
                               (negb (tryAbsolutePath d))
    /\ ft_opState d' = filetransfer_waitresumetest
    /\ resumeOffset (ftp d') = remoteFileSize d - 1
    /\ transferEndReason (ftp d') = TER_successful
    /\ tranferCommandSent (ftp d') = false.
Proof.
  intros Hst Hdl Hclass Hcap Hlt.
  unfold FileTransferTestResumeCapability, get_ft.
  repeat (run; rewrite ?Hst, ?Hdl; cbn [negb]).
  destruct Hclass as [[Hsize ->]|[Hsize ->]].
  - destruct (round_test false s d rest Hst) as (raw & d' & s' & Hround & Hfacts);
      [cbn beta iota; lia | exact Hcap | exact Hlt |].
    rewrite (run_bind _ _ _ _ _ _ Hround). run. cbn. eauto 10.
  - rewrite (run_bind _ _ _ _ _ _ (round_below false s d rest Hst
                                     ltac:(cbn beta iota; lia))).
    destruct (round_test true s d rest Hst) as (raw & d' & s' & Hround & Hfacts);
      [cbn beta iota; lia | exact Hcap | exact Hlt |].
    cbn [fst snd app]. rewrite (run_bind _ _ _ _ _ _ Hround). run. cbn. eauto 10.
Qed.

(** [FileTransferTestResumeCapability] ends the transfer when the sizes
    match. *)
Lemma resume_test_not_needed (s : CFtpControlSocket) (d : CFtpFileTransferOpData)
    (rest : list COpData) (cap : capabilityNames) :
  m_pCurOpData s = CFtpFileTransferOp d :: rest ->
  download d = true ->
  size_class (localFileSize d) cap ->
  GetCapability cap s <> no ->
  remoteFileSize d = localFileSize d ->
  exists msg t a s',
    ResetOperation env ext FZ_REPLY_OK s = (t, Some (a, s'))
    /\ Forall (fun e => is_reset_effect e = true) t
    /\ FileTransferTestResumeCapability env ext s
       = (LogMessage MsgDebug_Verbose "FileTransferTestResumeCapability()"
          :: LogMessage MsgDebug_Info msg :: t,
          Some (FZ_REPLY_CANCELED, s')).
Proof.
  intros Hst Hdl Hclass Hcap Heq.
  unfold FileTransferTestResumeCapability, get_ft.
  repeat (run; rewrite ?Hst, ?Hdl; cbn [negb]).
  destruct Hclass as [[Hsize ->]|[Hsize ->]].
  - destruct (round_equal false s d rest Hst) as (msg & t & a & s' & Hrun & Heff & Hround);
      [cbn beta iota; lia | exact Hcap | exact Heq |].
    rewrite (run_bind _ _ _ _ _ _ Hround). run. cbn. rewrite app_nil_r. eauto 10.
  - rewrite (run_bind _ _ _ _ _ _ (round_below false s d rest Hst
                                     ltac:(cbn beta iota; lia))).
    destruct (round_equal true s d rest Hst) as (msg & t & a & s' & Hrun & Heff & Hround);
      [cbn beta iota; lia | exact Hcap | exact Heq |].
    cbn [fst snd app]. rewrite (run_bind _ _ _ _ _ _ Hround). run. cbn.
    rewrite app_nil_r. eauto 10.
Qed.

(** [FileTransferSubcommandResult] after a resume test that succeeded. *)
Lemma resume_test_succeeded (fuel : nat) (s : CFtpControlSocket)
    (d : CFtpFileTransferOpData) (rest : list COpData) (cap : capabilityNames) :
  m_pCurOpData s = CFtpFileTransferOp d :: rest ->
  ft_opState d = filetransfer_waitresumetest ->
  size_class (localFileSize d) cap ->
  FileTransferSubcommandResult env ext fuel FZ_REPLY_OK s
  = (LogMessage MsgDebug_Verbose "FileTransferSubcommandResult()"
     :: (SendNextCommand env ext fuel (after_resume_test cap d rest s)).1,
     (SendNextCommand env ext fuel (after_resume_test cap d rest s)).2).
Proof.
  intros Hst Hstate Hclass.
  unfold FileTransferSubcommandResult, get_ft, after_resume_test, with_capability.
  repeat (run; rewrite ?Hst, ?Hstate).
  change (FZ_REPLY_OK =? FZ_REPLY_OK) with true. cbn [negb].
  unfold SetCapability, update_ft, get_ft, set_cur.
  destruct Hclass as [[Hsize ->]|[Hsize ->]];
    destruct (Z.ltb_spec (2 ^ 32) (localFileSize d)); try lia;
    repeat (run; cbn [m_pCurOpData set_capabilities_ set_m_pCurOpData tail]; rewrite ?Hst);
    reflexivity.
Qed.

(** [FileTransferSubcommandResult] after a resume test that failed. *)
Lemma resume_test_failed (fuel : nat) (prevResult : Z) (s : CFtpControlSocket)
    (d : CFtpFileTransferOpData) (rest : list COpData) (cap : capabilityNames) :
  m_pCurOpData s = CFtpFileTransferOp d :: rest ->
  ft_opState d = filetransfer_waitresumetest ->
  size_class (localFileSize d) cap ->
  prevResult <> FZ_REPLY_OK ->
  transferEndReason (ftp d) = TER_failed_resumetest ->
  exists msg t a s',
    ResetOperation env ext (Z.lor prevResult FZ_REPLY_CRITICALERROR)
      (with_capability cap yes s) = (t, Some (a, s'))
    /\ Forall (fun e => is_reset_effect e = true) t
    /\ FileTransferSubcommandResult env ext fuel prevResult s
       = (LogMessage MsgDebug_Verbose "FileTransferSubcommandResult()"
          :: LogMessage MsgError msg :: t,
          Some (FZ_REPLY_ERROR, s')).
Proof.
  intros Hst Hstate Hclass Hprev Hend.
  destruct (ResetOperation_transfer_returns (Z.lor prevResult FZ_REPLY_CRITICALERROR)
              (with_capability cap yes s) d rest Hst) as (t & a & s' & Hrun & Heff).
  unfold FileTransferSubcommandResult, get_ft.
  repeat (run; rewrite ?Hst, ?Hstate).
  destruct (Z.eqb_spec prevResult FZ_REPLY_OK); [contradiction|]. cbn [negb].
  rewrite Hend. rewrite bool_decide_eq_true_2 by reflexivity.
  unfold SetCapability. unfold with_capability in Hrun.
  destruct Hclass as [[Hsize ->]|[Hsize ->]];
    destruct (Z.ltb_spec (2 ^ 32) (localFileSize d)); try lia;
    run; rewrite bind_ret_run, Hrun; cbn; eauto 10.
Qed.

End ResumeTest.

Section ResumeRounds.

Variable env : Environment.
Variable ext : Collaborators.

Lemma ResetOperation_local_capabilities (c : Z) (caps : gmap capabilityNames (capabilities * string)) :
  post (fun s => capabilities_ s = caps) (ResetOperation_local env c)
       (fun _ s => capabilities_ s = caps).
Proof.
  unfold ResetOperation_local, ResetOperation_finish, ResetOperation_transfer,
    ResetOperation_rawtransfer, StartKeepaliveTimer, get_pOldData, set_pOldData.
  repeat keeps_step; cbn; auto.
Qed.

(** A round of the loop that goes on to the next. *)
Lemma round_passed (i : bool) (s : CFtpControlSocket) (d : CFtpFileTransferOpData)
    (rest : list COpData) :
  m_pCurOpData s = CFtpFileTransferOp d :: rest ->
  round_passes (if i then resume2GBbug else resume4GBbug) (2 ^ (if i then 31 else 32)) d s
  = true ->
  TestResumeCapability_round env ext i s = ([], Some (None, s)).
Proof.
  intros Hst Hpass. unfold round_passes in Hpass.
  unfold TestResumeCapability_round, get_ft. run. rewrite Hst. run.
  destruct (Z.leb_spec (2 ^ (if i then 31 else 32)) (localFileSize d)) as [Hge|Hlt];
    [|reflexivity].
  assert (Hnlt : (localFileSize d <? 2 ^ (if i then 31 else 32)) = false)
    by (apply Z.ltb_ge; lia).
  rewrite Hnlt in Hpass. cbn [orb] in Hpass. run. revert Hpass.
  destruct (GetCapability (if i then resume2GBbug else resume4GBbug) s); intros Hpass;
    first [discriminate Hpass | now rewrite Hpass | reflexivity].
Qed.

(** A round of the loop when the sizes match: the operation is reset with
    FZ_REPLY_OK. *)
Lemma round_equal_run (i : bool) (s : CFtpControlSocket) (d : CFtpFileTransferOpData)
    (rest : list COpData) :
  m_pCurOpData s = CFtpFileTransferOp d :: rest ->
  2 ^ (if i then 31 else 32) <= localFileSize d ->
  GetCapability (if i then resume2GBbug else resume4GBbug) s <> no ->
  remoteFileSize d = localFileSize d ->
  exists msg t s1,
    ResetOperation_local env FZ_REPLY_OK s
    = (t, Some (transfer_error_code d (GetReplyCode s) FZ_REPLY_OK, s1))
    /\ TestResumeCapability_round env ext i s
       = ((LogMessage MsgDebug_Info msg
           :: t ++ [Call_CControlSocket_ResetOperation
                      (transfer_error_code d (GetReplyCode s) FZ_REPLY_OK)])%list,
          Some (Some FZ_REPLY_CANCELED,
                (CControlSocket_ResetOperation ext
                   (transfer_error_code d (GetReplyCode s) FZ_REPLY_OK) s1).2))
    /\ Forall (fun e => is_local_reset_effect e = true) t.
Proof.
  intros Hst Hge Hcap Heq.
  destruct (ResetOperation_transfer_run env ext FZ_REPLY_OK s d rest Hst)
    as (t & s1 & d1 & Hlocal & Hrun & Heff & _).
  unfold TestResumeCapability_round, get_ft. run. rewrite Hst. run.
  destruct (Z.leb_spec (2 ^ (if i then 31 else 32)) (localFileSize d)); [|lia].
  run.
  destruct (GetCapability (if i then resume2GBbug else resume4GBbug) s); [| |congruence].
  - destruct (Z.ltb_spec (remoteFileSize d) (localFileSize d)); [lia|].
    destruct (Z.eqb_spec (remoteFileSize d) (localFileSize d)); [|lia].
    run. rewrite bind_ret_run, Hrun. cbn [fst snd].
    eexists. exists t, s1. split; [exact Hlocal|]. split; [|exact Heff].
    now destruct (CControlSocket_ResetOperation ext _ s1).
  - destruct (Z.eqb_spec (remoteFileSize d) (localFileSize d)); [|lia].
    run. rewrite bind_ret_run, Hrun. cbn [fst snd].
    eexists. exists t, s1. split; [exact Hlocal|]. split; [|exact Heff].
    now destruct (CControlSocket_ResetOperation ext _ s1).
Qed.

(** A round of the loop for a server known not to resume, when the sizes
    differ: the operation is reset with FZ_REPLY_CRITICALERROR. *)
Lemma round_refused (i : bool) (s : CFtpControlSocket) (d : CFtpFileTransferOpData)
    (rest : list COpData) :
  m_pCurOpData s = CFtpFileTransferOp d :: rest ->
  2 ^ (if i then 31 else 32) <= localFileSize d ->
  GetCapability (if i then resume2GBbug else resume4GBbug) s = yes ->
  remoteFileSize d <> localFileSize d ->
  exists t s1,
    ResetOperation_local env FZ_REPLY_CRITICALERROR s
    = (t, Some (transfer_error_code d (GetReplyCode s) FZ_REPLY_CRITICALERROR, s1))
    /\ TestResumeCapability_round env ext i s
       = ((LogMessage MsgError "Server does not support resume of files > %d GB."
           :: t ++ [Call_CControlSocket_ResetOperation
                      (transfer_error_code d (GetReplyCode s) FZ_REPLY_CRITICALERROR)])%list,
          Some (Some FZ_REPLY_ERROR,
                (CControlSocket_ResetOperation ext
                   (transfer_error_code d (GetReplyCode s) FZ_REPLY_CRITICALERROR) s1).2))
    /\ Forall (fun e => is_local_reset_effect e = true) t.
Proof.
  intros Hst Hge Hcap Hne.
  destruct (ResetOperation_transfer_run env ext FZ_REPLY_CRITICALERROR s d rest Hst)
    as (t & s1 & d1 & Hlocal & Hrun & Heff & _).
  unfold TestResumeCapability_round, get_ft. run. rewrite Hst. run.
  destruct (Z.leb_spec (2 ^ (if i then 31 else 32)) (localFileSize d)); [|lia].
  run. rewrite Hcap.
  destruct (Z.eqb_spec (remoteFileSize d) (localFileSize d)); [contradiction|].
  run. rewrite bind_ret_run, Hrun. cbn [fst snd].
  exists t, s1. split; [exact Hlocal|]. split; [|exact Heff].
  now destruct (CControlSocket_ResetOperation ext _ s1).
Qed.

(** The round that decides: [FileTransferTestResumeCapability] ends with
    the result of the round in which the capability is consulted. *)
Lemma consulted_round (cap : capabilityNames) (s : CFtpControlSocket)
    (d : CFtpFileTransferOpData) (rest : list COpData) :
  m_pCurOpData s = CFtpFileTransferOp d :: rest ->
  download d = true ->
  consulted cap d s ->
  exists i : bool,
    cap = (if i then resume2GBbug else resume4GBbug)
    /\ 2 ^ (if i then 31 else 32) <= localFileSize d
    /\ forall t r s',
         TestResumeCapability_round env ext i s = (t, Some (Some r, s')) ->
         FileTransferTestResumeCapability env ext s
         = (LogMessage MsgDebug_Verbose "FileTransferTestResumeCapability()" :: t,
            Some (r, s')).
Proof.
  intros Hst Hdl [[-> Hge]|(-> & Hge & Hpass)].
  - exists false. split; [reflexivity|]. split; [exact Hge|].
    intros t r s' Hround.
    unfold FileTransferTestResumeCapability, get_ft.
    repeat (run; rewrite ?Hst, ?Hdl; cbn [negb]).
    rewrite (run_bind _ _ _ _ _ _ Hround). run. cbn [fst snd]. now rewrite app_nil_r.
  - exists true. split; [reflexivity|]. split; [exact Hge|].
    intros t r s' Hround.
    unfold FileTransferTestResumeCapability, get_ft.
    repeat (run; rewrite ?Hst, ?Hdl; cbn [negb]).
    rewrite (run_bind _ _ _ _ _ _ (round_passed false s d rest Hst Hpass)).
    cbn [fst snd app]. rewrite (run_bind _ _ _ _ _ _ Hround). run. cbn [fst snd].
    now rewrite app_nil_r.
Qed.

(** [FileTransferSubcommandResult] after a resume test: the outcome is
    recorded and acted upon. *)
Lemma resume_test_outcome (fuel : nat) (prevResult : Z) (s : CFtpControlSocket)
    (d : CFtpFileTransferOpData) (rest : list COpData) :
  m_pCurOpData s = CFtpFileTransferOp d :: rest ->
  ft_opState d = filetransfer_waitresumetest ->
  FileTransferSubcommandResult env ext fuel prevResult s
  = if prevResult =? FZ_REPLY_OK then
      (LogMessage MsgDebug_Verbose "FileTransferSubcommandResult()"
       :: (SendNextCommand env ext fuel
             (after_resume_test (recorded_capability d) d rest s)).1,
       (SendNextCommand env ext fuel
          (after_resume_test (recorded_capability d) d rest s)).2)
    else if bool_decide (transferEndReason (ftp d) = TER_failed_resumetest) then
      (LogMessage MsgDebug_Verbose "FileTransferSubcommandResult()"
       :: LogMessage MsgError
            (if 2 ^ 32 <? localFileSize d
             then "Server does not support resume of files > 4GB."
             else "Server does not support resume of files > 2GB.")
       :: ((ResetOperation env ext (Z.lor prevResult FZ_REPLY_CRITICALERROR);;
            mret FZ_REPLY_ERROR)
             (with_capability (recorded_capability d) yes s)).1,
       ((ResetOperation env ext (Z.lor prevResult FZ_REPLY_CRITICALERROR);;
         mret FZ_REPLY_ERROR)
          (with_capability (recorded_capability d) yes s)).2)
    else
      (LogMessage MsgDebug_Verbose "FileTransferSubcommandResult()"
       :: ((ResetOperation env ext prevResult;; mret prevResult) s).1,
       ((ResetOperation env ext prevResult;; mret prevResult) s).2).
Proof.
  intros Hst Hstate.
  unfold FileTransferSubcommandResult, get_ft, after_resume_test, with_capability,
    recorded_capability.
  repeat (run; rewrite ?Hst, ?Hstate).
  destruct (prevResult =? FZ_REPLY_OK); cbn [negb].
  - unfold SetCapability, update_ft, get_ft, set_cur.
    destruct (2 ^ 32 <? localFileSize d);
      repeat (run; cbn [m_pCurOpData set_capabilities_ set_m_pCurOpData tail]; rewrite ?Hst);
      reflexivity.
  - destruct (bool_decide (transferEndReason (ftp d) = TER_failed_resumetest)).
    + unfold SetCapability. destruct (2 ^ 32 <? localFileSize d); run; reflexivity.
    + run. reflexivity.
Qed.

End ResumeRounds.

Lemma has_flags_lor_r (a b : Z) : has_flags (Z.lor a b) b = true.
Proof. rewrite Z.lor_comm. apply has_flags_lor. Qed.

(** C5, as amended.  For a download frame, [FileTransferTestResumeCapability]
    consults the 4 GB capability when the local file has at least 4 GiB and,
    once that round has gone on, the 2 GB capability when the local file has
    at least 2 GiB.  While the capability consulted is unknown and the remote
    file is larger than the local one, the resume test is started: a raw
    transfer with RETR and the resume offset one below the remote size.
    While it is yes or unknown and the two sizes are equal, the operation is
    reset with FZ_REPLY_OK and nothing is transferred.  While it is yes and
    the sizes differ, the operation is reset with FZ_REPLY_CRITICALERROR
    without a test.  [FileTransferSubcommandResult] records the outcome of
    the test under the 4 GB capability when the local file is larger than
    4 GiB and under the 2 GB capability otherwise: after a test that
    succeeded the capability is no, the frame is in the state transfer and
    [SendNextCommand] calls its [Send]; after a test that failed with the end
    reason failed_resumetest the capability is yes and the base class is
    handed the result of the test with FZ_REPLY_CRITICALERROR added.  The
    capability consulted and the capability recorded are the same, and the
    one the claim names, for a local file larger than 4 GiB and for one of
    at least 2 GiB and less than 4 GiB. *)
Theorem resume_bug_probe (env : Environment) (ext : Collaborators) (fuel : nat)
    (s : CFtpControlSocket) (d : CFtpFileTransferOpData) (rest : list COpData) :
  m_pCurOpData s = CFtpFileTransferOp d :: rest ->
  download d = true ->
  (forall cap, size_class (localFileSize d) cap ->
     consulted cap d s /\ recorded_capability d = cap)
  /\ (forall cap, consulted cap d s ->
        (GetCapability cap s = unknown ->
         localFileSize d < remoteFileSize d ->
         exists raw d' s',
           FileTransferTestResumeCapability env ext s
           = ([LogMessage MsgDebug_Verbose "FileTransferTestResumeCapability()";
               LogMessage MsgStatus "Testing resume capabilities of server";
               Call_Push (CFtpRawTransferOp raw)],
              Some (FZ_REPLY_CONTINUE, s'))
           /\ m_pCurOpData s' = CFtpRawTransferOp raw :: CFtpFileTransferOp d' :: rest
           /\ m_pTransferSocket s' = Some (new_CTransferSocket TransferMode_resumetest)
           /\ cmd_ raw = "RETR " ++ FormatFilename env (remotePath d) (remoteFile d)
                                      (negb (tryAbsolutePath d))
           /\ ft_opState d' = filetransfer_waitresumetest
           /\ resumeOffset (ftp d') = remoteFileSize d - 1)
        /\ (GetCapability cap s <> no ->
            remoteFileSize d = localFileSize d ->
            exists msg t code s1,
              ResetOperation_local env FZ_REPLY_OK s = (t, Some (code, s1))
              /\ (tranferCommandSent (ftp d) = false -> code = FZ_REPLY_OK)
              /\ FileTransferTestResumeCapability env ext s
                 = ((LogMessage MsgDebug_Verbose "FileTransferTestResumeCapability()"
                     :: LogMessage MsgDebug_Info msg
                     :: t ++ [Call_CControlSocket_ResetOperation code])%list,
                    Some (FZ_REPLY_CANCELED, (CControlSocket_ResetOperation ext code s1).2))
              /\ Forall (fun e => is_local_reset_effect e = true) t)
        /\ (GetCapability cap s = yes ->
            remoteFileSize d <> localFileSize d ->
            exists t code s1,
              ResetOperation_local env FZ_REPLY_CRITICALERROR s = (t, Some (code, s1))
              /\ has_flags code FZ_REPLY_CRITICALERROR = true
              /\ FileTransferTestResumeCapability env ext s
                 = ((LogMessage MsgDebug_Verbose "FileTransferTestResumeCapability()"
                     :: LogMessage MsgError "Server does not support resume of files > %d GB."
                     :: t ++ [Call_CControlSocket_ResetOperation code])%list,
                    Some (FZ_REPLY_ERROR, (CControlSocket_ResetOperation ext code s1).2))
              /\ Forall (fun e => is_local_reset_effect e = true) t))
  /\ (ft_opState d = filetransfer_waitresumetest ->
      let cap := recorded_capability d in
      let s_ok := after_resume_test cap d rest s in
      (FileTransferSubcommandResult env ext fuel FZ_REPLY_OK s
       = (LogMessage MsgDebug_Verbose "FileTransferSubcommandResult()"
          :: (SendNextCommand env ext fuel s_ok).1,
          (SendNextCommand env ext fuel s_ok).2)
       /\ GetCapability cap s_ok = no
       /\ m_pCurOpData s_ok
          = CFtpFileTransferOp (set_ft_opState filetransfer_transfer d) :: rest
       /\ (ft_waitForAsyncRequest d = false ->
           m_repliesToSkip s = 0 ->
           forall fuel', fuel = S fuel' ->
           (exists t,
              trace_of (FileTransferSubcommandResult env ext fuel FZ_REPLY_OK s)
              = LogMessage MsgDebug_Verbose "FileTransferSubcommandResult()"
                :: LogMessage MsgDebug_Verbose "CFtpControlSocket::SendNextCommand()"
                :: Call_op_Send :: t)
           /\ ((op_Send ext s_ok).1 = FZ_REPLY_CONTINUE ->
               FileTransferSubcommandResult env ext fuel FZ_REPLY_OK s
               = (LogMessage MsgDebug_Verbose "FileTransferSubcommandResult()"
                  :: LogMessage MsgDebug_Verbose "CFtpControlSocket::SendNextCommand()"
                  :: Call_op_Send
                  :: (SendNextCommand_loop env ext fuel' (op_Send ext s_ok).2).1,
                  (SendNextCommand_loop env ext fuel' (op_Send ext s_ok).2).2))))
      /\ (forall prevResult,
            prevResult <> FZ_REPLY_OK ->
            transferEndReason (ftp d) = TER_failed_resumetest ->
            exists msg t s1,
              ResetOperation_local env (Z.lor prevResult FZ_REPLY_CRITICALERROR)
                (with_capability cap yes s)
              = (t, Some (Z.lor prevResult FZ_REPLY_CRITICALERROR, s1))
              /\ has_flags (Z.lor prevResult FZ_REPLY_CRITICALERROR) FZ_REPLY_CRITICALERROR
                 = true
              /\ GetCapability cap s1 = yes
              /\ FileTransferSubcommandResult env ext fuel prevResult s
                 = ((LogMessage MsgDebug_Verbose "FileTransferSubcommandResult()"
                     :: LogMessage MsgError msg
                     :: t ++ [Call_CControlSocket_ResetOperation
                                (Z.lor prevResult FZ_REPLY_CRITICALERROR)])%list,
                    Some (FZ_REPLY_ERROR,
                          (CControlSocket_ResetOperation ext
                             (Z.lor prevResult FZ_REPLY_CRITICALERROR) s1).2)))).
Proof.
  intros Hst Hdl. split; [|split].
  - intros cap [[Hsize ->]|[Hsize ->]]; unfold consulted, recorded_capability, round_passes.
    + split; [left; split; [reflexivity | lia]|].
      destruct (Z.ltb_spec (2 ^ 32) (localFileSize d)); [reflexivity | lia].
    + split.
      * right. split; [reflexivity|]. split; [lia|].
        destruct (Z.ltb_spec (localFileSize d) (2 ^ 32)); [reflexivity | lia].
      * destruct (Z.ltb_spec (2 ^ 32) (localFileSize d)); [lia | reflexivity].
  - intros cap Hcons.
    destruct (consulted_round env ext cap s d rest Hst Hdl Hcons) as (i & -> & Hge & Hend).
    split; [|split].
    + intros Hcap Hlt.
      destruct (round_test env ext i s d rest Hst Hge Hcap Hlt)
        as (raw & d' & s' & Hround & H1 & H2 & _ & H3 & H4 & H5 & _).
      exists raw, d', s'. rewrite (Hend _ _ _ Hround). auto 10.
    + intros Hcap Heq.
      destruct (round_equal_run env ext i s d rest Hst Hge Hcap Heq)
        as (msg & t & s1 & Hlocal & Hround & Heff).
      exists msg, t. eexists. exists s1.
      split; [exact Hlocal|]. split; [apply transfer_error_code_unsent|].
      split; [|exact Heff]. now rewrite (Hend _ _ _ Hround).
    + intros Hcap Hne.
      destruct (round_refused env ext i s d rest Hst Hge Hcap Hne)
        as (t & s1 & Hlocal & Hround & Heff).
      exists t. eexists. exists s1.
      split; [exact Hlocal|]. split; [apply transfer_error_code_flags|].
      split; [|exact Heff]. now rewrite (Hend _ _ _ Hround).
  - intros Hstate cap s_ok.
    pose proof (resume_test_outcome env ext fuel FZ_REPLY_OK s d rest Hst Hstate) as Hok.
    change (FZ_REPLY_OK =? FZ_REPLY_OK) with true in Hok. cbv iota in Hok.
    fold cap in Hok. fold s_ok in Hok.
    split; [split; [exact Hok|]; split; [|split; [reflexivity|]]|].
    + subst s_ok. unfold after_resume_test, GetCapability. cbn [capabilities_ set_m_pCurOpData].
      apply GetCapability_with.
    + intros Hwait Hskip fuel' ->.
      destruct (SendNextCommand_calls_Send env ext fuel' s_ok _ rest eq_refl Hwait Hskip)
        as ((t & Ht) & _ & Hcont).
      split.
      * exists t. unfold trace_of in *. rewrite Hok. cbn [fst]. now rewrite Ht.
      * intros Hres. rewrite Hok, (Hcont Hres). reflexivity.
    + intros prevResult Hprev Hend.
      pose proof (resume_test_outcome env ext fuel prevResult s d rest Hst Hstate) as Hfail.
      destruct (Z.eqb_spec prevResult FZ_REPLY_OK); [contradiction|].
      rewrite Hend, bool_decide_eq_true_2 in Hfail by reflexivity.
      fold cap in Hfail.
      assert (Hst' : m_pCurOpData (with_capability cap yes s) = CFtpFileTransferOp d :: rest)
        by exact Hst.
      destruct (ResetOperation_transfer_run env ext (Z.lor prevResult FZ_REPLY_CRITICALERROR)
                  _ d rest Hst') as (t & s1 & d1 & Hlocal & Hrun & _).
      rewrite (transfer_error_code_resumetest d _ _ Hend) in Hlocal, Hrun.
      eexists. exists t, s1. split; [exact Hlocal|]. split; [apply has_flags_lor_r|].
      split.
      * pose proof (ResetOperation_local_capabilities env
                      (Z.lor prevResult FZ_REPLY_CRITICALERROR)
                      (capabilities_ (with_capability cap yes s))
                      (with_capability cap yes s) eq_refl) as Hcaps.
        rewrite Hlocal in Hcaps. cbn [snd] in Hcaps.
        unfold GetCapability. rewrite Hcaps.
        apply (GetCapability_with cap yes s).
      * rewrite Hfail. rewrite bind_ret_run, Hrun. cbn [fst snd].
        now destruct (CControlSocket_ResetOperation ext _ s1).
Qed.

(** The download of 5 GiB of the examples: the test is started. *)
Lemma resume_bug_probe_witness :
  m_pCurOpData probe_socket = [CFtpFileTransferOp big_download]
  /\ download big_download = true
  /\ size_class (localFileSize big_download) resume4GBbug
  /\ consulted resume4GBbug big_download probe_socket
  /\ exists raw d' s',
       FileTransferTestResumeCapability sample_environment sample_collaborators probe_socket
       = ([LogMessage MsgDebug_Verbose "FileTransferTestResumeCapability()";
           LogMessage MsgStatus "Testing resume capabilities of server";
           Call_Push (CFtpRawTransferOp raw)],
          Some (FZ_REPLY_CONTINUE, s'))
       /\ m_pCurOpData s' = [CFtpRawTransferOp raw; CFtpFileTransferOp d']
       /\ cmd_ raw = "RETR f"
       /\ resumeOffset (ftp d') = 5 * 2 ^ 30 + 99.
Proof.
  assert (H1 : m_pCurOpData probe_socket = [CFtpFileTransferOp big_download]) by reflexivity.
  assert (H2 : download big_download = true) by reflexivity.
  assert (H3 : size_class (localFileSize big_download) resume4GBbug)
    by (left; split; [vm_compute; reflexivity | reflexivity]).
  pose proof (resume_bug_probe sample_environment sample_collaborators 1 probe_socket
                big_download [] H1 H2) as (Hclass & Hloop & _).
  destruct (Hclass _ H3) as [H4 _].
  split; [exact H1|]. split; [exact H2|]. split; [exact H3|]. split; [exact H4|].
  destruct (proj1 (Hloop _ H4)) as (raw & d' & s' & Hrun & Hst & _ & Hcmd & _ & Hoff).
  - reflexivity.
  - vm_compute. reflexivity.
  - exists raw, d', s'. split; [exact Hrun|]. split; [exact Hst|].
    split; [exact Hcmd | exact Hoff].
Defined.

(** A local file of exactly 4 GiB exceeds 2 GiB, and the 2 GB capability is
    unknown; yet with the 4 GB capability yes no test is started: the
    operation is reset with FZ_REPLY_CRITICALERROR.  And a local file of
    5 GiB is tested on account of the 2 GB capability when the 4 GB
    capability is no; a test that succeeds leaves the 2 GB capability
    unknown. *)
Lemma resume_bug_probe_counterexample :
  (2 ^ 31 < localFileSize boundary_download
   /\ ~ 2 ^ 32 < localFileSize boundary_download
   /\ localFileSize boundary_download < remoteFileSize boundary_download
   /\ GetCapability resume2GBbug boundary_socket = unknown
   /\ result_of (FileTransferTestResumeCapability sample_environment sample_collaborators
                   boundary_socket) = Some FZ_REPLY_ERROR
   /\ trace_of (FileTransferTestResumeCapability sample_environment sample_collaborators
                  boundary_socket)
      = [LogMessage MsgDebug_Verbose "FileTransferTestResumeCapability()";
         LogMessage MsgError "Server does not support resume of files > %d GB.";
         LogMessage MsgDebug_Verbose "CFtpControlSocket::ResetOperation";
         stop_timer 0; Call_add_timer 30;
         Call_CControlSocket_ResetOperation FZ_REPLY_CRITICALERROR])
  /\ (2 ^ 31 < localFileSize big_download
      /\ GetCapability resume2GBbug (with_capability resume4GBbug no probe_socket) = unknown
      /\ result_of (FileTransferTestResumeCapability sample_environment sample_collaborators
                      (with_capability resume4GBbug no probe_socket))
         = Some FZ_REPLY_CONTINUE
      /\ option_map (GetCapability resume2GBbug)
           (socket_of (FileTransferSubcommandResult sample_environment sample_collaborators 1
                         FZ_REPLY_OK tested_socket))
         = Some unknown).
Proof.
  split.
  - split; [vm_compute; reflexivity|]. split; [vm_compute; discriminate|].
    split; [vm_compute; reflexivity|]. repeat split; vm_compute; reflexivity.
  - split; [vm_compute; reflexivity|]. repeat split; vm_compute; reflexivity.
Qed.
(** ** An upload that has nothing to resume *)

Section UploadResume.

Variable env : Environment.
Variable ext : Collaborators.

(** [FileTransferSend] for a resumed binary upload of a file that is on
    the server in full, up to the choice between MFMT and the end. *)
Lemma FileTransferSend_no_resume (fuel : nat) (s : CFtpControlSocket)
    (d : CFtpFileTransferOpData) (rest : list COpData) :
  m_pCurOpData s = CFtpFileTransferOp d :: rest ->
  ft_opState d = filetransfer_resumetest \/ ft_opState d = filetransfer_transfer ->
  download d = false ->
  resume d = true ->
  0 < remoteFileSize d ->
  localFileSize d = remoteFileSize d ->
  binary (ftp d) = true ->
  file_open_reading env (localFile d) = true ->
  FileTransferSend env ext fuel s
  = let m : M Z :=
      if mfmt_follows env d s then
        modify (set_m_pCurOpData (CFtpFileTransferOp (mfmt_frame env d) :: rest));;
        SendNextCommand env ext fuel
      else
        ResetOperation env ext FZ_REPLY_OK;; mret FZ_REPLY_OK in
    ((no_need_to_resume s ++ (m (drop_transfer_socket s)).1)%list,
     (m (drop_transfer_socket s)).2).
Proof.
  intros Hst Hstate Hdl Hres Hpos Hsize Hbin Hopen.
  assert (Hpos' : (0 <? remoteFileSize d) = true) by (now apply Z.ltb_lt).
  assert (Hneg : (remoteFileSize d <? 0) = false) by (apply Z.ltb_ge; lia).
  unfold FileTransferSend, FileTransferSend_transfer, get_ft, update_ft, get_ft, set_cur,
    no_need_to_resume, drop_transfer_socket, mfmt_follows, mfmt_frame, GetCapability.
  cbv zeta.
  destruct (bool_decide (m_pTransferSocket s <> None)) eqn:Hts; unfold when;
    destruct Hstate as [Hstate|Hstate];
    repeat (run; cbn [m_pCurOpData capabilities_ set_m_pTransferSocket set_m_pCurOpData tail];
            rewrite ?Hts, ?Hst, ?Hstate, ?Hdl, ?Hopen, ?Hres, ?Hsize, ?Hpos', ?Hneg, ?Hbin,
              ?Z.eqb_refl;
            cbn [negb andb]);
    destruct (OPTION_PRESERVE_TIMESTAMPS env
              && bool_decide (match capabilities_ s !! mfmt_command with
                              | Some (c, _) => c
                              | None => unknown
                              end = yes)
              && negb (datetime_empty (get_modification_time env (localFile d))));
    repeat (run; cbn [m_pCurOpData capabilities_ set_m_pTransferSocket set_m_pCurOpData tail];
            rewrite ?Hst);
    reflexivity.
Qed.

Lemma drop_transfer_socket_frames (s : CFtpControlSocket) :
  m_pCurOpData (drop_transfer_socket s) = m_pCurOpData s.
Proof. unfold drop_transfer_socket. now destruct (bool_decide _). Qed.

Lemma no_need_to_resume_effects (s : CFtpControlSocket) :
  Forall (fun e => starts_transfer e = false) (no_need_to_resume s).
Proof.
  unfold no_need_to_resume. destruct (bool_decide _); repeat constructor.
Qed.

Lemma send_next_effect_no_transfer (e : Effect) :
  is_send_next_effect e = true -> starts_transfer e = false.
Proof. destruct e; cbn; congruence. Qed.

Lemma reset_effect_no_transfer (e : Effect) :
  is_reset_effect e = true -> starts_transfer e = false.
Proof. destruct e; cbn; congruence. Qed.

(** [FileTransferSend] in the state [mfmt] sends the MFMT command. *)
Lemma FileTransferSend_mfmt (fuel : nat) (s : CFtpControlSocket)
    (d : CFtpFileTransferOpData) (rest : list COpData) :
  m_pCurOpData s = CFtpFileTransferOp d :: rest ->
  ft_opState d = filetransfer_mfmt ->
  FileTransferSend env ext fuel s
  = (LogMessage MsgDebug_Verbose "FileTransferSend()"
     :: (FileTransferSend_command env ext (MFMT_command env d (currentServer_ s)) s).1,
     (FileTransferSend_command env ext (MFMT_command env d (currentServer_ s)) s).2).
Proof.
  intros Hst Hstate. unfold FileTransferSend, get_ft, MFMT_command.
  repeat (run; rewrite ?Hst, ?Hstate). reflexivity.
Qed.

(** [FileTransferParseResponse] in the state [mfmt] ends the operation. *)
Lemma FileTransferParseResponse_mfmt (fuel : nat) (s : CFtpControlSocket)
    (d : CFtpFileTransferOpData) (rest : list COpData) :
  m_pCurOpData s = CFtpFileTransferOp d :: rest ->
  ft_opState d = filetransfer_mfmt ->
  exists t a s',
    ResetOperation env ext FZ_REPLY_OK s = (t, Some (a, s'))
    /\ FileTransferParseResponse env ext fuel s
       = (LogMessage MsgDebug_Verbose "FileTransferParseResponse()" :: t,
          Some (FZ_REPLY_OK, s')).
Proof.
  intros Hst Hstate.
  destruct (ResetOperation_transfer_returns env ext FZ_REPLY_OK s d rest Hst)
    as (t & a & s' & Hrun & _).
  exists t, a, s'. split; [exact Hrun|].
  unfold FileTransferParseResponse, get_ft.
  repeat (run; rewrite ?Hst, ?Hstate).
  rewrite bool_decide_eq_false_2 by discriminate.
  repeat (run; rewrite ?Hst, ?Hstate).
  rewrite bind_ret_run, Hrun. reflexivity.
Qed.

Lemma sized_upload_size (d : CFtpFileTransferOpData) :
  localFileSize (sized_upload env d) = upload_local_size env d.
Proof.
  unfold sized_upload, upload_local_size.
  now destruct ((localFileSize d <? 0) && (0 <=? file_size env (localFile d))).
Qed.

Lemma sized_upload_socket_frames (s : CFtpControlSocket) (d : CFtpFileTransferOpData)
    (rest : list COpData) :
  m_pCurOpData s = CFtpFileTransferOp d :: rest ->
  m_pCurOpData (sized_upload_socket env d rest s)
  = CFtpFileTransferOp (sized_upload env d) :: rest.
Proof.
  intros Hst. unfold sized_upload_socket, sized_upload.
  destruct ((localFileSize d <? 0) && (0 <=? file_size env (localFile d))).
  - reflexivity.
  - now rewrite drop_transfer_socket_frames.
Qed.

(** [FileTransferSend] for a resumed upload in binary mode of a file that
    is on the server in full: the local file is opened and, if the frame
    does not know it, asked for its size; then comes the choice between
    MFMT and the end. *)
Lemma FileTransferSend_same_size (fuel : nat) (s : CFtpControlSocket)
    (d : CFtpFileTransferOpData) (rest : list COpData) :
  m_pCurOpData s = CFtpFileTransferOp d :: rest ->
  ft_opState d = filetransfer_resumetest \/ ft_opState d = filetransfer_transfer ->
  download d = false ->
  resume d = true ->
  binary (ftp d) = true ->
  0 < remoteFileSize d ->
  remoteFileSize d = upload_local_size env d ->
  FileTransferSend env ext fuel s
  = if file_open_reading env (localFile d) then
      let m : M Z :=
        if mfmt_follows env d s then
          modify (set_m_pCurOpData
                    (CFtpFileTransferOp (mfmt_frame env (sized_upload env d)) :: rest));;
          SendNextCommand env ext fuel
        else
          ResetOperation env ext FZ_REPLY_OK;; mret FZ_REPLY_OK in
      ((no_need_to_resume s ++ (m (sized_upload_socket env d rest s)).1)%list,
       (m (sized_upload_socket env d rest s)).2)
    else
      ((FileTransferSend_opening s
        ++ LogMessage MsgError "Failed to open the local file for reading"
           :: ((ResetOperation env ext FZ_REPLY_ERROR;; mret FZ_REPLY_ERROR)
                 (drop_transfer_socket s)).1)%list,
       ((ResetOperation env ext FZ_REPLY_ERROR;; mret FZ_REPLY_ERROR)
          (drop_transfer_socket s)).2).
Proof.
  intros Hst Hstate Hdl Hres Hbin Hpos Hsize.
  assert (Hpos' : (0 <? remoteFileSize d) = true) by (now apply Z.ltb_lt).
  unfold upload_local_size in Hsize.
  unfold FileTransferSend, FileTransferSend_transfer, get_ft, update_ft, get_ft, set_cur,
    no_need_to_resume, FileTransferSend_opening, sized_upload_socket, sized_upload,
    drop_transfer_socket, mfmt_follows, mfmt_frame, GetCapability.
  cbv zeta.
  destruct (file_open_reading env (localFile d)) eqn:Hopen;
    destruct (bool_decide (m_pTransferSocket s <> None)) eqn:Hts; unfold when;
    destruct Hstate as [Hstate|Hstate];
    destruct ((localFileSize d <? 0) && (0 <=? file_size env (localFile d))) eqn:Hask;
    repeat (run; cbn [m_pCurOpData capabilities_ set_m_pTransferSocket set_m_pCurOpData tail
                      localFileSize remoteFileSize set_localFileSize ftp localFile];
            rewrite ?Hts, ?Hst, ?Hstate, ?Hdl, ?Hopen, ?Hres, ?Hpos', ?Hbin, ?Hask,
              <- ?Hsize, ?Z.eqb_refl;
            cbn [negb andb]);
    try reflexivity;
    destruct (OPTION_PRESERVE_TIMESTAMPS env
              && bool_decide (match capabilities_ s !! mfmt_command with
                              | Some (c, _) => c
                              | None => unknown
                              end = yes)
              && negb (datetime_empty (get_modification_time env (localFile d))));
    repeat (run; cbn [m_pCurOpData capabilities_ set_m_pTransferSocket set_m_pCurOpData tail];
            rewrite ?Hst);
    reflexivity.
Qed.

End UploadResume.

(** C6, as amended.  [FileTransferSend] for a resumed upload in binary
    mode whose remote file has a positive size equal to that of the local
    file, the size the frame has or, when it has none, the size of the open
    file.  In no case is a frame pushed or a command sent.  When the local
    file cannot be opened for reading, the operation is reset with an error:
    the base class is handed a code with FZ_REPLY_ERROR in it and the result
    is FZ_REPLY_ERROR.  When it can be opened and the modification time is
    not to be set, the operation is reset with FZ_REPLY_OK, which is the
    code the base class is handed for a frame that has not sent a transfer
    command, and the result is FZ_REPLY_OK.  When the modification time is
    to be set (timestamps are preserved, the server has MFMT, the local file
    has a time), the frame goes to the state mfmt and [SendNextCommand]
    runs: it calls the [Send] of the frame, if the frame does not wait for
    an asynchronous request and no reply is to be skipped, and waits when
    that has sent a command.  In the state mfmt [FileTransferSend] sends the
    MFMT command and nothing else, and [FileTransferParseResponse] resets
    the operation with FZ_REPLY_OK. *)
Theorem upload_resume_noop (env : Environment) (ext : Collaborators) (fuel : nat)
    (s : CFtpControlSocket) (d : CFtpFileTransferOpData) (rest : list COpData) :
  m_pCurOpData s = CFtpFileTransferOp d :: rest ->
  ft_opState d = filetransfer_resumetest \/ ft_opState d = filetransfer_transfer ->
  download d = false ->
  resume d = true ->
  binary (ftp d) = true ->
  0 < remoteFileSize d ->
  remoteFileSize d = upload_local_size env d ->
  Forall (fun e => starts_transfer e = false) (trace_of (FileTransferSend env ext fuel s))
  /\ (file_open_reading env (localFile d) = false ->
      exists t code s1,
        ResetOperation_local env FZ_REPLY_ERROR (drop_transfer_socket s) = (t, Some (code, s1))
        /\ has_flags code FZ_REPLY_ERROR = true
        /\ FileTransferSend env ext fuel s
           = ((FileTransferSend_opening s
               ++ LogMessage MsgError "Failed to open the local file for reading"
                  :: t ++ [Call_CControlSocket_ResetOperation code])%list,
              Some (FZ_REPLY_ERROR, (CControlSocket_ResetOperation ext code s1).2)))
  /\ (file_open_reading env (localFile d) = true ->
      mfmt_follows env d s = false ->
      exists t code s1,
        ResetOperation_local env FZ_REPLY_OK (sized_upload_socket env d rest s)
        = (t, Some (code, s1))
        /\ (tranferCommandSent (ftp d) = false -> code = FZ_REPLY_OK)
        /\ FileTransferSend env ext fuel s
           = ((no_need_to_resume s ++ t ++ [Call_CControlSocket_ResetOperation code])%list,
              Some (FZ_REPLY_OK, (CControlSocket_ResetOperation ext code s1).2)))
  /\ (file_open_reading env (localFile d) = true ->
      mfmt_follows env d s = true ->
      let s_mfmt :=
        set_m_pCurOpData (CFtpFileTransferOp (mfmt_frame env (sized_upload env d)) :: rest)
          (sized_upload_socket env d rest s) in
      FileTransferSend env ext fuel s
      = ((no_need_to_resume s ++ (SendNextCommand env ext fuel s_mfmt).1)%list,
         (SendNextCommand env ext fuel s_mfmt).2)
      /\ (ft_waitForAsyncRequest d = false ->
          m_repliesToSkip s = 0 ->
          fuel <> 0%nat ->
          (exists t,
             trace_of (FileTransferSend env ext fuel s)
             = (no_need_to_resume s
                ++ LogMessage MsgDebug_Verbose "CFtpControlSocket::SendNextCommand()"
                   :: Call_op_Send :: t)%list)
          /\ ((op_Send ext s_mfmt).1 = FZ_REPLY_WOULDBLOCK ->
              FileTransferSend env ext fuel s
              = ((no_need_to_resume s
                  ++ [LogMessage MsgDebug_Verbose "CFtpControlSocket::SendNextCommand()";
                      Call_op_Send])%list,
                 Some (FZ_REPLY_WOULDBLOCK, (op_Send ext s_mfmt).2)))))
  /\ (forall s1 d1 rest1,
        m_pCurOpData s1 = CFtpFileTransferOp d1 :: rest1 ->
        ft_opState d1 = filetransfer_mfmt ->
        (ConvToServer env (MFMT_command env d1 (currentServer_ s1)) <> "" ->
         FileTransferSend env ext fuel s1
         = ([LogMessage MsgDebug_Verbose "FileTransferSend()";
             LogMessageRaw MsgCommand (MFMT_command env d1 (currentServer_ s1));
             Call_Send (command_line env (MFMT_command env d1 (currentServer_ s1)));
             rtt_Start],
            if Send_ok env (command_line env (MFMT_command env d1 (currentServer_ s1)))
            then Some (FZ_REPLY_WOULDBLOCK,
                       set_m_pendingReplies (m_pendingReplies s1 + 1) s1)
            else Some (FZ_REPLY_ERROR, s1)))
        /\ exists t code s2,
             ResetOperation_local env FZ_REPLY_OK s1 = (t, Some (code, s2))
             /\ (tranferCommandSent (ftp d1) = false -> code = FZ_REPLY_OK)
             /\ FileTransferParseResponse env ext fuel s1
                = ((LogMessage MsgDebug_Verbose "FileTransferParseResponse()"
                    :: t ++ [Call_CControlSocket_ResetOperation code])%list,
                   Some (FZ_REPLY_OK, (CControlSocket_ResetOperation ext code s2).2))).
Proof.
  intros Hst Hstate Hdl Hres Hbin Hpos Hsize.
  pose proof (FileTransferSend_same_size env ext fuel s d rest
                Hst Hstate Hdl Hres Hbin Hpos Hsize) as Hrun.
  cbv zeta in Hrun.
  assert (Hst0 : m_pCurOpData (drop_transfer_socket s) = CFtpFileTransferOp d :: rest)
    by (now rewrite drop_transfer_socket_frames).
  pose proof (sized_upload_socket_frames env s d rest Hst) as Hst1.
  assert (Hftp : ftp (sized_upload env d) = ftp d).
  { unfold sized_upload. now destruct (_ && _). }
  destruct (ResetOperation_transfer_run env ext FZ_REPLY_ERROR _ d rest Hst0)
    as (te & se & de & Hle & Hre & Hee & _).
  destruct (ResetOperation_transfer_run env ext FZ_REPLY_OK _ (sized_upload env d) rest Hst1)
    as (tk & sk & dk & Hlk & Hrk & Hek & _).
  split; [|split; [|split; [|split]]].
  - unfold trace_of. rewrite Hrun.
    destruct (file_open_reading env (localFile d)); cbn [fst].
    + apply Forall_app. split; [apply no_need_to_resume_effects|].
      destruct (mfmt_follows env d s).
      * rewrite modify_bind.
        eapply Forall_impl; [apply (SendNextCommand_effects env ext fuel)|].
        intros e. apply send_next_effect_no_transfer.
      * rewrite bind_ret_run, Hrk. cbn [fst].
        apply Forall_app. split; [|repeat constructor].
        eapply Forall_impl; [exact Hek|]. intros e He. now destruct e.
    + apply Forall_app. split.
      * unfold FileTransferSend_opening. destruct (bool_decide _); repeat constructor.
      * constructor; [reflexivity|]. rewrite bind_ret_run, Hre. cbn [fst].
        apply Forall_app. split; [|repeat constructor].
        eapply Forall_impl; [exact Hee|]. intros e He. now destruct e.
  - intros Hopen. rewrite Hopen in Hrun. rewrite bind_ret_run, Hre in Hrun.
    cbn [fst snd] in Hrun.
    eexists te, _, se. split; [exact Hle|]. split; [apply transfer_error_code_flags|].
    rewrite Hrun. now destruct (CControlSocket_ResetOperation ext _ se).
  - intros Hopen Hm. rewrite Hopen, Hm in Hrun. rewrite bind_ret_run, Hrk in Hrun.
    cbn [fst snd] in Hrun.
    eexists tk, _, sk. split; [exact Hlk|]. split.
    + intros Hsent. apply transfer_error_code_unsent. now rewrite Hftp.
    + rewrite Hrun. now destruct (CControlSocket_ResetOperation ext _ sk).
  - intros Hopen Hm s_mfmt. rewrite Hopen, Hm in Hrun. rewrite modify_bind in Hrun.
    fold s_mfmt in Hrun. split; [exact Hrun|].
    intros Hwait Hskip Hfuel. destruct fuel as [|fuel']; [congruence|].
    assert (Hwait' : waitForAsyncRequest (CFtpFileTransferOp (mfmt_frame env (sized_upload env d)))
                     = false).
    { unfold mfmt_frame, sized_upload. cbn. now destruct (_ && _). }
    assert (Hskip' : m_repliesToSkip s_mfmt = 0).
    { subst s_mfmt. unfold sized_upload_socket, drop_transfer_socket.
      destruct (_ && _), (bool_decide _); cbn; exact Hskip. }
    destruct (SendNextCommand_calls_Send env ext fuel' s_mfmt _ rest eq_refl Hwait' Hskip')
      as ((t & Ht) & Hblock & _).
    split.
    + exists t. unfold trace_of in *. rewrite Hrun. cbn [fst]. now rewrite Ht.
    + intros Hres'. rewrite Hrun, (Hblock Hres'). reflexivity.
  - intros s1 d1 rest1 Hs1 Hstate1. split.
    + intros Hconv.
      rewrite (FileTransferSend_mfmt env ext fuel s1 d1 rest1 Hs1 Hstate1).
      unfold FileTransferSend_command, command_line.
      change (WString.empty (MFMT_command env d1 (currentServer_ s1))) with false.
      cbn [negb]. unfold SendCommand. cbn match.
      destruct (ConvToServer env (MFMT_command env d1 (currentServer_ s1))) as [|c r] eqn:Hc;
        [congruence|]. cbn [WString.empty].
      rewrite !bind_assoc, !emit_bind. rewrite !bind_assoc, !emit_bind. unfold when.
      destruct (Send_ok env _); run; reflexivity.
    + destruct (ResetOperation_transfer_run env ext FZ_REPLY_OK s1 d1 rest1 Hs1)
        as (t & s2 & d2 & Hl & Hr & _).
      eexists t, _, s2. split; [exact Hl|]. split.
      * apply transfer_error_code_unsent.
      * unfold FileTransferParseResponse, get_ft.
        repeat (run; rewrite ?Hs1, ?Hstate1).
        rewrite bool_decide_eq_false_2 by discriminate.
        repeat (run; rewrite ?Hs1, ?Hstate1).
        rewrite bind_ret_run, Hr. cbn [fst snd].
        now destruct (CControlSocket_ResetOperation ext _ s2).
Qed.

(** The upload of the examples, with the size of the local file asked from
    the open file: the server has no MFMT, the operation ends with
    FZ_REPLY_OK. *)
Lemma upload_resume_noop_witness :
  m_pCurOpData unsized_upload_socket = [CFtpFileTransferOp unsized_upload]
  /\ (ft_opState unsized_upload = filetransfer_resumetest
      \/ ft_opState unsized_upload = filetransfer_transfer)
  /\ download unsized_upload = false
  /\ resume unsized_upload = true
  /\ binary (ftp unsized_upload) = true
  /\ 0 < remoteFileSize unsized_upload
  /\ remoteFileSize unsized_upload = upload_local_size sample_environment unsized_upload
  /\ Forall (fun e => starts_transfer e = false)
       (trace_of (FileTransferSend sample_environment sample_collaborators 1
                    unsized_upload_socket))
  /\ exists t s1,
       FileTransferSend sample_environment sample_collaborators 1 unsized_upload_socket
       = ((no_need_to_resume unsized_upload_socket
           ++ t ++ [Call_CControlSocket_ResetOperation FZ_REPLY_OK])%list,
          Some (FZ_REPLY_OK,
                (CControlSocket_ResetOperation sample_collaborators FZ_REPLY_OK s1).2)).
Proof.
  assert (H1 : m_pCurOpData unsized_upload_socket = [CFtpFileTransferOp unsized_upload])
    by reflexivity.
  assert (H2 : ft_opState unsized_upload = filetransfer_resumetest
               \/ ft_opState unsized_upload = filetransfer_transfer) by (right; reflexivity).
  assert (H3 : download unsized_upload = false) by reflexivity.
  assert (H4 : resume unsized_upload = true) by reflexivity.
  assert (H5 : binary (ftp unsized_upload) = true) by reflexivity.
  assert (H6 : 0 < remoteFileSize unsized_upload) by reflexivity.
  assert (H7 : remoteFileSize unsized_upload
               = upload_local_size sample_environment unsized_upload) by reflexivity.
  repeat (split; [assumption|]).
  destruct (upload_resume_noop sample_environment sample_collaborators 1 unsized_upload_socket
              unsized_upload [] H1 H2 H3 H4 H5 H6 H7) as (Hnone & _ & Hend & _).
  split; [exact Hnone|].
  destruct (Hend eq_refl eq_refl) as (t & code & s1 & _ & Hcode & Hrun).
  exists t, s1. rewrite Hrun, (Hcode eq_refl). reflexivity.
Defined.

(** The same upload when the local file cannot be opened for reading: the
    operation ends with FZ_REPLY_ERROR, not with FZ_REPLY_OK. *)
Lemma upload_resume_noop_counterexample :
  m_pCurOpData upload_socket = [CFtpFileTransferOp same_size_upload]
  /\ download same_size_upload = false
  /\ resume same_size_upload = true
  /\ binary (ftp same_size_upload) = true
  /\ 0 < remoteFileSize same_size_upload
  /\ remoteFileSize same_size_upload = localFileSize same_size_upload
  /\ result_of (FileTransferSend locked_environment sample_collaborators 1 upload_socket)
     = Some FZ_REPLY_ERROR
  /\ In (Call_CControlSocket_ResetOperation FZ_REPLY_ERROR)
        (trace_of (FileTransferSend locked_environment sample_collaborators 1 upload_socket))
  /\ ~ In (Call_CControlSocket_ResetOperation FZ_REPLY_OK)
         (trace_of (FileTransferSend locked_environment sample_collaborators 1 upload_socket)).
Proof.
  repeat (split; [reflexivity|]). split.
  - vm_compute. tauto.
  - vm_compute. intros H. repeat (destruct H as [H|H]; [discriminate H|]). exact H.
Qed.

(** ** The reply code and the command log *)

Lemma digit_of_ascii (c : ascii) :
  Z.of_nat (nat_of_ascii c) - 48 = 1 <-> c = "1"%char.
Proof.
  split.
  - intros H. assert (Hn : nat_of_ascii c = 49%nat) by lia.
    rewrite <- (ascii_nat_embedding c), Hn. reflexivity.
  - intros ->. reflexivity.
Qed.

(** X1.  The reply code is a digit: between 0 and 9, and 0 for an empty
    response.  It is 1 exactly for the replies [ParseResponse] takes for
    preliminary ones, which leave the number of pending replies alone. *)
Theorem GetReplyCode_range (s : CFtpControlSocket) :
  0 <= GetReplyCode s <= 9
  /\ (m_Response s = "" -> GetReplyCode s = 0)
  /\ (GetReplyCode s = 1 <-> not_preliminary (m_Response s) = false).
Proof.
  unfold GetReplyCode, not_preliminary, WString.at_.
  destruct (m_Response s) as [|c r]; cbn [String.get].
  - split; [lia|]. split; [reflexivity|]. split; [discriminate|].
    rewrite bool_decide_eq_false_2 by discriminate. discriminate.
  - destruct ((nat_of_ascii c <? 48) || (57 <? nat_of_ascii c))%nat eqn:Hd.
    + split; [lia|]. split; [discriminate|]. split; [discriminate|].
      intros H. apply negb_false_iff, bool_decide_eq_true_1 in H. injection H as ->.
      discriminate Hd.
    + apply orb_false_iff in Hd. destruct Hd as [H1 H2].
      apply Nat.ltb_ge in H1, H2.
      split; [lia|]. split; [discriminate|]. rewrite digit_of_ascii. split.
      * intros ->. now rewrite bool_decide_eq_true_2.
      * intros H. apply negb_false_iff, bool_decide_eq_true_1 in H. now injection H.
Qed.

Lemma find_char_bound (c : ascii) (s : string) (pos : nat) :
  WString.find_char c s = Some pos -> (pos < String.length s)%nat.
Proof.
  revert pos. induction s as [|d s IH]; intros pos; cbn; [discriminate|].
  destruct (Ascii.eqb c d).
  - intros [= <-]. lia.
  - destruct (WString.find_char c s) as [i|]; [|discriminate].
    intros [= <-]. specialize (IH i eq_refl). lia.
Qed.

Lemma replicate_length (n : nat) (c : ascii) : String.length (WString.replicate n c) = n.
Proof. induction n; cbn; congruence. Qed.

Lemma replicate_get (n i : nat) (c : ascii) :
  (i < n)%nat -> String.get i (WString.replicate n c) = Some c.
Proof.
  revert i. induction n as [|n IH]; intros i Hi; [lia|].
  destruct i; cbn; [reflexivity|]. apply IH. lia.
Qed.

Lemma length_append (a b : string) :
  String.length (a ++ b) = (String.length a + String.length b)%nat.
Proof. induction a; cbn; congruence. Qed.

Lemma length_substring (n m : nat) (s : string) :
  (n + m <= String.length s)%nat -> String.length (String.substring n m s) = m.
Proof.
  revert n m. induction s as [|c s IH]; intros n m H; cbn in *.
  - destruct n, m; cbn; lia.
  - destruct n.
    + destruct m; cbn; [reflexivity|]. rewrite (IH 0%nat m); lia.
    + apply IH. lia.
Qed.

Lemma get_append_r (a b : string) (i : nat) :
  (String.length a <= i)%nat -> String.get i (a ++ b) = String.get (i - String.length a) b.
Proof.
  revert i. induction a as [|c a IH]; intros i Hi; cbn.
  - now rewrite Nat.sub_0_r.
  - destruct i; cbn in *; [lia|]. apply IH. lia.
Qed.

Lemma substring_append_l (a b : string) (n : nat) :
  (n <= String.length a)%nat -> String.substring 0 n (a ++ b) = String.substring 0 n a.
Proof.
  revert n. induction a as [|c a IH]; intros n Hn; cbn in *.
  - assert (n = 0%nat) as -> by lia. now destruct b.
  - destruct n; cbn; [reflexivity|]. rewrite IH; [reflexivity|lia].
Qed.

Lemma substring_idem (n : nat) (s : string) :
  String.substring 0 n (String.substring 0 n s) = String.substring 0 n s.
Proof.
  revert n. induction s as [|c s IH]; intros n; destruct n; cbn; try reflexivity.
  now rewrite IH.
Qed.

(** The text [SendCommand] logs for a command whose arguments are to be
    masked. *)
Lemma masked_command (str : string) (pos : nat) :
  WString.find_char " "%char str = Some pos ->
  let masked := WString.substr 0 (pos + 1) str
                ++ WString.replicate (WString.size str - pos - 1) "*"%char in
  WString.size masked = WString.size str
  /\ WString.substr 0 (pos + 1) masked = WString.substr 0 (pos + 1) str
  /\ forall i, (pos < i < WString.size str)%nat -> WString.at_ i masked = Some "*"%char.
Proof.
  intros Hfind. apply find_char_bound in Hfind.
  unfold WString.size, WString.substr, WString.at_. cbv zeta.
  assert (Hlen : String.length (String.substring 0 (pos + 1) str) = (pos + 1)%nat)
    by (apply length_substring; lia).
  split; [|split].
  - rewrite length_append, Hlen, replicate_length. lia.
  - rewrite substring_append_l by lia. apply substring_idem.
  - intros i Hi. rewrite get_append_r by lia. rewrite Hlen. apply replicate_get. lia.
Qed.

Section Commands.

Variable env : Environment.
Variable ext : Collaborators.

(** What follows the log line in [SendCommand] writes no raw log line. *)
Lemma SendCommand_rest_effects (str : string) (measureRTT : bool) :
  emits (fun e => forall ty m, e <> LogMessageRaw ty m)
    (let buffer := ConvToServer env str in
     if WString.empty buffer then
       emit (LogMessage MsgError "Failed to convert command to 8 bit charset");;
       ResetOperation env ext FZ_REPLY_ERROR;;
       mret false
     else
       let buffer1 := buffer ++ String (ascii_of_nat 13) (String (ascii_of_nat 10) "") in
       emit (Call_Send buffer1);;
       let res := Send_ok env buffer1 in
       when res (modify (fun s => set_m_pendingReplies (m_pendingReplies s + 1) s));;
       when measureRTT (emit rtt_Start);;
       mret res).
Proof.
  cbv zeta. destruct (WString.empty (ConvToServer env str)).
  - apply emits_bind; [apply emits_emit; discriminate|intros _].
    apply emits_bind; [|intros; apply emits_ret].
    eapply emits_impl; [|apply ResetOperation_effects].
    intros e He ty m ->. discriminate He.
  - repeat emits_step; discriminate.
Qed.

End Commands.

(** X2.  With [maskArgs], a command that has a space is logged with its
    arguments masked: the logged text has the length of the command, agrees
    with it up to and including the first space, and has a '*' in every
    position after it; nothing else of the call writes a raw log line. *)
Theorem SendCommand_masks_arguments (env : Environment) (ext : Collaborators)
    (str : string) (measureRTT : bool) (s : CFtpControlSocket) (pos : nat) :
  WString.find_char " "%char str = Some pos ->
  exists masked t,
    trace_of (SendCommand env ext str true measureRTT s) = LogMessageRaw MsgCommand masked :: t
    /\ WString.size masked = WString.size str
    /\ WString.substr 0 (pos + 1) masked = WString.substr 0 (pos + 1) str
    /\ (forall i, (pos < i < WString.size str)%nat -> WString.at_ i masked = Some "*"%char)
    /\ Forall (fun e => forall ty m, e <> LogMessageRaw ty m) t.
Proof.
  intros Hfind. destruct (masked_command str pos Hfind) as (Hsize & Hprefix & Hstars).
  unfold SendCommand, trace_of. rewrite Hfind, emit_bind. cbn [fst].
  eexists. eexists. split; [reflexivity|].
  split; [exact Hsize|]. split; [exact Hprefix|]. split; [exact Hstars|].
  apply (SendCommand_rest_effects env ext str measureRTT s).
Qed.

(** The password of a PASS command is not in the log. *)
Lemma SendCommand_masks_arguments_witness :
  WString.find_char " "%char "PASS secret" = Some 4%nat
  /\ exists t,
       trace_of (SendCommand sample_environment sample_collaborators "PASS secret" true false
                   busy_socket)
       = LogMessageRaw MsgCommand "PASS ******" :: t.
Proof.
  assert (H : WString.find_char " "%char "PASS secret" = Some 4%nat) by reflexivity.
  split; [exact H|].
  destruct (SendCommand_masks_arguments sample_environment sample_collaborators
              "PASS secret" false busy_socket 4 H) as (masked & t & Hrun & _).
  exists t. rewrite Hrun. vm_compute in Hrun. injection Hrun as <- _. reflexivity.
Defined.

(** X3.  A command that cannot be converted to the charset of the server
    is not sent.  [SendCommand] logs the command and the error and resets
    the operation: the number of replies to skip is set to the number of
    pending replies, which stays as it is, and the base class is handed an
    error code with FZ_REPLY_ERROR in it.  Nothing goes onto the wire, the
    round-trip time is not measured, and the result is false. *)
Theorem SendCommand_failure (env : Environment) (ext : Collaborators)
    (str : string) (maskArgs measureRTT : bool) (s : CFtpControlSocket) :
  ConvToServer env str = "" ->
  pOldData_valid s = true ->
  exists logged t c' s1,
    ResetOperation_local env FZ_REPLY_ERROR s = (t, Some (c', s1))
    /\ has_flags c' FZ_REPLY_ERROR = true
    /\ m_pendingReplies s1 = m_pendingReplies s
    /\ m_repliesToSkip s1 = m_pendingReplies s
    /\ SendCommand env ext str maskArgs measureRTT s
       = ((LogMessageRaw MsgCommand logged
           :: LogMessage MsgError "Failed to convert command to 8 bit charset"
           :: t ++ [Call_CControlSocket_ResetOperation c'])%list,
          Some (false, (CControlSocket_ResetOperation ext c' s1).2))
    /\ Forall (fun e => is_local_reset_effect e = true) t
    /\ (maskArgs = false -> logged = str).
Proof.
  intros Hconv Hvalid.
  destruct (ResetOperation_seeds_skip env ext FZ_REPLY_ERROR s Hvalid)
    as (t & c' & s1 & Hlocal & Hskip & Hpending & Hrun).
  pose proof (ResetOperation_local_flags env FZ_REPLY_ERROR s I) as Hflags.
  pose proof (ResetOperation_local_effects env FZ_REPLY_ERROR s) as Heff.
  unfold trace_of in Heff. rewrite Hlocal in Hflags, Heff. cbn [fst snd] in Hflags, Heff.
  assert (Hsend : forall logged,
    (emit (LogMessageRaw MsgCommand logged);;
     let buffer := ConvToServer env str in
     if WString.empty buffer then
       emit (LogMessage MsgError "Failed to convert command to 8 bit charset");;
       ResetOperation env ext FZ_REPLY_ERROR;;
       mret false
     else
       let buffer1 := buffer ++ String (ascii_of_nat 13) (String (ascii_of_nat 10) "") in
       emit (Call_Send buffer1);;
       let res := Send_ok env buffer1 in
       when res (modify (fun s => set_m_pendingReplies (m_pendingReplies s + 1) s));;
       when measureRTT (emit rtt_Start);;
       mret res) s
    = ((LogMessageRaw MsgCommand logged
        :: LogMessage MsgError "Failed to convert command to 8 bit charset"
        :: t ++ [Call_CControlSocket_ResetOperation c'])%list,
       Some (false, (CControlSocket_ResetOperation ext c' s1).2))).
  { intros logged. cbv zeta. rewrite Hconv. cbn [WString.empty].
    rewrite !emit_bind. rewrite bind_ret_run, Hrun. cbn [fst snd].
    now destruct (CControlSocket_ResetOperation ext c' s1). }
  unfold SendCommand.
  destruct (if maskArgs then WString.find_char " "%char str else None) as [pos|] eqn:Hmask.
  - eexists. exists t, c', s1. repeat (split; [first [assumption | apply Hsend]|]).
    intros ->. discriminate Hmask.
  - exists str, t, c', s1. repeat (split; [first [assumption | apply Hsend]|]).
    reflexivity.
Qed.

(** The empty command has no conversion. *)
Lemma SendCommand_failure_witness :
  ConvToServer sample_environment "" = ""
  /\ pOldData_valid busy_socket = true
  /\ SendCommand sample_environment sample_collaborators "" false true busy_socket
     = ([LogMessageRaw MsgCommand "";
         LogMessage MsgError "Failed to convert command to 8 bit charset";
         LogMessage MsgDebug_Verbose "CFtpControlSocket::ResetOperation";
         Call_CControlSocket_ResetOperation FZ_REPLY_ERROR],
        Some (false,
              set_m_pCurOpData []
                (set_m_lastCommandCompletionTime 60000
                   (set_m_repliesToSkip 1
                      (set_m_pIPResolver false (set_m_pTransferSocket None busy_socket)))))).
Proof.
  assert (H1 : ConvToServer sample_environment "" = "") by reflexivity.
  assert (H2 : pOldData_valid busy_socket = true) by reflexivity.
  split; [exact H1|]. split; [exact H2|].
  destruct (SendCommand_failure sample_environment sample_collaborators "" false true
              busy_socket H1 H2)
    as (logged & t & c' & s1 & Hlocal & _ & _ & _ & Hrun & _ & Hlog).
  rewrite Hrun, (Hlog eq_refl). vm_compute in Hlocal.
  injection Hlocal as <- <- <-. reflexivity.
Defined.

(** ** Keepalive *)

Lemma same_but_timer_refl (s : CFtpControlSocket) : same_but_timer s s.
Proof. unfold same_but_timer. now destruct s. Qed.

Section Keepalive.

Variable env : Environment.
Variable ext : Collaborators.

(** [StartKeepaliveTimer] changes the idle timer at most, and starts a
    timer only after it has stopped the one before. *)
Lemma StartKeepaliveTimer_run (s : CFtpControlSocket) :
  exists t s',
    StartKeepaliveTimer env s = (t, Some (tt, s'))
    /\ same_but_timer s s'
    /\ (t = [] \/ t = [stop_timer (m_idleTimer s); Call_add_timer 30]).
Proof.
  unfold StartKeepaliveTimer.
  destruct (negb (OPTION_FTP_SENDKEEPALIVE env));
    [exists [], s; split; [reflexivity|]; split; [apply same_but_timer_refl|now left]|].
  run. destruct (negb (m_repliesToSkip s =? 0) || negb (m_pendingReplies s =? 0));
    [exists [], s; split; [reflexivity|]; split; [apply same_but_timer_refl|now left]|].
  run. destruct (m_lastCommandCompletionTime s =? 0);
    [exists [], s; split; [reflexivity|]; split; [apply same_but_timer_refl|now left]|].
  destruct (30 <=? (monotonic_now env - m_lastCommandCompletionTime s) / 60000);
    [exists [], s; split; [reflexivity|]; split; [apply same_but_timer_refl|now left]|].
  run. eexists. eexists. split; [reflexivity|]. split; [reflexivity|now right].
Qed.

(** A command that gets onto the wire. *)
Lemma SendCommand_sent (cmd : string) (s : CFtpControlSocket) :
  sent_ok env cmd = true ->
  SendCommand env ext cmd false true s
  = ([LogMessageRaw MsgCommand cmd; Call_Send (command_line env cmd); rtt_Start],
     Some (true, set_m_pendingReplies (m_pendingReplies s + 1) s)).
Proof.
  unfold sent_ok, command_line, SendCommand. intros H.
  apply andb_true_iff in H. destruct H as [Hconv Hsend]. cbn match.
  destruct (WString.empty (ConvToServer env cmd)); [discriminate|].
  rewrite !emit_bind. rewrite Hsend. unfold when. run. reflexivity.
Qed.

(** A reply that is not preliminary, received without a current frame
    while it is the one reply pending and the one reply to skip. *)
Lemma skip_last_reply (fuel : nat) (r : string) (s : CFtpControlSocket) :
  r <> "" ->
  not_preliminary r = true ->
  m_pCurOpData s = [] ->
  m_pendingReplies s = 1 ->
  m_repliesToSkip s = 1 ->
  exists t s',
    process env ext fuel (Received r) s
    = (Call_ParseResponse r
       :: LogMessage MsgDebug_Info
            "Skipping reply after cancelled operation or keepalive command."
       :: SetWait false :: t,
       Some (tt, s'))
    /\ same_but_timer (set_m_Response "" (set_m_repliesToSkip 0 (set_m_pendingReplies 0 s))) s'
    /\ (t = [] \/ t = [stop_timer (m_idleTimer s); Call_add_timer 30]).
Proof.
  intros Hne Hprel Hst Hpending Hskip.
  assert (Hempty : WString.empty r = false) by (destruct r; [congruence|reflexivity]).
  destruct (StartKeepaliveTimer_run
              (set_m_repliesToSkip 0 (set_m_pendingReplies 0 (set_m_Response r s))))
    as (t & s' & Hrun & Hsame & Ht).
  exists t, (set_m_Response "" s').
  unfold process, ParseResponse, ParseResponse_skipped.
  repeat (run; cbn [m_Response m_pendingReplies m_repliesToSkip m_pCurOpData
                    set_m_Response set_m_pendingReplies set_m_repliesToSkip];
          rewrite ?Hempty, ?Hprel, ?Hpending, ?Hskip, ?Hst;
          change (1 - 1) with 0; change (0 <? 1) with true; change (1 =? 0) with false;
          change (0 =? 0) with true;
          cbn [andb negb when]).
  rewrite (run_bind _ _ _ _ _ _ Hrun). run. cbn [fst snd]. rewrite app_nil_r.
  split; [reflexivity|]. split; [|exact Ht].
  unfold same_but_timer in *. rewrite Hsame. reflexivity.
Qed.

End Keepalive.

(** X4.  The idle timer fires on an idle connection: no frame, no reply
    pending, none to skip.  [OnTimer] sends one of NOOP, TYPE I, TYPE A and
    PWD and counts its reply as pending and as to be skipped.  The final
    reply to it is skipped: no frame sees it, both counters are 0 again, and
    the keepalive timer is looked after. *)
Theorem keepalive_round_trip (env : Environment) (ext : Collaborators) (fuel : nat)
    (id : Z) (s : CFtpControlSocket) (r : string) :
  id = m_idleTimer s ->
  m_pCurOpData s = [] ->
  m_pendingReplies s = 0 ->
  m_repliesToSkip s = 0 ->
  (forall cmd, In cmd keepalive_commands -> sent_ok env cmd = true) ->
  r <> "" ->
  not_preliminary r = true ->
  exists cmd t s2,
    In cmd keepalive_commands
    /\ OnTimer env ext id s
       = ([LogMessage MsgStatus "Sending keep-alive command";
           LogMessageRaw MsgCommand cmd; Call_Send (command_line env cmd); rtt_Start],
          Some (tt, set_m_repliesToSkip 1 (set_m_pendingReplies 1 s)))
    /\ process env ext fuel (Received r) (set_m_repliesToSkip 1 (set_m_pendingReplies 1 s))
       = (Call_ParseResponse r
          :: LogMessage MsgDebug_Info
               "Skipping reply after cancelled operation or keepalive command."
          :: SetWait false :: t,
          Some (tt, s2))
    /\ same_but_timer (set_m_Response "" s) s2
    /\ (t = [] \/ t = [stop_timer (m_idleTimer s); Call_add_timer 30]).
Proof.
  intros Hid Hst Hpending Hskip Hsent Hne Hprel.
  destruct (skip_last_reply env ext fuel r (set_m_repliesToSkip 1 (set_m_pendingReplies 1 s))
              Hne Hprel Hst eq_refl eq_refl) as (t & s2 & Hrun & Hsame & Ht).
  assert (Hcmd : exists cmd,
            In cmd keepalive_commands
            /\ OnTimer env ext id s
               = ([LogMessage MsgStatus "Sending keep-alive command";
                   LogMessageRaw MsgCommand cmd; Call_Send (command_line env cmd); rtt_Start],
                  Some (tt, set_m_repliesToSkip 1 (set_m_pendingReplies 1 s)))).
  { unfold OnTimer. run. rewrite <- Hid, Z.eqb_refl. cbn [negb]. run.
    rewrite Hst, Hpending, Hskip.
    cbn [negb orb Z.eqb]. rewrite bool_decide_eq_true_2 by reflexivity. cbn [negb].
    run.
    assert (Hgo : forall cmd, In cmd keepalive_commands ->
              (SendCommand env ext cmd false true
               ≫= (fun ok : bool =>
                     if negb ok then mret tt
                     else modify (fun s => set_m_repliesToSkip (m_repliesToSkip s + 1) s))) s
              = ([LogMessageRaw MsgCommand cmd; Call_Send (command_line env cmd); rtt_Start],
                 Some (tt, set_m_repliesToSkip 1 (set_m_pendingReplies 1 s)))).
    { intros cmd Hin.
      rewrite (run_bind _ _ _ _ _ _ (SendCommand_sent env ext cmd s (Hsent cmd Hin))).
      cbn [negb]. unfold modify.
      cbn [fst snd app m_repliesToSkip m_pendingReplies set_m_pendingReplies].
      rewrite Hskip, Hpending. reflexivity. }
    destruct (random_number env =? 0);
      [|destruct (random_number env =? 1); [destruct (negb (m_lastTypeBinary s =? 0))|]].
    - exists "NOOP". split; [cbn; tauto|]. rewrite Hgo by (cbn; tauto). reflexivity.
    - exists "TYPE I". split; [cbn; tauto|]. rewrite Hgo by (cbn; tauto). reflexivity.
    - exists "TYPE A". split; [cbn; tauto|]. rewrite Hgo by (cbn; tauto). reflexivity.
    - exists "PWD". split; [cbn; tauto|]. rewrite Hgo by (cbn; tauto). reflexivity. }
  destruct Hcmd as (cmd & Hin & Hon).
  exists cmd, t, s2. split; [exact Hin|]. split; [exact Hon|]. split; [exact Hrun|].
  split; [|exact Ht].
  unfold same_but_timer in *. rewrite Hsame. destruct s. cbn in *. now subst.
Qed.

Lemma keepalive_round_trip_witness :
  5 = m_idleTimer idle_socket
  /\ (forall cmd, In cmd keepalive_commands -> sent_ok sample_environment cmd = true)
  /\ exists s2,
       process sample_environment sample_collaborators 1 (Received "200 OK")
         (set_m_repliesToSkip 1 (set_m_pendingReplies 1 idle_socket))
       = ([Call_ParseResponse "200 OK";
           LogMessage MsgDebug_Info
             "Skipping reply after cancelled operation or keepalive command.";
           SetWait false; stop_timer 5; Call_add_timer 30],
          Some (tt, s2))
       /\ same_but_timer (set_m_Response "" idle_socket) s2.
Proof.
  assert (H1 : 5 = m_idleTimer idle_socket) by reflexivity.
  assert (H2 : forall cmd, In cmd keepalive_commands -> sent_ok sample_environment cmd = true).
  { intros cmd [<-|[<-|[<-|[<-|[]]]]]; reflexivity. }
  split; [exact H1|]. split; [exact H2|].
  destruct (keepalive_round_trip sample_environment sample_collaborators 1 5 idle_socket
              "200 OK" H1 eq_refl eq_refl eq_refl H2)
    as (cmd & t & s2 & _ & _ & Hrun & Hsame & _); [discriminate | reflexivity |].
  exists s2. split; [|exact Hsame].
  rewrite Hrun. vm_compute in Hrun. injection Hrun as <- _. reflexivity.
Defined.

(** X5.  [OnTimer] sends no keepalive command while there is a current
    frame, a reply pending or a reply to skip: it does nothing at all.  A
    timer other than the idle timer is left to the base class. *)
Theorem OnTimer_busy (env : Environment) (ext : Collaborators) (id : Z)
    (s : CFtpControlSocket) :
  (id = m_idleTimer s ->
   m_pCurOpData s <> [] \/ m_pendingReplies s <> 0 \/ m_repliesToSkip s <> 0 ->
   OnTimer env ext id s = ([], Some (tt, s)))
  /\ (id <> m_idleTimer s ->
      OnTimer env ext id s
      = ([Call_CControlSocket_OnTimer id], Some (CControlSocket_OnTimer ext id s))).
Proof.
  split.
  - intros -> Hbusy. unfold OnTimer. run. rewrite Z.eqb_refl. cbn [negb]. run.
    destruct (m_pCurOpData s) as [|o rest] eqn:Hst.
    + rewrite bool_decide_eq_true_2 by reflexivity. cbn [negb].
      destruct Hbusy as [H|[H|H]]; [congruence| |];
        apply Z.eqb_neq in H; rewrite H; cbn [negb orb]; rewrite ?orb_true_r; reflexivity.
    + rewrite bool_decide_eq_false_2 by discriminate. reflexivity.
  - intros Hid. unfold OnTimer. run. apply Z.eqb_neq in Hid. rewrite Hid. reflexivity.
Qed.

Lemma OnTimer_busy_witness :
  0 = m_idleTimer busy_socket
  /\ OnTimer sample_environment sample_collaborators 0 busy_socket = ([], Some (tt, busy_socket)).
Proof.
  assert (H : 0 = m_idleTimer busy_socket) by reflexivity.
  split; [exact H|].
  apply (proj1 (OnTimer_busy sample_environment sample_collaborators 0 busy_socket) H).
  left. discriminate.
Defined.

(** ** Sending the next command, and the banner of an SSH server *)

(** X6.  [SendNextCommand] sends nothing when it cannot: without a current
    frame it resets the operation with FZ_REPLY_ERROR and returns
    FZ_REPLY_ERROR; with a current frame that waits for the reply to an
    asynchronous request it returns FZ_REPLY_WOULDBLOCK and leaves the
    socket as it is, without calling the [Send] of the frame. *)
Theorem SendNextCommand_not_ready (env : Environment) (ext : Collaborators) (fuel : nat)
    (s : CFtpControlSocket) :
  (m_pCurOpData s = [] ->
   exists t a s',
     ResetOperation env ext FZ_REPLY_ERROR s = (t, Some (a, s'))
     /\ SendNextCommand env ext fuel s
        = (LogMessage MsgDebug_Verbose "CFtpControlSocket::SendNextCommand()"
           :: LogMessage MsgDebug_Warning "SendNextCommand called without active operation"
           :: t,
           Some (FZ_REPLY_ERROR, s')))
  /\ (forall o rest,
        m_pCurOpData s = o :: rest ->
        waitForAsyncRequest o = true ->
        SendNextCommand env ext (S fuel) s
        = ([LogMessage MsgDebug_Verbose "CFtpControlSocket::SendNextCommand()";
            LogMessage MsgDebug_Info "Waiting for async request, ignoring SendNextCommand..."],
           Some (FZ_REPLY_WOULDBLOCK, s))).
Proof.
  split.
  - intros Hst.
    assert (Hvalid : pOldData_valid s = true) by (unfold pOldData_valid; now rewrite Hst).
    destruct (ResetOperation_seeds_skip env ext FZ_REPLY_ERROR s Hvalid)
      as (t & c' & s1 & _ & _ & _ & Hrun).
    destruct (CControlSocket_ResetOperation ext c' s1) as [a s'] eqn:Hbase.
    exists (t ++ [Call_CControlSocket_ResetOperation c'])%list, a, s'.
    split; [exact Hrun|].
    unfold SendNextCommand. run. rewrite Hst. run.
    rewrite bind_ret_run, Hrun. reflexivity.
  - intros o rest Hst Hwait. unfold SendNextCommand. run. rewrite Hst.
    cbn [SendNextCommand_loop]. run. rewrite Hst, Hwait. run. reflexivity.
Qed.

Lemma SendNextCommand_not_ready_witness :
  m_pCurOpData idle_socket = []
  /\ result_of (SendNextCommand sample_environment sample_collaborators 0 idle_socket)
     = Some FZ_REPLY_ERROR.
Proof.
  assert (H : m_pCurOpData idle_socket = []) by reflexivity.
  split; [exact H|].
  destruct (proj1 (SendNextCommand_not_ready sample_environment sample_collaborators 0
                     idle_socket) H) as (t & a & s' & _ & Hrun).
  unfold result_of. now rewrite Hrun.
Defined.

(** X7.  While the logon frame waits for the first line of the welcome
    message, a line that begins with "ssh" in any casing closes the
    connection with FZ_REPLY_CRITICALERROR and is not taken for a reply.
    Any other first line ends that wait, so that the check is made on the
    first line only. *)
Theorem ssh_banner_closes (env : Environment) (ext : Collaborators) (fuel : nat)
    (line : string) (s : CFtpControlSocket) :
  awaits_first_welcome_line s = true ->
  (ssh_banner line = true ->
   ParseLine env ext fuel line s
   = ((line_received line
       ++ [LogMessage MsgError
             "Cannot establish FTP connection to an SFTP server. Please select proper protocol.";
           Call_DoClose FZ_REPLY_CRITICALERROR])%list,
      Some (tt, (DoClose ext FZ_REPLY_CRITICALERROR s).2)))
  /\ (ssh_banner line = false ->
      exists s',
        ParseLine_prologue ext line s = (line_received line, Some (true, s'))
        /\ awaits_first_welcome_line s' = false
        /\ same_reader s s').
Proof.
  intros Hwait. split.
  - intros Hssh. unfold awaits_first_welcome_line in Hwait. unfold ssh_banner in Hssh.
    destruct (m_pCurOpData s) as [|[d|d|d|d|d|w t|id w] rest] eqn:Hst; try discriminate.
    apply andb_true_iff in Hwait. destruct Hwait as [Hwait Hgot].
    apply andb_true_iff in Hwait. destruct Hwait as [Hchal Hwel].
    apply negb_true_iff in Hchal, Hgot.
    unfold ParseLine, ParseLine_prologue, ParseLine_logon, line_received.
    run. rewrite Hst. rewrite Hchal, Hwel, Hgot.
    apply bool_decide_eq_true_1 in Hwel.
    rewrite (bool_decide_eq_false_2 (lo_opState d = LOGON_FEAT)) by (rewrite Hwel; discriminate).
    cbn [negb]. rewrite Hssh. run. cbn. reflexivity.
  - intros Hssh.
    destruct (ParseLine_prologue_run ext line s) as (s' & Hrun & Hsame & Hw).
    { now rewrite Hssh, andb_false_r. }
    exists s'. auto.
Qed.

Lemma ssh_banner_closes_witness :
  awaits_first_welcome_line welcome_socket = true
  /\ ssh_banner "SSH-2.0-OpenSSH_7.4" = true
  /\ In (Call_DoClose FZ_REPLY_CRITICALERROR)
       (trace_of (ParseLine sample_environment sample_collaborators 1 "SSH-2.0-OpenSSH_7.4"
                    welcome_socket)).
Proof.
  assert (H1 : awaits_first_welcome_line welcome_socket = true) by reflexivity.
  assert (H2 : ssh_banner "SSH-2.0-OpenSSH_7.4" = true) by reflexivity.
  split; [exact H1|]. split; [exact H2|].
  rewrite (proj1 (ssh_banner_closes sample_environment sample_collaborators 1
                    "SSH-2.0-OpenSSH_7.4" welcome_socket H1) H2).
  cbn. tauto.
Defined.

(** ** FEAT lines and the capabilities *)

(** Looks a capability up after the insertions of [ParseFeat]. *)
Ltac lookup_capability name :=
  unfold GetCapability; cbn [capabilities_ set_capabilities_];
  repeat first
    [ rewrite lookup_insert_eq
    | rewrite lookup_insert_ne by (assumption || discriminate)
    | match goal with
      | |- context [<[?k := _]> _ !! name] => destruct (decide (k = name)) as [<-|?]
      end ].

(** X8.  [ParseFeat] writes nothing but the capabilities, and only adds to
    what is known of the server: whatever the line, each capability keeps
    its state or becomes [yes], except [timezone_offset], which keeps its
    state or becomes [no]. *)
Theorem ParseFeat_adds (line : string) (s : CFtpControlSocket) :
  exists s',
    ParseFeat line s = ([], Some (tt, s'))
    /\ s' = set_capabilities_ (capabilities_ s') s
    /\ forall name,
         GetCapability name s' = GetCapability name s
         \/ (name = timezone_offset /\ GetCapability name s' = no)
         \/ (name <> timezone_offset /\ GetCapability name s' = yes).
Proof.
  unfold ParseFeat, SetCapability.
  repeat match goal with
         | |- context [if HasFeature ?u ?f then _ else _] => destruct (HasFeature u f)
         end;
    run; cbn [capabilities_ set_capabilities_];
    try (eexists; split; [reflexivity|]; split; [reflexivity|];
         intros name; lookup_capability name;
         first [ now left | right; right; split; [discriminate|reflexivity]
               | right; left; split; reflexivity ]).
  - (* MLST *)
    destruct (WString.empty _); run; cbn [capabilities_ set_capabilities_];
      (eexists; split; [reflexivity|]; split; [reflexivity|];
       intros name; lookup_capability name;
       first [ now left | right; right; split; [discriminate|reflexivity]
             | right; left; split; reflexivity ]).
  - exists s. split; [reflexivity|]. split; [now destruct s|]. intros name. now left.
Qed.

(** Equality of capability maps after the insertions of [ParseFeat]. *)
Ltac capabilities_eq :=
  apply map_eq; intros name;
  repeat first
    [ rewrite lookup_insert_eq
    | rewrite lookup_insert_ne by (assumption || discriminate)
    | match goal with
      | |- context [<[?k := _]> _ !! name] => destruct (decide (k = name)) as [<-|?]
      end ];
  try reflexivity.

(** X9.  [ParseFeat] is idempotent: a FEAT line received twice leaves the
    capabilities as the first one left them. *)
Theorem ParseFeat_idempotent (line : string) (s : CFtpControlSocket) :
  (ParseFeat line;; ParseFeat line) s = ParseFeat line s.
Proof.
  unfold ParseFeat, SetCapability. cbv zeta.
  set (L := if (5 <? WString.size (WString.trim line))%nat
            then WString.substr_from 5 (WString.trim line) else "").
  clearbody L.
  repeat match goal with
         | |- context [if HasFeature ?u ?f then _ else _] => destruct (HasFeature u f)
         end;
    run; cbn [capabilities_ set_capabilities_];
    try (unfold modify, set_capabilities_; cbn; now rewrite ?insert_insert_eq).
  - (* MLSD *)
    unfold GetCapability_option, modify, set_capabilities_.
    cbn [capabilities_ m_Response m_MultilineResponseCode m_MultilineResponseLines
         m_pendingReplies m_repliesToSkip m_pCurOpData m_pTransferSocket m_pIPResolver
         m_pTlsSocket m_pProxyBackend m_lastTypeBinary m_lastCommandCompletionTime
         m_idleTimer m_CurrentPath currentServer_].
    rewrite lookup_insert_ne by discriminate. rewrite lookup_insert_eq.
    cbn [fst snd]. rewrite bool_decide_eq_true_2 by reflexivity. cbn [negb orb].
    do 4 f_equal.
    destruct (capabilities_ s !! mlsd_command) as [[[| |] [|c o]]|], L as [|c' L'];
      cbn; capabilities_eq.
  - (* MLST *)
    destruct (WString.empty L) eqn:HL; run; cbn [capabilities_ set_capabilities_].
    + unfold GetCapability_option, modify, set_capabilities_.
      cbn [capabilities_ m_Response m_MultilineResponseCode m_MultilineResponseLines
           m_pendingReplies m_repliesToSkip m_pCurOpData m_pTransferSocket m_pIPResolver
           m_pTlsSocket m_pProxyBackend m_lastTypeBinary m_lastCommandCompletionTime
           m_idleTimer m_CurrentPath currentServer_].
      rewrite lookup_insert_ne by discriminate. rewrite lookup_insert_eq.
      cbn [fst snd]. rewrite bool_decide_eq_true_2 by reflexivity. cbn [negb].
      do 4 f_equal. capabilities_eq.
    + unfold modify, set_capabilities_; cbn. do 4 f_equal. capabilities_eq.
Qed.

(** ** The end of a transfer *)

(** X10.  [ResetOperation] on a file-transfer frame whose transfer command
    was sent.  A local write failure of the data socket adds
    FZ_REPLY_CRITICALERROR | FZ_REPLY_WRITEFAILED to the error code.  A
    transfer command the server refused at once with a 5yz reply makes a
    plain FZ_REPLY_ERROR critical and does not mark the transfer as
    initiated; in every other case the transfer is marked as initiated. *)
Theorem ResetOperation_escalates (env : Environment) (c : Z) (s : CFtpControlSocket)
    (d : CFtpFileTransferOpData) (rest : list COpData) :
  m_pCurOpData s = CFtpFileTransferOp d :: rest ->
  tranferCommandSent (ftp d) = true ->
  exists t c' s1 d1,
    ResetOperation_local env c s = (t, Some (c', s1))
    /\ m_pCurOpData s1 = CFtpFileTransferOp d1 :: rest
    /\ has_flags c' c = true
    /\ (transferEndReason (ftp d) = TER_transfer_failure_critical ->
        c' = Z.lor c (Z.lor FZ_REPLY_CRITICALERROR FZ_REPLY_WRITEFAILED)
        /\ transferInitiated d1 = true)
    /\ (transferEndReason (ftp d) = TER_transfer_command_failure_immediate ->
        GetReplyCode s = 5 ->
        transferInitiated d1 = transferInitiated d
        /\ (c = FZ_REPLY_ERROR -> c' = FZ_REPLY_CRITICALERROR)
        /\ (c <> FZ_REPLY_ERROR -> c' = c))
    /\ (transferEndReason (ftp d) <> TER_transfer_failure_critical ->
        transferEndReason (ftp d) <> TER_transfer_command_failure_immediate
        \/ GetReplyCode s <> 5 ->
        c' = c /\ transferInitiated d1 = true).
Proof.
  intros Hst Hsent.
  destruct (ResetOperation_local_transfer_run env c s d rest Hst)
    as (t & s1 & d1 & Hrun & Hst1 & _ & Hinit).
  exists t, (transfer_error_code d (GetReplyCode s) c), s1, d1.
  split; [exact Hrun|]. split; [exact Hst1|].
  split; [apply transfer_error_code_flags|].
  rewrite Hinit. unfold transfer_error_code. rewrite Hsent. cbn [andb].
  split; [|split].
  - intros Hcrit. rewrite Hcrit.
    rewrite (bool_decide_eq_true_2 (TER_transfer_failure_critical
                                    = TER_transfer_failure_critical)) by reflexivity.
    rewrite (bool_decide_eq_false_2 (TER_transfer_failure_critical
                                     = TER_transfer_command_failure_immediate))
      by discriminate.
    cbn [negb orb]. split; [reflexivity|apply orb_true_r].
  - intros Himm Hcode. rewrite Himm, Hcode.
    rewrite (bool_decide_eq_false_2 (TER_transfer_command_failure_immediate
                                     = TER_transfer_failure_critical)) by discriminate.
    rewrite (bool_decide_eq_true_2 (TER_transfer_command_failure_immediate
                                    = TER_transfer_command_failure_immediate))
      by reflexivity.
    cbn [negb orb Z.eqb Pos.eqb]. rewrite orb_false_r. split; [reflexivity|]. split.
    + intros ->. reflexivity.
    + intros Hc. apply Z.eqb_neq in Hc. now rewrite Hc.
  - intros Hcrit Hother.
    rewrite (bool_decide_eq_false_2 _ Hcrit).
    assert (Hgo : negb (bool_decide (transferEndReason (ftp d)
                                     = TER_transfer_command_failure_immediate))
                  || negb (GetReplyCode s =? 5) = true).
    { destruct Hother as [H|H].
      - now rewrite (bool_decide_eq_false_2 _ H).
      - apply Z.eqb_neq in H. rewrite H. apply orb_true_r. }
    rewrite Hgo. split; [reflexivity|apply orb_true_r].
Qed.

Lemma ResetOperation_escalates_witness :
  m_pCurOpData refused_socket = [CFtpFileTransferOp refused_download]
  /\ tranferCommandSent (ftp refused_download) = true
  /\ exists t s1,
       ResetOperation_local sample_environment FZ_REPLY_ERROR refused_socket
       = (t, Some (FZ_REPLY_CRITICALERROR, s1)).
Proof.
  assert (H1 : m_pCurOpData refused_socket = [CFtpFileTransferOp refused_download])
    by reflexivity.
  assert (H2 : tranferCommandSent (ftp refused_download) = true) by reflexivity.
  split; [exact H1|]. split; [exact H2|].
  destruct (ResetOperation_escalates sample_environment FZ_REPLY_ERROR refused_socket
              refused_download [] H1 H2)
    as (t & c' & s1 & d1 & Hrun & _ & _ & _ & Himm & _).
  destruct (Himm eq_refl eq_refl) as (_ & Hc & _).
  exists t, s1. rewrite Hrun, (Hc eq_refl). reflexivity.
Defined.

Lemma record_end_kept (r : TransferEndReason) (p : COpData) (t0 : CFtpTransferOpData) :
  transfer_base p = Some t0 ->
  transferEndReason t0 <> TER_successful ->
  record_end r p = p.
Proof.
  intros Hbase Hne. unfold record_end. rewrite Hbase.
  now rewrite (bool_decide_eq_false_2 _ Hne).
Qed.

Lemma reset_end_reason_failure (c : Z) (t : CFtpTransferOpData) :
  reset_end_reason c t <> TER_successful.
Proof.
  unfold reset_end_reason.
  destruct (has_flags c FZ_REPLY_TIMEOUT), (negb (tranferCommandSent t)); discriminate.
Qed.

Section EndReason.

Variable env : Environment.
Variable ext : Collaborators.

(** [ResetOperation] with an error on a raw-transfer frame, before the
    base class takes over. *)
Lemma ResetOperation_local_rawtransfer_run (c : Z) (s : CFtpControlSocket)
    (d : CFtpRawTransferOpData) (p : COpData) (rest : list COpData)
    (t0 : CFtpTransferOpData) :
  m_pCurOpData s = CFtpRawTransferOp d :: p :: rest ->
  transfer_base p = Some t0 ->
  c <> FZ_REPLY_OK ->
  exists t s1,
    ResetOperation_local env c s = (t, Some (c, s1))
    /\ m_pCurOpData s1
       = CFtpRawTransferOp d :: record_end (reset_end_reason c t0) p :: rest.
Proof.
  intros Hst Hbase Hc. apply Z.eqb_neq in Hc.
  unfold ResetOperation_local, ResetOperation_finish, ResetOperation_rawtransfer,
    StartKeepaliveTimer, get_pOldData, set_pOldData, record_end, reset_end_reason.
  rewrite Hbase.
  repeat first
    [ progress run
    | progress cbn [m_pCurOpData m_pendingReplies m_repliesToSkip
                    m_lastCommandCompletionTime m_idleTimer
                    set_m_pCurOpData set_m_lastCommandCompletionTime set_m_idleTimer
                    set_m_pTransferSocket set_m_pIPResolver set_m_repliesToSkip
                    fst snd app negb]
    | rewrite Hst | rewrite Hbase | rewrite Hc
    | match goal with
      | |- context [((if ?b then _ else _) ≫= _) _] => destruct b
      | |- context [(if ?b then _ else _) _] => destruct b
      end ];
    do 2 eexists; (split; [reflexivity|]);
    cbn [m_pCurOpData set_m_pCurOpData set_m_idleTimer set_m_lastCommandCompletionTime
         set_m_pTransferSocket set_m_pIPResolver set_m_repliesToSkip];
    rewrite ?Hst; reflexivity.
Qed.

(** [TransferEnd] in a state other than [waitsocket]. *)
Lemma TransferEnd_records (s : CFtpControlSocket) (d : CFtpRawTransferOpData)
    (p : COpData) (rest : list COpData) (t0 : CFtpTransferOpData) (sock : CTransferSocket) :
  m_pCurOpData s = CFtpRawTransferOp d :: p :: rest ->
  transfer_base p = Some t0 ->
  m_pTransferSocket s = Some sock ->
  m_transferEndReason sock <> TER_none ->
  rt_opState d <> rawtransfer_waitsocket ->
  exists t s1 d1,
    TransferEnd env ext s = (t, Some (tt, s1))
    /\ m_pCurOpData s1
       = CFtpRawTransferOp d1 :: record_end (m_transferEndReason sock) p :: rest
    /\ rt_opState d1 = after_data_end (rt_opState d)
    /\ d1 = set_rt_opState (rt_opState d1) d
    /\ s1 = set_m_pCurOpData (m_pCurOpData s1) s
    /\ Forall (fun e => match e with LogMessage _ _ | SetAlive => True | _ => False end) t.
Proof.
  intros Hst Hbase Hts Hreason Hstate.
  unfold TransferEnd, record_end. run. rewrite Hst, Hts, Hbase.
  rewrite (bool_decide_eq_false_2 _ Hreason).
  unfold when, get_pOldData, set_pOldData, set_cur.
  destruct (bool_decide (m_transferEndReason sock = TER_successful)); run;
    rewrite ?Hst; rewrite ?Hbase; run;
    destruct (bool_decide (transferEndReason t0 = TER_successful)); run;
    rewrite ?Hst; run;
    destruct d as [st w cmd pasv tried]; cbn [rt_opState] in *;
    destruct st; try congruence; run; cbn [m_pCurOpData set_m_pCurOpData tail];
    rewrite ?Hst; cbn [tail];
    do 3 eexists; (split; [reflexivity|]);
    cbn [m_pCurOpData set_m_pCurOpData];
    repeat split; try reflexivity; try (now destruct s; cbn in *; subst);
    repeat constructor.
Qed.

End EndReason.

(** X11.  The end reason of a transfer records its first failure.  On a
    raw-transfer frame, [ResetOperation] with an error code records a
    timeout, a failure before the transfer command or a failure, and
    [TransferEnd] records the reason the data socket reports, in the frame
    the transfer was started from; both do so only while that frame has the
    reason [successful], so a reason recorded before is kept. *)
Theorem end_reason_first_failure (env : Environment) (ext : Collaborators) (c : Z)
    (s : CFtpControlSocket) (d : CFtpRawTransferOpData) (p : COpData) (rest : list COpData)
    (t0 : CFtpTransferOpData) (sock : CTransferSocket) :
  m_pCurOpData s = CFtpRawTransferOp d :: p :: rest ->
  transfer_base p = Some t0 ->
  (c <> FZ_REPLY_OK ->
   exists t s1,
     ResetOperation_local env c s = (t, Some (c, s1))
     /\ m_pCurOpData s1
        = CFtpRawTransferOp d :: record_end (reset_end_reason c t0) p :: rest)
  /\ (m_pTransferSocket s = Some sock ->
      m_transferEndReason sock <> TER_none ->
      rt_opState d <> rawtransfer_waitsocket ->
      exists t s1 d1,
        TransferEnd env ext s = (t, Some (tt, s1))
        /\ m_pCurOpData s1
           = CFtpRawTransferOp d1 :: record_end (m_transferEndReason sock) p :: rest
        /\ rt_opState d1 = after_data_end (rt_opState d))
  /\ (forall r,
        transfer_base (record_end r p)
        = Some (if bool_decide (transferEndReason t0 = TER_successful)
                then set_transferEndReason r t0 else t0))
  /\ (transferEndReason t0 <> TER_successful -> forall r, record_end r p = p)
  /\ reset_end_reason c t0 <> TER_successful.
Proof.
  intros Hst Hbase. split; [|split; [|split; [|split]]].
  - intros Hc. now apply ResetOperation_local_rawtransfer_run.
  - intros Hts Hreason Hstate.
    destruct (TransferEnd_records env ext s d p rest t0 sock Hst Hbase Hts Hreason Hstate)
      as (t & s1 & d1 & Hrun & Hst1 & Hd1 & _).
    exists t, s1, d1. auto.
  - intros r. unfold record_end. rewrite Hbase.
    destruct (bool_decide (transferEndReason t0 = TER_successful)); [|exact Hbase].
    now apply (transfer_base_set _ t0).
  - intros Hne r. now apply (record_end_kept r p t0).
  - apply reset_end_reason_failure.
Qed.

(** The download of the examples times out while the data is awaited. *)
Lemma end_reason_first_failure_witness :
  m_pCurOpData retr_socket
  = [CFtpRawTransferOp retr_frame;
     CFtpFileTransferOp
       (set_ftp (set_tranferCommandSent true new_CFtpTransferOpData) new_download)]
  /\ FZ_REPLY_TIMEOUT <> FZ_REPLY_OK
  /\ exists t s1 p1 t1,
       ResetOperation_local sample_environment FZ_REPLY_TIMEOUT retr_socket
       = (t, Some (FZ_REPLY_TIMEOUT, s1))
       /\ m_pCurOpData s1 = [CFtpRawTransferOp retr_frame; p1]
       /\ transfer_base p1 = Some t1
       /\ transferEndReason t1 = TER_timeout.
Proof.
  assert (H1 : m_pCurOpData retr_socket
               = [CFtpRawTransferOp retr_frame;
                  CFtpFileTransferOp
                    (set_ftp (set_tranferCommandSent true new_CFtpTransferOpData)
                       new_download)]) by reflexivity.
  assert (H2 : FZ_REPLY_TIMEOUT <> FZ_REPLY_OK) by (vm_compute; discriminate).
  split; [exact H1|]. split; [exact H2|].
  destruct (proj1 (end_reason_first_failure sample_environment sample_collaborators
                     FZ_REPLY_TIMEOUT retr_socket retr_frame _ [] _
                     (new_CTransferSocket TransferMode_download) H1 eq_refl) H2)
    as (t & s1 & Hrun & Hst1).
  exists t, s1. eexists. eexists. split; [exact Hrun|]. split; [exact Hst1|].
  split; reflexivity.
Defined.

(** ** Events of the data socket *)

(** X12.  A [TransferEnd] event that finds no raw-transfer frame as the
    current frame, or no transfer socket, or a transfer socket that has not
    ended, is dropped: it is logged and the socket is left as it is. *)
Theorem TransferEnd_stray (env : Environment) (ext : Collaborators) (s : CFtpControlSocket) :
  (current_rawtransfer_state s = None \/ m_pTransferSocket s = None ->
   TransferEnd env ext s
   = ([LogMessage MsgDebug_Verbose "CFtpControlSocket::TransferEnd()";
       LogMessage MsgDebug_Verbose "Call to TransferEnd at unusual time, ignoring"],
      Some (tt, s)))
  /\ (forall sock,
        current_rawtransfer_state s <> None ->
        m_pTransferSocket s = Some sock ->
        m_transferEndReason sock = TER_none ->
        TransferEnd env ext s
        = ([LogMessage MsgDebug_Verbose "CFtpControlSocket::TransferEnd()";
            LogMessage MsgDebug_Info "Call to TransferEnd at unusual time"],
           Some (tt, s))).
Proof.
  unfold current_rawtransfer_state, TransferEnd. split.
  - intros H. run.
    destruct (m_pCurOpData s) as [|[d|d|d|d|d|w t|id w] rest];
      destruct (m_pTransferSocket s); try reflexivity.
    destruct H; discriminate.
  - intros sock Hraw Hts Hnone. run. rewrite Hts.
    destruct (m_pCurOpData s) as [|[d|d|d|d|d|w t|id w] rest]; try congruence.
    rewrite Hnone. rewrite bool_decide_eq_true_2 by reflexivity. reflexivity.
Qed.

Lemma TransferEnd_stray_witness :
  m_pTransferSocket idle_socket = None
  /\ socket_of (TransferEnd sample_environment sample_collaborators idle_socket)
     = Some idle_socket.
Proof.
  assert (H : m_pTransferSocket idle_socket = None) by reflexivity.
  split; [exact H|].
  now rewrite (proj1 (TransferEnd_stray sample_environment sample_collaborators idle_socket)
                 (or_intror H)).
Defined.

Lemma set_m_pCurOpData_same (l : list COpData) (s : CFtpControlSocket) :
  m_pCurOpData s = l -> set_m_pCurOpData l s = s.
Proof. intros <-. now destruct s. Qed.

(** X13.  When the data socket ends while the raw-transfer frame waits for
    it after the final reply (state waitsocket), [TransferEnd] records the
    reason and resets the operation: with FZ_REPLY_OK if the data socket
    ended successfully, with FZ_REPLY_ERROR otherwise. *)
Theorem TransferEnd_completes (env : Environment) (ext : Collaborators)
    (s : CFtpControlSocket) (d : CFtpRawTransferOpData) (p : COpData) (rest : list COpData)
    (t0 : CFtpTransferOpData) (sock : CTransferSocket) :
  m_pCurOpData s = CFtpRawTransferOp d :: p :: rest ->
  transfer_base p = Some t0 ->
  m_pTransferSocket s = Some sock ->
  m_transferEndReason sock <> TER_none ->
  rt_opState d = rawtransfer_waitsocket ->
  exists t a s',
    ResetOperation env ext
      (if bool_decide (m_transferEndReason sock = TER_successful)
       then FZ_REPLY_OK else FZ_REPLY_ERROR)
      (set_m_pCurOpData
         (CFtpRawTransferOp d :: record_end (m_transferEndReason sock) p :: rest) s)
    = (t, Some (a, s'))
    /\ TransferEnd env ext s
       = ((LogMessage MsgDebug_Verbose "CFtpControlSocket::TransferEnd()"
           :: (if bool_decide (m_transferEndReason sock = TER_successful)
               then [SetAlive] else []) ++ t)%list,
          Some (tt, s')).
Proof.
  intros Hst Hbase Hts Hreason Hstate.
  assert (Hvalid : forall r, pOldData_valid
                     (set_m_pCurOpData (CFtpRawTransferOp d :: record_end r p :: rest) s)
                   = true).
  { intros r. unfold pOldData_valid, record_end. cbn [m_pCurOpData set_m_pCurOpData].
    rewrite Hbase. destruct (bool_decide (transferEndReason t0 = TER_successful)).
    - now rewrite (transfer_base_set _ t0).
    - now rewrite Hbase. }
  destruct (ResetOperation_seeds_skip env ext
              (if bool_decide (m_transferEndReason sock = TER_successful)
               then FZ_REPLY_OK else FZ_REPLY_ERROR) _ (Hvalid (m_transferEndReason sock)))
    as (t & c' & s1 & _ & _ & _ & Hrun).
  destruct (CControlSocket_ResetOperation ext c' s1) as [a s'] eqn:Hbase'.
  exists (t ++ [Call_CControlSocket_ResetOperation c'])%list, a, s'.
  split; [exact Hrun|].
  unfold TransferEnd. run. rewrite Hst, Hts.
  rewrite (bool_decide_eq_false_2 _ Hreason).
  unfold when, get_pOldData, set_pOldData.
  unfold record_end in Hrun. rewrite Hbase in Hrun.
  destruct (bool_decide (m_transferEndReason sock = TER_successful)); run;
    rewrite ?Hst; rewrite ?Hbase; run;
    destruct (bool_decide (transferEndReason t0 = TER_successful)); run;
    rewrite ?Hst, ?Hstate; run;
    rewrite bind_ret_run;
    rewrite ?(set_m_pCurOpData_same _ s Hst) in Hrun;
    rewrite Hrun; reflexivity.
Qed.

Lemma TransferEnd_completes_witness :
  m_pCurOpData waitsocket_socket
  = [CFtpRawTransferOp (set_rt_opState rawtransfer_waitsocket retr_frame);
     CFtpFileTransferOp
       (set_ftp (set_tranferCommandSent true new_CFtpTransferOpData) new_download)]
  /\ In (Call_CControlSocket_ResetOperation FZ_REPLY_OK)
       (trace_of (TransferEnd sample_environment sample_collaborators waitsocket_socket)).
Proof.
  assert (H1 : m_pCurOpData waitsocket_socket
               = [CFtpRawTransferOp (set_rt_opState rawtransfer_waitsocket retr_frame);
                  CFtpFileTransferOp
                    (set_ftp (set_tranferCommandSent true new_CFtpTransferOpData)
                       new_download)]) by reflexivity.
  split; [exact H1|].
  destruct (TransferEnd_completes sample_environment sample_collaborators waitsocket_socket
              _ _ [] _ _ H1 eq_refl eq_refl ltac:(discriminate) eq_refl)
    as (t & a & s' & Hreset & Hrun).
  rewrite Hrun. vm_compute in Hreset. injection Hreset as <- _ _.
  vm_compute. tauto.
Defined.

(** ** Starting a raw transfer *)

Lemma Transfer_run (env : Environment) (cmd : string) (s : CFtpControlSocket)
    (o : COpData) (rest : list COpData) (t : CFtpTransferOpData) :
  m_pCurOpData s = o :: rest ->
  transfer_base o = Some t ->
  Transfer env cmd s
  = ([Call_Push (CFtpRawTransferOp (raw_frame env cmd t s))],
     Some (tt, set_m_pCurOpData
                 (CFtpRawTransferOp (raw_frame env cmd t s)
                  :: set_transfer_base (cleared_outcome t) o :: rest) s)).
Proof.
  intros Hst Hbase. unfold Transfer, set_cur, raw_frame, cleared_outcome.
  repeat (run; cbn [m_pCurOpData m_pProxyBackend currentServer_ m_lastTypeBinary
                    set_m_pCurOpData tail];
          rewrite ?Hst, ?Hbase).
  reflexivity.
Qed.

(** X14.  [Transfer] pushes a raw-transfer frame for [cmd] onto the frame
    it is started from and clears the outcome recorded there: no transfer
    command sent, end reason [successful].  Behind a proxy the transfer is
    passive and active mode counts as tried.  The frame starts with the
    data connection when the TYPE last sent is the one the transfer needs,
    and with TYPE otherwise.  The frame it was started from is where the
    new frame finds its [pOldData]. *)
Theorem Transfer_pushes (env : Environment) (cmd : string) (s : CFtpControlSocket)
    (o : COpData) (rest : list COpData) (t : CFtpTransferOpData) :
  m_pCurOpData s = o :: rest ->
  transfer_base o = Some t ->
  exists raw o' s',
    Transfer env cmd s = ([Call_Push (CFtpRawTransferOp raw)], Some (tt, s'))
    /\ s' = set_m_pCurOpData (CFtpRawTransferOp raw :: o' :: rest) s
    /\ transfer_base o'
       = Some (set_transferEndReason TER_successful (set_tranferCommandSent false t))
    /\ pOldData_valid s' = true
    /\ cmd_ raw = cmd
    /\ (m_pProxyBackend s = true -> bPasv raw = true /\ bTriedActive raw = true)
    /\ (m_pProxyBackend s = false ->
        bPasv raw = match GetPasvMode (currentServer_ s) with
                    | MODE_PASSIVE => true
                    | MODE_ACTIVE => false
                    | MODE_DEFAULT => OPTION_USEPASV env
                    end)
    /\ rt_opState raw
       = if m_lastTypeBinary s =? (if binary t then 1 else 0)
         then rawtransfer_port_pasv else rawtransfer_type.
Proof.
  intros Hst Hbase.
  eexists _, _, _. split; [exact (Transfer_run env cmd s o rest t Hst Hbase)|].
  split; [reflexivity|].
  split; [now apply (transfer_base_set _ t)|].
  split.
  { unfold pOldData_valid. cbn [m_pCurOpData set_m_pCurOpData].
    now rewrite (transfer_base_set _ t). }
  cbn [raw_frame cmd_ bPasv bTriedActive rt_opState].
  split; [reflexivity|]. split; [intros ->; split; reflexivity|].
  split; [intros ->; reflexivity|].
  destruct (binary t); cbn [negb andb orb]; rewrite ?orb_false_r; reflexivity.
Qed.

Lemma Transfer_pushes_witness :
  m_pCurOpData download_socket = [CFtpFileTransferOp new_download]
  /\ transfer_base (CFtpFileTransferOp new_download) = Some (ftp new_download)
  /\ exists raw s',
       Transfer sample_environment "RETR f" download_socket
       = ([Call_Push (CFtpRawTransferOp raw)], Some (tt, s'))
       /\ rt_opState raw = rawtransfer_port_pasv
       /\ bPasv raw = true.
Proof.
  assert (H1 : m_pCurOpData download_socket = [CFtpFileTransferOp new_download])
    by reflexivity.
  assert (H2 : transfer_base (CFtpFileTransferOp new_download) = Some (ftp new_download))
    by reflexivity.
  split; [exact H1|]. split; [exact H2|].
  destruct (Transfer_pushes sample_environment "RETR f" download_socket _ [] _ H1 H2)
    as (raw & o' & s' & Hrun & _ & _ & _ & _ & _ & Hpasv & Hstate).
  exists raw, s'. split; [exact Hrun|]. split; [exact Hstate | exact (Hpasv eq_refl)].
Defined.

(** ** The transfer command of [FileTransferSend] *)

Lemma set_localFileSize_same (d : CFtpFileTransferOpData) :
  set_localFileSize (localFileSize d) d = d.
Proof. now destruct d. Qed.

Lemma drop_transfer_socket_none (s : CFtpControlSocket) :
  m_pTransferSocket (drop_transfer_socket s) = None.
Proof.
  unfold drop_transfer_socket. destruct (bool_decide _) eqn:H; [reflexivity|].
  apply bool_decide_eq_false in H. destruct (m_pTransferSocket s); [|reflexivity].
  now exfalso; apply H.
Qed.

Lemma drop_transfer_socket_capability (name : capabilityNames) (s : CFtpControlSocket) :
  GetCapability name (drop_transfer_socket s) = GetCapability name s.
Proof. unfold drop_transfer_socket. now destruct (bool_decide _). Qed.

Section TransferCommand.

Variable env : Environment.
Variable ext : Collaborators.

(** [FileTransferSend] from the creation of the IO thread on, when the
    thread starts. *)
Lemma FileTransferSend_start_run (s : CFtpControlSocket) (d : CFtpFileTransferOpData)
    (rest : list COpData) :
  m_pCurOpData s = CFtpFileTransferOp d :: rest ->
  CIOThread_Create env = true ->
  FileTransferSend_start env ext s
  = ([Call_Push (CFtpRawTransferOp (raw_frame env (transfer_command env d s) (ftp d) s))],
     Some (FZ_REPLY_CONTINUE, transfer_started env d rest s)).
Proof.
  intros Hst Hio.
  unfold FileTransferSend_start, update_ft, get_ft, set_cur, transfer_started.
  repeat (run; cbn [m_pCurOpData set_m_pCurOpData set_m_pTransferSocket tail];
          rewrite ?Hst, ?Hio; cbn [negb]).
  rewrite bind_ret_run.
  erewrite Transfer_run; [|cbn [m_pCurOpData set_m_pCurOpData set_m_pTransferSocket];
                           reflexivity | reflexivity].
  reflexivity.
Qed.

(** [FileTransferSend] in the states in which the transfer starts. *)
Lemma FileTransferSend_in_transfer (fuel : nat) (s : CFtpControlSocket)
    (d : CFtpFileTransferOpData) (rest : list COpData) :
  m_pCurOpData s = CFtpFileTransferOp d :: rest ->
  ft_opState d = filetransfer_resumetest \/ ft_opState d = filetransfer_transfer ->
  FileTransferSend env ext fuel s
  = (LogMessage MsgDebug_Verbose "FileTransferSend()"
     :: (FileTransferSend_transfer env ext fuel s).1,
     (FileTransferSend_transfer env ext fuel s).2).
Proof.
  intros Hst [Hstate|Hstate]; unfold FileTransferSend, get_ft;
    repeat (run; rewrite ?Hst, ?Hstate); reflexivity.
Qed.

(** A data socket left over is dropped first. *)
Lemma FileTransferSend_transfer_drop (fuel : nat) (s : CFtpControlSocket) :
  FileTransferSend_transfer env ext fuel s
  = (((if bool_decide (m_pTransferSocket s <> None)
       then [LogMessage MsgDebug_Verbose "m_pTransferSocket != 0"] else [])
      ++ (FileTransferSend_transfer env ext fuel (drop_transfer_socket s)).1)%list,
     (FileTransferSend_transfer env ext fuel (drop_transfer_socket s)).2).
Proof.
  unfold drop_transfer_socket.
  destruct (bool_decide (m_pTransferSocket s <> None)) eqn:Hts.
  - unfold FileTransferSend_transfer. run. rewrite Hts. unfold when. run.
    cbn [m_pTransferSocket set_m_pTransferSocket].
    rewrite (bool_decide_eq_false_2 (None <> None)) by (intros H; now apply H).
    run. reflexivity.
  - cbn [app]. now rewrite pair_eta.
Qed.

(** The transfer branch of [FileTransferSend] for an upload that has
    something to send. *)
Lemma FileTransferSend_upload_run (fuel : nat) (s : CFtpControlSocket)
    (d : CFtpFileTransferOpData) (rest : list COpData) :
  m_pCurOpData s = CFtpFileTransferOp d :: rest ->
  m_pTransferSocket s = None ->
  download d = false ->
  file_open_reading env (localFile d) = true ->
  upload_proceeds env d = true ->
  CIOThread_Create env = true ->
  FileTransferSend_transfer env ext fuel s
  = ([transfer_status_Init (file_size env (localFile d)) (upload_start d);
      Call_Push (CFtpRawTransferOp
                   (raw_frame env (transfer_command env d s) (ftp d) s))],
     Some (FZ_REPLY_CONTINUE, transfer_started env (upload_frame env d s) rest s)).
Proof.
  intros Hst Hts Hdl Hopen Hgo Hio.
  unfold upload_proceeds in Hgo. unfold upload_frame, upload_start.
  unfold FileTransferSend_transfer, update_ft, get_ft, set_cur.
  cbv zeta. run. rewrite Hts.
  rewrite (bool_decide_eq_false_2 (None <> None)) by (intros H; now apply H).
  unfold when.
  destruct (resume d && (0 <? remoteFileSize d)) eqn:Hrp.
  - apply andb_true_iff in Hgo as [Hdiff Hseek]. apply negb_true_iff in Hdiff.
    unfold upload_local_size in *.
    destruct ((localFileSize d <? 0) && (0 <=? file_size env (localFile d))) eqn:Hask;
      repeat (run; cbn [m_pCurOpData set_m_pCurOpData tail localFile localFileSize
                        remoteFileSize ftp set_localFileSize resume download];
              rewrite ?Hst, ?Hdl, ?Hopen, ?Hrp, ?Hask, ?Hdiff, ?Hseek; cbn [negb andb]);
      rewrite ?set_localFileSize_same;
      (erewrite FileTransferSend_start_run;
       [|cbn [m_pCurOpData set_m_pCurOpData]; reflexivity | exact Hio]);
      reflexivity.
  - repeat (run; cbn [m_pCurOpData set_m_pCurOpData tail localFile localFileSize
                      remoteFileSize ftp set_localFileSize resume download];
            rewrite ?Hst, ?Hdl, ?Hopen, ?Hrp; cbn [negb andb]).
    erewrite FileTransferSend_start_run;
      [|cbn [m_pCurOpData set_m_pCurOpData]; reflexivity | exact Hio].
    reflexivity.
Qed.

End TransferCommand.

(** X15.  [FileTransferSend] for an upload that has something to send, once
    the local file is open and the IO thread runs: the frame waits for the
    transfer with the IO thread set, the data socket is one for an upload,
    and a raw transfer is pushed whose command is STOR or APPE followed by
    the file name.  APPE is used exactly for a resumed upload to a server
    without REST, and then the resume offset is 0 (the assertion of the
    source holds); with REST the resume offset is where the upload
    starts. *)
Theorem upload_command (env : Environment) (ext : Collaborators) (fuel : nat)
    (s : CFtpControlSocket) (d : CFtpFileTransferOpData) (rest : list COpData) :
  m_pCurOpData s = CFtpFileTransferOp d :: rest ->
  ft_opState d = filetransfer_resumetest \/ ft_opState d = filetransfer_transfer ->
  download d = false ->
  file_open_reading env (localFile d) = true ->
  upload_proceeds env d = true ->
  CIOThread_Create env = true ->
  exists t raw d' s' verb,
    FileTransferSend env ext fuel s = (t, Some (FZ_REPLY_CONTINUE, s'))
    /\ m_pCurOpData s' = CFtpRawTransferOp raw :: CFtpFileTransferOp d' :: rest
    /\ In (transfer_status_Init (file_size env (localFile d)) (upload_start d)) t
    /\ In (Call_Push (CFtpRawTransferOp raw)) t
    /\ ft_opState d' = filetransfer_waittransfer
    /\ pIOThread d' = true
    /\ m_pTransferSocket s'
       = Some {| m_transferMode := TransferMode_upload; m_transferEndReason := TER_none;
                 m_binaryMode := ts_binary (transferSettings d); m_ioThreadSet := true |}
    /\ cmd_ raw = verb ++ FormatFilename env (remotePath d) (remoteFile d)
                            (negb (tryAbsolutePath d))
    /\ (verb = "STOR " \/ verb = "APPE ")
    /\ (verb = "APPE " <-> resume d = true /\ GetCapability rest_stream s <> yes)
    /\ (verb = "APPE " -> resumeOffset (ftp d') = 0)
    /\ resumeOffset (ftp d')
       = if bool_decide (GetCapability rest_stream s = yes) then upload_start d else 0.
Proof.
  intros Hst Hstate Hdl Hopen Hgo Hio.
  rewrite (FileTransferSend_in_transfer env ext fuel s d rest Hst Hstate).
  rewrite FileTransferSend_transfer_drop.
  rewrite (FileTransferSend_upload_run env ext fuel (drop_transfer_socket s) d rest)
    by (rewrite ?drop_transfer_socket_frames; auto using drop_transfer_socket_none).
  cbn [fst snd].
  unfold transfer_started, transfer_command, upload_frame, data_socket, upload_start.
  rewrite !drop_transfer_socket_capability.
  destruct (bool_decide (GetCapability rest_stream s = yes)) eqn:Hcap;
    [apply bool_decide_eq_true in Hcap | apply bool_decide_eq_false in Hcap];
    destruct (resume d) eqn:Hres; destruct (0 <? remoteFileSize d) eqn:Hpos;
    cbn [andb ftp set_ftp set_ft_opState set_pIOThread set_localFileSize download resume
         remotePath remoteFile tryAbsolutePath transferSettings];
    rewrite ?Hdl, ?Hres;
    eexists _, _, _, _, _;
    (split; [reflexivity|]); (split; [reflexivity|]);
    (split; [apply in_cons, in_or_app; right; left; reflexivity|]);
    (split; [apply in_cons, in_or_app; right; right; left; reflexivity|]);
    (split; [reflexivity|]); (split; [reflexivity|]); (split; [reflexivity|]);
    (split; [reflexivity|]);
    cbn [cleared_outcome resumeOffset set_transferEndReason set_tranferCommandSent
         set_resumeOffset];
    (split; [(now left) || (now right)|]);
    (split; [|split; [reflexivity || discriminate | reflexivity]]);
    (split; [(now intros _) || discriminate | reflexivity || intros [H1 H2]; congruence]).
Qed.

Lemma upload_command_witness :
  exists raw s',
    socket_of (FileTransferSend sample_environment sample_collaborators 0
                 partial_upload_socket) = Some s'
    /\ m_pCurOpData s' = [CFtpRawTransferOp raw; CFtpFileTransferOp
                            (set_ftp (cleared_outcome (ftp partial_upload))
                               (set_ft_opState filetransfer_waittransfer
                                  (set_pIOThread true
                                     (upload_frame sample_environment partial_upload
                                        partial_upload_socket))))]
    /\ cmd_ raw = "APPE " ++ FormatFilename sample_environment (remotePath partial_upload)
                               (remoteFile partial_upload) true.
Proof.
  destruct (upload_command sample_environment sample_collaborators 0 partial_upload_socket
              partial_upload [] eq_refl (or_intror eq_refl) eq_refl eq_refl eq_refl eq_refl)
    as (t & raw & d' & s' & verb & Hrun & Hst & _ & _ & _ & _ & _ & Hcmd & _ & Hverb & _).
  vm_compute in Hrun. injection Hrun as _ <-.
  injection Hst as <- <-.
  eexists _, _. split; [vm_compute; reflexivity|]. split; reflexivity.
Defined.

(** ** The start of a download *)

Section DownloadStart.

Variable env : Environment.
Variable ext : Collaborators.

(** The download branch of [FileTransferSend] once the local file is
    open. *)
Lemma FileTransferSend_download_run (start : Z) (s : CFtpControlSocket)
    (d : CFtpFileTransferOpData) (rest : list COpData) :
  m_pCurOpData s = CFtpFileTransferOp d :: rest ->
  CIOThread_Create env = true ->
  let d1 := set_ftp (set_resumeOffset (if resume d then localFileSize d else 0) (ftp d)) d in
  FileTransferSend_download env ext start s
  = ((transfer_status_Init (remoteFileSize d) start :: preallocation env d start
      ++ [Call_Push (CFtpRawTransferOp
                       (raw_frame env (transfer_command env d s) (ftp d) s))])%list,
     Some (FZ_REPLY_CONTINUE, transfer_started env d1 rest s)).
Proof.
  intros Hst Hio d1. subst d1.
  unfold FileTransferSend_download, preallocation, update_ft, get_ft, set_cur, when.
  destruct (OPTION_PREALLOCATE_SPACE env && (0 <? remoteFileSize d - start)) eqn:Hpre;
    repeat (run; cbn [m_pCurOpData set_m_pCurOpData tail remoteFileSize localFile set_ftp];
            rewrite ?Hst, ?Hpre);
    (erewrite FileTransferSend_start_run;
     [|cbn [m_pCurOpData set_m_pCurOpData]; reflexivity | exact Hio]);
    reflexivity.
Qed.

(** The transfer branch of [FileTransferSend] for a download whose local
    file opens, the test of the resume capability apart. *)
Lemma FileTransferSend_download_opens (fuel : nat) (s : CFtpControlSocket)
    (d : CFtpFileTransferOpData) (rest : list COpData) :
  m_pCurOpData s = CFtpFileTransferOp d :: rest ->
  m_pTransferSocket s = None ->
  download d = true ->
  (resume d = true -> ft_opState d = filetransfer_transfer) ->
  download_opens env d = true ->
  CIOThread_Create env = true ->
  FileTransferSend_transfer env ext fuel s
  = (((if resume d then [] else [CreateLocalDir (localFile d)])
      ++ transfer_status_Init (remoteFileSize d) (download_start env d)
      :: preallocation env d (download_start env d)
      ++ [Call_Push (CFtpRawTransferOp
                       (raw_frame env (transfer_command env d s) (ftp d) s))])%list,
     Some (FZ_REPLY_CONTINUE, transfer_started env (download_frame env d) rest s)).
Proof.
  intros Hst Hts Hdl Hstate Hopen Hio.
  unfold download_opens in Hopen. unfold download_frame, download_start.
  unfold FileTransferSend_transfer, update_ft, get_ft, set_cur.
  cbv zeta. run. rewrite Hts.
  rewrite (bool_decide_eq_false_2 (None <> None)) by (intros H; now apply H).
  unfold when.
  destruct (resume d) eqn:Hres.
  - apply andb_true_iff in Hopen as [Hopen Hseek]. apply negb_true_iff in Hseek.
    repeat (run; cbn [m_pCurOpData set_m_pCurOpData tail];
            rewrite ?Hst, ?Hdl, ?Hres, ?Hopen, ?Hseek, ?(Hstate eq_refl);
            rewrite ?(bool_decide_eq_false_2
                        (filetransfer_transfer = filetransfer_resumetest))
              by discriminate;
            cbn [negb]).
    erewrite FileTransferSend_download_run;
      [|cbn [m_pCurOpData set_m_pCurOpData]; reflexivity | exact Hio].
    cbn [resume set_localFileSize set_fileDidExist localFileSize app]. rewrite Hres.
    reflexivity.
  - repeat (run; cbn [m_pCurOpData set_m_pCurOpData tail];
            rewrite ?Hst, ?Hdl, ?Hres, ?Hopen; cbn [negb]).
    erewrite FileTransferSend_download_run;
      [|cbn [m_pCurOpData set_m_pCurOpData]; reflexivity | exact Hio].
    cbn [resume set_localFileSize set_fileDidExist localFileSize app]. rewrite Hres.
    reflexivity.
Qed.

End DownloadStart.

(** X16.  [FileTransferSend] for a download whose local file opens and
    whose IO thread runs (the test of the resume capability apart): RETR is
    the command of the raw transfer pushed.  A resumed download starts at
    the end of the local file, any other at 0 in a file made empty, after
    its directory was created; the local size and the resume offset of the
    frame are that start, and the transfer status is initialised with it.
    Only what is missing from the local file is preallocated, and only
    when the option asks for it. *)
Theorem download_start_offsets (env : Environment) (ext : Collaborators) (fuel : nat)
    (s : CFtpControlSocket) (d : CFtpFileTransferOpData) (rest : list COpData) :
  m_pCurOpData s = CFtpFileTransferOp d :: rest ->
  ft_opState d = filetransfer_transfer
  \/ (ft_opState d = filetransfer_resumetest /\ resume d = false) ->
  download d = true ->
  download_opens env d = true ->
  CIOThread_Create env = true ->
  exists t raw d' s',
    FileTransferSend env ext fuel s = (t, Some (FZ_REPLY_CONTINUE, s'))
    /\ m_pCurOpData s' = CFtpRawTransferOp raw :: CFtpFileTransferOp d' :: rest
    /\ cmd_ raw = "RETR " ++ FormatFilename env (remotePath d) (remoteFile d)
                               (negb (tryAbsolutePath d))
    /\ localFileSize d' = download_start env d
    /\ resumeOffset (ftp d') = download_start env d
    /\ fileDidExist d' = negb (bool_decide (get_file_type env (localFile d) = fs_unknown))
    /\ In (transfer_status_Init (remoteFileSize d) (download_start env d)) t
    /\ (forall p n, In (file_preallocate p n) t ->
          OPTION_PREALLOCATE_SPACE env = true /\ p = localFile d
          /\ n = remoteFileSize d - download_start env d /\ 0 < n)
    /\ (In (CreateLocalDir (localFile d)) t <-> resume d = false).
Proof.
  intros Hst Hstate Hdl Hopen Hio.
  assert (Hstate' : ft_opState d = filetransfer_resumetest
                    \/ ft_opState d = filetransfer_transfer) by tauto.
  assert (Hres : resume d = true -> ft_opState d = filetransfer_transfer).
  { destruct Hstate as [H|[_ H]]; [auto | congruence]. }
  rewrite (FileTransferSend_in_transfer env ext fuel s d rest Hst Hstate').
  rewrite FileTransferSend_transfer_drop.
  rewrite (FileTransferSend_download_opens env ext fuel (drop_transfer_socket s) d rest)
    by (rewrite ?drop_transfer_socket_frames; auto using drop_transfer_socket_none).
  cbn [fst snd].
  eexists _, _, _, _. split; [reflexivity|].
  unfold transfer_started at 1. cbn [m_pCurOpData set_m_pCurOpData].
  split; [reflexivity|].
  unfold transfer_command, download_frame, preallocation.
  cbn [cmd_ raw_frame download set_ftp set_localFileSize set_fileDidExist remotePath
       remoteFile tryAbsolutePath localFileSize ftp resumeOffset set_resumeOffset
       set_ft_opState set_pIOThread cleared_outcome set_transferEndReason
       set_tranferCommandSent fileDidExist].
  rewrite Hdl.
  split; [reflexivity|]. split; [reflexivity|]. split; [reflexivity|].
  split; [reflexivity|].
  split; [apply in_cons, in_or_app; right; apply in_or_app; right; left; reflexivity|].
  split.
  - intros p n [H|H]; [discriminate|].
    apply in_app_iff in H as [H|H].
    { destruct (bool_decide _); [destruct H as [H|[]]; discriminate | destruct H]. }
    apply in_app_iff in H as [H|H]; [destruct (resume d); [destruct H|]|].
    { destruct H as [H|[]]; discriminate. }
    destruct H as [H|H]; [discriminate|].
    apply in_app_iff in H as [H|H]; [|destruct H as [H|[]]; discriminate].
    destruct (OPTION_PREALLOCATE_SPACE env); cbn [andb] in H; [|destruct H].
    destruct (0 <? _) eqn:Hpos; [|destruct H].
    destruct H as [H|[H|[]]]; [discriminate|]. injection H as <- <-.
    apply Z.ltb_lt in Hpos. auto.
  - split.
    + intros [H|H]; [discriminate|].
      apply in_app_iff in H as [H|H].
      { destruct (bool_decide _); [destruct H as [H|[]]; discriminate | destruct H]. }
      apply in_app_iff in H as [H|H]; [destruct (resume d); [destruct H | reflexivity]|].
      destruct H as [H|H]; [discriminate|].
      apply in_app_iff in H as [H|H]; [|destruct H as [H|[]]; discriminate].
      destruct (_ && _); [destruct H as [H|[H|[]]]; discriminate | destruct H].
    + intros ->. apply in_cons, in_or_app; right. apply in_or_app; left. now left.
Qed.

Lemma download_start_offsets_witness :
  exists raw d',
    option_map m_pCurOpData
      (socket_of (FileTransferSend sample_environment sample_collaborators 0
                    resumed_download_socket))
    = Some [CFtpRawTransferOp raw; CFtpFileTransferOp d']
    /\ resumeOffset (ftp d') = 5 * 2 ^ 30.
Proof.
  destruct (download_start_offsets sample_environment sample_collaborators 0
              resumed_download_socket resumed_download [] eq_refl (or_introl eq_refl)
              eq_refl eq_refl eq_refl)
    as (t & raw & d' & s' & Hrun & Hst & _ & _ & Hoff & _).
  exists raw, d'. rewrite Hrun. cbn [socket_of snd option_map]. rewrite Hst.
  split; [reflexivity | exact Hoff].
Defined.

(** ** A local file that cannot be opened *)

(** X17.  [FileTransferSend] in a state in which the transfer starts, for a
    local file that cannot be opened: after messages (and, for a download
    that is not resumed, the creation of the local directory) the operation
    is reset with FZ_REPLY_ERROR, on the socket without its data socket and
    with the frame unchanged, and the result is FZ_REPLY_ERROR.  No frame
    is pushed and no command is sent. *)
Theorem local_file_failure (env : Environment) (ext : Collaborators) (fuel : nat)
    (s : CFtpControlSocket) (d : CFtpFileTransferOpData) (rest : list COpData) :
  m_pCurOpData s = CFtpFileTransferOp d :: rest ->
  ft_opState d = filetransfer_resumetest \/ ft_opState d = filetransfer_transfer ->
  local_file_opens env d = false ->
  exists t0 t a s',
    ResetOperation env ext FZ_REPLY_ERROR (drop_transfer_socket s) = (t, Some (a, s'))
    /\ FileTransferSend env ext fuel s = ((t0 ++ t)%list, Some (FZ_REPLY_ERROR, s'))
    /\ Forall (fun e => is_preparation e = true) t0
    /\ Forall (fun e => starts_transfer e = false) (t0 ++ t).
Proof.
  intros Hst Hstate Hopen.
  assert (Hst' : m_pCurOpData (drop_transfer_socket s) = CFtpFileTransferOp d :: rest)
    by now rewrite drop_transfer_socket_frames.
  destruct (ResetOperation_transfer_returns env ext FZ_REPLY_ERROR _ d rest Hst')
    as (t & a & s' & Hrun & Heff).
  assert (Hquiet : Forall (fun e => starts_transfer e = false) t).
  { eapply Forall_impl; [exact Heff|]. apply reset_effect_no_transfer. }
  rewrite (FileTransferSend_in_transfer env ext fuel s d rest Hst Hstate).
  rewrite FileTransferSend_transfer_drop.
  assert (Hgo : exists t1,
             FileTransferSend_transfer env ext fuel (drop_transfer_socket s)
             = ((t1 ++ t)%list, Some (FZ_REPLY_ERROR, s'))
             /\ Forall (fun e => is_preparation e = true) t1).
  { pose proof (drop_transfer_socket_none s) as Hts.
    revert Hst' Hts Hrun. generalize (drop_transfer_socket s). intros s0 Hst' Hts Hrun.
    unfold local_file_opens in Hopen.
    unfold FileTransferSend_transfer, get_ft. cbv zeta. run. rewrite Hts.
    rewrite (bool_decide_eq_false_2 (None <> None)) by (intros H; now apply H).
    unfold when.
    destruct (download d) eqn:Hdl; [destruct (resume d) eqn:Hres|];
      repeat (run; rewrite ?Hst', ?Hdl, ?Hres, ?Hopen; cbn [negb]);
      rewrite bind_ret_run, Hrun; cbn [fst snd].
    - exists [LogMessage MsgError "Failed to open the local file for appending/writing"].
      split; [reflexivity | repeat constructor].
    - exists [CreateLocalDir (localFile d);
              LogMessage MsgError "Failed to open the local file for writing"].
      split; [reflexivity | repeat constructor].
    - exists [LogMessage MsgError "Failed to open the local file for reading"].
      split; [reflexivity | repeat constructor]. }
  destruct Hgo as (t1 & -> & Hprep). cbn [fst snd].
  exists (LogMessage MsgDebug_Verbose "FileTransferSend()"
          :: (if bool_decide (m_pTransferSocket s <> None)
              then [LogMessage MsgDebug_Verbose "m_pTransferSocket != 0"] else [])
          ++ t1)%list, t, a, s'.
  split; [exact Hrun|].
  split; [cbn [app]; now rewrite <- app_assoc|].
  assert (Hall : Forall (fun e => is_preparation e = true)
                   (LogMessage MsgDebug_Verbose "FileTransferSend()"
                    :: (if bool_decide (m_pTransferSocket s <> None)
                        then [LogMessage MsgDebug_Verbose "m_pTransferSocket != 0"] else [])
                    ++ t1)%list).
  { constructor; [reflexivity|]. apply Forall_app. split; [|exact Hprep].
    destruct (bool_decide _); repeat constructor. }
  split; [exact Hall|].
  apply Forall_app. split; [|exact Hquiet].
  eapply Forall_impl; [exact Hall|]. intros e He. now destruct e.
Qed.

Lemma local_file_failure_witness :
  result_of (FileTransferSend locked_environment sample_collaborators 0
               resumed_download_socket) = Some FZ_REPLY_ERROR.
Proof.
  destruct (local_file_failure locked_environment sample_collaborators 0
              resumed_download_socket resumed_download [] eq_refl (or_intror eq_refl)
              eq_refl)
    as (t0 & t & a & s' & _ & Hrun & _).
  now rewrite Hrun.
Defined.

(** ** The reply to SIZE *)

Lemma parse_size_stop (tail : string) (acc : Z) :
  starts_with_digit tail = false -> parse_size tail acc = acc.
Proof.
  destruct tail as [|c tail]; [reflexivity|]. cbn [starts_with_digit parse_size].
  intros H. apply negb_false_iff in H. now rewrite H.
Qed.

(** One digit read by [parse_size]. *)
Ltac digit_step :=
  cbn [parse_size];
  lazymatch goal with
  | |- (if ?b then _ else parse_size _ (_ + ?v)) = _ =>
      let v' := eval vm_compute in v in
      change b with false; change v with v'; cbv iota
  end.

Lemma parse_size_acc (d : Decimal.uint) (tail : string) (acc : positive) :
  starts_with_digit tail = false ->
  parse_size (DecimalString.NilEmpty.string_of_uint d ++ tail) (Z.pos acc)
  = Z.pos (Pos.of_uint_acc d acc).
Proof.
  intros Htail. revert acc.
  induction d as [|d IH|d IH|d IH|d IH|d IH|d IH|d IH|d IH|d IH|d IH]; intros acc;
    cbn [DecimalString.NilEmpty.string_of_uint String.append Pos.of_uint_acc];
    [now apply parse_size_stop|..];
    digit_step; rewrite <- IH; f_equal; lia.
Qed.

Lemma parse_size_of_uint (d : Decimal.uint) (tail : string) :
  starts_with_digit tail = false ->
  parse_size (DecimalString.NilEmpty.string_of_uint d ++ tail) 0 = Z.of_N (Pos.of_uint d).
Proof.
  intros Htail.
  induction d as [|d IH|d IH|d IH|d IH|d IH|d IH|d IH|d IH|d IH|d IH];
    cbn [DecimalString.NilEmpty.string_of_uint String.append Pos.of_uint];
    [now apply parse_size_stop|..];
    digit_step; [exact IH|..];
    cbn [Z.of_N Z.mul Z.add]; now apply parse_size_acc.
Qed.

(** Reading back a number printed in decimal notation. *)
Lemma parse_size_decimal (n : N) (tail : string) :
  starts_with_digit tail = false ->
  parse_size (decimal n ++ tail) 0 = Z.of_N n.
Proof.
  intros Htail. unfold decimal. rewrite parse_size_of_uint by exact Htail.
  f_equal. apply DecimalN.Unsigned.of_to.
Qed.

Lemma decimal_not_empty (n : N) : exists c r, decimal n = String c r.
Proof.
  unfold decimal. destruct n as [|p]; [now exists "0"%char, ""|].
  cbn [N.to_uint]. pose proof (DecimalPos.Unsigned.to_uint_nonnil p) as H.
  destruct (Pos.to_uint p); [now destruct H|..]; cbn; eauto.
Qed.

(** X18.  [FileTransferParseResponse] in the state [size], on a reply
    [213 ] followed by a number in decimal notation that fits 63 bits and
    is not followed by another digit: the frame records that number as the
    size of the remote file and goes on to MDTM, the SIZE capability
    becomes [yes] if it was unknown, and the next command is sent. *)
Theorem SIZE_reply_read (env : Environment) (ext : Collaborators) (fuel : nat)
    (s : CFtpControlSocket) (d : CFtpFileTransferOpData) (rest : list COpData)
    (n : N) (tail : string) :
  m_pCurOpData s = CFtpFileTransferOp d :: rest ->
  ft_opState d = filetransfer_size ->
  m_Response s = "213 " ++ decimal n ++ tail ->
  starts_with_digit tail = false ->
  Z.of_N n < 2 ^ 63 ->
  let s0 := if bool_decide (GetCapability size_command s = unknown)
            then with_capability size_command yes s else s in
  let s1 := set_m_pCurOpData
              (CFtpFileTransferOp
                 (set_remoteFileSize (Z.of_N n) (set_ft_opState filetransfer_mdtm d))
               :: rest) s0 in
  FileTransferParseResponse env ext fuel s
  = (LogMessage MsgDebug_Verbose "FileTransferParseResponse()"
     :: (SendNextCommand env ext fuel s1).1,
     (SendNextCommand env ext fuel s1).2).
Proof.
  intros Hst Hstate Hresp Htail _ s0 s1. subst s0 s1.
  destruct (decimal_not_empty n) as (c & r & Hdec).
  assert (Hcode : GetReplyCode s = 2).
  { unfold GetReplyCode. rewrite Hresp. reflexivity. }
  assert (Hhead : WString.substr 0 4 (m_Response s) = "213 ").
  { rewrite Hresp, Hdec. reflexivity. }
  assert (Hlen : (4 <? WString.size (m_Response s))%nat = true).
  { rewrite Hresp, Hdec. reflexivity. }
  assert (Hnum : WString.substr_from 4 (m_Response s) = decimal n ++ tail).
  { rewrite Hresp. unfold WString.substr_from.
    cbn [String.append String.length Nat.sub String.substring].
    rewrite Nat.sub_0_r. apply substring_all. }
  unfold FileTransferParseResponse, get_ft, update_ft, get_ft, set_cur, SetCapability,
    with_capability.
  repeat (run; cbn [m_pCurOpData set_m_pCurOpData list.tail m_Response];
          rewrite ?Hst, ?Hstate, ?Hcode, ?Hhead, ?Hlen, ?Hnum;
          rewrite ?(bool_decide_eq_false_2 (filetransfer_size = filetransfer_init))
            by discriminate;
          cbn [Z.eqb Pos.eqb negb andb]).
  change (("213 " =? "213 ")%string && true) with true. cbv iota.
  rewrite (parse_size_decimal n tail Htail).
  destruct (bool_decide (GetCapability size_command s = unknown)); unfold when;
    repeat (run; cbn [m_pCurOpData set_m_pCurOpData set_capabilities_ list.tail]);
    reflexivity.
Qed.

Lemma SIZE_reply_read_witness :
  exists d',
    option_map m_pCurOpData
      (socket_of (FileTransferParseResponse sample_environment sample_collaborators 3
                    sizing_socket))
    = Some [CFtpFileTransferOp d']
    /\ remoteFileSize d' = 1048576.
Proof.
  pose proof (SIZE_reply_read sample_environment sample_collaborators 3 sizing_socket
                sizing_download [] 1048576 "" eq_refl eq_refl eq_refl eq_refl eq_refl)
    as Hrun.
  cbv zeta in Hrun. rewrite Hrun. vm_compute. eexists. split; reflexivity.
Defined.

(** ** The reply to MDTM *)

Lemma datetime_add_minutes_back (t : datetime) (m : Z) :
  datetime_add_minutes (datetime_add_minutes t m) (- m) = t.
Proof. destruct t as [x|]; [|reflexivity]. cbn. f_equal. lia. Qed.

Lemma length_at_least (n : nat) (stamp : string) :
  (n < String.length stamp)%nat ->
  (4 + n <? String.length ("213 " ++ stamp))%nat = true.
Proof. intros H. cbn [String.append String.length]. apply Nat.ltb_lt. cbn. lia. Qed.

(** X19.  [FileTransferParseResponse] in the state [mdtm], on a reply
    [213 ] followed by a time stamp of more than 12 characters: the frame
    goes to the state [resumetest] with the time of the stamp, moved by the
    time zone offset of the server, as the file time, and the overwrite
    check follows; the next command is sent if the check returns
    FZ_REPLY_OK, and its result is returned otherwise.  The MFMT command
    for that frame undoes the offset: it names the time of the stamp. *)
Theorem MDTM_reply_time (env : Environment) (ext : Collaborators) (fuel : nat)
    (s : CFtpControlSocket) (d : CFtpFileTransferOpData) (rest : list COpData)
    (stamp : string) :
  m_pCurOpData s = CFtpFileTransferOp d :: rest ->
  ft_opState d = filetransfer_mdtm ->
  m_Response s = "213 " ++ stamp ->
  (12 < String.length stamp)%nat ->
  let d' := dated_frame env stamp (currentServer_ s) d in
  let checked := CheckOverwriteFile ext (set_m_pCurOpData (CFtpFileTransferOp d' :: rest) s) in
  FileTransferParseResponse env ext fuel s
  = (if checked.1 =? FZ_REPLY_OK then
       (LogMessage MsgDebug_Verbose "FileTransferParseResponse()"
        :: Call_CheckOverwriteFile :: (SendNextCommand env ext fuel checked.2).1,
        (SendNextCommand env ext fuel checked.2).2)
     else
       ([LogMessage MsgDebug_Verbose "FileTransferParseResponse()"; Call_CheckOverwriteFile],
        Some (checked.1, checked.2)))
  /\ MFMT_command env d' (currentServer_ s)
     = "MFMT " ++ datetime_format env (datetime_parse env stamp)
       ++ FormatFilename env (remotePath d) (remoteFile d) (negb (tryAbsolutePath d)).
Proof.
  intros Hst Hstate Hresp Hlen d' checked. subst d' checked. split.
  - assert (Hhead : WString.substr 0 4 (m_Response s) = "213 ").
    { rewrite Hresp. destruct stamp; reflexivity. }
    assert (Hlong : (16 <? WString.size (m_Response s))%nat = true).
    { rewrite Hresp. exact (length_at_least 12 stamp Hlen). }
    assert (Hnum : WString.substr_from 4 (m_Response s) = stamp).
    { rewrite Hresp. unfold WString.substr_from.
      cbn [String.append String.length Nat.sub String.substring].
      rewrite Nat.sub_0_r. apply substring_all. }
    unfold FileTransferParseResponse, get_ft, update_ft, get_ft, set_cur, dated_frame.
    repeat (run; cbn [m_pCurOpData set_m_pCurOpData list.tail m_Response currentServer_];
            rewrite ?Hst, ?Hstate, ?Hhead, ?Hlong, ?Hnum;
            rewrite ?(bool_decide_eq_false_2 (filetransfer_mdtm = filetransfer_init))
              by discriminate).
    change (("213 " =? "213 ")%string && true) with true. unfold when.
    repeat (run; cbn [m_pCurOpData set_m_pCurOpData list.tail m_Response currentServer_]).
    replace (if negb (datetime_empty (datetime_parse env stamp))
             then datetime_add_minutes (datetime_parse env stamp)
                    (GetTimezoneOffset (currentServer_ s))
             else datetime_parse env stamp)
      with (datetime_add_minutes (datetime_parse env stamp)
              (GetTimezoneOffset (currentServer_ s)))
      by (now destruct (datetime_parse env stamp)).
    destruct (CheckOverwriteFile ext _) as [res s2]. cbn [fst snd].
    destruct (res =? FZ_REPLY_OK); reflexivity.
  - unfold MFMT_command, dated_frame.
    cbn [fileTime set_fileTime remotePath remoteFile tryAbsolutePath set_ft_opState].
    now rewrite datetime_add_minutes_back.
Qed.

Lemma MDTM_reply_time_witness :
  MFMT_command sample_environment
    (dated_frame sample_environment "20240229120000" (currentServer_ dating_socket)
       (set_ft_opState filetransfer_mdtm new_download))
    (currentServer_ dating_socket)
  = "MFMT " ++ datetime_format sample_environment
                 (datetime_parse sample_environment "20240229120000")
    ++ FormatFilename sample_environment (remotePath new_download)
         (remoteFile new_download) (negb (tryAbsolutePath new_download)).
Proof.
  refine (proj2 (MDTM_reply_time sample_environment sample_collaborators 3 dating_socket
                   (set_ft_opState filetransfer_mdtm new_download) [] "20240229120000"
                   eq_refl eq_refl eq_refl _)).
  cbn. lia.
Defined.

(** ** The end of the transfer of a file *)

(** X20.  [FileTransferSubcommandResult] for a download in the state
    [waittransfer]: the modification time of the local file is set exactly
    when the transfer succeeded, timestamps are preserved and the frame has
    a file time; it is set to that time, after the IO thread is deleted
    and its pointer cleared.  Then the operation is reset with the result
    of the transfer, which is also the result of the function. *)
Theorem download_time_restored (env : Environment) (ext : Collaborators) (fuel : nat)
    (prevResult : Z) (s : CFtpControlSocket) (d : CFtpFileTransferOpData)
    (rest : list COpData) :
  m_pCurOpData s = CFtpFileTransferOp d :: rest ->
  ft_opState d = filetransfer_waittransfer ->
  download d = true ->
  let s1 := if restores_time env d prevResult
            then set_m_pCurOpData (CFtpFileTransferOp (set_pIOThread false d) :: rest) s
            else s in
  exists t a s',
    ResetOperation env ext prevResult s1 = (t, Some (a, s'))
    /\ FileTransferSubcommandResult env ext fuel prevResult s
       = ((LogMessage MsgDebug_Verbose "FileTransferSubcommandResult()"
           :: (if restores_time env d prevResult then time_restoration env d else [])
           ++ t)%list,
          Some (prevResult, s'))
    /\ forall p x, In (set_modification_time p x)
                     (trace_of (FileTransferSubcommandResult env ext fuel prevResult s))
                   <-> restores_time env d prevResult = true
                       /\ p = localFile d /\ x = fileTime d.
Proof.
  intros Hst Hstate Hdl s1.
  assert (Hst1 : exists d1, m_pCurOpData s1 = CFtpFileTransferOp d1 :: rest).
  { subst s1. destruct (restores_time env d prevResult); eauto. }
  destruct Hst1 as (d1 & Hst1).
  destruct (ResetOperation_transfer_returns env ext prevResult s1 d1 rest Hst1)
    as (t & a & s' & Hrun & Heff).
  exists t, a, s'. split; [exact Hrun|].
  assert (Heq : FileTransferSubcommandResult env ext fuel prevResult s
                = ((LogMessage MsgDebug_Verbose "FileTransferSubcommandResult()"
                    :: (if restores_time env d prevResult then time_restoration env d else [])
                    ++ t)%list,
                   Some (prevResult, s'))).
  { subst s1. unfold restores_time, time_restoration in *.
    unfold FileTransferSubcommandResult, get_ft, update_ft, get_ft, set_cur.
    repeat (run; cbn [m_pCurOpData set_m_pCurOpData list.tail];
            rewrite ?Hst, ?Hstate, ?Hdl; cbn [negb andb]).
    rewrite !andb_false_r. cbn [negb andb]. rewrite !andb_true_r.
    destruct ((prevResult =? FZ_REPLY_OK) && OPTION_PRESERVE_TIMESTAMPS env
              && negb (datetime_empty (fileTime d))); unfold when.
    - destruct (pIOThread d), (set_modification_time_ok env (localFile d));
        repeat (run; cbn [m_pCurOpData set_m_pCurOpData list.tail];
                rewrite ?Hst; cbn [negb]);
        rewrite bind_ret_run, Hrun; reflexivity.
    - run. rewrite bind_ret_run, Hrun. reflexivity. }
  split; [exact Heq|].
  intros p x. rewrite Heq. unfold trace_of. cbn [fst]. split.
  - intros [H|H]; [discriminate|]. apply in_app_iff in H as [H|H].
    + destruct (restores_time env d prevResult); [|destruct H].
      unfold time_restoration in H. apply in_app_iff in H as [H|H].
      { destruct (pIOThread d); [destruct H as [H|[]]; discriminate | destruct H]. }
      destruct H as [H|H]; [injection H as <- <-; auto|].
      destruct (set_modification_time_ok env (localFile d));
        [destruct H | destruct H as [H|[]]; discriminate].
    + apply (proj1 (List.Forall_forall _ _) Heff) in H. discriminate.
  - intros (Hgo & -> & ->). rewrite Hgo. right. apply in_or_app. left.
    unfold time_restoration. apply in_or_app. right. now left.
Qed.

Lemma download_time_restored_witness :
  In (set_modification_time "/tmp/f" (Some 86400))
     (trace_of (FileTransferSubcommandResult sample_environment sample_collaborators 0
                  FZ_REPLY_OK dated_download_socket)).
Proof.
  destruct (download_time_restored sample_environment sample_collaborators 0 FZ_REPLY_OK
              dated_download_socket dated_download [] eq_refl eq_refl eq_refl)
    as (t & a & s' & _ & _ & Hin).
  apply Hin. repeat split.
Defined.

(** X21.  [FileTransferSubcommandResult] for an upload in the state
    [waittransfer].  After a successful transfer, when timestamps are
    preserved, the server has MFMT and the local file has a modification
    time, the frame takes that time, goes to the state [mfmt], and the next
    command is sent.  In every other case the operation is reset with the
    result of the transfer, which is returned, and nothing else is done. *)
Theorem upload_time_sent (env : Environment) (ext : Collaborators) (fuel : nat)
    (prevResult : Z) (s : CFtpControlSocket) (d : CFtpFileTransferOpData)
    (rest : list COpData) :
  m_pCurOpData s = CFtpFileTransferOp d :: rest ->
  ft_opState d = filetransfer_waittransfer ->
  download d = false ->
  if (prevResult =? FZ_REPLY_OK) && mfmt_follows env d s then
    let s1 := set_m_pCurOpData (CFtpFileTransferOp (mfmt_frame env d) :: rest) s in
    FileTransferSubcommandResult env ext fuel prevResult s
    = (LogMessage MsgDebug_Verbose "FileTransferSubcommandResult()"
       :: (SendNextCommand env ext fuel s1).1,
       (SendNextCommand env ext fuel s1).2)
  else
    exists t a s',
      ResetOperation env ext prevResult s = (t, Some (a, s'))
      /\ FileTransferSubcommandResult env ext fuel prevResult s
         = (LogMessage MsgDebug_Verbose "FileTransferSubcommandResult()" :: t,
            Some (prevResult, s')).
Proof.
  intros Hst Hstate Hdl.
  destruct (ResetOperation_transfer_returns env ext prevResult s d rest Hst)
    as (t & a & s' & Hrun & _).
  unfold mfmt_follows, mfmt_frame.
  unfold FileTransferSubcommandResult, get_ft, update_ft, get_ft, set_cur.
  repeat (run; cbn [m_pCurOpData set_m_pCurOpData list.tail];
          rewrite ?Hst, ?Hstate, ?Hdl; cbn [negb andb]).
  rewrite !andb_true_r, !andb_false_r. unfold when.
  rewrite <- !andb_assoc.
  destruct (prevResult =? FZ_REPLY_OK); cbn [andb].
  - destruct (OPTION_PRESERVE_TIMESTAMPS env); cbn [andb].
    + destruct (bool_decide (GetCapability mfmt_command s = yes)); cbn [andb].
      * destruct (datetime_empty (get_modification_time env (localFile d))); cbn [negb].
        -- exists t, a, s'. split; [exact Hrun|]. run. now rewrite bind_ret_run, Hrun.
        -- repeat (run; cbn [m_pCurOpData set_m_pCurOpData list.tail]; rewrite ?Hst).
           reflexivity.
      * exists t, a, s'. split; [exact Hrun|]. run. now rewrite bind_ret_run, Hrun.
    + exists t, a, s'. split; [exact Hrun|]. run. now rewrite bind_ret_run, Hrun.
  - exists t, a, s'. split; [exact Hrun|]. run. now rewrite bind_ret_run, Hrun.
Qed.

Lemma upload_time_sent_witness :
  let s1 := set_m_pCurOpData [CFtpFileTransferOp (mfmt_frame sample_environment ended_upload)]
              ended_upload_socket in
  FileTransferSubcommandResult sample_environment sample_collaborators 3 FZ_REPLY_OK
    ended_upload_socket
  = (LogMessage MsgDebug_Verbose "FileTransferSubcommandResult()"
     :: (SendNextCommand sample_environment sample_collaborators 3 s1).1,
     (SendNextCommand sample_environment sample_collaborators 3 s1).2).
Proof.
  exact (upload_time_sent sample_environment sample_collaborators 3 FZ_REPLY_OK
           ended_upload_socket ended_upload [] eq_refl eq_refl eq_refl).
Defined.

(** ** The file name after a failed change of directory *)

Lemma FileTransferSend_command_run (env : Environment) (ext : Collaborators)
    (c : ascii) (cmd : string) (s : CFtpControlSocket) :
  FileTransferSend_command env ext (String c cmd) s
  = ((SendCommand env ext (String c cmd) false true s).1,
     match (SendCommand env ext (String c cmd) false true s).2 with
     | Some (ok, s2) => Some (if ok then FZ_REPLY_WOULDBLOCK else FZ_REPLY_ERROR, s2)
     | None => None
     end).
Proof.
  unfold FileTransferSend_command. cbn [WString.empty negb].
  unfold mbind, M_bind.
  destruct (SendCommand env ext _ false true s) as [t [[[|] s2]|]]; cbn [negb fst snd];
    unfold mret, M_ret; now rewrite ?app_nil_r.
Qed.

(** X22.  [FileTransferSubcommandResult] in the state [waitcwd] after a
    change of directory that failed: the frame goes to the state [size]
    with absolute paths switched on, and the next command is sent.  In that
    frame [FileTransferSend] asks SIZE for the file name with its path. *)
Theorem cwd_failure_absolute (env : Environment) (ext : Collaborators) (fuel : nat)
    (prevResult : Z) (s : CFtpControlSocket) (d : CFtpFileTransferOpData)
    (rest : list COpData) :
  m_pCurOpData s = CFtpFileTransferOp d :: rest ->
  ft_opState d = filetransfer_waitcwd ->
  prevResult <> FZ_REPLY_OK ->
  let s1 := set_m_pCurOpData
              (CFtpFileTransferOp (set_ft_opState filetransfer_size (set_tryAbsolutePath true d))
               :: rest) s in
  let cmd := "SIZE " ++ FormatFilename env (remotePath d) (remoteFile d) false in
  FileTransferSubcommandResult env ext fuel prevResult s
  = (LogMessage MsgDebug_Verbose "FileTransferSubcommandResult()"
     :: (SendNextCommand env ext fuel s1).1,
     (SendNextCommand env ext fuel s1).2)
  /\ FileTransferSend env ext fuel s1
     = (LogMessage MsgDebug_Verbose "FileTransferSend()"
        :: (SendCommand env ext cmd false true s1).1,
        match (SendCommand env ext cmd false true s1).2 with
        | Some (ok, s2) => Some (if ok then FZ_REPLY_WOULDBLOCK else FZ_REPLY_ERROR, s2)
        | None => None
        end).
Proof.
  intros Hst Hstate Hfail s1 cmd. subst s1 cmd.
  apply Z.eqb_neq in Hfail. split.
  - unfold FileTransferSubcommandResult, get_ft, update_ft, get_ft, set_cur.
    repeat (run; cbn [m_pCurOpData set_m_pCurOpData list.tail];
            rewrite ?Hst, ?Hstate, ?Hfail).
    reflexivity.
  - unfold FileTransferSend, get_ft.
    repeat (run; cbn [m_pCurOpData set_m_pCurOpData list.tail ft_opState set_ft_opState
                      remotePath remoteFile tryAbsolutePath set_tryAbsolutePath negb]).
    cbn [String.append]. now rewrite FileTransferSend_command_run.
Qed.

Lemma cwd_failure_absolute_witness :
  exists s2,
    FileTransferSubcommandResult sample_environment sample_collaborators 3 FZ_REPLY_ERROR
      arriving_socket
    = ([LogMessage MsgDebug_Verbose "FileTransferSubcommandResult()";
        LogMessage MsgDebug_Verbose "CFtpControlSocket::SendNextCommand()"; Call_op_Send],
       Some (FZ_REPLY_WOULDBLOCK, s2)).
Proof.
  pose proof (cwd_failure_absolute sample_environment sample_collaborators 3 FZ_REPLY_ERROR
                arriving_socket arriving_download [] eq_refl eq_refl) as H.
  destruct H as [Hrun _]; [discriminate|].
  rewrite Hrun. vm_compute. eexists. reflexivity.
Defined.

(** ** The next state from the directory cache *)

(** X23.  The state [FileTransferSubcommandResult] chooses from the
    directory cache when the change of directory or the listing has
    succeeded.  It is one of [waitlist], [size], [mdtm], [resumetest], and
    after a listing it is not [waitlist] again.  MDTM is chosen only for a
    download, with timestamps preserved, on a server that has MDTM.  The
    size of the remote file is taken from the cache only for an entry that
    was found with matching case and is not unsure; otherwise it is left
    as it was.  An unsure entry leads to the listing, or after the listing
    to SIZE. *)
Theorem state_from_cache_choice (env : Environment) (after_list : bool)
    (mdtm : capabilities) (r : LookupResult) (d : CFtpFileTransferOpData) :
  let d' := state_from_cache env after_list mdtm r d in
  In (ft_opState d') [filetransfer_waitlist; filetransfer_size; filetransfer_mdtm;
                      filetransfer_resumetest]
  /\ (after_list = true -> ft_opState d' <> filetransfer_waitlist)
  /\ (ft_opState d' = filetransfer_mdtm ->
      download d = true /\ OPTION_PRESERVE_TIMESTAMPS env = true /\ mdtm = yes)
  /\ remoteFileSize d'
     = (if found r && matchedCase r && negb (entry_is_unsure r)
        then entry_size r else remoteFileSize d)
  /\ (found r = true -> entry_is_unsure r = true ->
      ft_opState d' = if after_list then filetransfer_size else filetransfer_waitlist).
Proof.
  unfold state_from_cache. cbv zeta.
  destruct (found r), (dirDidExist r), after_list, (matchedCase r), (entry_is_unsure r),
    (download d), (OPTION_PRESERVE_TIMESTAMPS env), (entry_has_time r), (entry_has_date r);
    cbn [negb andb];
    destruct (bool_decide (mdtm = yes)) eqn:Hm;
    try (apply bool_decide_eq_true in Hm);
    cbn [ft_opState set_ft_opState remoteFileSize set_remoteFileSize set_fileTime In];
    repeat split; auto; try discriminate; try congruence.
Qed.

(** ** The receive buffer *)

Lemma bind_run {A B} (m : M A) (f : A -> M B) (s : CFtpControlSocket) :
  (m ≫= f) s
  = match m s with
    | (t, None) => (t, None)
    | (t, Some (a, s')) => ((t ++ (f a s').1)%list, (f a s').2)
    end.
Proof.
  unfold mbind, M_bind. destruct (m s) as [t [[a s']|]]; [|reflexivity].
  now destruct (f a s').
Qed.

Lemma bind_ext {A B} (m : M A) (f g : A -> M B) (s : CFtpControlSocket) :
  (forall a s', f a s' = g a s') -> (m ≫= f) s = (m ≫= g) s.
Proof.
  intros H. rewrite !bind_run. destruct (m s) as [t [[a s']|]]; [|reflexivity].
  now rewrite H.
Qed.

Lemma bind_ext_run {A B} (m : M A) (f g : A -> M B) (s : CFtpControlSocket) :
  (forall t a s', m s = (t, Some (a, s')) -> f a s' = g a s') ->
  (m ≫= f) s = (m ≫= g) s.
Proof.
  intros H. rewrite !bind_run. destruct (m s) as [t [[a s']|]]; [|reflexivity].
  now rewrite (H t a s' eq_refl).
Qed.

Lemma bind_cong_l {A B} (m m' : M A) (f : A -> M B) (s : CFtpControlSocket) :
  m s = m' s -> (m ≫= f) s = (m' ≫= f) s.
Proof. intros H. rewrite !bind_run. now rewrite H. Qed.

Lemma append_empty_r (a : string) : (a ++ "" = a)%string.
Proof. induction a; cbn; congruence. Qed.

Lemma no_line_end_app (a b : string) :
  no_line_end (a ++ b) = no_line_end a && no_line_end b.
Proof.
  induction a as [|p a IH]; [reflexivity|]. cbn [String.append no_line_end].
  now rewrite IH, andb_assoc.
Qed.

Section ReceiveBuffer.

Variable env : Environment.
Variable ext : Collaborators.
Variable ConvToLocal : string -> string.

(** Bytes that end no line only make the segment longer. *)
Lemma OnReceive_scan_shift (fuel : nat) (seg0 b seg : string) :
  no_line_end seg0 = true ->
  OnReceive_scan env ext ConvToLocal fuel seg (seg0 ++ b) = OnReceive_scan env ext ConvToLocal fuel (seg ++ seg0) b.
Proof.
  revert seg. induction seg0 as [|p seg0 IH]; intros seg Hno.
  - now rewrite append_empty_r.
  - cbn [no_line_end] in Hno. apply andb_true_iff in Hno as [Hp Hno].
    apply negb_true_iff in Hp.
    cbn [String.append OnReceive_scan]. rewrite Hp, (IH _ Hno), append_assoc.
    reflexivity.
Qed.

(** The scan of a buffer in two parts. *)
Lemma OnReceive_scan_app (fuel : nat) (b1 b2 seg : string) (s : CFtpControlSocket) :
  no_line_end seg = true ->
  OnReceive_scan env ext ConvToLocal fuel seg (b1 ++ b2) s
  = (r ← OnReceive_scan env ext ConvToLocal fuel seg b1;
     match r with
     | Some kept => OnReceive_scan env ext ConvToLocal fuel "" (kept ++ b2)
     | None => mret None
     end) s.
Proof.
  revert seg s. induction b1 as [|p b1 IH]; intros seg s Hseg.
  - cbn [String.append OnReceive_scan]. rewrite ret_bind.
    now rewrite (OnReceive_scan_shift fuel seg b2 "" Hseg).
  - cbn [String.append OnReceive_scan].
    destruct (is_line_end p) eqn:Hp.
    + destruct (WString.empty seg); [now apply IH|].
      rewrite bind_assoc. apply bind_ext. intros [] s1.
      rewrite bind_assoc, !gets_bind.
      destruct (negb (server_valid (currentServer_ s1))); [now rewrite ret_bind|].
      now apply IH.
    + apply IH. rewrite no_line_end_app, Hseg. cbn [no_line_end]. now rewrite Hp.
Qed.

End ReceiveBuffer.

Section ReceivedLines.

Variable env : Environment.
Variable ext : Collaborators.
Variable ConvToLocal : string -> string.

(** The scan parses the lines of the buffer in turn. *)
Lemma OnReceive_scan_lines (fuel : nat) (rest seg : string) (s : CFtpControlSocket) :
  OnReceive_scan env ext ConvToLocal fuel seg rest s
  = (ParseLines env ext fuel (map (received_line ConvToLocal) (buffer_lines seg rest));;
     srv ← gets currentServer_;
     mret (if bool_decide (buffer_lines seg rest = []) || server_valid srv
           then Some (unfinished_line seg rest) else None)) s.
Proof.
  revert seg s. induction rest as [|p rest IH]; intros seg s.
  - cbn [OnReceive_scan buffer_lines unfinished_line map ParseLines].
    now rewrite ret_bind, gets_bind.
  - cbn [OnReceive_scan buffer_lines unfinished_line].
    destruct (is_line_end p); [|apply IH].
    destruct (WString.empty seg); [apply IH|].
    cbn [map ParseLines]. rewrite !bind_assoc. apply bind_ext. intros [] s1.
    rewrite !bind_assoc, !gets_bind.
    destruct (server_valid (currentServer_ s1)) eqn:Hvalid; cbn [negb].
    + rewrite IH.
      rewrite (bool_decide_eq_false_2 (seg :: buffer_lines "" rest = [])) by discriminate.
      cbn [orb].
      destruct (buffer_lines "" rest) as [|l ls] eqn:Hls.
      * cbn [map ParseLines]. rewrite !ret_bind, !gets_bind, Hvalid.
        now rewrite bool_decide_eq_true_2.
      * rewrite (bool_decide_eq_false_2 (l :: ls = [])) by discriminate. reflexivity.
    + now rewrite ret_bind, gets_bind, Hvalid.
Qed.

(** What the scan keeps is the unfinished line of the buffer. *)
Lemma OnReceive_scan_kept (fuel : nat) (rest seg : string) (s s' : CFtpControlSocket)
    (t : list Effect) (kept : string) :
  OnReceive_scan env ext ConvToLocal fuel seg rest s = (t, Some (Some kept, s')) ->
  kept = unfinished_line seg rest.
Proof.
  rewrite OnReceive_scan_lines, bind_run.
  destruct (ParseLines env ext fuel _ s) as [t1 [[[] s1]|]]; [|discriminate].
  rewrite gets_bind. unfold mret, M_ret. cbn [fst snd].
  destruct (_ || _); intros H; [|discriminate]. now injection H as _ <- _.
Qed.

End ReceivedLines.

Section ResponseLog.

Variable env : Environment.
Variable ext : Collaborators.

Lemma ParseResponse_logs (fuel : nat) (line : string) :
  emits (logs_line line) (ParseResponse env ext fuel).
Proof.
  intros s. destruct (ParseResponse_trace env ext fuel s) as (t & -> & Hall).
  constructor; [exact I|]. eapply Forall_impl; [exact Hall|].
  intros e [He| ->]; [|exact I]. destruct e; try exact I. discriminate.
Qed.

Lemma ParseFeat_logs (line l : string) : emits (logs_line line) (ParseFeat l).
Proof. unfold ParseFeat. repeat emits_step; exact I. Qed.

Lemma ParseLine_logs (fuel : nat) (line : string) :
  emits (logs_line line) (ParseLine env ext fuel line).
Proof.
  unfold ParseLine, ParseLine_prologue, ParseLine_logon, ParseLine_reply.
  repeat first [ apply ParseResponse_logs | apply ParseFeat_logs | emits_step ];
    try exact I; reflexivity.
Qed.

Lemma ParseLines_logs (fuel : nat) (lines : list string) :
  emits (fun e => forall l, e = LogMessageRaw MsgResponse l -> In l lines)
        (ParseLines env ext fuel lines).
Proof.
  induction lines as [|line lines IH]; cbn [ParseLines].
  - apply emits_ret.
  - apply emits_bind.
    + eapply emits_impl; [|apply ParseLine_logs].
      intros e He l ->. left. now symmetry.
    + intros []. apply emits_bind; [apply emits_gets|]. intros srv.
      destruct (server_valid srv); [|apply emits_ret].
      eapply emits_impl; [|exact IH]. intros e He l Hl. right. auto.
Qed.

End ResponseLog.

Lemma buffer_lines_wellformed (rest seg l : string) :
  no_line_end seg = true ->
  In l (buffer_lines seg rest) ->
  l <> "" /\ no_line_end l = true
  /\ exists pre post, (seg ++ rest = pre ++ l ++ post)%string.
Proof.
  revert seg. induction rest as [|p rest IH]; intros seg Hseg Hin; [destruct Hin|].
  cbn [buffer_lines] in Hin. destruct (is_line_end p) eqn:Hp.
  - assert (Hlater : In l (buffer_lines "" rest) ->
                     l <> "" /\ no_line_end l = true
                     /\ exists pre post, (seg ++ String p rest = pre ++ l ++ post)%string).
    { intros H. destruct (IH "" eq_refl H) as (Hne & Hno & pre & post & Heq).
      split; [exact Hne|]. split; [exact Hno|].
      exists (seg ++ String p pre)%string, post. cbn [String.append] in Heq.
      rewrite append_assoc. cbn [String.append]. now rewrite Heq. }
    destruct seg as [|c seg]; cbn [WString.empty] in Hin; [now apply Hlater|].
    destruct Hin as [<-|Hin]; [|now apply Hlater].
    split; [discriminate|]. split; [exact Hseg|].
    exists "", (String p rest). reflexivity.
  - assert (Hseg' : no_line_end (seg ++ String p "") = true).
    { rewrite no_line_end_app, Hseg. cbn [no_line_end]. now rewrite Hp. }
    destruct (IH _ Hseg' Hin) as (Hne & Hno & pre & post & Heq).
    split; [exact Hne|]. split; [exact Hno|]. exists pre, post.
    now rewrite <- Heq, append_assoc.
Qed.

Lemma unfinished_line_wellformed (rest seg : string) :
  no_line_end seg = true ->
  no_line_end (unfinished_line seg rest) = true
  /\ exists pre, (seg ++ rest = pre ++ unfinished_line seg rest)%string.
Proof.
  revert seg. induction rest as [|p rest IH]; intros seg Hseg.
  - cbn [unfinished_line]. split; [exact Hseg|]. exists "". now rewrite append_empty_r.
  - cbn [unfinished_line]. destruct (is_line_end p) eqn:Hp.
    + destruct (IH "" eq_refl) as (Hno & pre & Heq). split; [exact Hno|].
      exists (seg ++ String p pre)%string. cbn [String.append] in Heq.
      rewrite append_assoc. cbn [String.append]. now rewrite <- Heq.
    + assert (Hseg' : no_line_end (seg ++ String p "") = true).
      { rewrite no_line_end_app, Hseg. cbn [no_line_end]. now rewrite Hp. }
      destruct (IH _ Hseg') as (Hno & pre & Heq). split; [exact Hno|].
      exists pre. now rewrite <- Heq, append_assoc.
Qed.

Lemma substring_prefix (n : nat) (b : string) :
  (String.length (String.substring 0 n b) <= n)%nat
  /\ (no_line_end b = true -> no_line_end (String.substring 0 n b) = true)
  /\ (exists post, b = String.substring 0 n b ++ post)%string
  /\ ((String.length b <= n)%nat -> String.substring 0 n b = b).
Proof.
  revert b. induction n as [|n IH]; intros b.
  - destruct b as [|p b]; cbn [String.substring String.length no_line_end].
    + repeat split; eauto; try lia; now exists "".
    + repeat split; eauto; try lia; now exists (String p b).
  - destruct b as [|p b]; cbn [String.substring String.length no_line_end].
    + repeat split; eauto; try lia; now exists "".
    + destruct (IH b) as (Hlen & Hno & (post & Heq) & Hall).
      split; [lia|]. split.
      { intros H. apply andb_true_iff in H as [-> H]. now rewrite (Hno H). }
      split; [exists post; cbn [String.append]; now rewrite <- Heq|].
      intros H. rewrite Hall by lia. reflexivity.
Qed.

(** X24.  The inner loop of [OnReceive] hands the lines of the buffer to
    [ParseLine] in turn, each converted with the NUL that replaces its line
    end, and stops when the connection is closed: it is [ParseLines] on the
    runs of bytes that are not empty and are followed by CR, LF or NUL.
    What it keeps, unless the connection was closed by a line, are the
    bytes after the last line end. *)
Theorem OnReceive_parses_lines (env : Environment) (ext : Collaborators)
    (ConvToLocal : string -> string) (fuel : nat) (buffer : string)
    (s : CFtpControlSocket) :
  OnReceive_scan env ext ConvToLocal fuel "" buffer s
  = (ParseLines env ext fuel (map (received_line ConvToLocal) (buffer_lines "" buffer));;
     srv ← gets currentServer_;
     mret (if bool_decide (buffer_lines "" buffer = []) || server_valid srv
           then Some (unfinished_line "" buffer) else None)) s.
Proof. apply OnReceive_scan_lines. Qed.

(** X25.  How the bytes of the server are cut into reads does not matter:
    one iteration of [OnReceive] on a buffer followed by more bytes does
    what an iteration on the buffer and then one on what it kept, followed
    by those bytes, do, provided the unfinished line of the buffer is not
    longer than MAXLINELEN. *)
Theorem OnReceive_chunks (env : Environment) (ext : Collaborators)
    (ConvToLocal : string -> string) (MAXLINELEN fuel : nat) (b1 b2 : string)
    (s : CFtpControlSocket) :
  (String.length (unfinished_line "" b1) <= MAXLINELEN)%nat ->
  OnReceive_buffer env ext ConvToLocal MAXLINELEN fuel (b1 ++ b2) s
  = (r ← OnReceive_buffer env ext ConvToLocal MAXLINELEN fuel b1;
     match r with
     | Some kept => OnReceive_buffer env ext ConvToLocal MAXLINELEN fuel (kept ++ b2)
     | None => mret None
     end) s.
Proof.
  intros Hlen. unfold OnReceive_buffer.
  rewrite (bind_cong_l _ _ _ _ (OnReceive_scan_app env ext ConvToLocal fuel b1 b2 "" s
                                  eq_refl)).
  rewrite !bind_assoc. apply bind_ext_run. intros t [kept|] s1 Hrun.
  - apply OnReceive_scan_kept in Hrun. subst kept.
    rewrite ret_bind. cbn [option_map].
    destruct (substring_prefix MAXLINELEN (unfinished_line "" b1)) as (_ & _ & _ & Hall).
    now rewrite (Hall Hlen).
  - now rewrite !ret_bind.
Qed.

Lemma OnReceive_chunks_witness :
  result_of (OnReceive_buffer sample_environment sample_collaborators c_string
               sample_MAXLINELEN 3 ("220 Hel" ++ "lo" ++ String (ascii_of_nat 13) "") busy_socket)
  = result_of ((r ← OnReceive_buffer sample_environment sample_collaborators c_string
                      sample_MAXLINELEN 3 "220 Hel";
                match r with
                | Some kept => OnReceive_buffer sample_environment sample_collaborators
                                 c_string sample_MAXLINELEN 3
                                 (kept ++ "lo" ++ String (ascii_of_nat 13) "")
                | None => mret None
                end) busy_socket).
Proof.
  rewrite (OnReceive_chunks sample_environment sample_collaborators c_string
             sample_MAXLINELEN 3 "220 Hel" ("lo" ++ String (ascii_of_nat 13) "") busy_socket).
  - reflexivity.
  - apply Nat.leb_le. vm_compute. reflexivity.
Defined.

(** X26.  Every line that one iteration of [OnReceive] hands to [ParseLine]
    (and that is logged as a response) is the conversion of a run of bytes
    of the buffer that is not empty and has no CR, LF or NUL in it.  The
    bytes kept for the next read have none either, are part of the buffer,
    and are at most MAXLINELEN. *)
Theorem OnReceive_lines_wellformed (env : Environment) (ext : Collaborators)
    (ConvToLocal : string -> string) (MAXLINELEN fuel : nat) (buffer : string)
    (s : CFtpControlSocket) :
  (forall l,
     In (LogMessageRaw MsgResponse l)
        (trace_of (OnReceive_buffer env ext ConvToLocal MAXLINELEN fuel buffer s)) ->
     exists seg pre post,
       l = received_line ConvToLocal seg /\ seg <> "" /\ no_line_end seg = true
       /\ buffer = (pre ++ seg ++ post)%string)
  /\ (forall kept,
        result_of (OnReceive_buffer env ext ConvToLocal MAXLINELEN fuel buffer s)
        = Some (Some kept) ->
        no_line_end kept = true /\ (String.length kept <= MAXLINELEN)%nat
        /\ exists pre post, buffer = (pre ++ kept ++ post)%string).
Proof.
  unfold OnReceive_buffer. rewrite bind_run, OnReceive_scan_lines, bind_run.
  pose proof (ParseLines_logs env ext fuel
                (map (received_line ConvToLocal) (buffer_lines "" buffer)) s) as Hlog.
  unfold trace_of in Hlog.
  destruct (ParseLines env ext fuel _ s) as [t [[[] s1]|]]; cbn [fst] in Hlog.
  - rewrite gets_bind. unfold mret, M_ret, trace_of, result_of. cbn [fst snd].
    rewrite !app_nil_r. split.
    + intros l Hin.
      pose proof (proj1 (List.Forall_forall _ _) Hlog _ Hin l eq_refl) as Hl.
      apply in_map_iff in Hl as (seg & <- & Hl).
      destruct (buffer_lines_wellformed buffer "" seg eq_refl Hl)
        as (Hne & Hno & pre & post & Heq).
      exists seg, pre, post. auto.
    + intros kept Hres.
      destruct (_ || _); cbn [option_map] in Hres; [|discriminate].
      injection Hres as <-.
      destruct (unfinished_line_wellformed buffer "" eq_refl) as (Hno & pre & Heq).
      destruct (substring_prefix MAXLINELEN (unfinished_line "" buffer))
        as (Hlen & Hkeep & (post & Hpost) & _).
      split; [auto|]. split; [exact Hlen|].
      exists pre, post. cbn [String.append] in Heq. rewrite Heq at 1.
      now rewrite Hpost at 1.
  - unfold trace_of, result_of. cbn [fst snd]. split; [|discriminate].
    intros l Hin.
    pose proof (proj1 (List.Forall_forall _ _) Hlog _ Hin l eq_refl) as Hl.
    apply in_map_iff in Hl as (seg & <- & Hl).
    destruct (buffer_lines_wellformed buffer "" seg eq_refl Hl)
      as (Hne & Hno & pre & post & Heq).
    exists seg, pre, post. auto.
Qed.

(** * timeex.h *)

Lemma int64_small (z : Z) : - 2 ^ 63 <= z < 2 ^ 63 -> timeex.int64 z = z.
Proof.
  intros H. unfold timeex.int64. rewrite Z.mod_small by lia. lia.
Qed.

(** X27.  A monotonic clock moved forward by a number of milliseconds and
    compared with where it was.  Where the clock counts milliseconds
    ([HAVE_UNSTEADY_STEADY_CLOCK]) the difference is that number, and the
    clock moved is not before the clock it came from.  Where it counts
    ticks of the performance counter, at 1000 to 2^30 ticks to the second,
    the difference is that number or one millisecond less, and it is that
    number when the frequency is a multiple of 1000. *)
Theorem CMonotonicClock_round_trip (t ms freq_ : Z) :
  - 2 ^ 62 <= t < 2 ^ 62 ->
  0 <= ms < 2 ^ 31 ->
  1000 <= freq_ < 2 ^ 30 ->
  let c := {| timeex.Unsteady.t_ := t |} in
  let p := {| timeex.PerformanceCounter.t_ := t |} in
  timeex.Unsteady.minus (timeex.Unsteady.plus c ms) c = ms
  /\ timeex.Unsteady.le c (timeex.Unsteady.plus c ms) = true
  /\ ms - 1 <= timeex.PerformanceCounter.minus freq_
                 (timeex.PerformanceCounter.plus freq_ p ms) p <= ms
  /\ (freq_ mod 1000 = 0 ->
      timeex.PerformanceCounter.minus freq_ (timeex.PerformanceCounter.plus freq_ p ms) p
      = ms).
Proof.
  intros Ht Hms Hfreq c p. subst c p.
  unfold timeex.Unsteady.minus, timeex.Unsteady.plus, timeex.Unsteady.plus_assign,
    timeex.Unsteady.le, timeex.PerformanceCounter.minus, timeex.PerformanceCounter.plus,
    timeex.PerformanceCounter.plus_assign.
  cbn [timeex.Unsteady.t_ timeex.PerformanceCounter.t_].
  assert (H62 : 2 ^ 62 = 4611686018427387904) by reflexivity.
  assert (H63 : 2 ^ 63 = 9223372036854775808) by reflexivity.
  assert (H31 : 2 ^ 31 = 2147483648) by reflexivity.
  assert (H30 : 2 ^ 30 = 1073741824) by reflexivity.
  assert (Hprod : 0 <= ms * freq_ < 2 ^ 61).
  { change (2 ^ 61) with (2 ^ 31 * 2 ^ 30). nia. }
  assert (H61 : 2 ^ 61 = 2305843009213693952) by reflexivity.
  rewrite (int64_small (t + ms)) by lia.
  rewrite (int64_small (t + ms - t)) by lia.
  split; [lia|]. split; [apply Z.leb_le; lia|].
  rewrite (int64_small (ms * freq_)) by lia.
  rewrite (Z.quot_div_nonneg (ms * freq_) 1000) by lia.
  pose proof (Z.div_mod (ms * freq_) 1000 ltac:(lia)) as Hdm.
  pose proof (Z.mod_pos_bound (ms * freq_) 1000 ltac:(lia)) as Hmod.
  set (x := ms * freq_ / 1000) in *.
  assert (Hx : 0 <= x * 1000 <= ms * freq_) by lia.
  rewrite (int64_small (t + x)) by lia.
  replace (t + x - t) with x by lia.
  rewrite (int64_small x) by lia.
  rewrite (int64_small (x * 1000)) by lia.
  rewrite (Z.quot_div_nonneg (x * 1000) freq_) by lia.
  split.
  - split.
    + apply Z.div_le_lower_bound; [lia|].
      (* freq * (ms - 1) <= x * 1000 *)
      nia.
    + apply Z.div_le_upper_bound; [lia|]. nia.
  - intros Hmul.
    assert (Hexact : x * 1000 = ms * freq_).
    { assert (Hz : (ms * freq_) mod 1000 = 0).
      { rewrite <- Z.mul_mod_idemp_r, Hmul, Z.mul_0_r by lia. reflexivity. }
      lia. }
    rewrite Hexact. apply Z.div_mul. lia.
Qed.

Lemma CMonotonicClock_round_trip_witness :
  timeex.PerformanceCounter.minus 3579545
    (timeex.PerformanceCounter.plus 3579545 {| timeex.PerformanceCounter.t_ := 1000 |} 7)
    {| timeex.PerformanceCounter.t_ := 1000 |} = 6.
Proof.
  pose proof (CMonotonicClock_round_trip 1000 7 3579545) as H.
  assert (H1 : - 2 ^ 62 <= 1000 < 2 ^ 62) by lia.
  assert (H2 : 0 <= 7 < 2 ^ 31) by lia.
  assert (H3 : 1000 <= 3579545 < 2 ^ 30) by lia.
  destruct (H H1 H2 H3) as (_ & _ & [Hlow Hhigh] & _).
  vm_compute. reflexivity.
Defined.

(** * Deleting files *)

Lemma lift_bind {A B} (m : M A) (k : A -> MC B) (s : CFtpControlSocket) :
  (lift m ≫= k) s
  = match m s with
    | (t, None) => (map inl t, None)
    | (t, Some (a, s')) => ((map inl t ++ (k a s').1)%list, (k a s').2)
    end.
Proof.
  unfold mbind, MC_bind, lift. destruct (m s) as [t [[a s']|]]; cbn [fst snd]; [|reflexivity].
  now destruct (k a s').
Qed.

Lemma lift_run {A} (m : M A) (s : CFtpControlSocket) t r :
  m s = (t, r) -> lift m s = (map inl t, r).
Proof. unfold lift. now intros ->. Qed.

Lemma lift_emit_bind {B} (e : Effect) (k : unit -> MC B) (s : CFtpControlSocket) :
  (lift (emit e) ≫= k) s = (inl e :: (k tt s).1, (k tt s).2).
Proof. now rewrite lift_bind. Qed.

Lemma lift_gets_bind {A B} (f : CFtpControlSocket -> A) (k : A -> MC B)
    (s : CFtpControlSocket) :
  (lift (gets f) ≫= k) s = k (f s) s.
Proof. rewrite lift_bind. cbn. now destruct (k (f s) s). Qed.

Lemma cache_bind {B} (c : CacheCall) (k : unit -> MC B) (s : CFtpControlSocket) :
  (cache c ≫= k) s = (inr c :: (k tt s).1, (k tt s).2).
Proof. unfold mbind, MC_bind, cache. now destruct (k tt s). Qed.

Lemma MC_bind_assoc {A B C} (m : MC A) (f : A -> MC B) (g : B -> MC C)
    (s : CFtpControlSocket) :
  ((m ≫= f) ≫= g) s = (m ≫= (fun a => f a ≫= g)) s.
Proof.
  unfold mbind, MC_bind. destruct (m s) as [t [[a s1]|]]; [|reflexivity].
  destruct (f a s1) as [t1 [[b s2]|]]; [|reflexivity].
  destruct (g b s2) as [t2 r]. now rewrite app_assoc.
Qed.

Lemma get_de_run (s : CFtpControlSocket) (d : CFtpDeleteOpData) (rest : list COpData) :
  m_pCurOpData s = CFtpDeleteOp d :: rest -> get_de s = ([], Some (d, s)).
Proof. intros H. unfold get_de. run. now rewrite H. Qed.

Lemma update_de_run (f : CFtpDeleteOpData -> CFtpDeleteOpData) (s : CFtpControlSocket)
    (d : CFtpDeleteOpData) (rest : list COpData) :
  m_pCurOpData s = CFtpDeleteOp d :: rest ->
  update_de f s = ([], Some (tt, set_m_pCurOpData (CFtpDeleteOp (f d) :: rest) s)).
Proof.
  intros H. unfold update_de, get_de, set_cur. run. rewrite H. run.
  unfold modify. now rewrite H.
Qed.

Section DeleteReset.

Variable env : Environment.
Variable ext : Collaborators.

(** [ResetOperation] on a delete frame: a listing that is owed is
    notified, the keepalive timer may be started, and the base class
    takes over with the same code. *)
Lemma ResetOperation_delete_run (c : Z) (s : CFtpControlSocket)
    (d : CFtpDeleteOpData) (rest : list COpData) :
  m_pCurOpData s = CFtpDeleteOp d :: rest ->
  any_flag c FZ_REPLY_DISCONNECTED = false ->
  exists tk s1,
    ResetOperation env ext c s
    = ((LogMessage MsgDebug_Verbose "CFtpControlSocket::ResetOperation"
        :: (if m_needSendListing d then [SendDirectoryListingNotification (de_path d)]
            else [])
        ++ tk ++ [Call_CControlSocket_ResetOperation c])%list,
       Some (CControlSocket_ResetOperation ext c s1))
    /\ Forall (fun e => match e with SendDirectoryListingNotification _ => False
                                 | _ => True end) tk.
Proof.
  intros Hst Hflag.
  unfold ResetOperation, ResetOperation_local, ResetOperation_finish.
  repeat (run; cbn [m_pCurOpData set_m_pTransferSocket set_m_pIPResolver
                    set_m_repliesToSkip set_m_lastCommandCompletionTime];
          rewrite ?Hst, ?Hflag; cbn [negb andb]).
  destruct (m_needSendListing d); unfold when;
    repeat (run; cbn [m_pCurOpData set_m_pTransferSocket set_m_pIPResolver
                      set_m_repliesToSkip set_m_lastCommandCompletionTime];
            rewrite ?Hst;
            rewrite ?(bool_decide_eq_false_2 (CFtpDeleteOp d :: rest = [])) by discriminate;
            cbn [negb andb]);
    match goal with
    | |- context [(StartKeepaliveTimer env ≫= _) ?S] =>
        destruct (StartKeepaliveTimer_run env S) as (tk & s2 & Hk & _ & Htk);
        rewrite (run_bind _ _ _ _ _ _ Hk)
    end;
    run; exists tk, s2; (split; [reflexivity|]);
    destruct Htk as [-> | ->]; repeat constructor.
Qed.

End DeleteReset.

Lemma not_in_lifted (c : CacheCall) (t : list Effect) :
  ~ In (inr c) (map (@inl Effect CacheCall) t).
Proof. intros H. apply in_map_iff in H as (e & He & _). discriminate. Qed.

Lemma lifted_notifications (t : list Effect) :
  Forall (fun e => match e with SendDirectoryListingNotification _ => False | _ => True end) t ->
  List.filter is_notification (map (@inl Effect CacheCall) t) = []
  /\ forall p, ~ In (SendDirectoryListingNotification p) t.
Proof.
  induction 1 as [|e t He Ht [IH1 IH2]]; [split; [reflexivity | intros p []]|].
  split.
  - cbn [map List.filter]. destruct e; cbn [is_notification]; try exact IH1. destruct He.
  - intros p [Hp|Hp]; [subst e; exact He | exact (IH2 p Hp)].
Qed.

Section DeleteReplies.

Variable env : Environment.
Variable ext : Collaborators.
Variable fuel : nat.
Variable elapsed_seconds : datetime -> datetime -> Z.

(** The end of [DeleteParseResponse] for the last file. *)
Lemma DeleteParseResponse_next_last (s : CFtpControlSocket) (d : CFtpDeleteOpData)
    (rest : list COpData) (file : string) :
  m_pCurOpData s = CFtpDeleteOp d :: rest ->
  files d = [file] ->
  let code := if m_deleteFailed d then FZ_REPLY_ERROR else FZ_REPLY_OK in
  exists tk s1,
    DeleteParseResponse_next env ext fuel s
    = (map inl
         (LogMessage MsgDebug_Verbose "CFtpControlSocket::ResetOperation"
          :: (if m_needSendListing d then [SendDirectoryListingNotification (de_path d)]
              else [])
          ++ tk ++ [Call_CControlSocket_ResetOperation code])%list,
       Some (CControlSocket_ResetOperation ext code s1))
    /\ Forall (fun e => match e with SendDirectoryListingNotification _ => False
                                 | _ => True end) tk.
Proof.
  intros Hst Hfiles code. subst code.
  assert (Hflag : any_flag (if m_deleteFailed d then FZ_REPLY_ERROR else FZ_REPLY_OK)
                    FZ_REPLY_DISCONNECTED = false) by (now destruct (m_deleteFailed d)).
  destruct (ResetOperation_delete_run env ext _
              (set_m_pCurOpData (CFtpDeleteOp (set_files [] d) :: rest) s)
              (set_files [] d) rest eq_refl Hflag) as (tk & s1 & Hrun & Htk).
  exists tk, s1. split; [|exact Htk].
  unfold DeleteParseResponse_next.
  rewrite lift_bind, (get_de_run s d rest Hst). cbn [map app fst snd].
  rewrite Hfiles, lift_bind, (update_de_run _ s d rest Hst). cbn [map app fst snd].
  rewrite (bool_decide_eq_true_2 (@nil string = [])) by reflexivity. cbn [negb].
  now rewrite (lift_run _ _ _ _ Hrun).
Qed.

(** [DeleteParseResponse] on the reply for the last file. *)
Lemma DeleteParseResponse_last_run (s : CFtpControlSocket) (d : CFtpDeleteOpData)
    (rest : list COpData) (file : string) :
  m_pCurOpData s = CFtpDeleteOp d :: rest ->
  files d = [file] ->
  let ok := (GetReplyCode s =? 2) || (GetReplyCode s =? 3) in
  let at_once := negb (datetime_empty (m_time d))
                 && (1 <=? elapsed_seconds (datetime_now env) (m_time d)) in
  let owed := if ok then negb at_once else m_needSendListing d in
  let code := if m_deleteFailed d || negb ok then FZ_REPLY_ERROR else FZ_REPLY_OK in
  exists tk s1,
    DeleteParseResponse env ext fuel elapsed_seconds s
    = ((inl (LogMessage MsgDebug_Verbose "CFtpControlSocket::DeleteParseResponse()")
        :: (if ok then
              inr (RemoveFile (de_path d) file)
              :: (if at_once then [inl (SendDirectoryListingNotification (de_path d))]
                  else [])
            else [])
        ++ map inl
             (LogMessage MsgDebug_Verbose "CFtpControlSocket::ResetOperation"
              :: (if owed then [SendDirectoryListingNotification (de_path d)] else [])
              ++ tk ++ [Call_CControlSocket_ResetOperation code]))%list,
       Some (CControlSocket_ResetOperation ext code s1))
    /\ Forall (fun e => match e with SendDirectoryListingNotification _ => False
                                 | _ => True end) tk.
Proof.
  intros Hst Hfiles ok at_once owed code. subst ok at_once owed code.
  unfold DeleteParseResponse. cbv zeta.
  rewrite lift_emit_bind, lift_gets_bind, Hst.
  rewrite lift_bind, (get_de_run s d rest Hst). cbn [map app fst snd].
  rewrite lift_gets_bind, Hfiles.
  destruct ((GetReplyCode s =? 2) || (GetReplyCode s =? 3)) eqn:Hok.
  - apply orb_true_iff in Hok.
    assert (Hfail : negb (GetReplyCode s =? 2) && negb (GetReplyCode s =? 3) = false).
    { destruct Hok as [-> | ->]; [reflexivity | apply andb_false_r]. }
    rewrite Hfail, !MC_bind_assoc, cache_bind. cbn [fst snd].
    destruct (negb (datetime_empty (m_time d))
              && (1 <=? elapsed_seconds (datetime_now env) (m_time d))).
    + rewrite !MC_bind_assoc, lift_emit_bind. cbn [fst snd].
      rewrite lift_bind, (update_de_run _ s d rest Hst). cbn [map app fst snd].
      match goal with
      | |- context [DeleteParseResponse_next env ext fuel ?S] =>
          destruct (DeleteParseResponse_next_last S _ rest file eq_refl Hfiles)
            as (tk & s1 & -> & Htk)
      end.
      exists tk, s1. split; [|exact Htk]. cbn [fst snd negb orb]. rewrite orb_false_r.
      reflexivity.
    + rewrite lift_bind, (update_de_run _ s d rest Hst). cbn [map app fst snd].
      match goal with
      | |- context [DeleteParseResponse_next env ext fuel ?S] =>
          destruct (DeleteParseResponse_next_last S _ rest file eq_refl Hfiles)
            as (tk & s1 & -> & Htk)
      end.
      exists tk, s1. split; [|exact Htk]. cbn [fst snd negb orb]. rewrite orb_false_r.
      reflexivity.
  - apply orb_false_iff in Hok as [-> ->]. cbn [negb andb].
    rewrite lift_bind, (update_de_run _ s d rest Hst). cbn [map app fst snd].
    match goal with
    | |- context [DeleteParseResponse_next env ext fuel ?S] =>
        destruct (DeleteParseResponse_next_last S _ rest file eq_refl Hfiles)
          as (tk & s1 & -> & Htk)
    end.
    exists tk, s1. split; [|exact Htk]. cbn [fst snd negb orb]. rewrite orb_true_r.
    reflexivity.
Qed.

End DeleteReplies.

(** X28.  [DeleteParseResponse] on the reply for the last file of the list.
    The file is removed from the directory cache exactly when the reply is
    2xx or 3xx.  The operation is reset with FZ_REPLY_ERROR when this
    deletion or an earlier one failed, and with FZ_REPLY_OK otherwise, and
    the result is that of the reset.  A listing notification goes out once
    when this deletion succeeded or a listing was still owed, and not at
    all otherwise; it is for the path of the frame. *)
Theorem DeleteParseResponse_last_file (env : Environment) (ext : Collaborators) (fuel : nat)
    (elapsed_seconds : datetime -> datetime -> Z) (s : CFtpControlSocket)
    (d : CFtpDeleteOpData) (rest : list COpData) (file : string) :
  m_pCurOpData s = CFtpDeleteOp d :: rest ->
  files d = [file] ->
  let ok := (GetReplyCode s =? 2) || (GetReplyCode s =? 3) in
  let code := if m_deleteFailed d || negb ok then FZ_REPLY_ERROR else FZ_REPLY_OK in
  exists t s1,
    DeleteParseResponse env ext fuel elapsed_seconds s
    = (t, Some (CControlSocket_ResetOperation ext code s1))
    /\ In (inl (Call_CControlSocket_ResetOperation code)) t
    /\ (forall p f, In (inr (RemoveFile p f)) t <-> ok = true /\ p = de_path d /\ f = file)
    /\ length (List.filter is_notification t) = (if ok || m_needSendListing d then 1 else 0)%nat
    /\ (forall p, In (inl (SendDirectoryListingNotification p)) t -> p = de_path d).
Proof.
  intros Hst Hfiles ok code.
  destruct (DeleteParseResponse_last_run env ext fuel elapsed_seconds s d rest file Hst Hfiles)
    as (tk & s1 & Hrun & Htk).
  cbv zeta in Hrun. fold ok in Hrun. fold code in Hrun.
  destruct (lifted_notifications tk Htk) as [Hnone Hnotin].
  eexists _, s1. split; [exact Hrun|].
  set (at_once := negb (datetime_empty (m_time d))
                  && (1 <=? elapsed_seconds (datetime_now env) (m_time d))) in *.
  clearbody at_once code. clear Hrun.
  split.
  { right. apply in_or_app. right. apply in_map. right. apply in_or_app. right.
    apply in_or_app. right. now left. }
  split.
  { intros p f. split.
    - intros [H|H]; [discriminate|]. apply in_app_iff in H as [H|H].
      + destruct ok; [|destruct H]. destruct H as [H|H]; [now injection H as <- <-|].
        destruct at_once; [destruct H as [H|[]]; discriminate | destruct H].
      + now apply not_in_lifted in H.
    - intros (Hok & -> & ->). rewrite Hok. right. apply in_or_app. left. now left. }
  split.
  { cbn [List.filter is_notification]. rewrite List.filter_app, length_app.
    cbn [map List.filter is_notification]. rewrite !List.map_app, !List.filter_app, Hnone.
    destruct ok, at_once, (m_needSendListing d); reflexivity. }
  intros p [H|H]; [discriminate|]. apply in_app_iff in H as [H|H].
  - destruct ok; [|destruct H]. destruct H as [H|H]; [discriminate|].
    destruct at_once; [|destruct H]. destruct H as [H|[]]. now injection H.
  - apply in_map_iff in H as (e & He & H). injection He as ->.
    destruct H as [H|H]; [discriminate|]. apply in_app_iff in H as [H|H].
    + destruct (if ok then negb at_once else m_needSendListing d); [|destruct H].
      destruct H as [H|[]]. now injection H.
    + apply in_app_iff in H as [H|H]; [now apply Hnotin in H|].
      destruct H as [H|[]]. discriminate.
Qed.

Lemma DeleteParseResponse_last_file_witness :
  exists t s1,
    DeleteParseResponse sample_environment sample_collaborators 3 (fun a b => 0) delete_socket
    = (t, Some (CControlSocket_ResetOperation sample_collaborators FZ_REPLY_OK s1))
    /\ length (List.filter is_notification t) = 1%nat.
Proof.
  destruct (DeleteParseResponse_last_file sample_environment sample_collaborators 3
              (fun a b => 0) delete_socket last_delete [] "old.txt" eq_refl eq_refl)
    as (t & s1 & Hrun & _ & _ & Hcount & _).
  exists t, s1. split; [exact Hrun | exact Hcount].
Defined.

(** X29.  A delete operation whose change of directory failed names its
    files with their path.  [DeleteSubcommandResult] with a result other
    than FZ_REPLY_OK switches [omitPath] off and sends the next command.
    On that frame, for a first file whose name is not empty and can be
    formatted, [DeleteSend] notes the time if none was noted, invalidates
    the file in the directory cache, and then sends DELE with the name
    formatted with its path; the result is FZ_REPLY_WOULDBLOCK when the
    command went out and FZ_REPLY_ERROR otherwise. *)
Theorem delete_after_failed_cwd (env : Environment) (ext : Collaborators) (fuel : nat)
    (prevResult : Z) (s : CFtpControlSocket) (d : CFtpDeleteOpData) (rest : list COpData)
    (file : string) (later : list string) :
  m_pCurOpData s = CFtpDeleteOp d :: rest ->
  files d = file :: later ->
  prevResult <> FZ_REPLY_OK ->
  WString.empty file = false ->
  WString.empty (FormatFilename env (de_path d) file false) = false ->
  let s1 := set_m_pCurOpData (CFtpDeleteOp (set_omitPath false d) :: rest) s in
  let s2 := if datetime_empty (m_time d)
            then set_m_pCurOpData
                   (CFtpDeleteOp (set_m_time (datetime_now env) (set_omitPath false d)) :: rest) s
            else s1 in
  let cmd := "DELE " ++ FormatFilename env (de_path d) file false in
  DeleteSubcommandResult env ext fuel prevResult s
  = (LogMessage MsgDebug_Verbose "CFtpControlSocket::DeleteSubcommandResult()"
     :: (SendNextCommand env ext fuel s1).1,
     (SendNextCommand env ext fuel s1).2)
  /\ DeleteSend env ext s1
     = (inl (LogMessage MsgDebug_Verbose "CFtpControlSocket::DeleteSend")
        :: inr (InvalidateFile (de_path d) file)
        :: map inl (SendCommand env ext cmd false true s2).1,
        match (SendCommand env ext cmd false true s2).2 with
        | Some (ok, s3) => Some (if ok then FZ_REPLY_WOULDBLOCK else FZ_REPLY_ERROR, s3)
        | None => None
        end).
Proof.
  intros Hst Hfiles Hfail Hfile Hname s1 s2 cmd. subst s1 s2 cmd.
  apply Z.eqb_neq in Hfail. split.
  - unfold DeleteSubcommandResult. run. rewrite Hst, Hfail. cbn [negb when].
    rewrite (run_bind _ _ _ _ _ _ (update_de_run (set_omitPath false) s d rest Hst)).
    reflexivity.
  - set (s1 := set_m_pCurOpData (CFtpDeleteOp (set_omitPath false d) :: rest) s).
    assert (Hst1 : m_pCurOpData s1 = CFtpDeleteOp (set_omitPath false d) :: rest)
      by reflexivity.
    unfold DeleteSend. cbv zeta.
    rewrite lift_emit_bind, lift_gets_bind, Hst1.
    rewrite lift_bind, (get_de_run s1 _ rest Hst1).
    cbn [map app fst snd files set_omitPath de_path omitPath m_time].
    rewrite Hfiles, Hfile, Hname.
    destruct (datetime_empty (m_time d)); unfold when.
    + rewrite lift_bind, (update_de_run _ s1 _ rest Hst1).
      cbn [map app fst snd]. rewrite cache_bind. cbn [fst snd].
      rewrite lift_bind.
      change (set_m_pCurOpData
                (CFtpDeleteOp (set_m_time (datetime_now env) (set_omitPath false d)) :: rest)
                s1)
        with (set_m_pCurOpData
                (CFtpDeleteOp (set_m_time (datetime_now env) (set_omitPath false d)) :: rest)
                s).
      destruct (SendCommand env ext _ false true _) as [t [[[|] s3]|]]; cbn [negb fst snd];
        unfold mret, MC_ret; cbn [fst snd]; now rewrite ?app_nil_r.
    + rewrite lift_bind. cbn [mret M_ret map app fst snd]. rewrite cache_bind. cbn [fst snd].
      rewrite lift_bind.
      destruct (SendCommand env ext _ false true _) as [t [[[|] s3]|]]; cbn [negb fst snd];
        unfold mret, MC_ret; cbn [fst snd]; now rewrite ?app_nil_r.
Qed.

Lemma delete_after_failed_cwd_witness :
  exists t r,
    DeleteSend sample_environment sample_collaborators
      (set_m_pCurOpData [CFtpDeleteOp (set_omitPath false arriving_delete)]
         arriving_delete_socket)
    = (inl (LogMessage MsgDebug_Verbose "CFtpControlSocket::DeleteSend")
       :: inr (InvalidateFile (de_path arriving_delete) "old.txt") :: t, r).
Proof.
  destruct (delete_after_failed_cwd sample_environment sample_collaborators 3 FZ_REPLY_ERROR
              arriving_delete_socket arriving_delete [] "old.txt" ["older.txt"]
              eq_refl eq_refl) as [_ Hsend]; [discriminate | reflexivity | reflexivity |].
  cbv zeta in Hsend. eexists _, _. exact Hsend.
Defined.

(** * Raw commands *)

(** X30.  A raw command makes the client forget what it knew of the
    server.  [RawCommandSend], for a command that can be converted,
    invalidates the directory cache and the path cache of the server,
    clears the current path and forgets the TYPE last sent, and only then
    sends the command, unmasked; the result is FZ_REPLY_WOULDBLOCK when
    the command went out and FZ_REPLY_ERROR otherwise.  With the TYPE
    forgotten, the next [Transfer] starts with the TYPE command whatever
    the mode of the transfer. *)
Theorem raw_command_forgets (env : Environment) (ext : Collaborators)
    (CServerPath_clear : CServerPath -> CServerPath) (m_command : string)
    (s : CFtpControlSocket) (o : COpData) (rest : list COpData) :
  m_pCurOpData s = o :: rest ->
  WString.empty (ConvToServer env m_command) = false ->
  let sent := Send_ok env (command_line env m_command) in
  exists s',
    RawCommandSend env ext CServerPath_clear m_command s
    = ([inl (LogMessage MsgDebug_Verbose "CFtpControlSocket::RawCommandSend");
        inr DirectoryCache_InvalidateServer; inr PathCache_InvalidateServer;
        inl (LogMessageRaw MsgCommand m_command);
        inl (Call_Send (command_line env m_command))],
       Some (if sent then FZ_REPLY_WOULDBLOCK else FZ_REPLY_ERROR, s'))
    /\ m_lastTypeBinary s' = -1
    /\ m_CurrentPath s' = CServerPath_clear (m_CurrentPath s)
    /\ m_pendingReplies s' = m_pendingReplies s + (if sent then 1 else 0)
    /\ forall cmd s1 o1 rest1 t1,
         m_lastTypeBinary s1 = m_lastTypeBinary s' ->
         m_pCurOpData s1 = o1 :: rest1 ->
         transfer_base o1 = Some t1 ->
         exists raw s2,
           Transfer env cmd s1 = ([Call_Push (CFtpRawTransferOp raw)], Some (tt, s2))
           /\ rt_opState raw = rawtransfer_type.
Proof.
  intros Hst Hconv sent. subst sent.
  unfold RawCommandSend.
  rewrite lift_emit_bind, lift_gets_bind, Hst.
  rewrite cache_bind, cache_bind. cbn [fst snd].
  rewrite lift_bind. cbn [modify map app fst snd].
  rewrite lift_bind. cbn [modify map app fst snd].
  rewrite lift_bind. unfold SendCommand, command_line.
  cbn [WString.find_char]. rewrite Hconv. run.
  destruct (Send_ok env _) eqn:Hsent; unfold when; run;
    cbn [map app fst snd negb]; unfold mret, MC_ret; cbn [fst snd];
    (eexists; split; [reflexivity|]);
    cbn [m_lastTypeBinary m_CurrentPath m_pendingReplies set_m_pendingReplies
         set_m_lastTypeBinary set_m_CurrentPath];
    (split; [reflexivity|]); (split; [reflexivity|]); (split; [lia|]);
    intros cmd s1 o1 rest1 t1 Htype Hst1 Hbase;
    eexists _, _; (split; [exact (Transfer_run env cmd s1 o1 rest1 t1 Hst1 Hbase)|]);
    cbn [raw_frame rt_opState]; rewrite Htype;
    destruct (binary t1); reflexivity.
Qed.

Lemma raw_command_forgets_witness :
  exists s',
    RawCommandSend sample_environment sample_collaborators (fun p => p) "SITE HELP" busy_socket
    = ([inl (LogMessage MsgDebug_Verbose "CFtpControlSocket::RawCommandSend");
        inr DirectoryCache_InvalidateServer; inr PathCache_InvalidateServer;
        inl (LogMessageRaw MsgCommand "SITE HELP");
        inl (Call_Send (command_line sample_environment "SITE HELP"))],
       Some (if Send_ok sample_environment (command_line sample_environment "SITE HELP")
             then FZ_REPLY_WOULDBLOCK else FZ_REPLY_ERROR, s'))
    /\ m_lastTypeBinary s' = -1.
Proof.
  destruct (raw_command_forgets sample_environment sample_collaborators (fun p => p)
              "SITE HELP" busy_socket (COtherOp Command_raw false) [] eq_refl eq_refl)
    as (s' & Hrun & Htype & _).
  exists s'. split; [exact Hrun | exact Htype].
Defined.
